(** * Hospital imaging records backend: validators, exam schemas and routers

    A shallow embedding of the Python backend under [backend/app] and the
    properties of its specification that concern the RUT validator, the CT
    (TAC) exam schema, the patient registry, the exam, patient and user
    routers and the monthly report.

    Conventions of the embedding.
    - A Python [str] is a Rocq [string]; each [ascii] is one character, read
      as the Unicode code point of the same number (U+0000..U+00FF, the
      Latin-1 block).  [str.upper] leaves that block, so its result is a list
      of code points ([list N]).
    - Python [int] is [Z]; [Optional[T]] is [option T]; a [date] is a record
      of year, month and day; a [datetime] read from [datetime.utcnow()] is
      an instant, passed to the operation that reads the clock.
    - An exception is a value of [exception]; a function that may raise
      returns a [result].
    - The relational store is a record of tables, each a list of rows in
      storage order, with the sequence of every autoincrement key.  A
      handler that writes returns its result together with the store it
      leaves; an exception raised before the commit leaves the store as it
      was.  The instants one operation reads are taken as one instant.
    - A write is checked against what the models declare for the columns a
      request can fill: [nullable=False], the [CheckConstraint]s, the
      length of [String(n)] and the foreign keys into the catalogs.  A
      string parameter that holds the NUL character is refused by the
      driver with [ValueError] before its statement is sent, in a query as
      in a write.  A key drawn from a sequence stays drawn when the
      transaction is rolled back.
    - A route with a [response_model] answers with the validation of the
      value its function returns, after the function has committed: the
      function is then named with the suffix [_cuerpo] and the route keeps
      the name of the source. *)

From Stdlib Require Import ZArith NArith String Ascii List Lia DecimalString.
From stdpp Require Import base option list gmap strings sorting.

Local Open Scope Z_scope.

(** ** Exceptions and results *)

(** The [detail] of the [HTTPException]s raised by the routers, one
    constructor per message of the source. *)
Inductive detail :=
| CredencialesInvalidas
| UsuarioInactivo
| RutInvalido
| NombrePacienteRequerido
| ExamenTACNoEncontrado
| SoloAdministradoresModifican
| SoloAdministradores
| PermisosInsuficientes
| SinPermisoEliminarPacientes
| PacienteNoEncontrado
| UsuarioNoEncontrado
| NoPuedesDesactivarte
| NoPuedesEliminarte
| UsuarioTieneExamenes (examenes_count : Z)
| ContrasenaIncorrecta
| TienesExamenesRegistrados (examenes_count : Z).

(** The two [ValueError]s of [ExamenTACEspecifico.validar_tac], which pydantic
    reports as a [ValidationError]. *)
Inductive regla_tac :=
| FechaSolicitudPosterior
| PremedicadoObligatorio.

Inductive exception :=
| ValueError
| AttributeError
| KeyError
| DatabaseError
| UnmappedInstanceError
| ValidationError (regla : regla_tac)
| HTTPException (status_code : Z) (d : detail).

Inductive result (A : Type) :=
| Ok (a : A)
| Raise (e : exception).
Arguments Ok {A} a.
Arguments Raise {A} e.

Definition bind {A B} (m : result A) (k : A -> result B) : result B :=
  match m with
  | Ok a => k a
  | Raise e => Raise e
  end.

Notation "'let*' x := m 'in' k" := (bind m (fun x => k))
  (at level 10, x name, m at level 100, k at level 200).

Definition HTTP_400_BAD_REQUEST : Z := 400.
Definition HTTP_401_UNAUTHORIZED : Z := 401.
Definition HTTP_403_FORBIDDEN : Z := 403.
Definition HTTP_404_NOT_FOUND : Z := 404.

(** ** Python strings over Latin-1 *)

Module PyStr.

Definition codepoints (s : string) : list N :=
  map N_of_ascii (list_ascii_of_string s).

(** [s.replace(c, "")] for a one-character [c]. *)
Definition remove_char (c : ascii) (s : string) : string :=
  string_of_list_ascii (filter (fun x => x <> c) (list_ascii_of_string s)).

(** [str.upper] on one character of the Latin-1 block: the ASCII and
    Latin-1 small letters, the micro sign (to U+039C), the sharp s (to
    the two letters SS) and y with diaeresis (to U+0178). *)
Definition chr_upper (c : N) : list N :=
  if ((97 <=? c) && (c <=? 122))%N then [(c - 32)%N]
  else if (c =? 181)%N then [924%N]
  else if (c =? 223)%N then [83%N; 83%N]
  else if ((224 <=? c) && (c <=? 254) && negb (c =? 247))%N then [(c - 32)%N]
  else if (c =? 255)%N then [376%N]
  else [c].

Definition upper (s : list N) : list N := concat (map chr_upper s).

(** [str.lower] on one character of the Latin-1 block, which it does
    not leave. *)
Definition chr_lower (c : N) : N :=
  if ((65 <=? c) && (c <=? 90))%N then (c + 32)%N
  else if ((192 <=? c) && (c <=? 222) && negb (c =? 215))%N then (c + 32)%N
  else c.

Definition lower (s : string) : string :=
  string_of_list_ascii
    (map (fun a => ascii_of_N (chr_lower (N_of_ascii a))) (list_ascii_of_string s)).

(** [str.isdigit] on one character: the decimal digits and the
    superscripts two, three and one. *)
Definition chr_isdigit (c : N) : bool :=
  ((48 <=? c) && (c <=? 57) || (c =? 178) || (c =? 179) || (c =? 185))%N.

Definition isdigit (s : list N) : bool :=
  match s with
  | [] => false
  | _ => forallb chr_isdigit s
  end.

(** [int(c)] for a one-character string: only the decimal digits have a
    value, every other character raises [ValueError]. *)
Definition int_of_chr (c : N) : result Z :=
  if ((48 <=? c) && (c <=? 57))%N then Ok (Z.of_N c - 48) else Raise ValueError.

(** [str(n)] for an [int]. *)
Definition str_of_int (n : Z) : list N :=
  codepoints (NilZero.string_of_int (Z.to_int n)).

(** Truth value of an optional string: [None] and [""] are false. *)
Definition truthy (s : option string) : bool :=
  match s with
  | Some (String _ _) => true
  | _ => false
  end.

End PyStr.

(** ** utils/helpers.py and utils/validators.py *)

Record date := mkdate { year : Z; month : Z; day : Z }.

(** Order of [date] values: by year, then month, then day. *)
Definition date_lt (a b : date) : bool :=
  (year a <? year b)
  || ((year a =? year b)
      && ((month a <? month b) || ((month a =? month b) && (day a <? day b)))).

Definition date_gt (a b : date) : bool := date_lt b a.
Definition date_le (a b : date) : bool := negb (date_lt b a).
Definition date_ge (a b : date) : bool := negb (date_lt a b).

Definition extraer_mes_anio (fecha : date) : Z * Z := (month fecha, year fecha).

Definition limpiar_rut (rut : string) : string :=
  PyStr.remove_char "-" (PyStr.remove_char "." rut).

(** The loop of [validar_rut_chileno] over [reversed(rut_numeros)], with
    its two variables. *)
Fixpoint suma_digitos (digitos : list N) (suma multiplo : Z) : result Z :=
  match digitos with
  | [] => Ok suma
  | digito :: resto =>
      let* v := PyStr.int_of_chr digito in
      let suma := suma + v * multiplo in
      let multiplo := multiplo + 1 in
      let multiplo := if multiplo =? 8 then 2 else multiplo in
      suma_digitos resto suma multiplo
  end.

Definition validar_rut_chileno (rut : string) : result bool :=
  let rut := PyStr.upper (PyStr.codepoints (limpiar_rut rut)) in
  if (length rut <? 8)%nat then Ok false
  else
    let rut_numeros := removelast rut in
    let digito_verificador := skipn (length rut - 1) rut in
    if negb (PyStr.isdigit rut_numeros) then Ok false
    else
      let* suma := suma_digitos (rev rut_numeros) 0 2 in
      let resto := suma mod 11 in
      let dv_calculado := 11 - resto in
      let dv_calculado :=
        if dv_calculado =? 11 then PyStr.codepoints "0"
        else if dv_calculado =? 10 then PyStr.codepoints "K"
        else PyStr.str_of_int dv_calculado in
      Ok (bool_decide (digito_verificador = dv_calculado)).

Definition calcular_edad (fecha_nacimiento fecha_referencia : date) : Z :=
  let edad := year fecha_referencia - year fecha_nacimiento in
  if (month fecha_referencia <? month fecha_nacimiento)
     || ((month fecha_referencia =? month fecha_nacimiento)
         && (day fecha_referencia <? day fecha_nacimiento))
  then edad - 1
  else edad.

(** The check digit as the specification words it: the digits from right
    to left, weights 2, 3, .., 7 and again from 2, the products summed,
    11 minus the sum modulo 11, and 11 written 0, 10 written K. *)
Module Referencia.

Definition peso (i : nat) : Z := 2 + Z.of_nat (i mod 6).

Fixpoint suma_ponderada (derecha_a_izquierda : list Z) (i : nat) : Z :=
  match derecha_a_izquierda with
  | [] => 0
  | d :: ds => d * peso i + suma_ponderada ds (S i)
  end.

Definition es_decimal (c : ascii) : bool :=
  let n := N_of_ascii c in ((48 <=? n) && (n <=? 57))%N.

Definition valor (c : ascii) : Z := Z.of_N (N_of_ascii c) - 48.

Definition digito_verificador (numeros : list ascii) : ascii :=
  let check := 11 - (suma_ponderada (map valor (rev numeros)) 0) mod 11 in
  if check =? 11 then "0"%char
  else if check =? 10 then "K"%char
  else ascii_of_N (Z.to_N (48 + check)).

Definition mayuscula (c : ascii) : ascii :=
  if (c =? "k")%char then "K"%char else c.

(** Separators stripped, at least 8 characters, the numeric portion all
    digits, and the supplied check character equal to the computed one. *)
Definition rut_valido (rut : string) : bool :=
  let r := list_ascii_of_string (limpiar_rut rut) in
  (8 <=? length r)%nat
  && forallb es_decimal (removelast r)
  && bool_decide (option_map mayuscula (last r)
                  = Some (digito_verificador (removelast r))).

End Referencia.

(** ** schemas/examen.py *)

Record time := mktime { hour : Z; minute : Z; second : Z }.

(** An instant read from [datetime.utcnow()]. *)
Definition datetime := Z.

#[global] Instance date_eq_dec : EqDecision date.
Proof. solve_decision. Defined.
#[global] Instance time_eq_dec : EqDecision time.
Proof. solve_decision. Defined.

(** [ExamenTACEspecifico.validar_tac], the [model_validator(mode="after")]
    that [ExamenTACCreate] inherits.  [fecha_realizacion] is [Some] when the
    validated model has that attribute ([hasattr] holds: [ExamenTACCreate])
    and [None] when it has not (a bare [ExamenTACEspecifico]). *)
Definition validar_tac (fecha_realizacion : option date) (fecha_solicitud : date)
    (vfge : option string) (premedicado : option bool) : result unit :=
  let* _ :=
    match fecha_realizacion with
    | Some fecha_realizacion =>
        if date_gt fecha_solicitud fecha_realizacion
        then Raise (ValidationError FechaSolicitudPosterior)
        else Ok tt
    | None => Ok tt
    end in
  if PyStr.truthy vfge
     && negb (bool_decide (PyStr.lower (default EmptyString vfge) = "sin creatinina"%string))
     && bool_decide (premedicado = None)
  then Raise (ValidationError PremedicadoObligatorio)
  else Ok tt.

Module ExamenTACCreate.
(** The fields of [ExamenBaseData] followed by those of
    [ExamenTACEspecifico], after pydantic has parsed each of them. *)
Record t := mk {
  tipo_examen : string;
  fecha_realizacion : date;
  atencion : string;
  prevision_id : Z;
  procedencia_id : Z;
  paciente_rut : string;
  paciente_nombre : option string;
  examen_especifico_id : Z;
  codigo_mai_id : Z;
  contrato : string;
  fecha_solicitud : date;
  hora_realizacion : time;
  fecha_nacimiento : option date;
  externo : option string;
  protocolo_id : option Z;
  cod_acv : bool;
  ges : bool;
  medio_contraste : bool;
  vfge : option string;
  premedicado : option bool;
  diagnostico_clinico_id : option Z;
  medico_solicitante_id : option Z;
  tm_id : option Z;
  tp_id : option Z;
  secretaria_id : option Z;
  observacion : option string
}.

(** Validation of the request body once its fields are parsed. *)
Definition validate (self : t) : result t :=
  let* _ := validar_tac (Some (fecha_realizacion self)) (fecha_solicitud self)
              (vfge self) (premedicado self) in
  Ok self.
End ExamenTACCreate.

Module ExamenTACUpdate.
(** Every field is [Optional] with default [None]; the outer [option]
    is [None] for a field the request left unset, which
    [dict(exclude_unset=True)] drops, and [Some v] for a field the request
    set to [v], [v = None] being an explicit null. *)
Record t := mk {
  fecha_realizacion : option (option date);
  atencion : option (option string);
  prevision_id : option (option Z);
  procedencia_id : option (option Z);
  codigo_mai_id : option (option Z);
  contrato : option (option string);
  fecha_solicitud : option (option date);
  hora_realizacion : option (option time);
  fecha_nacimiento : option (option date);
  externo : option (option string);
  protocolo_id : option (option Z);
  cod_acv : option (option bool);
  ges : option (option bool);
  medio_contraste : option (option bool);
  vfge : option (option string);
  premedicado : option (option bool);
  diagnostico_clinico_id : option (option Z);
  medico_solicitante_id : option (option Z);
  tm_id : option (option Z);
  tp_id : option (option Z);
  secretaria_id : option (option Z);
  observacion : option (option string)
}.

(** The schema declares no validator: parsing succeeds on every value. *)
Definition validate (self : t) : result t := Ok self.
End ExamenTACUpdate.

Module ExamenTACResponse.
Record t := mk {
  id : Z;
  tipo_examen : string;
  fecha_realizacion : date;
  atencion : string;
  mes_realizacion : Z;
  anio_realizacion : Z;
  created_at : datetime;
  fecha_solicitud : date;
  hora_realizacion : time;
  edad : option Z;
  cod_acv : bool;
  ges : bool;
  medio_contraste : bool;
  observacion : option string
}.
End ExamenTACResponse.

(** ** models *)

Module Paciente.
Record t := mk {
  id : Z;
  rut : string;
  nombre_completo : string;
  fecha_nacimiento : option date;
  created_at : datetime;
  updated_at : datetime
}.
#[global] Instance eq_dec : EqDecision t.
Proof. solve_decision. Defined.
End Paciente.

Module Usuario.
Record t := mk {
  id : Z;
  rut : string;
  nombre : string;
  email : string;
  celular : option string;
  password_hash : string;
  rol : string;
  activo : bool;
  debe_cambiar_password : bool;
  created_at : datetime;
  updated_at : datetime
}.
#[global] Instance eq_dec : EqDecision t.
Proof. solve_decision. Defined.
End Usuario.

Module ExamenBase.
Record t := mk {
  id : Z;
  tipo_examen : string;
  fecha_realizacion : date;
  atencion : string;
  prevision_id : option Z;
  procedencia_id : option Z;
  paciente_id : Z;
  examen_especifico_id : Z;
  codigo_mai_id : option Z;
  contrato : option string;
  mes_realizacion : Z;
  anio_realizacion : Z;
  created_by : option Z;
  updated_by : option Z;
  created_at : datetime;
  updated_at : datetime;
  deleted_at : option datetime;
  en_revision : bool;
  motivo_revision : option string
}.
#[global] Instance eq_dec : EqDecision t.
Proof. solve_decision. Defined.
End ExamenBase.

Module ExamenTAC.
Record t := mk {
  id : Z;
  examen_base_id : Z;
  fecha_solicitud : date;
  hora_realizacion : time;
  fecha_nacimiento : option date;
  edad : option Z;
  externo : option string;
  protocolo_id : option Z;
  cod_acv : bool;
  ges : bool;
  medio_contraste : bool;
  vfge : option string;
  premedicado : option bool;
  diagnostico_clinico_id : option Z;
  medico_solicitante_id : option Z;
  tm_id : option Z;
  tp_id : option Z;
  secretaria_id : option Z;
  observacion : option string
}.
#[global] Instance eq_dec : EqDecision t.
Proof. solve_decision. Defined.
End ExamenTAC.

Module ExamenRX.
Record t := mk {
  id : Z;
  examen_base_id : Z;
  hora_realizacion : time;
  tm_tp_id : option Z
}.
End ExamenRX.

Module ExamenECO.
Record t := mk {
  id : Z;
  examen_base_id : Z;
  diagnostico_id : option Z;
  realizado_id : option Z;
  transcribe_id : option Z
}.
End ExamenECO.

(** ** The relational store *)

(** The tables the operations below read or write, rows in storage order,
    with the next value of the primary-key sequence of the tables they
    insert into.  The catalog tables are kept as the list of their
    primary keys, which is what the foreign keys of the exam tables see. *)
Record DB := mkDB {
  usuarios : list Usuario.t;
  pacientes : list Paciente.t;
  pacientes_seq : Z;
  examenes_base : list ExamenBase.t;
  examenes_base_seq : Z;
  examenes_tac : list ExamenTAC.t;
  examenes_tac_seq : Z;
  examenes_rx : list ExamenRX.t;
  examenes_eco : list ExamenECO.t;
  previsiones : list Z;
  procedencias : list Z;
  codigos_mai : list Z;
  examenes_especificos : list Z;
  protocolos_tac : list Z;
  diagnosticos : list Z;
  personal_medico : list Z
}.

Definition with_usuarios (db : DB) (us : list Usuario.t) : DB :=
  mkDB us (pacientes db) (pacientes_seq db) (examenes_base db) (examenes_base_seq db)
    (examenes_tac db) (examenes_tac_seq db) (examenes_rx db) (examenes_eco db)
    (previsiones db) (procedencias db) (codigos_mai db) (examenes_especificos db)
    (protocolos_tac db) (diagnosticos db) (personal_medico db).

Definition with_pacientes (db : DB) (ps : list Paciente.t) (seq : Z) : DB :=
  mkDB (usuarios db) ps seq (examenes_base db) (examenes_base_seq db)
    (examenes_tac db) (examenes_tac_seq db) (examenes_rx db) (examenes_eco db)
    (previsiones db) (procedencias db) (codigos_mai db) (examenes_especificos db)
    (protocolos_tac db) (diagnosticos db) (personal_medico db).

Definition with_examenes_base (db : DB) (bs : list ExamenBase.t) (seq : Z) : DB :=
  mkDB (usuarios db) (pacientes db) (pacientes_seq db) bs seq
    (examenes_tac db) (examenes_tac_seq db) (examenes_rx db) (examenes_eco db)
    (previsiones db) (procedencias db) (codigos_mai db) (examenes_especificos db)
    (protocolos_tac db) (diagnosticos db) (personal_medico db).

Definition with_examenes_tac (db : DB) (ts : list ExamenTAC.t) (seq : Z) : DB :=
  mkDB (usuarios db) (pacientes db) (pacientes_seq db) (examenes_base db)
    (examenes_base_seq db) ts seq (examenes_rx db) (examenes_eco db)
    (previsiones db) (procedencias db) (codigos_mai db) (examenes_especificos db)
    (protocolos_tac db) (diagnosticos db) (personal_medico db).

Definition with_especificos (db : DB) (ts : list ExamenTAC.t)
    (rs : list ExamenRX.t) (es : list ExamenECO.t) : DB :=
  mkDB (usuarios db) (pacientes db) (pacientes_seq db) (examenes_base db)
    (examenes_base_seq db) ts (examenes_tac_seq db) rs es
    (previsiones db) (procedencias db) (codigos_mai db) (examenes_especificos db)
    (protocolos_tac db) (diagnosticos db) (personal_medico db).

(** *** Constraints the storage checks when a row is written *)

Definition fk (tabla : list Z) (clave : option Z) : bool :=
  match clave with
  | None => true
  | Some k => bool_decide (k ∈ tabla)
  end.

(** psycopg2 adapts the string parameters of a statement before it sends
    the statement, and raises [ValueError] on a string that holds the NUL
    character: the statement does not reach the storage. *)
Definition sin_nul (s : option string) : bool :=
  match s with
  | None => true
  | Some s => forallb (fun c => negb (Ascii.eqb c "000"%char)) (list_ascii_of_string s)
  end.

(** A column of an [UPDATE]: the flush sends the new value only when it
    differs from the one loaded. *)
Definition adapta_cambio (anterior nuevo : option string) : bool :=
  bool_decide (nuevo = anterior) || sin_nul nuevo.

(** [String(n)] columns: a longer value is refused when the statement is
    planned, before a key is drawn for the row.  A value over the length
    whose excess is spaces only, which PostgreSQL cuts to the length
    instead, is taken as refused too: no row holds a value other than the
    one it was given. *)
Definition cabe (n : nat) (s : option string) : bool :=
  match s with
  | None => true
  | Some s => (String.length s <=? n)%nat
  end.

Definition check_tipo_examen (tipo_examen : string) : bool :=
  bool_decide (tipo_examen ∈ ["TAC"; "RX"; "ECO"]%string).

Definition check_atencion (atencion : string) : bool :=
  bool_decide (atencion ∈ ["Abierta"; "Cerrada"; "Urgencia"]%string).

Definition check_mes (mes_realizacion : Z) : bool :=
  (1 <=? mes_realizacion) && (mes_realizacion <=? 12).

(** The columns of [examenes_base] a request can fill: lengths, the
    three [CheckConstraint]s and the foreign keys into the catalogs. *)
Definition acepta_examen_base (db : DB) (b : ExamenBase.t) : bool :=
  cabe 10 (Some (ExamenBase.tipo_examen b))
  && cabe 20 (Some (ExamenBase.atencion b))
  && cabe 50 (ExamenBase.contrato b)
  && check_tipo_examen (ExamenBase.tipo_examen b)
  && check_atencion (ExamenBase.atencion b)
  && check_mes (ExamenBase.mes_realizacion b)
  && fk (previsiones db) (ExamenBase.prevision_id b)
  && fk (procedencias db) (ExamenBase.procedencia_id b)
  && fk (examenes_especificos db) (Some (ExamenBase.examen_especifico_id b))
  && fk (codigos_mai db) (ExamenBase.codigo_mai_id b).

(** The string parameters of the [INSERT] of a row. *)
Definition adapta_examen_base (b : ExamenBase.t) : bool :=
  sin_nul (Some (ExamenBase.tipo_examen b))
  && sin_nul (Some (ExamenBase.atencion b))
  && sin_nul (ExamenBase.contrato b)
  && sin_nul (ExamenBase.motivo_revision b).

(** The lengths among the checks of [acepta_examen_base]. *)
Definition longitudes_examen_base (b : ExamenBase.t) : bool :=
  cabe 10 (Some (ExamenBase.tipo_examen b))
  && cabe 20 (Some (ExamenBase.atencion b))
  && cabe 50 (ExamenBase.contrato b).

Definition acepta_examen_tac (db : DB) (t : ExamenTAC.t) : bool :=
  cabe 50 (ExamenTAC.externo t)
  && cabe 50 (ExamenTAC.vfge t)
  && fk (protocolos_tac db) (ExamenTAC.protocolo_id t)
  && fk (diagnosticos db) (ExamenTAC.diagnostico_clinico_id t)
  && fk (personal_medico db) (ExamenTAC.medico_solicitante_id t)
  && fk (personal_medico db) (ExamenTAC.tm_id t)
  && fk (personal_medico db) (ExamenTAC.tp_id t)
  && fk (personal_medico db) (ExamenTAC.secretaria_id t).

Definition adapta_examen_tac (t : ExamenTAC.t) : bool :=
  sin_nul (ExamenTAC.externo t)
  && sin_nul (ExamenTAC.vfge t)
  && sin_nul (ExamenTAC.observacion t).

Definition longitudes_examen_tac (t : ExamenTAC.t) : bool :=
  cabe 50 (ExamenTAC.externo t) && cabe 50 (ExamenTAC.vfge t).

Definition acepta_paciente (p : Paciente.t) : bool :=
  cabe 12 (Some (Paciente.rut p)) && cabe 200 (Some (Paciente.nombre_completo p)).

Definition adapta_paciente (p : Paciente.t) : bool :=
  sin_nul (Some (Paciente.rut p)) && sin_nul (Some (Paciente.nombre_completo p)).

(** ** middleware/auth_middleware.py *)

(** [token] is the subject of the decoded access token, [None] when the
    token does not decode or carries no subject. *)
Definition get_current_user (db : DB) (token : option Z) : result Usuario.t :=
  match token with
  | None => Raise (HTTPException HTTP_401_UNAUTHORIZED CredencialesInvalidas)
  | Some usuario_id =>
      match list_find (fun u => Usuario.id u = usuario_id) (usuarios db) with
      | None => Raise (HTTPException HTTP_401_UNAUTHORIZED CredencialesInvalidas)
      | Some (_, usuario) =>
          if negb (Usuario.activo usuario)
          then Raise (HTTPException HTTP_403_FORBIDDEN UsuarioInactivo)
          else Ok usuario
      end
  end.

Definition require_admin (db : DB) (token : option Z) : result Usuario.t :=
  let* current_user := get_current_user db token in
  if negb (bool_decide (Usuario.rol current_user = "administrador"%string))
  then Raise (HTTPException HTTP_403_FORBIDDEN SoloAdministradores)
  else Ok current_user.

Definition require_ingresador_o_admin (db : DB) (token : option Z) : result Usuario.t :=
  let* current_user := get_current_user db token in
  if negb (bool_decide (Usuario.rol current_user ∈ ["ingresador"; "administrador"]%string))
  then Raise (HTTPException HTTP_403_FORBIDDEN PermisosInsuficientes)
  else Ok current_user.

(** ** routers/examenes.py *)

(** [setattr] for a field of [update_data]: the column keeps its value
    when the field is absent. *)
Definition campo {A} (update : option A) (actual : A) : A := default actual update.

(** A pending value of a [nullable=False] column at commit. *)
Definition not_null {A} (pendiente : option A) : result A :=
  match pendiente with
  | Some v => Ok v
  | None => Raise DatabaseError
  end.

Definition obtener_o_crear_paciente (db : DB) (rut : string) (nombre : option string)
    (fecha_nac : option date) (now : datetime) : result Paciente.t * DB :=
  let rut_limpio := limpiar_rut rut in
  match validar_rut_chileno rut_limpio with
  | Raise e => (Raise e, db)
  | Ok false => (Raise (HTTPException HTTP_400_BAD_REQUEST RutInvalido), db)
  | Ok true =>
      match list_find (fun p => Paciente.rut p = rut_limpio) (pacientes db) with
      | Some (i, paciente) =>
          match fecha_nac, Paciente.fecha_nacimiento paciente with
          | Some _, None =>
              let paciente :=
                Paciente.mk (Paciente.id paciente) (Paciente.rut paciente)
                  (Paciente.nombre_completo paciente) fecha_nac
                  (Paciente.created_at paciente) now in
              (Ok paciente, with_pacientes db (<[i:=paciente]> (pacientes db)) (pacientes_seq db))
          | _, _ => (Ok paciente, db)
          end
      | None =>
          if negb (PyStr.truthy nombre)
          then (Raise (HTTPException HTTP_400_BAD_REQUEST NombrePacienteRequerido), db)
          else
            let nuevo_paciente :=
              Paciente.mk (pacientes_seq db) rut_limpio (default EmptyString nombre)
                fecha_nac now now in
            if negb (adapta_paciente nuevo_paciente) then (Raise ValueError, db)
            else if negb (acepta_paciente nuevo_paciente) then (Raise DatabaseError, db)
            else (Ok nuevo_paciente,
                  with_pacientes db (pacientes db ++ [nuevo_paciente]) (pacientes_seq db + 1))
      end
  end.

Definition respuesta_tac (examen_base : ExamenBase.t) (examen_tac : ExamenTAC.t)
    : ExamenTACResponse.t :=
  ExamenTACResponse.mk
    (ExamenBase.id examen_base)
    (ExamenBase.tipo_examen examen_base)
    (ExamenBase.fecha_realizacion examen_base)
    (ExamenBase.atencion examen_base)
    (ExamenBase.mes_realizacion examen_base)
    (ExamenBase.anio_realizacion examen_base)
    (ExamenBase.created_at examen_base)
    (ExamenTAC.fecha_solicitud examen_tac)
    (ExamenTAC.hora_realizacion examen_tac)
    (ExamenTAC.edad examen_tac)
    (ExamenTAC.cod_acv examen_tac)
    (ExamenTAC.ges examen_tac)
    (ExamenTAC.medio_contraste examen_tac)
    (ExamenTAC.observacion examen_tac).

(** The store once a statement that drew a key from the sequence of
    [examenes_base], or of [examenes_tac], has failed or was rolled back:
    the rows are not written, the key is not given back. *)
Definition clave_base_consumida (db : DB) : DB :=
  with_examenes_base db (examenes_base db) (examenes_base_seq db + 1).

Definition clave_tac_consumida (db : DB) : DB :=
  with_examenes_tac db (examenes_tac db) (examenes_tac_seq db + 1).

(** The body of [crear_examen_tac], entered once the dependencies and the
    request body are resolved.  The patient is committed by
    [obtener_o_crear_paciente]; the base row is inserted at [db.flush()]
    and the specialization row at [db.commit()], in one transaction.  An
    [INSERT] fails with [ValueError] before it is sent, on a length when it
    is planned, or on a [CheckConstraint] or a foreign key once the key of
    the row is drawn. *)
Definition crear_examen_tac_cuerpo (db : DB) (current_user : Usuario.t)
    (examen_data : ExamenTACCreate.t) (now : datetime)
    : result ExamenTACResponse.t * DB :=
  match obtener_o_crear_paciente db (ExamenTACCreate.paciente_rut examen_data)
          (ExamenTACCreate.paciente_nombre examen_data)
          (ExamenTACCreate.fecha_nacimiento examen_data) now with
  | (Raise e, db) => (Raise e, db)
  | (Ok paciente, db) =>
      let '(mes, anio) := extraer_mes_anio (ExamenTACCreate.fecha_realizacion examen_data) in
      let edad :=
        match ExamenTACCreate.fecha_nacimiento examen_data with
        | Some fecha_nacimiento =>
            Some (calcular_edad fecha_nacimiento (ExamenTACCreate.fecha_realizacion examen_data))
        | None => None
        end in
      let examen_base :=
        ExamenBase.mk (examenes_base_seq db) "TAC"
          (ExamenTACCreate.fecha_realizacion examen_data)
          (ExamenTACCreate.atencion examen_data)
          (Some (ExamenTACCreate.prevision_id examen_data))
          (Some (ExamenTACCreate.procedencia_id examen_data))
          (Paciente.id paciente)
          (ExamenTACCreate.examen_especifico_id examen_data)
          (Some (ExamenTACCreate.codigo_mai_id examen_data))
          (Some (ExamenTACCreate.contrato examen_data))
          mes anio
          (Some (Usuario.id current_user)) (Some (Usuario.id current_user))
          now now None false None in
      (* db.flush() *)
      if negb (adapta_examen_base examen_base) then (Raise ValueError, db)
      else if negb (acepta_examen_base db examen_base)
      then (Raise DatabaseError,
            if longitudes_examen_base examen_base then clave_base_consumida db else db)
      else
        let examen_tac :=
          ExamenTAC.mk (examenes_tac_seq db) (ExamenBase.id examen_base)
            (ExamenTACCreate.fecha_solicitud examen_data)
            (ExamenTACCreate.hora_realizacion examen_data)
            (ExamenTACCreate.fecha_nacimiento examen_data)
            edad
            (ExamenTACCreate.externo examen_data)
            (ExamenTACCreate.protocolo_id examen_data)
            (ExamenTACCreate.cod_acv examen_data)
            (ExamenTACCreate.ges examen_data)
            (ExamenTACCreate.medio_contraste examen_data)
            (ExamenTACCreate.vfge examen_data)
            (ExamenTACCreate.premedicado examen_data)
            (ExamenTACCreate.diagnostico_clinico_id examen_data)
            (ExamenTACCreate.medico_solicitante_id examen_data)
            (ExamenTACCreate.tm_id examen_data)
            (ExamenTACCreate.tp_id examen_data)
            (ExamenTACCreate.secretaria_id examen_data)
            (ExamenTACCreate.observacion examen_data) in
        (* db.commit() *)
        if negb (adapta_examen_tac examen_tac) then (Raise ValueError, clave_base_consumida db)
        else if negb (acepta_examen_tac db examen_tac)
        then (Raise DatabaseError,
              if longitudes_examen_tac examen_tac
              then clave_tac_consumida (clave_base_consumida db)
              else clave_base_consumida db)
        else
          let db :=
            with_examenes_tac
              (with_examenes_base db (examenes_base db ++ [examen_base])
                 (examenes_base_seq db + 1))
              (examenes_tac db ++ [examen_tac]) (examenes_tac_seq db + 1) in
          (Ok (respuesta_tac examen_base examen_tac), db)
  end.

(** [POST /tac]: the dependency, the validation of the body, the body of
    the handler. *)
Definition crear_examen_tac (db : DB) (token : option Z) (body : ExamenTACCreate.t)
    (now : datetime) : result ExamenTACResponse.t * DB :=
  match require_ingresador_o_admin db token with
  | Raise e => (Raise e, db)
  | Ok current_user =>
      match ExamenTACCreate.validate body with
      | Raise e => (Raise e, db)
      | Ok examen_data => crear_examen_tac_cuerpo db current_user examen_data now
      end
  end.

(** The join of [ExamenBase] and [ExamenTAC] on
    [ExamenBase.id == ExamenTAC.examen_base_id]. *)
Definition join_tac (db : DB) : list (ExamenBase.t * ExamenTAC.t) :=
  flat_map
    (fun b =>
       map (pair b)
         (filter (fun t => ExamenTAC.examen_base_id t = ExamenBase.id b) (examenes_tac db)))
    (examenes_base db).

Definition no_eliminado_tac (b : ExamenBase.t) : Prop :=
  ExamenBase.tipo_examen b = "TAC"%string /\ ExamenBase.deleted_at b = None.

#[global] Instance no_eliminado_tac_dec b : Decision (no_eliminado_tac b).
Proof. unfold no_eliminado_tac. apply _. Defined.

(** [order_by(ExamenBase.fecha_realizacion.desc())].  The query gives no
    order to rows of the same date; the sort used below keeps them in
    storage order. *)
Definition fecha_desc (x y : ExamenBase.t * ExamenTAC.t) : Prop :=
  date_ge (ExamenBase.fecha_realizacion x.1) (ExamenBase.fecha_realizacion y.1) = true.

#[global] Instance fecha_desc_dec x y : Decision (fecha_desc x y).
Proof. unfold fecha_desc. apply _. Defined.

Definition filtro {A} (activo : bool) (P : A -> Prop) `{forall x, Decision (P x)}
    (l : list A) : list A :=
  if activo then filter P l else l.

Definition listar_examenes_tac (db : DB) (token : option Z) (skip limit : Z)
    (fecha_inicio fecha_fin : option date) (paciente_rut : option string)
    (mes anio : option Z) : result (list ExamenTACResponse.t) :=
  let* current_user := require_ingresador_o_admin db token in
  let query := filter (fun x => no_eliminado_tac x.1) (join_tac db) in
  let query :=
    match fecha_inicio with
    | Some fecha_inicio =>
        filter (fun x => date_ge (ExamenBase.fecha_realizacion x.1) fecha_inicio = true) query
    | None => query
    end in
  let query :=
    match fecha_fin with
    | Some fecha_fin =>
        filter (fun x => date_le (ExamenBase.fecha_realizacion x.1) fecha_fin = true) query
    | None => query
    end in
  if PyStr.truthy paciente_rut
     && negb (sin_nul (Some (limpiar_rut (default EmptyString paciente_rut))))
  then Raise ValueError
  else
  let query :=
    if PyStr.truthy paciente_rut then
      let rut_limpio := limpiar_rut (default EmptyString paciente_rut) in
      match list_find (fun p => Paciente.rut p = rut_limpio) (pacientes db) with
      | Some (_, paciente) =>
          Some (filter (fun x => ExamenBase.paciente_id x.1 = Paciente.id paciente) query)
      | None => None
      end
    else Some query in
  match query with
  | None => Ok []
  | Some query =>
      let query :=
        match mes with
        | Some mes =>
            filtro (negb (mes =? 0)) (fun x => ExamenBase.mes_realizacion x.1 = mes) query
        | None => query
        end in
      let query :=
        match anio with
        | Some anio =>
            filtro (negb (anio =? 0)) (fun x => ExamenBase.anio_realizacion x.1 = anio) query
        | None => query
        end in
      let query := merge_sort fecha_desc query in
      let resultados := take (Z.to_nat limit) (drop (Z.to_nat skip) query) in
      Ok (map (fun '(examen_base, examen_tac) => respuesta_tac examen_base examen_tac)
            resultados)
  end.

Definition obtener_examen_tac (db : DB) (token : option Z) (examen_id : Z)
    : result ExamenTACResponse.t :=
  let* current_user := require_ingresador_o_admin db token in
  match head (filter (fun x => ExamenBase.id x.1 = examen_id /\ no_eliminado_tac x.1)
                (join_tac db)) with
  | None => Raise (HTTPException HTTP_404_NOT_FOUND ExamenTACNoEncontrado)
  | Some (examen_base, examen_tac) => Ok (respuesta_tac examen_base examen_tac)
  end.

Definition presente {A} (update : option A) : bool :=
  match update with
  | Some _ => true
  | None => false
  end.

(** Whether [update_data] holds one of [campos_tac]. *)
Definition campos_tac_presentes (u : ExamenTACUpdate.t) : bool :=
  presente (ExamenTACUpdate.fecha_solicitud u)
  || presente (ExamenTACUpdate.hora_realizacion u)
  || presente (ExamenTACUpdate.fecha_nacimiento u)
  || presente (ExamenTACUpdate.externo u)
  || presente (ExamenTACUpdate.protocolo_id u)
  || presente (ExamenTACUpdate.cod_acv u)
  || presente (ExamenTACUpdate.ges u)
  || presente (ExamenTACUpdate.medio_contraste u)
  || presente (ExamenTACUpdate.vfge u)
  || presente (ExamenTACUpdate.premedicado u)
  || presente (ExamenTACUpdate.diagnostico_clinico_id u)
  || presente (ExamenTACUpdate.medico_solicitante_id u)
  || presente (ExamenTACUpdate.tm_id u)
  || presente (ExamenTACUpdate.tp_id u)
  || presente (ExamenTACUpdate.secretaria_id u)
  || presente (ExamenTACUpdate.observacion u).

(** [onupdate=datetime.utcnow] of [examenes_base.updated_at]: the column is
    refreshed when the flush writes a changed row. *)
Definition onupdate_examen_base (anterior nuevo : ExamenBase.t) (now : datetime)
    : ExamenBase.t :=
  if decide (nuevo = anterior) then anterior
  else
    ExamenBase.mk (ExamenBase.id nuevo) (ExamenBase.tipo_examen nuevo)
      (ExamenBase.fecha_realizacion nuevo) (ExamenBase.atencion nuevo)
      (ExamenBase.prevision_id nuevo) (ExamenBase.procedencia_id nuevo)
      (ExamenBase.paciente_id nuevo) (ExamenBase.examen_especifico_id nuevo)
      (ExamenBase.codigo_mai_id nuevo) (ExamenBase.contrato nuevo)
      (ExamenBase.mes_realizacion nuevo) (ExamenBase.anio_realizacion nuevo)
      (ExamenBase.created_by nuevo) (ExamenBase.updated_by nuevo)
      (ExamenBase.created_at nuevo) now
      (ExamenBase.deleted_at nuevo) (ExamenBase.en_revision nuevo)
      (ExamenBase.motivo_revision nuevo).

(** [extraer_mes_anio(update_data['fecha_realizacion'])] when the field is
    present: an explicit null has no [month]. *)
Definition recalcular_fecha (examen_base : ExamenBase.t) (update_data : ExamenTACUpdate.t)
    : result (date * (Z * Z)) :=
  match ExamenTACUpdate.fecha_realizacion update_data with
  | Some None => Raise AttributeError
  | Some (Some fecha) => Ok (fecha, extraer_mes_anio fecha)
  | None =>
      Ok (ExamenBase.fecha_realizacion examen_base,
          (ExamenBase.mes_realizacion examen_base, ExamenBase.anio_realizacion examen_base))
  end.

(** The string columns of [examenes_base] and of [examenes_tac] that an
    update can set, as parameters of the two [UPDATE]s. *)
Definition adapta_examen_base_cambio (examen_base : ExamenBase.t)
    (update_data : ExamenTACUpdate.t) : bool :=
  adapta_cambio (Some (ExamenBase.atencion examen_base))
    (campo (ExamenTACUpdate.atencion update_data) (Some (ExamenBase.atencion examen_base)))
  && adapta_cambio (ExamenBase.contrato examen_base)
       (campo (ExamenTACUpdate.contrato update_data) (ExamenBase.contrato examen_base)).

Definition adapta_examen_tac_cambio (examen_tac : ExamenTAC.t)
    (update_data : ExamenTACUpdate.t) : bool :=
  adapta_cambio (ExamenTAC.externo examen_tac)
    (campo (ExamenTACUpdate.externo update_data) (ExamenTAC.externo examen_tac))
  && adapta_cambio (ExamenTAC.vfge examen_tac)
       (campo (ExamenTACUpdate.vfge update_data) (ExamenTAC.vfge examen_tac))
  && adapta_cambio (ExamenTAC.observacion examen_tac)
       (campo (ExamenTACUpdate.observacion update_data) (ExamenTAC.observacion examen_tac)).

(** The row of [examenes_base] written at the commit of
    [actualizar_examen_tac]: the fields of [campos_base] present in
    [update_data], the recomputed month and year, and [updated_by].  The
    [UPDATE] fails with [ValueError] before it is sent when a changed
    string holds NUL, and in the storage on a null in a [nullable=False]
    column, a length, a [CheckConstraint] or a foreign key. *)
Definition commit_base (db : DB) (examen_base : ExamenBase.t)
    (update_data : ExamenTACUpdate.t) (fecha_realizacion : date) (mes anio : Z)
    (current_user : Usuario.t) (now : datetime) : result ExamenBase.t :=
  if negb (adapta_examen_base_cambio examen_base update_data) then Raise ValueError
  else
  let* atencion :=
    not_null (campo (ExamenTACUpdate.atencion update_data)
                (Some (ExamenBase.atencion examen_base))) in
  let nuevo :=
    ExamenBase.mk (ExamenBase.id examen_base) (ExamenBase.tipo_examen examen_base)
      fecha_realizacion atencion
      (campo (ExamenTACUpdate.prevision_id update_data) (ExamenBase.prevision_id examen_base))
      (campo (ExamenTACUpdate.procedencia_id update_data)
         (ExamenBase.procedencia_id examen_base))
      (ExamenBase.paciente_id examen_base)
      (ExamenBase.examen_especifico_id examen_base)
      (campo (ExamenTACUpdate.codigo_mai_id update_data) (ExamenBase.codigo_mai_id examen_base))
      (campo (ExamenTACUpdate.contrato update_data) (ExamenBase.contrato examen_base))
      mes anio
      (ExamenBase.created_by examen_base)
      (Some (Usuario.id current_user))
      (ExamenBase.created_at examen_base) (ExamenBase.updated_at examen_base)
      (ExamenBase.deleted_at examen_base) (ExamenBase.en_revision examen_base)
      (ExamenBase.motivo_revision examen_base) in
  if negb (acepta_examen_base db nuevo) then Raise DatabaseError
  else Ok (onupdate_examen_base examen_base nuevo now).

(** The row of [examenes_tac] written at that commit: the fields of
    [campos_tac] present in [update_data], and the age recomputed when a
    birth date is given; it fails as [commit_base] does. *)
Definition commit_tac (db : DB) (examen_tac : ExamenTAC.t) (update_data : ExamenTACUpdate.t)
    (fecha_realizacion : date) : result ExamenTAC.t :=
  if negb (adapta_examen_tac_cambio examen_tac update_data) then Raise ValueError
  else
  let* fecha_solicitud :=
    not_null (campo (ExamenTACUpdate.fecha_solicitud update_data)
                (Some (ExamenTAC.fecha_solicitud examen_tac))) in
  let* hora_realizacion :=
    not_null (campo (ExamenTACUpdate.hora_realizacion update_data)
                (Some (ExamenTAC.hora_realizacion examen_tac))) in
  let* cod_acv :=
    not_null (campo (ExamenTACUpdate.cod_acv update_data)
                (Some (ExamenTAC.cod_acv examen_tac))) in
  let* ges :=
    not_null (campo (ExamenTACUpdate.ges update_data) (Some (ExamenTAC.ges examen_tac))) in
  let* medio_contraste :=
    not_null (campo (ExamenTACUpdate.medio_contraste update_data)
                (Some (ExamenTAC.medio_contraste examen_tac))) in
  let edad :=
    match ExamenTACUpdate.fecha_nacimiento update_data with
    | Some (Some fecha_nacimiento) => Some (calcular_edad fecha_nacimiento fecha_realizacion)
    | _ => ExamenTAC.edad examen_tac
    end in
  let nuevo :=
    ExamenTAC.mk (ExamenTAC.id examen_tac) (ExamenTAC.examen_base_id examen_tac)
      fecha_solicitud hora_realizacion
      (campo (ExamenTACUpdate.fecha_nacimiento update_data)
         (ExamenTAC.fecha_nacimiento examen_tac))
      edad
      (campo (ExamenTACUpdate.externo update_data) (ExamenTAC.externo examen_tac))
      (campo (ExamenTACUpdate.protocolo_id update_data) (ExamenTAC.protocolo_id examen_tac))
      cod_acv ges medio_contraste
      (campo (ExamenTACUpdate.vfge update_data) (ExamenTAC.vfge examen_tac))
      (campo (ExamenTACUpdate.premedicado update_data) (ExamenTAC.premedicado examen_tac))
      (campo (ExamenTACUpdate.diagnostico_clinico_id update_data)
         (ExamenTAC.diagnostico_clinico_id examen_tac))
      (campo (ExamenTACUpdate.medico_solicitante_id update_data)
         (ExamenTAC.medico_solicitante_id examen_tac))
      (campo (ExamenTACUpdate.tm_id update_data) (ExamenTAC.tm_id examen_tac))
      (campo (ExamenTACUpdate.tp_id update_data) (ExamenTAC.tp_id examen_tac))
      (campo (ExamenTACUpdate.secretaria_id update_data) (ExamenTAC.secretaria_id examen_tac))
      (campo (ExamenTACUpdate.observacion update_data) (ExamenTAC.observacion examen_tac)) in
  if negb (acepta_examen_tac db nuevo) then Raise DatabaseError
  else Ok nuevo.

(** [PUT /tac/{examen_id}]. *)
Definition actualizar_examen_tac (db : DB) (token : option Z) (examen_id : Z)
    (body : ExamenTACUpdate.t) (now : datetime) : result ExamenTACResponse.t * DB :=
  match require_admin db token with
  | Raise e => (Raise e, db)
  | Ok current_user =>
  match ExamenTACUpdate.validate body with
  | Raise e => (Raise e, db)
  | Ok examen_data =>
  if negb (bool_decide (Usuario.rol current_user = "administrador"%string))
  then (Raise (HTTPException HTTP_403_FORBIDDEN SoloAdministradoresModifican), db)
  else
  match list_find (fun b => ExamenBase.id b = examen_id /\ no_eliminado_tac b)
          (examenes_base db) with
  | None => (Raise (HTTPException HTTP_404_NOT_FOUND ExamenTACNoEncontrado), db)
  | Some (i, examen_base) =>
  let examen_tac :=
    list_find (fun t => ExamenTAC.examen_base_id t = examen_id) (examenes_tac db) in
  let update_data := examen_data in
  match recalcular_fecha examen_base update_data with
  | Raise e => (Raise e, db)
  | Ok (fecha_realizacion, (mes, anio)) =>
  match examen_tac with
  | None =>
      if campos_tac_presentes update_data then (Raise AttributeError, db)
      else
        match commit_base db examen_base update_data fecha_realizacion mes anio
                current_user now with
        | Raise e => (Raise e, db)
        | Ok examen_base =>
            (* db.refresh(examen_tac) on None, after the commit *)
            (Raise UnmappedInstanceError,
             with_examenes_base db (<[i:=examen_base]> (examenes_base db))
               (examenes_base_seq db))
        end
  | Some (j, examen_tac) =>
      match commit_base db examen_base update_data fecha_realizacion mes anio
              current_user now with
      | Raise e => (Raise e, db)
      | Ok examen_base =>
          match commit_tac db examen_tac update_data fecha_realizacion with
          | Raise e => (Raise e, db)
          | Ok examen_tac =>
              (Ok (respuesta_tac examen_base examen_tac),
               with_examenes_tac
                 (with_examenes_base db (<[i:=examen_base]> (examenes_base db))
                    (examenes_base_seq db))
                 (<[j:=examen_tac]> (examenes_tac db)) (examenes_tac_seq db))
          end
      end
  end
  end
  end
  end
  end.

(** [DELETE /tac/{examen_id}]: the soft delete. *)
Definition eliminar_examen_tac (db : DB) (token : option Z) (examen_id : Z)
    (now : datetime) : result unit * DB :=
  match require_admin db token with
  | Raise e => (Raise e, db)
  | Ok current_user =>
      match list_find (fun b => ExamenBase.id b = examen_id /\ no_eliminado_tac b)
              (examenes_base db) with
      | None => (Raise (HTTPException HTTP_404_NOT_FOUND ExamenTACNoEncontrado), db)
      | Some (i, examen_base) =>
          let examen_base :=
            onupdate_examen_base examen_base
              (ExamenBase.mk (ExamenBase.id examen_base) (ExamenBase.tipo_examen examen_base)
                 (ExamenBase.fecha_realizacion examen_base) (ExamenBase.atencion examen_base)
                 (ExamenBase.prevision_id examen_base) (ExamenBase.procedencia_id examen_base)
                 (ExamenBase.paciente_id examen_base)
                 (ExamenBase.examen_especifico_id examen_base)
                 (ExamenBase.codigo_mai_id examen_base) (ExamenBase.contrato examen_base)
                 (ExamenBase.mes_realizacion examen_base)
                 (ExamenBase.anio_realizacion examen_base)
                 (ExamenBase.created_by examen_base)
                 (Some (Usuario.id current_user))
                 (ExamenBase.created_at examen_base) (ExamenBase.updated_at examen_base)
                 (Some now)
                 (ExamenBase.en_revision examen_base) (ExamenBase.motivo_revision examen_base))
              now in
          (Ok tt,
           with_examenes_base db (<[i:=examen_base]> (examenes_base db))
             (examenes_base_seq db))
      end
  end.

(** ** routers/pacientes.py *)

(** [DELETE /{paciente_id}].  [db.delete(paciente)] follows the cascade of
    [Paciente.examenes] ([cascade="all, delete-orphan"]) and, from each
    exam, the cascade of its specialization row. *)
Definition eliminar_paciente (db : DB) (token : option Z) (paciente_id : Z)
    : result unit * DB :=
  match get_current_user db token with
  | Raise e => (Raise e, db)
  | Ok current_user =>
      if negb (bool_decide (Usuario.rol current_user = "administrador"%string))
      then (Raise (HTTPException HTTP_403_FORBIDDEN SinPermisoEliminarPacientes), db)
      else
        match list_find (fun p => Paciente.id p = paciente_id) (pacientes db) with
        | None => (Raise (HTTPException HTTP_404_NOT_FOUND PacienteNoEncontrado), db)
        | Some (i, paciente) =>
            let examenes :=
              map ExamenBase.id
                (filter (fun b => ExamenBase.paciente_id b = Paciente.id paciente)
                   (examenes_base db)) in
            let db :=
              with_especificos db
                (filter (fun t => ExamenTAC.examen_base_id t ∉ examenes) (examenes_tac db))
                (filter (fun r => ExamenRX.examen_base_id r ∉ examenes) (examenes_rx db))
                (filter (fun e => ExamenECO.examen_base_id e ∉ examenes) (examenes_eco db)) in
            let db :=
              with_examenes_base db
                (filter (fun b => ExamenBase.paciente_id b <> Paciente.id paciente)
                   (examenes_base db))
                (examenes_base_seq db) in
            (Ok tt, with_pacientes db (delete i (pacientes db)) (pacientes_seq db))
        end
  end.

(** ** routers/usuarios.py *)

Definition set_deleted_at (b : ExamenBase.t) (now : datetime) : ExamenBase.t :=
  ExamenBase.mk (ExamenBase.id b) (ExamenBase.tipo_examen b)
    (ExamenBase.fecha_realizacion b) (ExamenBase.atencion b)
    (ExamenBase.prevision_id b) (ExamenBase.procedencia_id b)
    (ExamenBase.paciente_id b) (ExamenBase.examen_especifico_id b)
    (ExamenBase.codigo_mai_id b) (ExamenBase.contrato b)
    (ExamenBase.mes_realizacion b) (ExamenBase.anio_realizacion b)
    (ExamenBase.created_by b) (ExamenBase.updated_by b)
    (ExamenBase.created_at b) now (Some now)
    (ExamenBase.en_revision b) (ExamenBase.motivo_revision b).

(** [db.delete(usuario)]: the relationships [examenes_creados] and
    [examenes_modificados] have no delete cascade, so the flush sets to
    null the [created_by] and [updated_by] that refer to the user. *)
Definition desvincular (usuario_id : Z) (now : datetime) (b : ExamenBase.t) : ExamenBase.t :=
  let quitar (clave : option Z) :=
    if decide (clave = Some usuario_id) then None else clave in
  onupdate_examen_base b
    (ExamenBase.mk (ExamenBase.id b) (ExamenBase.tipo_examen b)
       (ExamenBase.fecha_realizacion b) (ExamenBase.atencion b)
       (ExamenBase.prevision_id b) (ExamenBase.procedencia_id b)
       (ExamenBase.paciente_id b) (ExamenBase.examen_especifico_id b)
       (ExamenBase.codigo_mai_id b) (ExamenBase.contrato b)
       (ExamenBase.mes_realizacion b) (ExamenBase.anio_realizacion b)
       (quitar (ExamenBase.created_by b)) (quitar (ExamenBase.updated_by b))
       (ExamenBase.created_at b) (ExamenBase.updated_at b)
       (ExamenBase.deleted_at b) (ExamenBase.en_revision b)
       (ExamenBase.motivo_revision b))
    now.

Definition examenes_de (db : DB) (usuario_id : Z) : list ExamenBase.t :=
  filter (fun b => ExamenBase.created_by b = Some usuario_id) (examenes_base db).

(** [DELETE /me].  [verify_password] belongs to [utils/security.py]. *)
Definition eliminar_mi_cuenta (verify_password : string -> string -> bool)
    (db : DB) (token : option Z) (password : string) (now : datetime) : result unit * DB :=
  match get_current_user db token with
  | Raise e => (Raise e, db)
  | Ok current_user =>
      if negb (verify_password password (Usuario.password_hash current_user))
      then (Raise (HTTPException 400 ContrasenaIncorrecta), db)
      else
        let examenes_count :=
          Z.of_nat (length (examenes_de db (Usuario.id current_user))) in
        if 0 <? examenes_count
        then (Raise (HTTPException 400 (TienesExamenesRegistrados examenes_count)), db)
        else
          let db :=
            with_examenes_base db
              (map (desvincular (Usuario.id current_user) now) (examenes_base db))
              (examenes_base_seq db) in
          (Ok tt,
           with_usuarios db
             (filter (fun u => Usuario.id u <> Usuario.id current_user) (usuarios db)))
  end.

(** The function [toggle_usuario] of [PATCH /{usuario_id}/toggle]: the
    row it returns, before the route serializes it. *)
Definition toggle_usuario (db : DB) (token : option Z) (usuario_id : Z) (now : datetime)
    : result Usuario.t * DB :=
  match require_admin db token with
  | Raise e => (Raise e, db)
  | Ok current_user =>
      match list_find (fun u => Usuario.id u = usuario_id) (usuarios db) with
      | None => (Raise (HTTPException 404 UsuarioNoEncontrado), db)
      | Some (i, usuario) =>
          if decide (Usuario.id usuario = Usuario.id current_user)
          then (Raise (HTTPException 400 NoPuedesDesactivarte), db)
          else
            let usuario :=
              Usuario.mk (Usuario.id usuario) (Usuario.rut usuario) (Usuario.nombre usuario)
                (Usuario.email usuario) (Usuario.celular usuario)
                (Usuario.password_hash usuario) (Usuario.rol usuario)
                (negb (Usuario.activo usuario))
                (Usuario.debe_cambiar_password usuario)
                (Usuario.created_at usuario) now in
            (Ok usuario, with_usuarios db (<[i:=usuario]> (usuarios db)))
      end
  end.

(** [DELETE /{usuario_id}]. *)
Definition eliminar_usuario (db : DB) (token : option Z) (usuario_id : Z)
    (eliminar_examenes : bool) (now : datetime) : result unit * DB :=
  match require_admin db token with
  | Raise e => (Raise e, db)
  | Ok current_user =>
      match list_find (fun u => Usuario.id u = usuario_id) (usuarios db) with
      | None => (Raise (HTTPException 404 UsuarioNoEncontrado), db)
      | Some (i, usuario) =>
          if decide (Usuario.id usuario = Usuario.id current_user)
          then (Raise (HTTPException 400 NoPuedesEliminarte), db)
          else
            let examenes_count := Z.of_nat (length (examenes_de db usuario_id)) in
            if (0 <? examenes_count) && negb eliminar_examenes
            then (Raise (HTTPException 400 (UsuarioTieneExamenes examenes_count)), db)
            else
              let examenes :=
                if eliminar_examenes
                then map (fun b =>
                            if decide (ExamenBase.created_by b = Some usuario_id)
                            then set_deleted_at b now else b)
                       (examenes_base db)
                else examenes_base db in
              let db :=
                with_examenes_base db (map (desvincular usuario_id now) examenes)
                  (examenes_base_seq db) in
              (Ok tt, with_usuarios db (delete i (usuarios db)))
      end
  end.

(** ** routers/reportes.py *)

Module PorPeriodo.
Record t := mk {
  labels : list string;
  data : list Z;
  anio : Z;
  tipo_examen : string
}.
End PorPeriodo.

(** [query.group_by(mes_realizacion).order_by(mes_realizacion)] with
    [func.count(ExamenBase.id)]: one row per month that occurs. *)
Definition agrupar_por_mes (query : list ExamenBase.t) : list (Z * Z) :=
  map (fun mes =>
         (mes, Z.of_nat (length (filter (fun b => ExamenBase.mes_realizacion b = mes) query))))
    (merge_sort Z.le (remove_dups (map ExamenBase.mes_realizacion query))).

(** [[datos[mes] for mes in range(1, 13)]]; a missing key raises. *)
Fixpoint leer (datos : gmap Z Z) (claves : list Z) : result (list Z) :=
  match claves with
  | [] => Ok []
  | mes :: claves =>
      match datos !! mes with
      | None => Raise KeyError
      | Some total => let* resto := leer datos claves in Ok (total :: resto)
      end
  end.

(** [GET /por-periodo].  The parameter [agrupar_por] is read by nothing in
    the handler and is left out. *)
Definition examenes_por_periodo (db : DB) (token : option Z) (anio : Z)
    (tipo_examen : option string) : result PorPeriodo.t :=
  let* current_user := get_current_user db token in
  let query :=
    filter (fun b => ExamenBase.anio_realizacion b = anio /\ ExamenBase.deleted_at b = None)
      (examenes_base db) in
  let query :=
    if PyStr.truthy tipo_examen
    then filter (fun b => Some (ExamenBase.tipo_examen b) = tipo_examen) query
    else query in
  let resultados := agrupar_por_mes query in
  let meses :=
    ["Ene"; "Feb"; "Mar"; "Abr"; "May"; "Jun"; "Jul"; "Ago"; "Sep"; "Oct"; "Nov"; "Dic"]%string in
  let datos : gmap Z Z := foldl (fun datos mes => <[mes:=0]> datos) ∅ (seqZ 1 12) in
  let datos := foldl (fun datos resultado => <[resultado.1:=resultado.2]> datos) datos resultados in
  let* data := leer datos (seqZ 1 12) in
  Ok (PorPeriodo.mk meses data anio
        (if PyStr.truthy tipo_examen then default EmptyString tipo_examen else "Todos"%string)).

(** ** A small store used to run the operations *)

Module Ejemplo.

Definition admin : Usuario.t :=
  Usuario.mk 1 "111111111" "Administradora" "admin@hospital.cl" None "hash-admin"
    "administrador" true false 10 10.

Definition ingresador : Usuario.t :=
  Usuario.mk 2 "222222222" "Ingresador" "ingreso@hospital.cl" None "secreto"
    "ingresador" true false 20 20.

Definition ana : Paciente.t :=
  Paciente.mk 1 "123456785" "Ana Rojas" None 30 30.

Definition base10 : ExamenBase.t :=
  ExamenBase.mk 10 "TAC" (mkdate 2024 6 15) "Abierta" (Some 1) (Some 1) 1 1 (Some 1)
    (Some "Institucional"%string) 6 2024 (Some 1) (Some 1) 100 100 None false None.

Definition tac10 : ExamenTAC.t :=
  ExamenTAC.mk 7 10 (mkdate 2024 6 10) (mktime 9 30 0) None None None None
    false false false None None None None None None None None.

Definition db : DB :=
  mkDB [admin; ingresador] [ana] 2 [base10] 11 [tac10] 8 [] []
    [1] [1] [1] [1] [1] [1] [1].

(** The same store once the second user has registered an exam. *)
Definition base11 : ExamenBase.t :=
  ExamenBase.mk 11 "TAC" (mkdate 2024 3 2) "Urgencia" (Some 1) (Some 1) 1 1 (Some 1)
    (Some "Institucional"%string) 3 2024 (Some 2) (Some 2) 200 200 None false None.

Definition tac11 : ExamenTAC.t :=
  ExamenTAC.mk 8 11 (mkdate 2024 3 1) (mktime 18 0 0) None None None None
    true false false None None None None None None None None.

Definition db2 : DB :=
  mkDB [admin; ingresador] [ana] 2 [base10; base11] 12 [tac10; tac11] 9 [] []
    [1] [1] [1] [1] [1] [1] [1].

(** A store with a second patient and with exams of the other two types:
    an X-ray of the first patient and an ultrasound of the second. *)
Definition luis : Paciente.t :=
  Paciente.mk 2 "111111111" "Luis Soto" None 40 40.

Definition base12 : ExamenBase.t :=
  ExamenBase.mk 12 "RX" (mkdate 2024 7 1) "Abierta" (Some 1) (Some 1) 1 1 (Some 1)
    None 7 2024 (Some 1) (Some 1) 300 300 None false None.

Definition base13 : ExamenBase.t :=
  ExamenBase.mk 13 "ECO" (mkdate 2024 8 20) "Cerrada" (Some 1) (Some 1) 2 1 (Some 1)
    None 8 2024 (Some 2) (Some 1) 400 400 None false None.

Definition rx12 : ExamenRX.t := ExamenRX.mk 3 12 (mktime 10 0 0) None.

Definition eco13 : ExamenECO.t := ExamenECO.mk 4 13 None None None.

Definition db3 : DB :=
  mkDB [admin; ingresador] [ana; luis] 3 [base10; base12; base13] 14 [tac10] 8
    [rx12] [eco13] [1] [1] [1] [1] [1] [1] [1].

(** A registration body for a patient already in the store. *)
Definition body (fecha_solicitud fecha_realizacion : date)
    (fecha_nacimiento : option date) (vfge : option string) (premedicado : option bool)
    : ExamenTACCreate.t :=
  ExamenTACCreate.mk "TAC" fecha_realizacion "Abierta" 1 1 "12.345.678-5" None 1 1
    "Institucional" fecha_solicitud (mktime 9 30 0) fecha_nacimiento None None
    false false false vfge premedicado None None None None None None.

(** An update that sets nothing. *)
Definition sin_cambios : ExamenTACUpdate.t :=
  ExamenTACUpdate.mk None None None None None None None None None None None
    None None None None None None None None None None None.

End Ejemplo.

(** ** Vocabulary of the specification *)

(** [c] is the letter [k] in either case, [k] being a character of a
    lower-case word. *)
Definition misma_letra (c k : ascii) : Prop :=
  c = k
  \/ ((97 <= N_of_ascii k)%N /\ (N_of_ascii k <= 122)%N
      /\ (N_of_ascii c + 32)%N = N_of_ascii k).

(** The value is the sentinel "sin creatinina" written in any letter case. *)
Definition es_sin_creatinina (vfge : string) : Prop :=
  Forall2 misma_letra (list_ascii_of_string vfge)
    (list_ascii_of_string "sin creatinina").


(** The number of exams of the store that are not deleted, were realized in
    year [anio] and month [mes], and are of type [tipo_examen] when one is
    given. *)
Definition cuenta_mes (db : DB) (anio : Z) (tipo_examen : option string) (mes : Z) : Z :=
  Z.of_nat
    (length
       (filter
          (fun b =>
             (ExamenBase.anio_realizacion b = anio /\ ExamenBase.deleted_at b = None)
             /\ (PyStr.truthy tipo_examen = true -> Some (ExamenBase.tipo_examen b) = tipo_examen)
             /\ ExamenBase.mes_realizacion b = mes)
          (examenes_base db))).





(** [str.upper] on a character other than the sharp s. *)
Definition up1 (c : N) : N :=
  match PyStr.chr_upper c with
  | [x] => x
  | _ => c
  end.

(** A superscript digit: [str.isdigit] holds for it and [int] rejects it. *)
Definition superindice (c : ascii) : Prop :=
  N_of_ascii c = 178%N \/ N_of_ascii c = 179%N \/ N_of_ascii c = 185%N.


(** The month and year columns of a base row are those of its realization
    date, as every write of the date leaves them. *)
Definition mes_anio_derivados (b : ExamenBase.t) : Prop :=
  ExamenBase.mes_realizacion b = month (ExamenBase.fecha_realizacion b)
  /\ ExamenBase.anio_realizacion b = year (ExamenBase.fecha_realizacion b).

(** [cuenta_mes] read on the realization date itself. *)
Definition cuenta_fecha (db : DB) (anio : Z) (tipo_examen : option string) (mes : Z) : Z :=
  Z.of_nat
    (length
       (filter
          (fun b =>
             (year (ExamenBase.fecha_realizacion b) = anio /\ ExamenBase.deleted_at b = None)
             /\ (PyStr.truthy tipo_examen = true -> Some (ExamenBase.tipo_examen b) = tipo_examen)
             /\ month (ExamenBase.fecha_realizacion b) = mes)
          (examenes_base db))).

(** ** Vocabulary of the further properties *)

(** What a row of the query satisfies once the filters of the request are
    applied. *)
Definition pasa_filtros (db : DB) (fecha_inicio fecha_fin : option date)
    (paciente_rut : option string) (mes anio : option Z) (b : ExamenBase.t) : Prop :=
  no_eliminado_tac b
  /\ (forall f, fecha_inicio = Some f -> date_ge (ExamenBase.fecha_realizacion b) f = true)
  /\ (forall f, fecha_fin = Some f -> date_le (ExamenBase.fecha_realizacion b) f = true)
  /\ (PyStr.truthy paciente_rut = true ->
      exists j p,
        list_find (fun p => Paciente.rut p = limpiar_rut (default EmptyString paciente_rut))
          (pacientes db) = Some (j, p)
        /\ ExamenBase.paciente_id b = Paciente.id p)
  /\ (forall m, mes = Some m -> m <> 0 -> ExamenBase.mes_realizacion b = m)
  /\ (forall a, anio = Some a -> a <> 0 -> ExamenBase.anio_realizacion b = a).

(** The store [db'] is [db] with the user [usuario_id] taken out and no
    reference to that user left: the two stores differ in the user table
    and in the rows of the base exam table only. *)
Definition usuario_retirado (db : DB) (usuario_id : Z) (db' : DB) : Prop :=
  usuarios db' = filter (fun u => Usuario.id u <> usuario_id) (usuarios db)
  /\ (forall b, b ∈ examenes_base db' ->
                ExamenBase.created_by b <> Some usuario_id
                /\ ExamenBase.updated_by b <> Some usuario_id)
  /\ map ExamenBase.id (examenes_base db') = map ExamenBase.id (examenes_base db)
  /\ db' = with_usuarios
             (with_examenes_base db (examenes_base db') (examenes_base_seq db))
             (usuarios db')
  /\ get_current_user db' (Some usuario_id)
     = Raise (HTTPException HTTP_401_UNAUTHORIZED CredencialesInvalidas)
  /\ (forall token, token <> Some usuario_id ->
                    get_current_user db' token = get_current_user db token).

(** What the primary keys, the unique columns and the foreign keys of the
    models ask of a store: keys are unique and, in the tables the store
    keeps a sequence for, below the sequence; a patient RUT and the base
    exam of a specialization row (TAC, RX or ECO) occur once in their
    table; and every reference (patient of an exam, base exam of a
    specialization row, creator and last modifier of an exam) points to a
    stored row. *)
Record integra (db : DB) : Prop := mk_integra {
  usuarios_clave : NoDup (map Usuario.id (usuarios db));
  pacientes_clave : NoDup (map Paciente.id (pacientes db));
  pacientes_rut : NoDup (map Paciente.rut (pacientes db));
  pacientes_sec : forall k, k ∈ map Paciente.id (pacientes db) -> k < pacientes_seq db;
  base_clave : NoDup (map ExamenBase.id (examenes_base db));
  base_sec : forall k, k ∈ map ExamenBase.id (examenes_base db) -> k < examenes_base_seq db;
  tac_clave : NoDup (map ExamenTAC.id (examenes_tac db));
  tac_sec : forall k, k ∈ map ExamenTAC.id (examenes_tac db) -> k < examenes_tac_seq db;
  tac_unico : NoDup (map ExamenTAC.examen_base_id (examenes_tac db));
  tac_base :
    forall k, k ∈ map ExamenTAC.examen_base_id (examenes_tac db) ->
              k ∈ map ExamenBase.id (examenes_base db);
  base_paciente :
    forall b, b ∈ examenes_base db ->
              ExamenBase.paciente_id b ∈ map Paciente.id (pacientes db);
  base_usuario :
    forall b k, b ∈ examenes_base db ->
                ExamenBase.created_by b = Some k \/ ExamenBase.updated_by b = Some k ->
                k ∈ map Usuario.id (usuarios db);
  rx_clave : NoDup (map ExamenRX.id (examenes_rx db));
  rx_unico : NoDup (map ExamenRX.examen_base_id (examenes_rx db));
  rx_base :
    forall k, k ∈ map ExamenRX.examen_base_id (examenes_rx db) ->
              k ∈ map ExamenBase.id (examenes_base db);
  eco_clave : NoDup (map ExamenECO.id (examenes_eco db));
  eco_unico : NoDup (map ExamenECO.examen_base_id (examenes_eco db));
  eco_base :
    forall k, k ∈ map ExamenECO.examen_base_id (examenes_eco db) ->
              k ∈ map ExamenBase.id (examenes_base db)
}.

(** ** Answers of the remaining handlers *)

(** The [detail] of the [HTTPException]s that only the handlers below
    raise. *)
Inductive detalle :=
| PacienteYaExiste (rut_formateado : string)
| ExamenNoEncontrado
| UsuarioInactivoSinContacto
| RutYaRegistrado
| EmailYaRegistrado
| NoNecesitasCambiarContrasena
| ContrasenaActualIncorrecta
| NuevaContrasenaDebeSerDiferente
| EmailYaEnUso
| EmailOContrasenaIncorrectos.

(** What ends a call without a value: an exception of the kinds met above,
    the [IndexError] of an index into an empty string, one of the
    [HTTPException]s of [detalle], or the [ResponseValidationError] that
    FastAPI raises when the value a handler returned does not validate
    against the [response_model] of its route. *)
Inductive rechazo :=
| Excepcion (e : exception)
| IndexError
| Http (status_code : Z) (d : detalle)
| ResponseValidationError.

Inductive respuesta (A : Type) :=
| Exito (a : A)
| Rechazo (r : rechazo).
Arguments Exito {A} a.
Arguments Rechazo {A} r.

(** ** utils/validators.py: the display form of a RUT *)

(** [f"{rut[:-1]}-{rut[-1]}"] on the RUT without dots and dashes;
    [rut[-1]] raises on the empty string. *)
Definition formatear_rut (rut : string) : respuesta string :=
  let rut := PyStr.remove_char "-" (PyStr.remove_char "." rut) in
  let caracteres := list_ascii_of_string rut in
  match last caracteres with
  | None => Rechazo IndexError
  | Some ultimo =>
      Exito (string_of_list_ascii
               (take (length caracteres - 1) caracteres ++ ["-"%char; ultimo]))
  end.

(** ** routers/pacientes.py: the other handlers *)

Module PacienteAutocomplete.
Record t := mk {
  rut : string;
  nombre_completo : string;
  fecha_nacimiento : option date;
  edad : option Z
}.
End PacienteAutocomplete.

(** schemas/paciente.py *)
Module PacienteResponse.
Record t := mk {
  rut : string;
  nombre_completo : string;
  fecha_nacimiento : option date;
  id : Z;
  created_at : datetime
}.

(** The validation of a [Paciente] row against the schema
    ([from_attributes]): the bounds of the two [Field]s of [PacienteBase],
    then its validator of the RUT, which gives the RUT without dots and
    dashes. *)
Definition validate (p : Paciente.t) : option t :=
  let rut_limpio := PyStr.remove_char "-" (PyStr.remove_char "." (Paciente.rut p)) in
  if (9 <=? String.length (Paciente.rut p))%nat
     && (String.length (Paciente.rut p) <=? 12)%nat
     && (3 <=? String.length (Paciente.nombre_completo p))%nat
     && (String.length (Paciente.nombre_completo p) <=? 200)%nat
     && negb (String.length rut_limpio <? 8)%nat
  then Some (mk rut_limpio (Paciente.nombre_completo p) (Paciente.fecha_nacimiento p)
               (Paciente.id p) (Paciente.created_at p))
  else None.
End PacienteResponse.

(** [response_model]: the value the handler returned is validated once the
    handler is done, so after its commit; what the handler wrote stays
    written when the validation fails. *)
Definition responder {A B} (validate : A -> option B) (devuelto : respuesta A * DB)
    : respuesta B * DB :=
  match devuelto with
  | (Exito a, db) =>
      match validate a with
      | Some b => (Exito b, db)
      | None => (Rechazo ResponseValidationError, db)
      end
  | (Rechazo r, db) => (Rechazo r, db)
  end.

(** The function [crear_paciente].  [rut], [nombre_completo] and
    [fecha_nacimiento] are the fields of the parsed [PacienteCreate]. *)
Definition crear_paciente_cuerpo (db : DB) (token : option Z) (rut nombre_completo : string)
    (fecha_nacimiento : option date) (now : datetime) : respuesta Paciente.t * DB :=
  match get_current_user db token with
  | Raise e => (Rechazo (Excepcion e), db)
  | Ok current_user =>
      let rut_limpio := limpiar_rut rut in
      match validar_rut_chileno rut_limpio with
      | Raise e => (Rechazo (Excepcion e), db)
      | Ok false =>
          (Rechazo (Excepcion (HTTPException HTTP_400_BAD_REQUEST RutInvalido)), db)
      | Ok true =>
          match list_find (fun p => Paciente.rut p = rut_limpio) (pacientes db) with
          | Some _ =>
              match formatear_rut rut_limpio with
              | Rechazo r => (Rechazo r, db)
              | Exito rut_formateado =>
                  (Rechazo (Http HTTP_400_BAD_REQUEST (PacienteYaExiste rut_formateado)), db)
              end
          | None =>
              let nuevo_paciente :=
                Paciente.mk (pacientes_seq db) rut_limpio nombre_completo fecha_nacimiento
                  now now in
              if negb (adapta_paciente nuevo_paciente)
              then (Rechazo (Excepcion ValueError), db)
              else if negb (acepta_paciente nuevo_paciente)
              then (Rechazo (Excepcion DatabaseError), db)
              else (Exito nuevo_paciente,
                    with_pacientes db (pacientes db ++ [nuevo_paciente])
                      (pacientes_seq db + 1))
          end
      end
  end.

(** [POST /], with [response_model=PacienteResponse]. *)
Definition crear_paciente (db : DB) (token : option Z) (rut nombre_completo : string)
    (fecha_nacimiento : option date) (now : datetime)
    : respuesta PacienteResponse.t * DB :=
  responder PacienteResponse.validate
    (crear_paciente_cuerpo db token rut nombre_completo fecha_nacimiento now).




(** [onupdate=datetime.utcnow] of [pacientes.updated_at]. *)
Definition onupdate_paciente (anterior nuevo : Paciente.t) (now : datetime) : Paciente.t :=
  if decide (nuevo = anterior) then anterior
  else
    Paciente.mk (Paciente.id nuevo) (Paciente.rut nuevo) (Paciente.nombre_completo nuevo)
      (Paciente.fecha_nacimiento nuevo) (Paciente.created_at nuevo) now.

(** The function [actualizar_paciente].  [nombre_completo] and
    [fecha_nacimiento] are the fields of the parsed [PacienteUpdate]; a
    field that is [None] is left as it is. *)
Definition actualizar_paciente_cuerpo (db : DB) (token : option Z) (paciente_id : Z)
    (nombre_completo : option string) (fecha_nacimiento : option date) (now : datetime)
    : respuesta Paciente.t * DB :=
  match get_current_user db token with
  | Raise e => (Rechazo (Excepcion e), db)
  | Ok current_user =>
      match list_find (fun p => Paciente.id p = paciente_id) (pacientes db) with
      | None =>
          (Rechazo (Excepcion (HTTPException HTTP_404_NOT_FOUND PacienteNoEncontrado)), db)
      | Some (i, paciente) =>
          let nuevo :=
            Paciente.mk (Paciente.id paciente) (Paciente.rut paciente)
              (default (Paciente.nombre_completo paciente) nombre_completo)
              (match fecha_nacimiento with
               | Some fecha => Some fecha
               | None => Paciente.fecha_nacimiento paciente
               end)
              (Paciente.created_at paciente) (Paciente.updated_at paciente) in
          if negb (adapta_cambio (Some (Paciente.nombre_completo paciente))
                     (Some (Paciente.nombre_completo nuevo)))
          then (Rechazo (Excepcion ValueError), db)
          else if negb (acepta_paciente nuevo) then (Rechazo (Excepcion DatabaseError), db)
          else
            let paciente := onupdate_paciente paciente nuevo now in
            (Exito paciente,
             with_pacientes db (<[i:=paciente]> (pacientes db)) (pacientes_seq db))
      end
  end.

(** [PUT /{paciente_id}], with [response_model=PacienteResponse]. *)
Definition actualizar_paciente (db : DB) (token : option Z) (paciente_id : Z)
    (nombre_completo : option string) (fecha_nacimiento : option date) (now : datetime)
    : respuesta PacienteResponse.t * DB :=
  responder PacienteResponse.validate
    (actualizar_paciente_cuerpo db token paciente_id nombre_completo fecha_nacimiento now).

(** ** routers/examenes.py: exams under review *)

Inductive mensaje_revision :=
| ExamenMarcadoParaRevision
| MarcaDeRevisionEliminada.

Module RevisionMarcada.
Record t := mk {
  message : mensaje_revision;
  examen_id : Z;
  en_revision : bool;
  motivo : option string
}.
End RevisionMarcada.

(** [PATCH /{examen_id}/revision].  [en_revision] and [motivo] are the
    fields of the parsed [MarcarRevisionRequest]. *)
Definition marcar_examen_revision (db : DB) (token : option Z) (examen_id : Z)
    (en_revision : bool) (motivo : option string) (now : datetime)
    : respuesta RevisionMarcada.t * DB :=
  match require_admin db token with
  | Raise e => (Rechazo (Excepcion e), db)
  | Ok current_user =>
      match list_find
              (fun b => ExamenBase.id b = examen_id /\ ExamenBase.deleted_at b = None)
              (examenes_base db) with
      | None => (Rechazo (Http HTTP_404_NOT_FOUND ExamenNoEncontrado), db)
      | Some (i, examen) =>
          if negb (adapta_cambio (ExamenBase.motivo_revision examen)
                     (if en_revision then motivo else None))
          then (Rechazo (Excepcion ValueError), db)
          else
          let examen :=
            onupdate_examen_base examen
              (ExamenBase.mk (ExamenBase.id examen) (ExamenBase.tipo_examen examen)
                 (ExamenBase.fecha_realizacion examen) (ExamenBase.atencion examen)
                 (ExamenBase.prevision_id examen) (ExamenBase.procedencia_id examen)
                 (ExamenBase.paciente_id examen) (ExamenBase.examen_especifico_id examen)
                 (ExamenBase.codigo_mai_id examen) (ExamenBase.contrato examen)
                 (ExamenBase.mes_realizacion examen) (ExamenBase.anio_realizacion examen)
                 (ExamenBase.created_by examen) (ExamenBase.updated_by examen)
                 (ExamenBase.created_at examen) (ExamenBase.updated_at examen)
                 (ExamenBase.deleted_at examen)
                 en_revision
                 (if en_revision then motivo else None))
              now in
          (Exito (RevisionMarcada.mk
                    (if en_revision then ExamenMarcadoParaRevision
                     else MarcaDeRevisionEliminada)
                    (ExamenBase.id examen) (ExamenBase.en_revision examen)
                    (ExamenBase.motivo_revision examen)),
           with_examenes_base db (<[i:=examen]> (examenes_base db)) (examenes_base_seq db))
      end
  end.

Module ExamenEnRevision.
(** [fecha] stands for [fecha_realizacion.isoformat()]. *)
Record t := mk {
  id : Z;
  tipo : string;
  fecha : date;
  motivo_revision : option string;
  created_by : option Z
}.
End ExamenEnRevision.

Module EnRevision.
Record t := mk {
  total : Z;
  examenes : list ExamenEnRevision.t
}.
End EnRevision.

(** [order_by(ExamenBase.created_at.desc())]. *)
Definition creado_desc (x y : ExamenBase.t) : Prop :=
  ExamenBase.created_at y <= ExamenBase.created_at x.

#[global] Instance creado_desc_dec x y : Decision (creado_desc x y).
Proof. unfold creado_desc. apply _. Defined.

Definition entrada_revision (e : ExamenBase.t) : ExamenEnRevision.t :=
  ExamenEnRevision.mk (ExamenBase.id e) (ExamenBase.tipo_examen e)
    (ExamenBase.fecha_realizacion e) (ExamenBase.motivo_revision e)
    (ExamenBase.created_by e).

(** [GET /en-revision]. *)
Definition listar_examenes_revision (db : DB) (token : option Z)
    (tipo_examen : option string) : respuesta EnRevision.t :=
  match require_admin db token with
  | Raise e => Rechazo (Excepcion e)
  | Ok current_user =>
      let query :=
        filter (fun b => ExamenBase.en_revision b = true /\ ExamenBase.deleted_at b = None)
          (examenes_base db) in
      let query :=
        if PyStr.truthy tipo_examen
        then filter (fun b => Some (ExamenBase.tipo_examen b) = tipo_examen) query
        else query in
      let examenes := merge_sort creado_desc query in
      Exito (EnRevision.mk (Z.of_nat (length examenes)) (map entrada_revision examenes))
  end.

(** ** routers/usuarios.py: accounts and passwords *)

Definition adapta_usuario (u : Usuario.t) : bool :=
  sin_nul (Some (Usuario.rut u)) && sin_nul (Some (Usuario.nombre u))
  && sin_nul (Some (Usuario.email u)) && sin_nul (Usuario.celular u)
  && sin_nul (Some (Usuario.password_hash u)) && sin_nul (Some (Usuario.rol u)).

(** The string columns an [UPDATE] of a user sends. *)
Definition adapta_usuario_cambio (anterior nuevo : Usuario.t) : bool :=
  adapta_cambio (Some (Usuario.nombre anterior)) (Some (Usuario.nombre nuevo))
  && adapta_cambio (Some (Usuario.email anterior)) (Some (Usuario.email nuevo))
  && adapta_cambio (Usuario.celular anterior) (Usuario.celular nuevo)
  && adapta_cambio (Some (Usuario.password_hash anterior))
       (Some (Usuario.password_hash nuevo)).

(** The [String(n)] columns of [usuarios]. *)
Definition acepta_usuario (u : Usuario.t) : bool :=
  cabe 12 (Some (Usuario.rut u)) && cabe 150 (Some (Usuario.nombre u))
  && cabe 150 (Some (Usuario.email u)) && cabe 20 (Usuario.celular u)
  && cabe 255 (Some (Usuario.password_hash u)) && cabe 20 (Some (Usuario.rol u)).

(** [onupdate=datetime.utcnow] of [usuarios.updated_at]. *)
Definition onupdate_usuario (anterior nuevo : Usuario.t) (now : datetime) : Usuario.t :=
  if decide (nuevo = anterior) then anterior
  else
    Usuario.mk (Usuario.id nuevo) (Usuario.rut nuevo) (Usuario.nombre nuevo)
      (Usuario.email nuevo) (Usuario.celular nuevo) (Usuario.password_hash nuevo)
      (Usuario.rol nuevo) (Usuario.activo nuevo) (Usuario.debe_cambiar_password nuevo)
      (Usuario.created_at nuevo) now.

Module UsuarioCreate.
Record t := mk {
  rut : string;
  nombre : string;
  email : string;
  celular : option string;
  rol : string;
  password : string
}.
End UsuarioCreate.

(** schemas/usuario.py *)
Module UsuarioResponse.
Record t := mk {
  rut : string;
  nombre : string;
  email : string;
  celular : option string;
  rol : string;
  id : Z;
  activo : bool;
  created_at : datetime
}.

Section Validate.

(** [EmailStr]: whether a string is an e-mail, and its normal form, are
    decided by the package [email_validator]. *)
Variable validate_email : string -> option string.

(** The validation of a [Usuario] row against the schema
    ([from_attributes]): the bounds and the pattern of the [Field]s of
    [UsuarioBase], the e-mail, then the validator of the RUT, which gives
    the RUT without dots and dashes. *)
Definition validate (u : Usuario.t) : option t :=
  let rut_limpio := PyStr.remove_char "-" (PyStr.remove_char "." (Usuario.rut u)) in
  if (9 <=? String.length (Usuario.rut u))%nat
     && (String.length (Usuario.rut u) <=? 12)%nat
     && (3 <=? String.length (Usuario.nombre u))%nat
     && (String.length (Usuario.nombre u) <=? 150)%nat
     && match Usuario.celular u with
        | Some celular => (String.length celular <=? 20)%nat
        | None => true
        end
     && bool_decide (Usuario.rol u ∈ ["ingresador"; "administrador"]%string)
     && negb (String.length rut_limpio <? 8)%nat
  then
    match validate_email (Usuario.email u) with
    | Some email =>
        Some (mk rut_limpio (Usuario.nombre u) email (Usuario.celular u) (Usuario.rol u)
                (Usuario.id u) (Usuario.activo u) (Usuario.created_at u))
    | None => None
    end
  else None.

End Validate.
End UsuarioResponse.

Section Seguridad.

(** [utils/security.py]. *)
Variable get_password_hash : string -> string.
Variable verify_password : string -> string -> bool.

(** [email_validator.validate_email], behind [EmailStr]. *)
Variable validate_email : string -> option string.

(** The function [crear_usuario_ingresador].  [nuevo_id] is the key the
    storage gives the new row. *)
Definition crear_usuario_ingresador_cuerpo (db : DB) (token : option Z)
    (usuario_data : UsuarioCreate.t) (nuevo_id : Z) (now : datetime)
    : respuesta Usuario.t * DB :=
  match require_admin db token with
  | Raise e => (Rechazo (Excepcion e), db)
  | Ok current_user =>
      match validar_rut_chileno (UsuarioCreate.rut usuario_data) with
      | Raise e => (Rechazo (Excepcion e), db)
      | Ok false =>
          (Rechazo (Excepcion (HTTPException 400 RutInvalido)), db)
      | Ok true =>
          match list_find (fun u => Usuario.rut u = UsuarioCreate.rut usuario_data)
                  (usuarios db) with
          | Some _ => (Rechazo (Http 400 RutYaRegistrado), db)
          | None =>
              if negb (sin_nul (Some (UsuarioCreate.email usuario_data)))
              then (Rechazo (Excepcion ValueError), db)
              else
              match list_find (fun u => Usuario.email u = UsuarioCreate.email usuario_data)
                      (usuarios db) with
              | Some _ => (Rechazo (Http 400 EmailYaRegistrado), db)
              | None =>
                  let nuevo_usuario :=
                    Usuario.mk nuevo_id (UsuarioCreate.rut usuario_data)
                      (UsuarioCreate.nombre usuario_data)
                      (UsuarioCreate.email usuario_data)
                      (UsuarioCreate.celular usuario_data)
                      (get_password_hash (UsuarioCreate.password usuario_data))
                      "ingresador" true true now now in
                  if negb (adapta_usuario nuevo_usuario)
                  then (Rechazo (Excepcion ValueError), db)
                  else if negb (acepta_usuario nuevo_usuario)
                  then (Rechazo (Excepcion DatabaseError), db)
                  else (Exito nuevo_usuario,
                        with_usuarios db (usuarios db ++ [nuevo_usuario]))
              end
          end
      end
  end.

(** [POST /], with [response_model=UsuarioResponse]. *)
Definition crear_usuario_ingresador (db : DB) (token : option Z)
    (usuario_data : UsuarioCreate.t) (nuevo_id : Z) (now : datetime)
    : respuesta UsuarioResponse.t * DB :=
  responder (UsuarioResponse.validate validate_email)
    (crear_usuario_ingresador_cuerpo db token usuario_data nuevo_id now).

Inductive mensaje_password :=
| ContrasenaActualizadaPuedesUsar
| ContrasenaActualizadaExitosamente.

(** The row of the session's [current_user] with another password hash
    and change flag. *)
Definition con_password (u : Usuario.t) (password_hash : string)
    (debe_cambiar_password : bool) : Usuario.t :=
  Usuario.mk (Usuario.id u) (Usuario.rut u) (Usuario.nombre u) (Usuario.email u)
    (Usuario.celular u) password_hash (Usuario.rol u) (Usuario.activo u)
    debe_cambiar_password (Usuario.created_at u) (Usuario.updated_at u).

(** The commit of a change to [current_user], the row that
    [get_current_user] loaded: [ValueError] when a changed string holds
    NUL, a storage error when a column does not take its value. *)
Definition guardar_usuario (db : DB) (current_user nuevo : Usuario.t) (now : datetime)
    : result DB :=
  if negb (adapta_usuario_cambio current_user nuevo) then Raise ValueError
  else if negb (acepta_usuario nuevo) then Raise DatabaseError
  else
    match list_find (fun u => Usuario.id u = Usuario.id current_user) (usuarios db) with
    | None => Ok db
    | Some (i, _) =>
        Ok (with_usuarios db
              (<[i:=onupdate_usuario current_user nuevo now]> (usuarios db)))
    end.

(** [POST /me/primer-cambio-password]. *)
Definition primer_cambio_password (db : DB) (token : option Z) (password_nueva : string)
    (now : datetime) : respuesta mensaje_password * DB :=
  match get_current_user db token with
  | Raise e => (Rechazo (Excepcion e), db)
  | Ok current_user =>
      if negb (Usuario.debe_cambiar_password current_user)
      then (Rechazo (Http 400 NoNecesitasCambiarContrasena), db)
      else
        match guardar_usuario db current_user
                (con_password current_user (get_password_hash password_nueva) false)
                now with
        | Raise e => (Rechazo (Excepcion e), db)
        | Ok db => (Exito ContrasenaActualizadaPuedesUsar, db)
        end
  end.

(** [POST /me/cambiar-password]. *)
Definition cambiar_mi_password (db : DB) (token : option Z)
    (password_actual password_nueva : string) (now : datetime)
    : respuesta mensaje_password * DB :=
  match get_current_user db token with
  | Raise e => (Rechazo (Excepcion e), db)
  | Ok current_user =>
      if negb (verify_password password_actual (Usuario.password_hash current_user))
      then (Rechazo (Http 400 ContrasenaActualIncorrecta), db)
      else if bool_decide (password_actual = password_nueva)
      then (Rechazo (Http 400 NuevaContrasenaDebeSerDiferente), db)
      else
        match guardar_usuario db current_user
                (con_password current_user (get_password_hash password_nueva)
                   (Usuario.debe_cambiar_password current_user))
                now with
        | Raise e => (Rechazo (Excepcion e), db)
        | Ok db => (Exito ContrasenaActualizadaExitosamente, db)
        end
  end.

End Seguridad.

Module ExamenDeUsuario.
(** [fecha] is [fecha_realizacion]. *)
Record t := mk {
  id : Z;
  tipo : string;
  fecha : date
}.
End ExamenDeUsuario.

Module ExamenesUsuario.
Record t := mk {
  usuario : Z * string * string;
  total : Z;
  examenes : list ExamenDeUsuario.t
}.
End ExamenesUsuario.

(** [GET /{usuario_id}/examenes]. *)
Definition obtener_examenes_usuario (db : DB) (token : option Z) (usuario_id : Z)
    (skip limit : Z) : respuesta ExamenesUsuario.t :=
  match require_admin db token with
  | Raise e => Rechazo (Excepcion e)
  | Ok current_user =>
      match list_find (fun u => Usuario.id u = usuario_id) (usuarios db) with
      | None => Rechazo (Excepcion (HTTPException 404 UsuarioNoEncontrado))
      | Some (_, usuario) =>
          (* OFFSET and LIMIT must not be negative *)
          if (skip <? 0) || (limit <? 0) then Rechazo (Excepcion DatabaseError)
          else
          let examenes :=
            take (Z.to_nat limit)
              (drop (Z.to_nat skip)
                 (merge_sort creado_desc
                    (filter (fun b => ExamenBase.created_by b = Some usuario_id
                                      /\ ExamenBase.deleted_at b = None)
                       (examenes_base db)))) in
          Exito (ExamenesUsuario.mk
                   (Usuario.id usuario, Usuario.nombre usuario, Usuario.rol usuario)
                   (Z.of_nat (length examenes))
                   (map (fun e => ExamenDeUsuario.mk (ExamenBase.id e)
                                    (ExamenBase.tipo_examen e)
                                    (ExamenBase.fecha_realizacion e))
                      examenes))
      end
  end.

(** What a change of password leaves of the row [u] in [u']. *)
Definition misma_cuenta (u u' : Usuario.t) : Prop :=
  Usuario.id u' = Usuario.id u /\ Usuario.rut u' = Usuario.rut u
  /\ Usuario.nombre u' = Usuario.nombre u /\ Usuario.email u' = Usuario.email u
  /\ Usuario.celular u' = Usuario.celular u /\ Usuario.rol u' = Usuario.rol u
  /\ Usuario.activo u' = Usuario.activo u /\ Usuario.created_at u' = Usuario.created_at u.

(** ** routers/reportes.py: the other reports *)

(** [query.group_by(clave)] with [func.count(ExamenBase.id)]: one row per
    value of the key that occurs.  The query gives the rows no order; they
    are taken in the order of first occurrence. *)
Definition agrupar {K} `{EqDecision K} (clave : ExamenBase.t -> K)
    (query : list ExamenBase.t) : list (K * Z) :=
  map (fun k => (k, Z.of_nat (length (filter (fun b => clave b = k) query))))
    (remove_dups (map clave query)).

(** [{fila.clave: fila.total for fila in filas}]. *)
Definition diccionario (filas : list (string * Z)) : gmap string Z :=
  foldl (fun datos fila => <[fila.1:=fila.2]> datos) ∅ filas.

(** [[datos[clave] for clave in claves]]; a missing key raises. *)
Fixpoint leer_claves (datos : gmap string Z) (claves : list string) : result (list Z) :=
  match claves with
  | [] => Ok []
  | clave :: claves =>
      match datos !! clave with
      | None => Raise KeyError
      | Some total => let* resto := leer_claves datos claves in Ok (total :: resto)
      end
  end.

(** [{"TAC": 0, "RX": 0, "ECO": 0}]. *)
Definition tipos_en_cero : gmap string Z :=
  <["ECO"%string:=0]> (<["RX"%string:=0]> (<["TAC"%string:=0]> ∅)).

(** [str(n)] as a [string]. *)
Definition str (n : Z) : string := NilZero.string_of_int (Z.to_int n).

Module Comparativa.
Record t := mk {
  labels : list string;
  data : list Z;
  periodo : string
}.
End Comparativa.

(** [GET /comparativa-tipos]. *)
Definition comparativa_tipos (db : DB) (token : option Z) (anio : Z) (mes : option Z)
    : result Comparativa.t :=
  let* current_user := get_current_user db token in
  let query :=
    filter (fun b => ExamenBase.anio_realizacion b = anio /\ ExamenBase.deleted_at b = None)
      (examenes_base db) in
  let query :=
    match mes with
    | Some mes => filtro (negb (mes =? 0)) (fun b => ExamenBase.mes_realizacion b = mes) query
    | None => query
    end in
  let resultados := agrupar ExamenBase.tipo_examen query in
  let datos :=
    foldl (fun datos resultado => <[resultado.1:=resultado.2]> datos) tipos_en_cero
      resultados in
  let* data := leer_claves datos ["TAC"; "RX"; "ECO"]%string in
  Ok (Comparativa.mk ["TAC"; "RX"; "ECO"]%string data
        (match mes with
         | Some mes => if mes =? 0 then str anio else (str mes ++ "/" ++ str anio)%string
         | None => str anio
         end)).

Module EntradaHistorial.
(** [fecha] stands for [fecha_realizacion.isoformat()]. *)
Record t := mk {
  id : Z;
  tipo : string;
  fecha : date;
  atencion : string
}.
End EntradaHistorial.

Module PorPaciente.
(** [paciente] holds the RUT, the name and the birth date. *)
Record t := mk {
  paciente : string * string * option date;
  total_examenes : Z;
  por_tipo : gmap string Z;
  historial : list EntradaHistorial.t
}.
End PorPaciente.

(** [order_by(ExamenBase.fecha_realizacion.desc())] on base rows. *)
Definition fecha_base_desc (x y : ExamenBase.t) : Prop :=
  date_ge (ExamenBase.fecha_realizacion x) (ExamenBase.fecha_realizacion y) = true.

#[global] Instance fecha_base_desc_dec x y : Decision (fecha_base_desc x y).
Proof. unfold fecha_base_desc. apply _. Defined.



Module Estadisticas.
Record t := mk {
  examenes_por_tipo : gmap string Z;
  total_examenes : Z;
  pacientes_unicos : Z;
  por_atencion : gmap string Z
}.
End Estadisticas.

(** The date filters of [estadisticas_generales], which the handler
    applies to each of its three queries. *)
Definition filtrar_fechas (fecha_inicio fecha_fin : option date)
    (query : list ExamenBase.t) : list ExamenBase.t :=
  let query :=
    match fecha_inicio with
    | Some fecha_inicio =>
        filter (fun b => date_ge (ExamenBase.fecha_realizacion b) fecha_inicio = true) query
    | None => query
    end in
  match fecha_fin with
  | Some fecha_fin =>
      filter (fun b => date_le (ExamenBase.fecha_realizacion b) fecha_fin = true) query
  | None => query
  end.

(** [sum(fila.total for fila in filas)]. *)
Definition sumar (filas : list (string * Z)) : Z :=
  foldl (fun suma fila => suma + fila.2) 0 filas.

(** [GET /estadisticas-generales]. *)
Definition estadisticas_generales (db : DB) (token : option Z)
    (fecha_inicio fecha_fin : option date) : result Estadisticas.t :=
  let* current_user := get_current_user db token in
  let query :=
    filtrar_fechas fecha_inicio fecha_fin
      (filter (fun b => ExamenBase.deleted_at b = None) (examenes_base db)) in
  let examenes_por_tipo :=
    agrupar ExamenBase.tipo_examen
      (filtrar_fechas fecha_inicio fecha_fin
         (filter (fun b => ExamenBase.deleted_at b = None) (examenes_base db))) in
  let pacientes_unicos :=
    Z.of_nat (length (remove_dups (map ExamenBase.paciente_id query))) in
  let por_atencion :=
    agrupar ExamenBase.atencion
      (filtrar_fechas fecha_inicio fecha_fin
         (filter (fun b => ExamenBase.deleted_at b = None) (examenes_base db))) in
  Ok (Estadisticas.mk (diccionario examenes_por_tipo) (sumar examenes_por_tipo)
        pacientes_unicos (diccionario por_atencion)).

(** An exam counted by [estadisticas_generales]. *)
Definition en_rango (fecha_inicio fecha_fin : option date) (b : ExamenBase.t) : Prop :=
  ExamenBase.deleted_at b = None
  /\ from_option (fun f => date_ge (ExamenBase.fecha_realizacion b) f = true) True
       fecha_inicio
  /\ from_option (fun f => date_le (ExamenBase.fecha_realizacion b) f = true) True
       fecha_fin.

#[global] Instance en_rango_dec fecha_inicio fecha_fin b :
  Decision (en_rango fecha_inicio fecha_fin b).
Proof. unfold en_rango. destruct fecha_inicio, fecha_fin; cbn; apply _. Defined.


(** The number of exams of the store that are not deleted, of type [tipo],
    realized in year [anio], and in month [mes] when one is given. *)
Definition cuenta_tipo (db : DB) (anio : Z) (mes : option Z) (tipo : string) : Z :=
  Z.of_nat
    (length
       (filter
          (fun b =>
             ExamenBase.tipo_examen b = tipo
             /\ (ExamenBase.anio_realizacion b = anio /\ ExamenBase.deleted_at b = None)
             /\ (mes = None \/ mes = Some 0 \/ mes = Some (ExamenBase.mes_realizacion b)))
          (examenes_base db))).

(** ** routers/usuarios.py: the profile of the caller *)

Module UsuarioUpdate.
Record t := mk {
  nombre : option string;
  email : option string;
  celular : option string;
  password : option string;
  activo : option bool
}.
End UsuarioUpdate.

(** The function [actualizar_mi_perfil].  The fields [password] and
    [activo] of [UsuarioUpdate] are read by nothing in the handler. *)
Definition actualizar_mi_perfil_cuerpo (db : DB) (token : option Z) (datos : UsuarioUpdate.t)
    (now : datetime) : respuesta Usuario.t * DB :=
  match get_current_user db token with
  | Raise e => (Rechazo (Excepcion e), db)
  | Ok current_user =>
      let nuevo :=
        Usuario.mk (Usuario.id current_user) (Usuario.rut current_user)
          (if PyStr.truthy (UsuarioUpdate.nombre datos)
           then default (Usuario.nombre current_user) (UsuarioUpdate.nombre datos)
           else Usuario.nombre current_user)
          (if PyStr.truthy (UsuarioUpdate.email datos)
           then default (Usuario.email current_user) (UsuarioUpdate.email datos)
           else Usuario.email current_user)
          (match UsuarioUpdate.celular datos with
           | Some celular => Some celular
           | None => Usuario.celular current_user
           end)
          (Usuario.password_hash current_user) (Usuario.rol current_user)
          (Usuario.activo current_user) (Usuario.debe_cambiar_password current_user)
          (Usuario.created_at current_user) (Usuario.updated_at current_user) in
      let guardar :=
        match guardar_usuario db current_user nuevo now with
        | Raise e => (Rechazo (Excepcion e), db)
        | Ok db => (Exito (onupdate_usuario current_user nuevo now), db)
        end in
      if PyStr.truthy (UsuarioUpdate.email datos)
         && negb (bool_decide (UsuarioUpdate.email datos = Some (Usuario.email current_user)))
      then
        if negb (sin_nul (UsuarioUpdate.email datos))
        then (Rechazo (Excepcion ValueError), db)
        else
        match list_find
                (fun u => Some (Usuario.email u) = UsuarioUpdate.email datos
                          /\ Usuario.id u <> Usuario.id current_user)
                (usuarios db) with
        | Some _ => (Rechazo (Http 400 EmailYaEnUso), db)
        | None => guardar
        end
      else guardar
  end.

(** [PUT /me], with [response_model=UsuarioResponse]; [validate_email] is
    the check of [EmailStr]. *)
Definition actualizar_mi_perfil (validate_email : string -> option string) (db : DB)
    (token : option Z) (datos : UsuarioUpdate.t) (now : datetime)
    : respuesta UsuarioResponse.t * DB :=
  responder (UsuarioResponse.validate validate_email)
    (actualizar_mi_perfil_cuerpo db token datos now).

(** ** routers/auth.py: the two logins *)

Module UsuarioLogin.
Record t := mk {
  id : Z;
  nombre : string;
  email : string;
  rol : string;
  debe_cambiar_password : bool
}.
End UsuarioLogin.

Module LoginResponse.
Record t := mk {
  access_token : string;
  token_type : string;
  usuario : UsuarioLogin.t
}.
End LoginResponse.

Module Token.
Record t := mk {
  access_token : string;
  token_type : string
}.
End Token.

Section Acceso.

(** [utils/security.py]; [create_access_token] is given the [sub] and the
    [rol] of its [data], the expiry being a constant of the settings. *)
Variable verify_password : string -> string -> bool.
Variable create_access_token : Z -> string -> string.

(** [POST /login]. *)
Definition login (db : DB) (email password : string) : respuesta LoginResponse.t :=
  if negb (sin_nul (Some email)) then Rechazo (Excepcion ValueError)
  else
  match list_find (fun u => Usuario.email u = email) (usuarios db) with
  | None => Rechazo (Http HTTP_401_UNAUTHORIZED EmailOContrasenaIncorrectos)
  | Some (_, usuario) =>
      if negb (verify_password password (Usuario.password_hash usuario))
      then Rechazo (Http HTTP_401_UNAUTHORIZED EmailOContrasenaIncorrectos)
      else if negb (Usuario.activo usuario)
      then Rechazo (Excepcion (HTTPException HTTP_403_FORBIDDEN UsuarioInactivo))
      else
        Exito (LoginResponse.mk
                 (create_access_token (Usuario.id usuario) (Usuario.rol usuario))
                 "bearer"
                 (UsuarioLogin.mk (Usuario.id usuario) (Usuario.nombre usuario)
                    (Usuario.email usuario) (Usuario.rol usuario)
                    (Usuario.debe_cambiar_password usuario)))
  end.

(** [POST /token]; [username] and [password] are the fields of the form. *)
Definition login_for_access_token (db : DB) (username password : string)
    : respuesta Token.t :=
  if negb (sin_nul (Some username)) then Rechazo (Excepcion ValueError)
  else
  match list_find (fun u => Usuario.email u = username) (usuarios db) with
  | None => Rechazo (Http HTTP_401_UNAUTHORIZED EmailOContrasenaIncorrectos)
  | Some (_, usuario) =>
      if negb (verify_password password (Usuario.password_hash usuario))
      then Rechazo (Http HTTP_401_UNAUTHORIZED EmailOContrasenaIncorrectos)
      else if negb (Usuario.activo usuario)
      then Rechazo (Http HTTP_403_FORBIDDEN UsuarioInactivoSinContacto)
      else
        Exito (Token.mk (create_access_token (Usuario.id usuario) (Usuario.rol usuario))
                 "bearer")
  end.

End Acceso.

(** * Properties *)

(** ** The age stored with a CT exam *)

Lemma crear_examen_tac_cuerpo_ok db current_user examen_data now resp db' :
  crear_examen_tac_cuerpo db current_user examen_data now = (Ok resp, db') ->
  exists examen_base examen_tac,
    resp = respuesta_tac examen_base examen_tac
    /\ ExamenTAC.examen_base_id examen_tac = ExamenBase.id examen_base
    /\ ExamenBase.fecha_realizacion examen_base
       = ExamenTACCreate.fecha_realizacion examen_data
    /\ ExamenTAC.fecha_nacimiento examen_tac = ExamenTACCreate.fecha_nacimiento examen_data
    /\ ExamenTAC.edad examen_tac
       = option_map
           (fun fecha_nacimiento =>
              calcular_edad fecha_nacimiento (ExamenTACCreate.fecha_realizacion examen_data))
           (ExamenTACCreate.fecha_nacimiento examen_data)
    /\ last (examenes_base db') = Some examen_base
    /\ last (examenes_tac db') = Some examen_tac.
Proof.
  unfold crear_examen_tac_cuerpo.
  destruct (obtener_o_crear_paciente _ _ _ _ _) as [[paciente|e] db1]; [|discriminate].
  destruct (extraer_mes_anio _) as [mes anio].
  destruct (negb (adapta_examen_base _)); [discriminate|].
  destruct (negb (acepta_examen_base _ _)); [discriminate|].
  destruct (negb (adapta_examen_tac _)); [discriminate|].
  destruct (negb (acepta_examen_tac _ _)); [discriminate|].
  intros H. inversion H; subst; clear H.
  eexists _, _. split; [reflexivity|]. cbn.
  repeat split; try apply last_snoc.
Qed.

(** C4. The age derived for a CT exam is the difference of the years, less
    one exactly when the realization month is earlier than the birth
    month, or the months are equal and the realization day is earlier than
    the birth day; born 2000-06-15, the age is 23 on 2024-06-14 and 24 on
    2024-06-15 and on 2024-06-16; a registration stores that age with the
    exam, and stores no age when the body has no birth date. *)
Theorem calcular_edad_tac :
  (forall fecha_nacimiento fecha_realizacion : date,
      calcular_edad fecha_nacimiento fecha_realizacion
      = year fecha_realizacion - year fecha_nacimiento
        - (if decide (month fecha_realizacion < month fecha_nacimiento
                      \/ (month fecha_realizacion = month fecha_nacimiento
                          /\ day fecha_realizacion < day fecha_nacimiento))
           then 1 else 0))
  /\ calcular_edad (mkdate 2000 6 15) (mkdate 2024 6 14) = 23
  /\ calcular_edad (mkdate 2000 6 15) (mkdate 2024 6 15) = 24
  /\ calcular_edad (mkdate 2000 6 15) (mkdate 2024 6 16) = 24
  /\ (forall db token body now resp db',
         crear_examen_tac db token body now = (Ok resp, db') ->
         exists examen_tac,
           last (examenes_tac db') = Some examen_tac
           /\ ExamenTAC.examen_base_id examen_tac = ExamenTACResponse.id resp
           /\ ExamenTAC.edad examen_tac
              = option_map
                  (fun fecha_nacimiento =>
                     calcular_edad fecha_nacimiento (ExamenTACCreate.fecha_realizacion body))
                  (ExamenTACCreate.fecha_nacimiento body)
           /\ ExamenTACResponse.edad resp = ExamenTAC.edad examen_tac
           /\ (ExamenTACCreate.fecha_nacimiento body = None
               -> ExamenTAC.edad examen_tac = None)).
Proof.
  split; [|split; [reflexivity|split; [reflexivity|split; [reflexivity|]]]].
  - intros fn fr. unfold calcular_edad.
    destruct (decide _) as [H|H].
    + replace ((month fr <? month fn) || (month fr =? month fn) && (day fr <? day fn))
        with true; [lia|].
      symmetry. apply orb_true_iff. rewrite andb_true_iff.
      rewrite !Z.ltb_lt, Z.eqb_eq. exact H.
    + replace ((month fr <? month fn) || (month fr =? month fn) && (day fr <? day fn))
        with false; [lia|].
      symmetry. apply not_true_iff_false. intros Hb. apply H.
      apply orb_true_iff in Hb. rewrite andb_true_iff in Hb.
      rewrite !Z.ltb_lt, Z.eqb_eq in Hb. exact Hb.
  - intros db token body now resp db' H.
    unfold crear_examen_tac in H.
    destruct (require_ingresador_o_admin db token) as [current_user|e]; [|discriminate].
    unfold ExamenTACCreate.validate in H.
    destruct (validar_tac _ _ _ _) as [[]|e]; [|discriminate]. cbn in H.
    apply crear_examen_tac_cuerpo_ok in H.
    destruct H as (b & t & -> & Hid & _ & _ & Hedad & _ & Ht).
    exists t. repeat split; try assumption.
    intros Hn. rewrite Hedad, Hn. reflexivity.
Qed.

Lemma calcular_edad_tac_witness :
  exists resp db',
    crear_examen_tac Ejemplo.db (Some 2)
      (Ejemplo.body (mkdate 2024 6 10) (mkdate 2024 6 14) (Some (mkdate 2000 6 15)) None None)
      500 = (Ok resp, db')
    /\ exists examen_tac,
         last (examenes_tac db') = Some examen_tac
         /\ ExamenTAC.edad examen_tac = Some 23
         /\ ExamenTACResponse.edad resp = Some 23.
Proof.
  destruct calcular_edad_tac as (_ & _ & _ & _ & H).
  destruct (crear_examen_tac Ejemplo.db (Some 2)
              (Ejemplo.body (mkdate 2024 6 10) (mkdate 2024 6 14) (Some (mkdate 2000 6 15))
                 None None) 500) as [[resp|e] db'] eqn:Hc;
    [|vm_compute in Hc; discriminate].
  exists resp, db'. split; [reflexivity|].
  destruct (H _ _ _ _ _ _ Hc) as (t & Hl & _ & He & Hr & _).
  exists t. split; [exact Hl|]. split; [exact He|]. rewrite Hr. exact He.
Defined.

(** ** The RUT validator *)

Lemma suma_digitos_raise digitos suma multiplo e :
  suma_digitos digitos suma multiplo = Raise e -> e = ValueError.
Proof.
  revert suma multiplo. induction digitos as [|d ds IH]; intros suma multiplo; cbn.
  - discriminate.
  - unfold PyStr.int_of_chr. destruct (_ && _)%N; cbn.
    + apply IH.
    + congruence.
Qed.

Lemma validar_rut_chileno_raise rut e :
  validar_rut_chileno rut = Raise e -> e = ValueError.
Proof.
  unfold validar_rut_chileno.
  destruct (_ <? _)%nat; [discriminate|].
  destruct (negb _); [discriminate|].
  destruct (suma_digitos _ _ _) eqn:Hs; cbn; [discriminate|].
  intros [= <-]. eapply suma_digitos_raise, Hs.
Qed.

Lemma up1_casos c :
  (up1 c = c /\ ~ (97 <= c <= 122)%N /\ c <> 181%N /\ ~ (224 <= c <= 254 /\ c <> 247)%N
   /\ c <> 255%N)
  \/ ((97 <= c <= 122)%N /\ up1 c = (c - 32)%N)
  \/ (c = 181%N /\ up1 c = 924%N)
  \/ ((224 <= c <= 254)%N /\ c <> 247%N /\ up1 c = (c - 32)%N)
  \/ (c = 255%N /\ up1 c = 376%N).
Proof.
  unfold up1, PyStr.chr_upper.
  destruct (N.leb_spec 97 c), (N.leb_spec c 122); cbn [andb];
    try (right; left; split; [lia|reflexivity]);
    (destruct (N.eqb_spec c 181); [right; right; left; split; [assumption|reflexivity]|]);
    (destruct (N.eqb_spec c 223); [left; cbn; repeat split; lia|]);
    (destruct (N.leb_spec 224 c), (N.leb_spec c 254), (N.eqb_spec c 247); cbn [andb negb];
     try (right; right; right; left; repeat split; lia));
    (destruct (N.eqb_spec c 255);
     [right; right; right; right; split; [assumption|reflexivity]|]);
    left; cbn; repeat split; lia.
Qed.

Lemma chr_upper_up1 c : c <> 223%N -> PyStr.chr_upper c = [up1 c].
Proof.
  intros Hc. unfold up1, PyStr.chr_upper.
  destruct (_ && _)%N; [reflexivity|].
  destruct (c =? 181)%N; [reflexivity|].
  destruct (N.eqb_spec c 223); [contradiction|].
  destruct (_ && _)%N; [reflexivity|].
  destruct (c =? 255)%N; reflexivity.
Qed.

Lemma upper_sin_eszett (s : list N) :
  Forall (fun c => c <> 223%N) s -> PyStr.upper s = map up1 s.
Proof.
  unfold PyStr.upper. induction 1 as [|c s Hc _ IH]; cbn; [reflexivity|].
  rewrite chr_upper_up1 by exact Hc. cbn. f_equal. exact IH.
Qed.

Lemma chr_isdigit_rango c :
  PyStr.chr_isdigit c = true
  <-> ((48 <= c <= 57)%N \/ c = 178%N \/ c = 179%N \/ c = 185%N).
Proof.
  unfold PyStr.chr_isdigit.
  rewrite !orb_true_iff, andb_true_iff, !N.leb_le, !N.eqb_eq. tauto.
Qed.

Lemma chr_isdigit_up1 c :
  PyStr.chr_isdigit (up1 c) = PyStr.chr_isdigit c
  /\ (PyStr.chr_isdigit c = true -> up1 c = c).
Proof.
  assert (forall a b, (a = true <-> b = true) -> a = b) as Hbool.
  { intros [] [] [H1 H2]; auto. symmetry. auto. }
  split.
  - apply Hbool. rewrite !chr_isdigit_rango.
    destruct (up1_casos c) as [(-> & _)|[(? & ->)|[(? & ->)|[(? & ? & ->)|(? & ->)]]]];
      [tauto|lia..].
  - rewrite chr_isdigit_rango. intros Hd.
    destruct (up1_casos c) as [(-> & _)|[(? & ->)|[(? & ->)|[(? & ? & ->)|(? & ->)]]]];
      [reflexivity|lia..].
Qed.

Lemma peso_S i :
  Referencia.peso (S i)
  = if Referencia.peso i + 1 =? 8 then 2 else Referencia.peso i + 1.
Proof.
  unfold Referencia.peso.
  pose proof (Nat.mod_upper_bound i 6 ltac:(lia)) as Hlt.
  pose proof (Nat.div_mod_eq i 6) as Hdm.
  destruct (Z.eqb_spec (2 + Z.of_nat (i mod 6) + 1) 8) as [H8|H8].
  - assert (S i mod 6 = 0)%nat as ->; [|reflexivity].
    symmetry. apply (Nat.mod_unique (S i) 6 (S (i / 6)) 0); lia.
  - assert (S i mod 6 = S (i mod 6))%nat as ->; [|lia].
    symmetry. apply (Nat.mod_unique (S i) 6 (i / 6) (S (i mod 6))); lia.
Qed.

Lemma int_of_chr_decimal (d : ascii) :
  Referencia.es_decimal d = true ->
  PyStr.int_of_chr (N_of_ascii d) = Ok (Referencia.valor d).
Proof.
  unfold Referencia.es_decimal, PyStr.int_of_chr, Referencia.valor. cbn zeta.
  intros ->. reflexivity.
Qed.

Lemma suma_digitos_decimal (ds : list ascii) suma i :
  forallb Referencia.es_decimal ds = true ->
  suma_digitos (map N_of_ascii ds) suma (Referencia.peso i)
  = Ok (suma + Referencia.suma_ponderada (map Referencia.valor ds) i).
Proof.
  revert suma i. induction ds as [|d ds IH]; intros suma i Hd; cbn.
  - f_equal. lia.
  - cbn in Hd. apply andb_prop in Hd as [Hd Hds].
    rewrite int_of_chr_decimal by exact Hd. cbn [bind].
    rewrite <- peso_S, IH by exact Hds. f_equal. lia.
Qed.

Lemma suma_digitos_no_decimal (ds : list N) suma multiplo :
  Exists (fun d => PyStr.int_of_chr d = Raise ValueError) ds ->
  suma_digitos ds suma multiplo = Raise ValueError.
Proof.
  intros Hex. revert suma multiplo.
  induction Hex as [d ds Hd|d ds _ IH]; intros suma multiplo; cbn.
  - rewrite Hd. reflexivity.
  - destruct (PyStr.int_of_chr d) as [v|e] eqn:Hd; cbn [bind]; [apply IH|].
    unfold PyStr.int_of_chr in Hd. destruct (_ && _)%N; congruence.
Qed.

Lemma isdigit_forallb s :
  PyStr.isdigit s = true <-> s <> [] /\ forallb PyStr.chr_isdigit s = true.
Proof.
  destruct s as [|c s]; cbn; [split; [discriminate|intros [H _]; congruence]|].
  split; [intros H; split; [discriminate|exact H]|tauto].
Qed.

Lemma isdigit_no_digito s x :
  x ∈ s -> PyStr.chr_isdigit x = false -> PyStr.isdigit s = false.
Proof.
  intros Hx Hd. apply not_true_iff_false. intros H.
  apply isdigit_forallb in H as [_ H].
  rewrite forallb_forall in H. apply list_elem_of_In, H in Hx. congruence.
Qed.

Lemma upper_app s1 s2 : PyStr.upper (s1 ++ s2) = PyStr.upper s1 ++ PyStr.upper s2.
Proof. unfold PyStr.upper. rewrite map_app, concat_app. reflexivity. Qed.

Lemma isdigit_upper_eszett s :
  223%N ∈ s -> PyStr.isdigit (removelast (PyStr.upper s)) = false.
Proof.
  intros Hin. apply list_elem_of_split in Hin as (l1 & l2 & ->).
  rewrite upper_app.
  change (PyStr.upper (223%N :: l2)) with (83%N :: 83%N :: PyStr.upper l2).
  rewrite removelast_app by discriminate.
  change (removelast (83%N :: 83%N :: PyStr.upper l2))
    with (83%N :: removelast (83%N :: PyStr.upper l2)).
  apply (isdigit_no_digito _ 83%N); [|reflexivity].
  apply elem_of_app. right. left.
Qed.

Lemma digito_verificador_rango numeros :
  let n := N_of_ascii (Referencia.digito_verificador numeros) in
  (n = 75 \/ (48 <= n <= 57))%N.
Proof.
  unfold Referencia.digito_verificador.
  set (s := Referencia.suma_ponderada _ _).
  pose proof (Z.mod_pos_bound s 11 ltac:(lia)) as Hm.
  destruct (Z.eqb_spec (11 - s mod 11) 11); [right; cbn; lia|].
  destruct (Z.eqb_spec (11 - s mod 11) 10); [left; reflexivity|].
  cbn zeta. rewrite N_ascii_embedding by lia. right. lia.
Qed.

Lemma N_of_ascii_inj a b : N_of_ascii a = N_of_ascii b -> a = b.
Proof.
  intros H. rewrite <- (ascii_N_embedding a), <- (ascii_N_embedding b). congruence.
Qed.

Lemma es_decimal_isdigit c :
  Referencia.es_decimal c = true -> PyStr.chr_isdigit (N_of_ascii c) = true.
Proof.
  unfold Referencia.es_decimal, PyStr.chr_isdigit. cbn zeta. intros ->. reflexivity.
Qed.

Lemma mayuscula_casos c :
  (c = "k"%char /\ Referencia.mayuscula c = "K"%char)
  \/ (c <> "k"%char /\ Referencia.mayuscula c = c).
Proof.
  unfold Referencia.mayuscula. destruct (Ascii.eqb_spec c "k"); [left|right]; tauto.
Qed.

(** The reference rejects an identifier that holds a sharp s. *)
Lemma rut_valido_eszett rl c :
  223%N ∈ map N_of_ascii (rl ++ [c]) ->
  forallb Referencia.es_decimal rl
  && bool_decide (Some (Referencia.mayuscula c) = Some (Referencia.digito_verificador rl))
  = false.
Proof.
  intros Hin. apply not_true_iff_false. intros H.
  apply andb_prop in H as [Hd Hc]. apply bool_decide_eq_true in Hc.
  injection Hc as Hc.
  rewrite map_app in Hin. apply elem_of_app in Hin as [Hin|Hin].
  - apply list_elem_of_In, in_map_iff in Hin as (x & Hx & Hxin).
    rewrite forallb_forall in Hd. apply Hd, es_decimal_isdigit in Hxin.
    rewrite Hx in Hxin. discriminate.
  - apply list_elem_of_singleton in Hin.
    pose proof (digito_verificador_rango rl) as Hr. cbn zeta in Hr. rewrite <- Hc in Hr.
    destruct (mayuscula_casos c) as [[-> _]|[_ Hm]]; [discriminate|].
    rewrite Hm, <- Hin in Hr. lia.
Qed.

Lemma str_of_int_digito dv :
  1 <= dv <= 9 ->
  PyStr.str_of_int dv = [N_of_ascii (ascii_of_N (Z.to_N (48 + dv)))].
Proof.
  intros H.
  assert (dv = 1 \/ dv = 2 \/ dv = 3 \/ dv = 4 \/ dv = 5 \/ dv = 6 \/ dv = 7 \/ dv = 8
          \/ dv = 9) as Hc by lia.
  repeat destruct Hc as [->|Hc]; try subst dv; reflexivity.
Qed.

Lemma dv_calculado_referencia rl :
  let dv := 11 - (Referencia.suma_ponderada (map Referencia.valor (rev rl)) 0) mod 11 in
  (if dv =? 11 then PyStr.codepoints "0"
   else if dv =? 10 then PyStr.codepoints "K"
   else PyStr.str_of_int dv)
  = [N_of_ascii (Referencia.digito_verificador rl)].
Proof.
  unfold Referencia.digito_verificador.
  set (s := Referencia.suma_ponderada _ _). cbn zeta.
  pose proof (Z.mod_pos_bound s 11 ltac:(lia)) as Hm.
  destruct (Z.eqb_spec (11 - s mod 11) 11); [reflexivity|].
  destruct (Z.eqb_spec (11 - s mod 11) 10); [reflexivity|].
  apply str_of_int_digito. lia.
Qed.

Lemma comparar_dv c dvc :
  (N_of_ascii dvc = 75 \/ (48 <= N_of_ascii dvc <= 57))%N ->
  [up1 (N_of_ascii c)] = [N_of_ascii dvc] <-> Some (Referencia.mayuscula c) = Some dvc.
Proof.
  intros Hr. pose proof (N_ascii_bounded c) as Hc. split.
  - intros [= H]. f_equal.
    destruct (mayuscula_casos c) as [[-> ->]|[Hk ->]].
    + apply N_of_ascii_inj. rewrite <- H. reflexivity.
    + apply N_of_ascii_inj.
      destruct (up1_casos (N_of_ascii c))
        as [(Hu & _)|[(? & Hu)|[(? & Hu)|[(? & ? & Hu)|(? & Hu)]]]];
        rewrite Hu in H; try lia.
      exfalso. apply Hk. apply N_of_ascii_inj. cbn. lia.
  - intros [= H]. f_equal.
    destruct (mayuscula_casos c) as [[-> Hm]|[Hk Hm]]; rewrite Hm in H; subst dvc.
    + reflexivity.
    + destruct (up1_casos (N_of_ascii c))
        as [(Hu & _)|[(? & Hu)|[(? & Hu)|[(? & ? & Hu)|(? & Hu)]]]];
        rewrite Hu; lia.
Qed.

Lemma forallb_isdigit_up1 s :
  forallb PyStr.chr_isdigit (map up1 s) = forallb PyStr.chr_isdigit s.
Proof.
  induction s as [|c s IH]; cbn; [reflexivity|].
  rewrite (proj1 (chr_isdigit_up1 c)), IH. reflexivity.
Qed.

Lemma map_up1_digitos s :
  forallb PyStr.chr_isdigit s = true -> map up1 s = s.
Proof.
  induction s as [|c s IH]; cbn; [reflexivity|].
  intros H. apply andb_prop in H as [Hc Hs].
  rewrite (proj2 (chr_isdigit_up1 c) Hc), IH by exact Hs. reflexivity.
Qed.

Lemma forallb_rev {A} (f : A -> bool) l : forallb f (rev l) = forallb f l.
Proof.
  induction l as [|x l IH]; cbn; [reflexivity|].
  rewrite forallb_app, IH. cbn. rewrite andb_true_r. apply andb_comm.
Qed.

Lemma no_decimal_superindice rl :
  forallb PyStr.chr_isdigit (map N_of_ascii rl) = true ->
  forallb Referencia.es_decimal rl = false ->
  Exists superindice rl
  /\ Exists (fun d => PyStr.int_of_chr d = Raise ValueError) (map N_of_ascii rl).
Proof.
  induction rl as [|c rl IH]; cbn; [discriminate|].
  intros Hd He. apply andb_prop in Hd as [Hc Hd].
  destruct (Referencia.es_decimal c) eqn:Hdec; cbn in He.
  - destruct (IH Hd He) as [H1 H2]. split; right; assumption.
  - split; left.
    + apply chr_isdigit_rango in Hc. unfold Referencia.es_decimal in Hdec. cbn zeta in Hdec.
      unfold superindice.
      destruct (N.leb_spec 48 (N_of_ascii c)), (N.leb_spec (N_of_ascii c) 57);
        cbn in Hdec; try discriminate; lia.
    + unfold PyStr.int_of_chr. unfold Referencia.es_decimal in Hdec. cbn zeta in Hdec.
      rewrite Hdec. reflexivity.
Qed.

Lemma limpiar_rut_elem c rut :
  c ∈ list_ascii_of_string (limpiar_rut rut) -> c ∈ list_ascii_of_string rut.
Proof.
  unfold limpiar_rut, PyStr.remove_char.
  rewrite !list_ascii_of_string_of_list_ascii.
  intros H. apply list_elem_of_filter in H as [_ H].
  apply list_elem_of_filter in H as [_ H]. exact H.
Qed.

(** Wherever the validator returns, it returns what the reference
    computes; it fails to return, with [ValueError], only on an identifier
    that the reference rejects and that holds a superscript digit. *)
Theorem validar_rut_chileno_referencia rut :
  validar_rut_chileno rut = Ok (Referencia.rut_valido rut)
  \/ (validar_rut_chileno rut = Raise ValueError
      /\ Referencia.rut_valido rut = false
      /\ Exists superindice (list_ascii_of_string rut)).
Proof.
  unfold validar_rut_chileno, Referencia.rut_valido, PyStr.codepoints.
  pose proof (limpiar_rut_elem) as Hsub. specialize (fun c => Hsub c rut).
  set (r := list_ascii_of_string (limpiar_rut rut)) in *. clearbody r.
  destruct r as [|c0 r0] using rev_ind; [left; reflexivity|]. clear IHr0.
  rename r0 into rl. rename c0 into c.
  rewrite removelast_last, last_snoc. cbn [option_map].
  destruct (decide (223%N ∈ map N_of_ascii (rl ++ [c]))) as [Hsz|Hsz].
  - left. rewrite <- andb_assoc, (rut_valido_eszett rl c Hsz), andb_false_r.
    destruct (_ <? _)%nat; [reflexivity|].
    rewrite isdigit_upper_eszett by exact Hsz. reflexivity.
  - rewrite upper_sin_eszett.
    2:{ apply Forall_forall. intros x Hx ->. apply Hsz, Hx. }
    rewrite !map_app. cbn [map]. rewrite removelast_last.
    rewrite !length_app, !length_map. cbn [length].
    replace (length rl + 1 - 1)%nat with (length (map up1 (map N_of_ascii rl)))
      by (rewrite !length_map; lia).
    rewrite drop_app_length.
    destruct (Nat.ltb_spec (length rl + 1) 8) as [Hlen|Hlen].
    { left. rewrite (proj2 (Nat.leb_gt _ _)) by lia. reflexivity. }
    rewrite (proj2 (Nat.leb_le _ _)) by lia. cbn [andb].
    assert (PyStr.isdigit (map up1 (map N_of_ascii rl))
            = forallb PyStr.chr_isdigit (map N_of_ascii rl)) as ->.
    { rewrite <- forallb_isdigit_up1. destruct rl; [cbn in Hlen; lia|reflexivity]. }
    destruct (forallb PyStr.chr_isdigit (map N_of_ascii rl)) eqn:Hdig; cbn [negb].
    + rewrite map_up1_digitos by exact Hdig.
      destruct (forallb Referencia.es_decimal rl) eqn:Hdec; cbn [andb].
      * left. rewrite <- map_rev.
        change 2 with (Referencia.peso 0).
        rewrite suma_digitos_decimal by (rewrite forallb_rev; exact Hdec).
        cbn [bind]. rewrite Z.add_0_l.
        pose proof (dv_calculado_referencia rl) as Hdv. cbn zeta in Hdv.
        unfold PyStr.codepoints in Hdv at 1 2. rewrite Hdv. f_equal.
        apply bool_decide_ext, comparar_dv, digito_verificador_rango.
      * right. destruct (no_decimal_superindice rl Hdig Hdec) as [Hsup Hraise].
        split; [|split; [reflexivity|]].
        -- rewrite suma_digitos_no_decimal; [reflexivity|].
           apply Exists_exists. apply Exists_exists in Hraise as (x & Hx & Hr).
           exists x. split; [|exact Hr].
           apply list_elem_of_In. apply -> in_rev. apply list_elem_of_In. exact Hx.
        -- apply Exists_exists. apply Exists_exists in Hsup as (x & Hx & Hs).
           exists x. split; [|exact Hs]. apply Hsub, elem_of_app. left. exact Hx.
    + left. f_equal. symmetry.
      replace (forallb Referencia.es_decimal rl) with false; [reflexivity|].
      symmetry. apply not_true_iff_false. intros Hdec.
      assert (forallb PyStr.chr_isdigit (map N_of_ascii rl) = true); [|congruence].
      rewrite forallb_forall in *. intros x Hx.
      apply in_map_iff in Hx as (y & <- & Hy). apply es_decimal_isdigit, Hdec, Hy.
Qed.

(** On an identifier of ASCII characters the validator returns, and
    returns what the reference computes. *)
Theorem validar_rut_chileno_ascii rut :
  Forall (fun c => (N_of_ascii c < 128)%N) (list_ascii_of_string rut) ->
  validar_rut_chileno rut = Ok (Referencia.rut_valido rut).
Proof.
  intros Hascii.
  destruct (validar_rut_chileno_referencia rut) as [H|(_ & _ & Hsup)]; [exact H|].
  apply Exists_exists in Hsup as (x & Hx & Hs).
  rewrite Forall_forall in Hascii. apply Hascii in Hx. unfold superindice in Hs. lia.
Qed.

(** C1. On the nine characters 1234567, superscript two (U+00B2), 5 the
    validator does not return: [str.isdigit] accepts the superscript in the
    numeric portion, so the guard lets it through, and [int] raises
    [ValueError] on it.  The reference algorithm rejects that input. *)
Theorem validar_rut_chileno_superindice :
  let rut := ("1234567" ++ String "178" "5")%string in
  validar_rut_chileno rut = Raise ValueError
  /\ PyStr.isdigit (removelast (PyStr.upper (PyStr.codepoints (limpiar_rut rut)))) = true
  /\ Referencia.rut_valido rut = false.
Proof. repeat split; vm_compute; reflexivity. Qed.

(** ** Cross-field rules of the CT registration *)

Lemma date_lt_irrefl d : date_lt d d = false.
Proof.
  unfold date_lt. rewrite !Z.ltb_irrefl, !Z.eqb_refl. reflexivity.
Qed.

Lemma obtener_o_crear_paciente_no_validation db rut nombre fecha_nac now regla :
  (obtener_o_crear_paciente db rut nombre fecha_nac now).1 <> Raise (ValidationError regla).
Proof.
  unfold obtener_o_crear_paciente.
  destruct (validar_rut_chileno _) as [[]|e] eqn:Hv; cbn.
  - destruct (list_find _ _) as [[i p]|].
    + destruct fecha_nac, (Paciente.fecha_nacimiento p); cbn; discriminate.
    + destruct (negb (PyStr.truthy nombre)); cbn; [discriminate|].
      destruct (negb (adapta_paciente _)); cbn; [discriminate|].
      destruct (negb (acepta_paciente _)); cbn; discriminate.
  - discriminate.
  - apply validar_rut_chileno_raise in Hv. subst e. discriminate.
Qed.

Lemma crear_examen_tac_cuerpo_no_validation db current_user examen_data now regla :
  (crear_examen_tac_cuerpo db current_user examen_data now).1
  <> Raise (ValidationError regla).
Proof.
  unfold crear_examen_tac_cuerpo.
  pose proof (obtener_o_crear_paciente_no_validation db
                (ExamenTACCreate.paciente_rut examen_data)
                (ExamenTACCreate.paciente_nombre examen_data)
                (ExamenTACCreate.fecha_nacimiento examen_data) now regla) as Hp.
  destruct (obtener_o_crear_paciente _ _ _ _ _) as [[paciente|e] db1]; cbn in *.
  - destruct (negb (adapta_examen_base _)); cbn; [discriminate|].
    destruct (negb (acepta_examen_base _ _)); cbn; [discriminate|].
    destruct (negb (adapta_examen_tac _)); cbn; [discriminate|].
    destruct (negb (acepta_examen_tac _ _)); cbn; discriminate.
  - intros [= ->]. apply Hp. reflexivity.
Qed.

(** C2. A CT registration whose request date is strictly later than the
    realization date fails with [ValidationError]; when the two dates are
    equal the registration does not fail on that rule. *)
Theorem registro_tac_fecha_solicitud db token body now current_user :
  require_ingresador_o_admin db token = Ok current_user ->
  (date_gt (ExamenTACCreate.fecha_solicitud body) (ExamenTACCreate.fecha_realizacion body)
   = true ->
   crear_examen_tac db token body now
   = (Raise (ValidationError FechaSolicitudPosterior), db))
  /\ (ExamenTACCreate.fecha_solicitud body = ExamenTACCreate.fecha_realizacion body ->
      (crear_examen_tac db token body now).1
      <> Raise (ValidationError FechaSolicitudPosterior)).
Proof.
  intros Hu. unfold crear_examen_tac, ExamenTACCreate.validate, validar_tac.
  rewrite Hu. split.
  - intros ->. reflexivity.
  - intros ->. unfold date_gt. rewrite date_lt_irrefl. cbn.
    destruct (_ && _); cbn; [discriminate|].
    apply crear_examen_tac_cuerpo_no_validation.
Qed.

Lemma registro_tac_fecha_solicitud_witness :
  require_ingresador_o_admin Ejemplo.db (Some 2) = Ok Ejemplo.ingresador
  /\ crear_examen_tac Ejemplo.db (Some 2)
       (Ejemplo.body (mkdate 2024 6 16) (mkdate 2024 6 15) None None None) 500
     = (Raise (ValidationError FechaSolicitudPosterior), Ejemplo.db)
  /\ (crear_examen_tac Ejemplo.db (Some 2)
        (Ejemplo.body (mkdate 2024 6 15) (mkdate 2024 6 15) None None None) 500).1
     <> Raise (ValidationError FechaSolicitudPosterior).
Proof.
  split; [reflexivity|]. split.
  - apply (registro_tac_fecha_solicitud Ejemplo.db (Some 2)
             (Ejemplo.body (mkdate 2024 6 16) (mkdate 2024 6 15) None None None) 500
             Ejemplo.ingresador); reflexivity.
  - apply (registro_tac_fecha_solicitud Ejemplo.db (Some 2)
             (Ejemplo.body (mkdate 2024 6 15) (mkdate 2024 6 15) None None None) 500
             Ejemplo.ingresador); reflexivity.
Defined.

Lemma chr_lower_bounded n : (n < 256)%N -> (PyStr.chr_lower n < 256)%N.
Proof.
  intros Hn. unfold PyStr.chr_lower.
  repeat match goal with
         | |- context [(?a <=? ?b)%N] => destruct (N.leb_spec a b)
         | |- context [(?a =? ?b)%N] => destruct (N.eqb_spec a b)
         end; cbn; lia.
Qed.

Lemma chr_lower_letra (c k : ascii) :
  N_of_ascii k = 32%N \/ ((97 <= N_of_ascii k)%N /\ (N_of_ascii k <= 122)%N) ->
  ascii_of_N (PyStr.chr_lower (N_of_ascii c)) = k <-> misma_letra c k.
Proof.
  intros Hk. pose proof (N_ascii_bounded c) as Hc.
  assert (ascii_of_N (PyStr.chr_lower (N_of_ascii c)) = k
          <-> PyStr.chr_lower (N_of_ascii c) = N_of_ascii k) as ->.
  { split.
    - intros <-. rewrite N_ascii_embedding; [reflexivity|].
      apply chr_lower_bounded, Hc.
    - intros ->. apply ascii_N_embedding. }
  assert (c = k <-> N_of_ascii c = N_of_ascii k) as Hinj.
  { split; [congruence|]. intros H.
    rewrite <- (ascii_N_embedding c), <- (ascii_N_embedding k). congruence. }
  unfold misma_letra. rewrite Hinj. unfold PyStr.chr_lower.
  repeat match goal with
         | |- context [(?a <=? ?b)%N] => destruct (N.leb_spec a b)
         | |- context [(?a =? ?b)%N] => destruct (N.eqb_spec a b)
         end; cbn; lia.
Qed.

Lemma Forall2_iff_dentro {A B} (R1 R2 : A -> B -> Prop) (Q : B -> Prop) l l' :
  Forall Q l' ->
  (forall c k, Q k -> (R1 c k <-> R2 c k)) ->
  Forall2 R1 l l' <-> Forall2 R2 l l'.
Proof.
  intros HQ Hiff. revert l. induction HQ as [|k l' Hk HQ IH]; intros l.
  - split; intros H; inversion H; constructor.
  - split; intros H; inversion H; subst; constructor;
      try (apply (Hiff _ _ Hk); assumption); apply IH; assumption.
Qed.

(** The test of the validator, [vfge.lower() != "sin creatinina"], is the
    negation of [es_sin_creatinina]. *)
Lemma lower_sin_creatinina (vfge : string) :
  PyStr.lower vfge = "sin creatinina"%string <-> es_sin_creatinina vfge.
Proof.
  unfold PyStr.lower, es_sin_creatinina.
  set (f := fun a => ascii_of_N (PyStr.chr_lower (N_of_ascii a))).
  assert (string_of_list_ascii (map f (list_ascii_of_string vfge))
          = "sin creatinina"%string
          <-> map f (list_ascii_of_string vfge)
              = list_ascii_of_string "sin creatinina") as ->.
  { split.
    - intros H. rewrite <- H, list_ascii_of_string_of_list_ascii. reflexivity.
    - intros ->. reflexivity. }
  rewrite list_eq_Forall2. change (map f ?l) with (f <$> l). rewrite Forall2_fmap_l.
  apply (Forall2_iff_dentro _ _
           (fun k => N_of_ascii k = 32%N
                     \/ ((97 <= N_of_ascii k)%N /\ (N_of_ascii k <= 122)%N))).
  - cbn. repeat constructor; cbn; lia.
  - intros c k Hk. apply chr_lower_letra, Hk.
Qed.

(** C3. A CT registration whose renal-function value is a non-empty
    string other than the sentinel "sin creatinina" in any letter case,
    and whose [premedicado] is null, fails with [ValidationError]; when
    the value is absent, or is the sentinel in any letter case, the
    registration does not fail on that rule.  The value is not required to
    be a number. *)
Theorem registro_tac_premedicado db token body now current_user :
  require_ingresador_o_admin db token = Ok current_user ->
  (forall v,
      ExamenTACCreate.vfge body = Some v ->
      v <> EmptyString ->
      ~ es_sin_creatinina v ->
      ExamenTACCreate.premedicado body = None ->
      exists regla,
        crear_examen_tac db token body now = (Raise (ValidationError regla), db)
        /\ (date_gt (ExamenTACCreate.fecha_solicitud body)
              (ExamenTACCreate.fecha_realizacion body) = false ->
            regla = PremedicadoObligatorio))
  /\ (ExamenTACCreate.vfge body = None
      \/ (exists v, ExamenTACCreate.vfge body = Some v /\ es_sin_creatinina v) ->
      (crear_examen_tac db token body now).1
      <> Raise (ValidationError PremedicadoObligatorio)).
Proof.
  intros Hu. unfold crear_examen_tac, ExamenTACCreate.validate, validar_tac.
  rewrite Hu. split.
  - intros v Hv Hne Hs Hp. rewrite Hv, Hp.
    assert (bool_decide (PyStr.lower v = "sin creatinina"%string) = false) as Hb.
    { apply bool_decide_eq_false_2. rewrite lower_sin_creatinina. exact Hs. }
    cbn [from_option id]. rewrite Hb.
    destruct v as [|a v]; [congruence|].
    destruct (date_gt _ _); cbn.
    + eexists. split; [reflexivity|discriminate].
    + eexists. split; reflexivity.
  - intros Hv.
    assert (PyStr.truthy (ExamenTACCreate.vfge body)
            && negb (bool_decide
                       (PyStr.lower (default EmptyString (ExamenTACCreate.vfge body))
                        = "sin creatinina"%string))
            = false) as Hc.
    { destruct Hv as [->|(v & -> & Hs)]; [reflexivity|]. cbn [from_option id].
      rewrite bool_decide_eq_true_2; [|rewrite lower_sin_creatinina; exact Hs].
      apply andb_false_r. }
    rewrite Hc. destruct (date_gt _ _); cbn; [discriminate|].
    apply crear_examen_tac_cuerpo_no_validation.
Qed.

Lemma registro_tac_premedicado_witness :
  require_ingresador_o_admin Ejemplo.db (Some 2) = Ok Ejemplo.ingresador
  /\ (exists regla,
         crear_examen_tac Ejemplo.db (Some 2)
           (Ejemplo.body (mkdate 2024 6 15) (mkdate 2024 6 15) None (Some "12.5"%string) None)
           500
         = (Raise (ValidationError regla), Ejemplo.db))
  /\ (crear_examen_tac Ejemplo.db (Some 2)
        (Ejemplo.body (mkdate 2024 6 15) (mkdate 2024 6 15) None
           (Some "Sin Creatinina"%string) None) 500).1
     <> Raise (ValidationError PremedicadoObligatorio).
Proof.
  split; [reflexivity|]. split.
  - destruct (registro_tac_premedicado Ejemplo.db (Some 2)
                (Ejemplo.body (mkdate 2024 6 15) (mkdate 2024 6 15) None
                   (Some "12.5"%string) None) 500 Ejemplo.ingresador eq_refl) as [H _].
    destruct (H "12.5"%string eq_refl) as (regla & Hr & _).
    + discriminate.
    + intros Hs. inversion Hs as [|? ? ? ? Hl]. destruct Hl as [Hl|(_ & _ & Hl)]; discriminate.
    + reflexivity.
    + exists regla. exact Hr.
  - apply (registro_tac_premedicado Ejemplo.db (Some 2)
             (Ejemplo.body (mkdate 2024 6 15) (mkdate 2024 6 15) None
                (Some "Sin Creatinina"%string) None) 500 Ejemplo.ingresador eq_refl).
    right. eexists. split; [reflexivity|].
    apply lower_sin_creatinina. reflexivity.
Defined.

(** ** The patient registry *)

(** A RUT the validator accepts holds decimal digits and a check character:
    the queries that look it up are never given the NUL character. *)
Lemma forallb_filter_resto {A} (f : A -> bool) (P : A -> Prop) `{forall x, Decision (P x)}
    (l : list A) :
  (forall x, ~ P x -> f x = true) -> forallb f (filter P l) = forallb f l.
Proof.
  intros Hf. induction l as [|x l IH]; [reflexivity|].
  rewrite filter_cons. destruct (decide (P x)) as [Hx|Hx]; cbn; rewrite IH; [reflexivity|].
  rewrite (Hf x Hx). reflexivity.
Qed.

Lemma sin_nul_limpiar_rut rut : sin_nul (Some (limpiar_rut rut)) = sin_nul (Some rut).
Proof.
  unfold sin_nul, limpiar_rut, PyStr.remove_char.
  rewrite !list_ascii_of_string_of_list_ascii.
  rewrite !forallb_filter_resto; [reflexivity|..];
    intros x Hx; apply dec_stable in Hx; subst x; reflexivity.
Qed.

Lemma validar_rut_chileno_sin_nul rut :
  validar_rut_chileno rut = Ok true -> sin_nul (Some (limpiar_rut rut)) = true.
Proof.
  intros Hv.
  destruct (validar_rut_chileno_referencia rut) as [Hr|[Hr _]]; [|congruence].
  rewrite Hv in Hr. injection Hr as Hr. symmetry in Hr.
  unfold Referencia.rut_valido in Hr. cbn zeta in Hr.
  apply andb_prop in Hr as [Hr Hdv]. apply andb_prop in Hr as [Hlen Hdec].
  apply bool_decide_eq_true in Hdv. apply Nat.leb_le in Hlen.
  unfold sin_nul.
  destruct (list_ascii_of_string (limpiar_rut rut)) as [|a l] eqn:Hl using rev_ind;
    [cbn in Hlen; lia|].
  clear IHl. rewrite removelast_last in Hdec, Hdv. rewrite last_snoc in Hdv.
  rewrite forallb_app. apply andb_true_intro. split.
  - rewrite forallb_forall in Hdec. apply forallb_forall. intros c Hc.
    specialize (Hdec c Hc). unfold Referencia.es_decimal in Hdec.
    destruct (Ascii.eqb_spec c "000") as [->|]; [discriminate Hdec|reflexivity].
  - cbn. rewrite andb_true_r. injection Hdv as Hdv.
    pose proof (digito_verificador_rango l) as Hrango. cbn zeta in Hrango.
    rewrite <- Hdv in Hrango.
    destruct (Ascii.eqb_spec a "000") as [->|]; [|reflexivity].
    cbn in Hrango. lia.
Qed.

Lemma list_find_insert_mismo {A} (P : A -> Prop) `{forall x, Decision (P x)}
    (l : list A) i x y :
  list_find P l = Some (i, x) -> P y -> list_find P (<[i:=y]> l) = Some (i, y).
Proof.
  intros Hf Hy. apply list_find_Some in Hf as (Hi & Hx & Hlt).
  apply list_find_insert_Some. right. left.
  repeat split; try assumption.
  eapply lookup_lt_Some, Hi.
Qed.

Lemma list_find_snoc_nuevo {A} (P : A -> Prop) `{forall x, Decision (P x)}
    (l : list A) x :
  list_find P l = None -> P x -> list_find P (l ++ [x]) = Some (length l, x).
Proof.
  intros Hn Hx. rewrite list_find_app_r by assumption. cbn.
  destruct (decide (P x)); [|contradiction]. reflexivity.
Qed.

Lemma obtener_o_crear_paciente_repetido db rut nombre fecha_nac now paciente db1 :
  obtener_o_crear_paciente db rut nombre fecha_nac now = (Ok paciente, db1) ->
  forall nombre' fecha_nac' now',
    fecha_nac' = None \/ fecha_nac' = fecha_nac ->
    obtener_o_crear_paciente db1 rut nombre' fecha_nac' now' = (Ok paciente, db1).
Proof.
  unfold obtener_o_crear_paciente.
  destruct (validar_rut_chileno _) as [[]|e]; [|discriminate..].
  destruct (list_find _ (pacientes db)) as [[i p]|] eqn:Hf.
  - pose proof Hf as Hf'. apply list_find_Some in Hf' as (_ & Hrut & _).
    destruct fecha_nac as [f|], (Paciente.fecha_nacimiento p) as [g|] eqn:Hg;
      intros [= <- <-] nombre' fecha_nac' now' Hfn; cbn.
    + rewrite Hf, Hg. destruct fecha_nac'; reflexivity.
    + erewrite list_find_insert_mismo; [|exact Hf|exact Hrut].
      cbn. destruct fecha_nac'; reflexivity.
    + rewrite Hf, Hg. destruct fecha_nac'; reflexivity.
    + rewrite Hf, Hg. destruct Hfn as [->| ->]; reflexivity.
  - destruct (negb (PyStr.truthy nombre)); [discriminate|].
    destruct (negb (adapta_paciente _)); [discriminate|].
    destruct (negb (acepta_paciente _)); [discriminate|].
    intros [= <- <-] nombre' fecha_nac' now' Hfn; cbn.
    rewrite list_find_snoc_nuevo; [|exact Hf|reflexivity]. cbn.
    destruct Hfn as [->| ->]; destruct fecha_nac; reflexivity.
Qed.

(** C5. For a checksum-valid national ID: a call that returns a patient,
    repeated with the same ID and no new birth date, returns the same
    patient and leaves the store as the first call left it; the first call
    does return a patient when the ID is registered, or when a name is
    given that holds no NUL character and, like the cleaned ID, fits its
    column; and when the patient exists without a birth date and one is
    supplied, the birth date is written on that row, in place, and that
    patient is returned. *)
Theorem obtener_o_crear_paciente_idempotente db rut :
  validar_rut_chileno (limpiar_rut rut) = Ok true ->
  (forall nombre fecha_nac now paciente db1,
      obtener_o_crear_paciente db rut nombre fecha_nac now = (Ok paciente, db1) ->
      forall nombre' now',
        obtener_o_crear_paciente db1 rut nombre' None now' = (Ok paciente, db1)
        /\ obtener_o_crear_paciente db1 rut nombre' fecha_nac now' = (Ok paciente, db1))
  /\ (forall nombre fecha_nac now,
         is_Some (list_find (fun p => Paciente.rut p = limpiar_rut rut) (pacientes db))
         \/ (exists n, nombre = Some n /\ n <> EmptyString
                       /\ sin_nul (Some n) = true
                       /\ (String.length (limpiar_rut rut) <= 12)%nat
                       /\ (String.length n <= 200)%nat) ->
         exists paciente db1,
           obtener_o_crear_paciente db rut nombre fecha_nac now = (Ok paciente, db1)
           /\ Paciente.rut paciente = limpiar_rut rut)
  /\ (forall nombre fecha_nac now i paciente,
         list_find (fun p => Paciente.rut p = limpiar_rut rut) (pacientes db)
         = Some (i, paciente) ->
         Paciente.fecha_nacimiento paciente = None ->
         let actualizado :=
           Paciente.mk (Paciente.id paciente) (Paciente.rut paciente)
             (Paciente.nombre_completo paciente) (Some fecha_nac)
             (Paciente.created_at paciente) now in
         obtener_o_crear_paciente db rut nombre (Some fecha_nac) now
         = (Ok actualizado,
            with_pacientes db (<[i:=actualizado]> (pacientes db)) (pacientes_seq db))).
Proof.
  intros Hv. split; [|split].
  - intros nombre fecha_nac now paciente db1 H nombre' now'.
    split; eapply obtener_o_crear_paciente_repetido; eauto.
  - intros nombre fecha_nac now Hcond. unfold obtener_o_crear_paciente. rewrite Hv.
    destruct (list_find _ (pacientes db)) as [[i p]|] eqn:Hf.
    + apply list_find_Some in Hf as (_ & Hrut & _).
      destruct fecha_nac, (Paciente.fecha_nacimiento p); eexists _, _; split;
        try reflexivity; exact Hrut.
    + destruct Hcond as [[? [=]]|(n & -> & Hn & Hnul & Hl1 & Hl2)].
      destruct n as [|a n]; [congruence|]. cbn [PyStr.truthy negb].
      pose proof (validar_rut_chileno_sin_nul _ Hv) as Hrn.
      rewrite sin_nul_limpiar_rut in Hrn.
      unfold adapta_paciente. cbn [Paciente.rut Paciente.nombre_completo from_option id].
      rewrite Hrn, Hnul. cbn [andb negb].
      unfold acepta_paciente, cabe. cbn [Paciente.rut Paciente.nombre_completo from_option id].
      rewrite (proj2 (Nat.leb_le _ _) Hl1), (proj2 (Nat.leb_le _ _) Hl2). cbn.
      eexists _, _. split; reflexivity.
  - intros nombre fecha_nac now i paciente Hf Hn. cbn.
    unfold obtener_o_crear_paciente. rewrite Hv, Hf, Hn. reflexivity.
Qed.

Lemma obtener_o_crear_paciente_idempotente_witness :
  validar_rut_chileno (limpiar_rut "12.345.678-5") = Ok true
  /\ (exists paciente db1,
         obtener_o_crear_paciente Ejemplo.db "12.345.678-5" None (Some (mkdate 2000 6 15)) 500
         = (Ok paciente, db1)
         /\ Paciente.id paciente = 1
         /\ Paciente.fecha_nacimiento paciente = Some (mkdate 2000 6 15)
         /\ obtener_o_crear_paciente db1 "12.345.678-5" None None 600 = (Ok paciente, db1))
  /\ validar_rut_chileno (limpiar_rut "11.111.111-1") = Ok true
  /\ (exists paciente db1,
         obtener_o_crear_paciente Ejemplo.db "11.111.111-1" (Some "Luis Soto"%string) None 500
         = (Ok paciente, db1)
         /\ Paciente.rut paciente = "111111111"%string
         /\ obtener_o_crear_paciente db1 "11.111.111-1" None None 600 = (Ok paciente, db1)).
Proof.
  split; [reflexivity|]. split; [|split; [reflexivity|]].
  - destruct (obtener_o_crear_paciente_idempotente Ejemplo.db "12.345.678-5" eq_refl)
      as (Hrep & _ & Hact).
    specialize (Hact None (mkdate 2000 6 15) 500 0%nat Ejemplo.ana eq_refl eq_refl).
    cbn zeta in Hact.
    eexists _, _. split; [exact Hact|]. split; [reflexivity|]. split; [reflexivity|].
    apply (Hrep None (Some (mkdate 2000 6 15)) 500 _ _ Hact None 600).
  - destruct (obtener_o_crear_paciente_idempotente Ejemplo.db "11.111.111-1" eq_refl)
      as (Hrep & Hex & _).
    destruct (Hex (Some "Luis Soto"%string) None 500) as (paciente & db1 & Hop & Hrut).
    { right. exists "Luis Soto"%string.
      split; [reflexivity|]. split; [discriminate|]. split; [reflexivity|].
      split; vm_compute; lia. }
    exists paciente, db1. split; [exact Hop|]. split; [exact Hrut|].
    apply (Hrep _ _ _ _ _ Hop None 600).
Defined.

(** ** Soft delete of a CT exam *)

Lemma join_tac_elem db b t :
  (b, t) ∈ join_tac db ->
  b ∈ examenes_base db /\ t ∈ examenes_tac db
  /\ ExamenTAC.examen_base_id t = ExamenBase.id b.
Proof.
  unfold join_tac. rewrite list_elem_of_In, in_flat_map.
  intros (b' & Hb & Hin). apply in_map_iff in Hin as (t' & [= <- <-] & Ht).
  apply list_elem_of_In, list_elem_of_filter in Ht as [Hid Ht].
  split; [apply list_elem_of_In, Hb|]. split; assumption.
Qed.





Lemma elem_of_insert_clave (l : list ExamenBase.t) i b b' x :
  NoDup (map ExamenBase.id l) ->
  l !! i = Some b ->
  ExamenBase.id b' = ExamenBase.id b ->
  x ∈ <[i:=b']> l ->
  ExamenBase.id x = ExamenBase.id b ->
  x = b'.
Proof.
  intros Hnd Hi Hid' Hx Hid.
  apply list_elem_of_lookup in Hx as [j Hj].
  destruct (decide (i = j)) as [->|Hne].
  - rewrite list_lookup_insert_eq in Hj by (eapply lookup_lt_Some, Hi). congruence.
  - rewrite list_lookup_insert_ne in Hj by exact Hne.
    exfalso. apply Hne. eapply NoDup_lookup; [exact Hnd| |].
    + change (map ExamenBase.id l) with (ExamenBase.id <$> l).
      rewrite list_lookup_fmap, Hi. reflexivity.
    + change (map ExamenBase.id l) with (ExamenBase.id <$> l).
      rewrite list_lookup_fmap, Hj. cbn. congruence.
Qed.




(** ** The monthly report *)

Lemma lookup_foldl_insert {A} (key val : A -> Z) (g : Z -> Z) (l : list A)
    (d : gmap Z Z) (k : Z) :
  (forall x, x ∈ l -> val x = g (key x)) ->
  foldl (fun d x => <[key x:=val x]> d) d l !! k
  = if decide (k ∈ map key l) then Some (g k) else d !! k.
Proof.
  revert d. induction l as [|x l IH]; intros d Hg; cbn.
  - destruct (decide _) as [H|_]; [|reflexivity]. apply elem_of_nil in H. contradiction.
  - rewrite IH by (intros y Hy; apply Hg; right; exact Hy).
    destruct (decide (k ∈ map key l)) as [Hin|Hnin].
    + rewrite decide_True by (right; exact Hin). reflexivity.
    + destruct (decide (key x = k)) as [<-|Hne].
      * rewrite lookup_insert_eq, decide_True by left.
        rewrite Hg by left. reflexivity.
      * rewrite lookup_insert_ne by exact Hne.
        rewrite decide_False; [reflexivity|].
        intros H. apply elem_of_cons in H as [->|H]; [apply Hne; reflexivity|].
        apply Hnin, H.
Qed.

Lemma leer_todos (datos : gmap Z Z) (f : Z -> Z) (claves : list Z) :
  (forall k, k ∈ claves -> datos !! k = Some (f k)) ->
  leer datos claves = Ok (map f claves).
Proof.
  induction claves as [|k ks IH]; intros H; cbn.
  - reflexivity.
  - rewrite (H k) by left. rewrite IH by (intros k' Hk'; apply H; right; exact Hk').
    reflexivity.
Qed.

Lemma filter_ninguno {A} (P : A -> Prop) `{forall x, Decision (P x)} (l : list A) :
  (forall x, x ∈ l -> ~ P x) -> filter P l = [].
Proof.
  induction l as [|x l IH]; intros Hn; [reflexivity|].
  rewrite filter_cons. destruct (decide (P x)) as [Hx|_].
  - exfalso. apply (Hn x); [left|exact Hx].
  - apply IH. intros y Hy. apply Hn. right. exact Hy.
Qed.

Lemma length_filter_ausente (query : list ExamenBase.t) (mes : Z) :
  mes ∉ map ExamenBase.mes_realizacion query ->
  length (filter (fun b => ExamenBase.mes_realizacion b = mes) query) = 0%nat.
Proof.
  intros Hn. induction query as [|b q IH]; [reflexivity|].
  rewrite filter_cons. destruct (decide _) as [Hb|Hb].
  - exfalso. apply Hn. cbn. rewrite <- Hb. left.
  - apply IH. intros H. apply Hn. right. exact H.
Qed.

(** The counts the report reads for the twelve months. *)
Lemma datos_por_mes (query : list ExamenBase.t) (mes : Z) :
  1 <= mes <= 12 ->
  foldl (fun datos resultado => <[resultado.1:=resultado.2]> datos)
    (foldl (fun datos mes => <[mes:=0]> datos) (∅ : gmap Z Z) (seqZ 1 12))
    (agrupar_por_mes query) !! mes
  = Some (Z.of_nat
            (length (filter (fun b => ExamenBase.mes_realizacion b = mes) query))).
Proof.
  intros Hm. unfold agrupar_por_mes.
  set (cuenta := fun mes =>
         Z.of_nat (length (filter (fun b => ExamenBase.mes_realizacion b = mes) query))).
  rewrite (lookup_foldl_insert fst snd cuenta).
  2:{ intros [m c] Hx. apply list_elem_of_In, in_map_iff in Hx as (m' & [= <- <-] & _).
      reflexivity. }
  rewrite map_map. cbn [fst]. rewrite map_id.
  destruct (decide _) as [Hin|Hnin]; [reflexivity|].
  rewrite (lookup_foldl_insert (fun m => m) (fun _ => 0) (fun _ => 0))
    by (intros; reflexivity).
  rewrite map_id, decide_True.
  2:{ apply elem_of_seqZ. lia. }
  subst cuenta. cbn beta. rewrite length_filter_ausente; [reflexivity|].
  intros H. apply Hnin. rewrite merge_sort_Permutation.
  apply elem_of_remove_dups, H.
Qed.

Lemma filter_iff_dentro {A} (P Q : A -> Prop) `{forall x, Decision (P x)}
    `{forall x, Decision (Q x)} (l : list A) :
  (forall x, x ∈ l -> (P x <-> Q x)) -> filter P l = filter Q l.
Proof.
  induction l as [|x l IH]; intros Hiff; [reflexivity|].
  rewrite !filter_cons.
  rewrite IH by (intros y Hy; apply Hiff; right; exact Hy).
  destruct (decide (P x)) as [Hp|Hp], (decide (Q x)) as [Hq|Hq]; try reflexivity;
    exfalso; [apply Hq|apply Hp]; apply (Hiff x); try left; assumption.
Qed.

Lemma cuenta_mes_fecha db anio tipo_examen mes :
  Forall mes_anio_derivados (examenes_base db) ->
  cuenta_mes db anio tipo_examen mes = cuenta_fecha db anio tipo_examen mes.
Proof.
  intros Hd. unfold cuenta_mes, cuenta_fecha. f_equal. f_equal.
  apply filter_iff_dentro. intros b Hb.
  rewrite Forall_forall in Hd. destruct (Hd b Hb) as [-> ->]. reflexivity.
Qed.

(** The two writers of the realization date leave the month and year
    columns derived from it. *)
Lemma crear_examen_tac_cuerpo_derivados db current_user examen_data now resp db' :
  crear_examen_tac_cuerpo db current_user examen_data now = (Ok resp, db') ->
  exists examen_base,
    last (examenes_base db') = Some examen_base /\ mes_anio_derivados examen_base.
Proof.
  unfold crear_examen_tac_cuerpo.
  destruct (obtener_o_crear_paciente _ _ _ _ _) as [[paciente|e] db1]; [|discriminate].
  destruct (extraer_mes_anio _) as [mes anio] eqn:Hma.
  destruct (negb (adapta_examen_base _)); [discriminate|].
  destruct (negb (acepta_examen_base _ _)); [discriminate|].
  destruct (negb (adapta_examen_tac _)); [discriminate|].
  destruct (negb (acepta_examen_tac _ _)); [discriminate|].
  intros [= <- <-]. eexists. split; [apply last_snoc|].
  injection Hma as <- <-. split; reflexivity.
Qed.

Lemma commit_base_derivados db examen_base update_data fecha mes anio current_user now b :
  mes_anio_derivados examen_base ->
  recalcular_fecha examen_base update_data = Ok (fecha, (mes, anio)) ->
  commit_base db examen_base update_data fecha mes anio current_user now = Ok b ->
  mes_anio_derivados b.
Proof.
  intros [Hm Ha] Hr. unfold commit_base.
  destruct (negb (adapta_examen_base_cambio _ _)); [discriminate|].
  destruct (not_null _) as [a|e]; [|discriminate]. cbn [bind].
  destruct (negb _); [discriminate|]. intros [= <-].
  assert (mes = month fecha /\ anio = year fecha) as [-> ->].
  { unfold recalcular_fecha in Hr.
    destruct (ExamenTACUpdate.fecha_realizacion update_data) as [[f|]|];
      [|discriminate|]; injection Hr as <- <- <-; [split; reflexivity|split; assumption]. }
  unfold onupdate_examen_base. destruct (decide _) as [Heq|_].
  - rewrite <- Heq. split; reflexivity.
  - split; reflexivity.
Qed.

(** C7. For every year and optional exam type the monthly report returns
    twelve numbers; the one at index [mes - 1] is the number of exams not
    deleted of that year, and of that type when one is given, whose month
    column is [mes]; it is 0 for a month without exams, and all twelve
    are 0 on a store without exams; where the month and year columns are
    the ones derived from the realization date, that count is the count by
    the month of the date. *)
Theorem examenes_por_periodo_doce db token anio tipo_examen current_user :
  get_current_user db token = Ok current_user ->
  exists r,
    examenes_por_periodo db token anio tipo_examen = Ok r
    /\ length (PorPeriodo.data r) = 12%nat
    /\ (forall mes,
           1 <= mes <= 12 ->
           PorPeriodo.data r !! Z.to_nat (mes - 1)
           = Some (cuenta_mes db anio tipo_examen mes))
    /\ (forall mes,
           1 <= mes <= 12 ->
           (forall b, b ∈ examenes_base db -> ExamenBase.mes_realizacion b <> mes) ->
           PorPeriodo.data r !! Z.to_nat (mes - 1) = Some 0)
    /\ (examenes_base db = [] -> PorPeriodo.data r = replicate 12 0)
    /\ (Forall mes_anio_derivados (examenes_base db) ->
        forall mes,
          1 <= mes <= 12 ->
          PorPeriodo.data r !! Z.to_nat (mes - 1)
          = Some (cuenta_fecha db anio tipo_examen mes)).
Proof.
  intros Hu. unfold examenes_por_periodo. rewrite Hu. cbn [bind].
  set (query := if PyStr.truthy tipo_examen then _ else _).
  set (cuenta := fun mes =>
         Z.of_nat (length (filter (fun b => ExamenBase.mes_realizacion b = mes) query))).
  rewrite (leer_todos _ cuenta).
  2:{ intros k Hk. apply datos_por_mes. apply elem_of_seqZ in Hk. lia. }
  cbn [bind]. eexists. split; [reflexivity|]. cbn [PorPeriodo.data].
  assert (forall mes, cuenta mes = cuenta_mes db anio tipo_examen mes) as Hcuenta.
  { intros mes. unfold cuenta, cuenta_mes, query. f_equal. f_equal.
    destruct (PyStr.truthy tipo_examen).
    - rewrite !list_filter_filter. apply list_filter_iff. intros b. tauto.
    - rewrite list_filter_filter. apply list_filter_iff. intros b.
      split; [|tauto].
      intros (Hm & Ha & Hd). split; [tauto|]. split; [intros [=]|exact Hm]. }
  assert (forall mes, 1 <= mes <= 12 ->
                      map cuenta (seqZ 1 12) !! Z.to_nat (mes - 1)
                      = Some (cuenta_mes db anio tipo_examen mes)) as Hlookup.
  { intros mes Hm. change (map cuenta ?l) with (cuenta <$> l).
    rewrite list_lookup_fmap, lookup_seqZ_lt by lia. cbn.
    rewrite <- Hcuenta. f_equal. f_equal. lia. }
  split; [reflexivity|]. split; [exact Hlookup|]. split.
  - intros mes Hm Hnone. rewrite Hlookup by exact Hm. f_equal.
    unfold cuenta_mes.
    replace (filter _ (examenes_base db)) with (@nil ExamenBase.t); [reflexivity|].
    symmetry. apply filter_ninguno.
    intros b Hb (_ & _ & Hmes). exact (Hnone b Hb Hmes).
  - split.
    + intros Hempty. subst cuenta query. rewrite Hempty.
      destruct (PyStr.truthy tipo_examen); reflexivity.
    + intros Hd mes Hm. rewrite Hlookup by exact Hm.
      rewrite cuenta_mes_fecha by exact Hd. reflexivity.
Qed.

Lemma examenes_por_periodo_doce_witness :
  get_current_user Ejemplo.db (Some 2) = Ok Ejemplo.ingresador
  /\ exists r,
       examenes_por_periodo Ejemplo.db (Some 2) 2024 None = Ok r
       /\ PorPeriodo.data r = [0; 0; 0; 0; 0; 1; 0; 0; 0; 0; 0; 0]
       /\ PorPeriodo.data r !! 2%nat = Some (cuenta_mes Ejemplo.db 2024 None 3).
Proof.
  split; [reflexivity|].
  destruct (examenes_por_periodo_doce Ejemplo.db (Some 2) 2024 None Ejemplo.ingresador
              eq_refl) as (r & Hr & _ & Hmes & _).
  exists r. split; [exact Hr|]. split.
  - vm_compute in Hr. injection Hr as <-. reflexivity.
  - apply (Hmes 3). lia.
Defined.

(** ** Deletion of a patient *)

(** C8, as the code has it.  The patient-delete operation removes a row
    only for an administrator, and a failed call leaves the store as it
    was; for an administrator and an existing patient the operation is not
    blocked by the exams of the patient: it removes the patient row
    together with every exam row that refers to it and with the
    specialization rows (TAC, RX and ECO) of those exams, and it leaves
    the specialization rows of the other exams and the users. *)
Theorem eliminar_paciente_cascada db token paciente_id :
  (forall db',
      eliminar_paciente db token paciente_id = (Ok tt, db') ->
      exists current_user,
        get_current_user db token = Ok current_user
        /\ Usuario.rol current_user = "administrador"%string)
  /\ (forall e db', eliminar_paciente db token paciente_id = (Raise e, db') -> db' = db)
  /\ (forall current_user i paciente,
         get_current_user db token = Ok current_user ->
         Usuario.rol current_user = "administrador"%string ->
         list_find (fun p => Paciente.id p = paciente_id) (pacientes db) = Some (i, paciente) ->
         exists db',
           eliminar_paciente db token paciente_id = (Ok tt, db')
           /\ pacientes db' = delete i (pacientes db)
           /\ examenes_base db'
              = filter (fun b => ExamenBase.paciente_id b <> paciente_id) (examenes_base db)
           /\ (forall b, b ∈ examenes_base db' -> ExamenBase.paciente_id b <> paciente_id)
           /\ (forall b,
                  b ∈ examenes_base db -> ExamenBase.paciente_id b = paciente_id ->
                  (forall t, ExamenTAC.examen_base_id t = ExamenBase.id b ->
                             t ∉ examenes_tac db')
                  /\ (forall r, ExamenRX.examen_base_id r = ExamenBase.id b ->
                                r ∉ examenes_rx db')
                  /\ (forall e, ExamenECO.examen_base_id e = ExamenBase.id b ->
                                e ∉ examenes_eco db'))
           /\ (let examenes :=
                 map ExamenBase.id
                   (filter (fun b => ExamenBase.paciente_id b = paciente_id)
                      (examenes_base db)) in
               examenes_tac db'
               = filter (fun t => ExamenTAC.examen_base_id t ∉ examenes) (examenes_tac db)
               /\ examenes_rx db'
                  = filter (fun r => ExamenRX.examen_base_id r ∉ examenes) (examenes_rx db)
               /\ examenes_eco db'
                  = filter (fun e => ExamenECO.examen_base_id e ∉ examenes)
                      (examenes_eco db))
           /\ usuarios db' = usuarios db).
Proof.
  unfold eliminar_paciente. split; [|split].
  - intros db'. destruct (get_current_user db token) as [u|e]; [|discriminate].
    destruct (bool_decide (Usuario.rol u = "administrador"%string)) eqn:Hrol;
      [|discriminate].
    intros _. exists u. split; [reflexivity|]. apply bool_decide_eq_true in Hrol. exact Hrol.
  - intros e db'. destruct (get_current_user db token) as [u|e']; [|congruence].
    destruct (negb _); [congruence|].
    destruct (list_find _ _) as [[i p]|]; [discriminate|congruence].
  - intros u i paciente -> Hrol Hf. rewrite bool_decide_eq_true_2 by exact Hrol.
    cbn [negb]. rewrite Hf.
    apply list_find_Some in Hf as (_ & Hid & _). rewrite Hid.
    eexists. split; [reflexivity|]. cbn.
    split; [reflexivity|]. split; [reflexivity|]. split.
    + intros b Hb. apply list_elem_of_filter in Hb. tauto.
    + split; [|split; [split; [|split]; reflexivity|reflexivity]].
      intros b Hb Hbp.
      assert (ExamenBase.id b
              ∈ map ExamenBase.id
                  (filter (fun b => ExamenBase.paciente_id b = paciente_id)
                     (examenes_base db))) as Hin.
      { apply list_elem_of_In, in_map, list_elem_of_In.
        apply list_elem_of_filter. split; assumption. }
      split; [|split].
      * intros t Htb Ht. apply list_elem_of_filter in Ht as [Hnot _].
        apply Hnot. rewrite Htb. exact Hin.
      * intros r Hrb Hr. apply list_elem_of_filter in Hr as [Hnot _].
        apply Hnot. rewrite Hrb. exact Hin.
      * intros e Heb He. apply list_elem_of_filter in He as [Hnot _].
        apply Hnot. rewrite Heb. exact Hin.
Qed.

Lemma eliminar_paciente_cascada_witness :
  get_current_user Ejemplo.db (Some 1) = Ok Ejemplo.admin
  /\ list_find (fun p => Paciente.id p = 1) (pacientes Ejemplo.db) = Some (0%nat, Ejemplo.ana)
  /\ (exists db',
         eliminar_paciente Ejemplo.db (Some 1) 1 = (Ok tt, db')
         /\ pacientes db' = []
         /\ forall b, b ∈ examenes_base db' -> ExamenBase.paciente_id b <> 1)
  /\ (exists current_user,
         get_current_user Ejemplo.db (Some 1) = Ok current_user
         /\ Usuario.rol current_user = "administrador"%string)
  /\ eliminar_paciente Ejemplo.db (Some 2) 1
     = (Raise (HTTPException HTTP_403_FORBIDDEN SinPermisoEliminarPacientes), Ejemplo.db)
  /\ (exists db',
         eliminar_paciente Ejemplo.db3 (Some 1) 1 = (Ok tt, db')
         /\ pacientes db' = [Ejemplo.luis]
         /\ examenes_base db' = [Ejemplo.base13]
         /\ examenes_tac db' = [] /\ examenes_rx db' = []
         /\ examenes_eco db' = [Ejemplo.eco13]).
Proof.
  split; [reflexivity|]. split; [reflexivity|].
  assert (exists db',
             eliminar_paciente Ejemplo.db3 (Some 1) 1 = (Ok tt, db')
             /\ pacientes db' = [Ejemplo.luis]
             /\ examenes_base db' = [Ejemplo.base13]
             /\ examenes_tac db' = [] /\ examenes_rx db' = []
             /\ examenes_eco db' = [Ejemplo.eco13]) as Hrx.
  { destruct (eliminar_paciente_cascada Ejemplo.db3 (Some 1) 1) as (_ & _ & H).
    destruct (H Ejemplo.admin 0%nat Ejemplo.ana eq_refl eq_refl eq_refl)
      as (db' & Hop & Hp & Hb & _ & _ & (Ht & Hr & He) & _).
    exists db'. split; [exact Hop|].
    rewrite Hp, Hb, Ht, Hr, He. repeat split; vm_compute; reflexivity. }
  destruct (eliminar_paciente_cascada Ejemplo.db (Some 1) 1) as (Hadmin & _ & H).
  destruct (H Ejemplo.admin 0%nat Ejemplo.ana eq_refl eq_refl eq_refl)
    as (db' & Hop & Hp & _ & Hb & _).
  split; [exists db'; split; [exact Hop|]; split; [exact Hp|exact Hb]|].
  split; [exact (Hadmin db' Hop)|].
  destruct (eliminar_paciente_cascada Ejemplo.db (Some 2) 1) as (_ & Hfalla & _).
  destruct (eliminar_paciente Ejemplo.db (Some 2) 1) as [r db2] eqn:Hop2.
  assert (r = Raise (HTTPException HTTP_403_FORBIDDEN SinPermisoEliminarPacientes)) as ->.
  { vm_compute in Hop2. injection Hop2 as <- _. reflexivity. }
  rewrite (Hfalla _ _ eq_refl). split; [reflexivity|exact Hrx].
Defined.

(** C8 as stated fails on the code: patient 1 is referenced by exam 10,
    and the delete by the administrator is not blocked; the patient row
    and the exam rows are gone from the store. *)
Lemma eliminar_paciente_con_examenes :
  (exists b, b ∈ examenes_base Ejemplo.db /\ ExamenBase.paciente_id b = 1)
  /\ (exists p, p ∈ pacientes Ejemplo.db /\ Paciente.id p = 1)
  /\ exists db',
       eliminar_paciente Ejemplo.db (Some 1) 1 = (Ok tt, db')
       /\ pacientes db' = []
       /\ examenes_base db' = []
       /\ examenes_tac db' = [].
Proof.
  split; [exists Ejemplo.base10; split; [left|reflexivity]|].
  split; [exists Ejemplo.ana; split; [left|reflexivity]|].
  eexists. split; [vm_compute; reflexivity|]. repeat split.
Qed.

(** ** Deactivation and deletion of a user *)

Lemma get_current_user_find db token current_user :
  get_current_user db token = Ok current_user ->
  exists k,
    list_find (fun u => Usuario.id u = Usuario.id current_user) (usuarios db)
    = Some (k, current_user).
Proof.
  unfold get_current_user. destruct token as [usuario_id|]; [|discriminate].
  destruct (list_find _ _) as [[k u]|] eqn:Hf; [|discriminate].
  destruct (negb _); [discriminate|]. intros [= <-].
  pose proof Hf as Hf'. apply list_find_Some in Hf' as (_ & <- & _).
  exists k. exact Hf.
Qed.

Lemma require_admin_find db token current_user :
  require_admin db token = Ok current_user ->
  exists k,
    list_find (fun u => Usuario.id u = Usuario.id current_user) (usuarios db)
    = Some (k, current_user).
Proof.
  unfold require_admin.
  destruct (get_current_user db token) as [u|e] eqn:Hu; [|discriminate]. cbn [bind].
  destruct (negb _); [discriminate|]. intros [= <-].
  eapply get_current_user_find, Hu.
Qed.

Lemma desvincular_conserva usuario_id now b :
  ExamenBase.id (desvincular usuario_id now b) = ExamenBase.id b
  /\ ExamenBase.deleted_at (desvincular usuario_id now b) = ExamenBase.deleted_at b.
Proof.
  unfold desvincular, onupdate_examen_base.
  destruct (decide _) as [_|_]; split; reflexivity.
Qed.

(** C9, as the code has it.  The two administrator operations, the toggle
    of the active flag and the deletion of a user, refuse to act on the
    account of the caller.  A user deletes their own account only through
    the self-delete operation, which succeeds only with their password
    and while they have created no exam.  The deletion of another user who
    has created exams fails unless the cascade is requested; with the
    cascade every exam the user created carries a deletion timestamp and
    the user row is removed. *)
Theorem usuarios_cuenta_propia :
  (forall db token current_user now,
      require_admin db token = Ok current_user ->
      toggle_usuario db token (Usuario.id current_user) now
      = (Raise (HTTPException 400 NoPuedesDesactivarte), db))
  /\ (forall db token current_user eliminar_examenes now,
         require_admin db token = Ok current_user ->
         eliminar_usuario db token (Usuario.id current_user) eliminar_examenes now
         = (Raise (HTTPException 400 NoPuedesEliminarte), db))
  /\ (forall verify_password db token password now db',
         eliminar_mi_cuenta verify_password db token password now = (Ok tt, db') ->
         exists current_user,
           get_current_user db token = Ok current_user
           /\ verify_password password (Usuario.password_hash current_user) = true
           /\ examenes_de db (Usuario.id current_user) = []
           /\ usuarios db'
              = filter (fun u => Usuario.id u <> Usuario.id current_user) (usuarios db))
  /\ (forall db token current_user usuario_id now i usuario,
         require_admin db token = Ok current_user ->
         list_find (fun u => Usuario.id u = usuario_id) (usuarios db) = Some (i, usuario) ->
         usuario_id <> Usuario.id current_user ->
         examenes_de db usuario_id <> [] ->
         eliminar_usuario db token usuario_id false now
         = (Raise (HTTPException 400
                     (UsuarioTieneExamenes (Z.of_nat (length (examenes_de db usuario_id))))),
            db)
         /\ exists db',
              eliminar_usuario db token usuario_id true now = (Ok tt, db')
              /\ usuarios db' = delete i (usuarios db)
              /\ length (examenes_base db') = length (examenes_base db)
              /\ forall j b,
                   examenes_base db !! j = Some b ->
                   ExamenBase.created_by b = Some usuario_id ->
                   exists b',
                     examenes_base db' !! j = Some b'
                     /\ ExamenBase.id b' = ExamenBase.id b
                     /\ ExamenBase.deleted_at b' = Some now).
Proof.
  split; [|split; [|split]].
  - intros db token cu now Hu. unfold toggle_usuario. rewrite Hu.
    destruct (require_admin_find _ _ _ Hu) as [k ->].
    rewrite decide_True by reflexivity. reflexivity.
  - intros db token cu flag now Hu. unfold eliminar_usuario. rewrite Hu.
    destruct (require_admin_find _ _ _ Hu) as [k ->].
    rewrite decide_True by reflexivity. reflexivity.
  - intros verify db token password now db'. unfold eliminar_mi_cuenta.
    destruct (get_current_user db token) as [cu|e]; [|discriminate].
    destruct (verify password _) eqn:Hv; [|discriminate]. cbn [negb].
    destruct (0 <? _) eqn:Hc; [discriminate|].
    intros [= <-]. exists cu. split; [reflexivity|]. split; [exact Hv|].
    split; [|reflexivity].
    apply Z.ltb_ge in Hc. destruct (examenes_de db (Usuario.id cu)); [reflexivity|].
    cbn in Hc. lia.
  - intros db token cu usuario_id now i usuario Hu Hf Hne Hex.
    unfold eliminar_usuario. rewrite Hu, Hf.
    pose proof Hf as Hf'. apply list_find_Some in Hf' as (_ & Hid & _).
    destruct (decide (Usuario.id usuario = Usuario.id cu)) as [Heq|_]; [congruence|].
    assert ((0 <? Z.of_nat (length (examenes_de db usuario_id))) = true) as ->.
    { apply Z.ltb_lt. destruct (examenes_de db usuario_id); [congruence|]. cbn. lia. }
    split; [reflexivity|]. cbn [negb andb].
    eexists. split; [reflexivity|]. cbn.
    split; [reflexivity|]. split; [rewrite !length_map; reflexivity|].
    intros j b Hj Hb.
    change (map ?f ?l) with (f <$> l).
    rewrite !list_lookup_fmap, Hj. cbn. rewrite decide_True by exact Hb.
    eexists. split; [reflexivity|].
    destruct (desvincular_conserva usuario_id now (set_deleted_at b now)) as [-> ->].
    split; reflexivity.
Qed.

Lemma usuarios_cuenta_propia_witness :
  require_admin Ejemplo.db2 (Some 1) = Ok Ejemplo.admin
  /\ toggle_usuario Ejemplo.db2 (Some 1) 1 500
     = (Raise (HTTPException 400 NoPuedesDesactivarte), Ejemplo.db2)
  /\ eliminar_usuario Ejemplo.db2 (Some 1) 1 true 500
     = (Raise (HTTPException 400 NoPuedesEliminarte), Ejemplo.db2)
  /\ list_find (fun u => Usuario.id u = 2) (usuarios Ejemplo.db2)
     = Some (1%nat, Ejemplo.ingresador)
  /\ examenes_de Ejemplo.db2 2 = [Ejemplo.base11]
  /\ eliminar_usuario Ejemplo.db2 (Some 1) 2 false 500
     = (Raise (HTTPException 400 (UsuarioTieneExamenes 1)), Ejemplo.db2)
  /\ (exists db' b',
         eliminar_usuario Ejemplo.db2 (Some 1) 2 true 500 = (Ok tt, db')
         /\ usuarios db' = [Ejemplo.admin]
         /\ examenes_base db' !! 1%nat = Some b'
         /\ ExamenBase.id b' = 11
         /\ ExamenBase.deleted_at b' = Some 500)
  /\ (exists current_user,
         get_current_user Ejemplo.db (Some 2) = Ok current_user
         /\ String.eqb "secreto" (Usuario.password_hash current_user) = true
         /\ examenes_de Ejemplo.db (Usuario.id current_user) = []).
Proof.
  destruct usuarios_cuenta_propia as (Htoggle & Heliminar & Hmia & Hotro).
  split; [reflexivity|]. split.
  { apply (Htoggle Ejemplo.db2 (Some 1) Ejemplo.admin 500). reflexivity. }
  split.
  { apply (Heliminar Ejemplo.db2 (Some 1) Ejemplo.admin true 500). reflexivity. }
  split; [reflexivity|]. split; [reflexivity|].
  destruct (Hotro Ejemplo.db2 (Some 1) Ejemplo.admin 2 500 1%nat Ejemplo.ingresador
              eq_refl eq_refl) as [Hfalla (db' & Hop & Hus & _ & Hex)];
    [discriminate..|].
  split; [exact Hfalla|]. split.
  - destruct (Hex 1%nat Ejemplo.base11 eq_refl eq_refl) as (b' & Hb' & Hid & Hdel).
    exists db', b'. split; [exact Hop|]. split; [exact Hus|]. split; [exact Hb'|].
    split; [exact Hid|exact Hdel].
  - destruct (eliminar_mi_cuenta String.eqb Ejemplo.db (Some 2) "secreto" 500)
      as [[[]|e] db1] eqn:Hop1; [|vm_compute in Hop1; discriminate].
    destruct (Hmia _ _ _ _ _ _ Hop1) as (cu & Hcu & Hpw & Hsin & _).
    exists cu. split; [exact Hcu|]. split; [exact Hpw|exact Hsin].
Defined.

(** C9 as stated fails on the code: user 2, who has created no exam,
    calls the self-delete operation with the password that verifies, and
    the account is deleted.  [String.eqb] stands for [verify_password]: it
    accepts the password equal to the stored hash. *)
Lemma eliminar_mi_cuenta_elimina :
  get_current_user Ejemplo.db (Some 2) = Ok Ejemplo.ingresador
  /\ exists db',
       eliminar_mi_cuenta String.eqb Ejemplo.db (Some 2) "secreto" 500 = (Ok tt, db')
       /\ usuarios db' = [Ejemplo.admin]
       /\ get_current_user db' (Some 2)
          = Raise (HTTPException HTTP_401_UNAUTHORIZED CredencialesInvalidas).
Proof.
  split; [reflexivity|].
  eexists. split; [vm_compute; reflexivity|]. split; reflexivity.
Qed.

(** ** Update of a CT exam *)








Lemma require_admin_rol db token current_user :
  require_admin db token = Ok current_user ->
  Usuario.rol current_user = "administrador"%string.
Proof.
  unfold require_admin. destruct (get_current_user db token) as [u|e]; [|discriminate].
  cbn [bind]. destruct (bool_decide _) eqn:Hrol; [|discriminate].
  intros [= <-]. apply bool_decide_eq_true in Hrol. exact Hrol.
Qed.






(** * Further properties of the code *)

(** ** Separators of a RUT *)

Lemma limpiar_rut_lista rut :
  list_ascii_of_string (limpiar_rut rut)
  = filter (fun c => c <> "-"%char)
      (filter (fun c => c <> "."%char) (list_ascii_of_string rut)).
Proof.
  unfold limpiar_rut, PyStr.remove_char.
  rewrite !list_ascii_of_string_of_list_ascii. reflexivity.
Qed.

Lemma string_of_list_ascii_inj_lista (s t : string) :
  list_ascii_of_string s = list_ascii_of_string t -> s = t.
Proof.
  intros H. rewrite <- (string_of_list_ascii_of_string s),
    <- (string_of_list_ascii_of_string t), H. reflexivity.
Qed.

Lemma limpiar_rut_limpio rut :
  Forall (fun c => c <> "."%char /\ c <> "-"%char) (list_ascii_of_string rut) ->
  limpiar_rut rut = rut.
Proof.
  intros H. apply string_of_list_ascii_inj_lista. rewrite limpiar_rut_lista.
  induction H as [|c l [H1 H2] _ IH]; [reflexivity|].
  rewrite filter_cons, decide_True by exact H1.
  rewrite filter_cons, decide_True by exact H2. f_equal. exact IH.
Qed.

Lemma limpiar_rut_sin_separadores rut :
  Forall (fun c => c <> "."%char /\ c <> "-"%char)
    (list_ascii_of_string (limpiar_rut rut)).
Proof.
  rewrite limpiar_rut_lista. apply Forall_forall. intros c Hc.
  apply list_elem_of_filter in Hc as [H1 Hc].
  apply list_elem_of_filter in Hc as [H2 _]. split; assumption.
Qed.

Lemma limpiar_rut_idem rut : limpiar_rut (limpiar_rut rut) = limpiar_rut rut.
Proof. apply limpiar_rut_limpio, limpiar_rut_sin_separadores. Qed.

Lemma validar_rut_chileno_limpio rut :
  validar_rut_chileno (limpiar_rut rut) = validar_rut_chileno rut.
Proof. unfold validar_rut_chileno. rewrite limpiar_rut_idem. reflexivity. Qed.

(** X1. [limpiar_rut] leaves no dot and no dash and is idempotent; the
    validator and the patient registry see a RUT only through it: two
    spellings that clean to the same string are validated alike and are
    resolved alike by [obtener_o_crear_paciente]. *)
Theorem limpiar_rut_separadores :
  (forall rut,
      limpiar_rut (limpiar_rut rut) = limpiar_rut rut
      /\ Forall (fun c => c <> "."%char /\ c <> "-"%char)
           (list_ascii_of_string (limpiar_rut rut))
      /\ validar_rut_chileno (limpiar_rut rut) = validar_rut_chileno rut)
  /\ (forall a b,
         limpiar_rut a = limpiar_rut b ->
         validar_rut_chileno a = validar_rut_chileno b
         /\ forall db nombre fecha_nac now,
              obtener_o_crear_paciente db a nombre fecha_nac now
              = obtener_o_crear_paciente db b nombre fecha_nac now).
Proof.
  split.
  - intros rut. split; [apply limpiar_rut_idem|].
    split; [apply limpiar_rut_sin_separadores|apply validar_rut_chileno_limpio].
  - intros a b Hab. split.
    + unfold validar_rut_chileno. rewrite Hab. reflexivity.
    + intros db nombre fecha_nac now. unfold obtener_o_crear_paciente.
      rewrite Hab. reflexivity.
Qed.

Lemma limpiar_rut_separadores_witness :
  limpiar_rut "12.345.678-5" = limpiar_rut "123456785"
  /\ validar_rut_chileno "12.345.678-5" = validar_rut_chileno "123456785"
  /\ obtener_o_crear_paciente Ejemplo.db "12.345.678-5" None None 500
     = obtener_o_crear_paciente Ejemplo.db "123456785" None None 500.
Proof.
  split; [reflexivity|].
  destruct limpiar_rut_separadores as [_ H].
  destruct (H "12.345.678-5"%string "123456785"%string eq_refl) as [Hv Ho].
  split; [exact Hv|apply Ho].
Defined.

(** ** The check character of a RUT *)

Lemma es_decimal_no_separador c :
  Referencia.es_decimal c = true -> c <> "."%char /\ c <> "-"%char.
Proof.
  intros H. split; intros ->; discriminate.
Qed.

(** X2. For a numeric portion of at least seven decimal digits the
    validator accepts one check character and only that one, a digit or
    K, and accepts K in lower case as well. *)
Theorem validar_rut_chileno_un_digito (numeros : list ascii) :
  forallb Referencia.es_decimal numeros = true ->
  (7 <= length numeros)%nat ->
  exists dv,
    (dv = "K"%char \/ Referencia.es_decimal dv = true)
    /\ forall c,
         (N_of_ascii c < 128)%N -> c <> "."%char -> c <> "-"%char ->
         validar_rut_chileno (string_of_list_ascii (numeros ++ [c])) = Ok true
         <-> (c = dv \/ (dv = "K"%char /\ c = "k"%char)).
Proof.
  intros Hdec Hlen. exists (Referencia.digito_verificador numeros). split.
  { pose proof (digito_verificador_rango numeros) as Hr. cbn zeta in Hr.
    destruct Hr as [Hr|Hr].
    - left. apply N_of_ascii_inj. exact Hr.
    - right. unfold Referencia.es_decimal. cbn zeta.
      rewrite (proj2 (N.leb_le _ _)), (proj2 (N.leb_le _ _)) by lia. reflexivity. }
  intros c Hc Hdot Hdash.
  assert (Forall (fun x => x <> "."%char /\ x <> "-"%char) (numeros ++ [c])) as Hsep.
  { apply Forall_app. split; [|repeat constructor; assumption].
    apply Forall_forall. intros x Hx. apply es_decimal_no_separador.
    rewrite forallb_forall in Hdec. apply Hdec, list_elem_of_In, Hx. }
  rewrite validar_rut_chileno_ascii.
  2:{ rewrite list_ascii_of_string_of_list_ascii. apply Forall_app. split.
      - apply Forall_forall. intros x Hx. rewrite forallb_forall in Hdec.
        apply list_elem_of_In, Hdec in Hx. unfold Referencia.es_decimal in Hx.
        cbn zeta in Hx. apply andb_prop in Hx as [_ Hx]. apply N.leb_le in Hx. lia.
      - repeat constructor. exact Hc. }
  unfold Referencia.rut_valido.
  rewrite limpiar_rut_limpio
    by (rewrite list_ascii_of_string_of_list_ascii; exact Hsep).
  rewrite list_ascii_of_string_of_list_ascii, removelast_last, last_snoc, Hdec.
  rewrite length_app. cbn [length option_map].
  rewrite (proj2 (Nat.leb_le 8 _)) by lia. cbn [andb].
  split.
  - intros [= H]. apply bool_decide_eq_true in H. injection H as H.
    destruct (mayuscula_casos c) as [[-> Hm]|[_ Hm]]; rewrite Hm in H.
    + right. split; [congruence|reflexivity].
    + left. exact H.
  - intros H. f_equal. apply bool_decide_eq_true. f_equal.
    destruct H as [->|[Hk ->]].
    + destruct (mayuscula_casos (Referencia.digito_verificador numeros))
        as [[Hk _]|[_ Hm]]; [|exact Hm].
      pose proof (digito_verificador_rango numeros) as Hr. cbn zeta in Hr.
      rewrite Hk in Hr. cbn in Hr. lia.
    + rewrite Hk. reflexivity.
Qed.

Lemma validar_rut_chileno_un_digito_witness :
  forallb Referencia.es_decimal (list_ascii_of_string "12345678") = true
  /\ (7 <= length (list_ascii_of_string "12345678"))%nat
  /\ validar_rut_chileno "123456785" = Ok true
  /\ validar_rut_chileno "123456786" <> Ok true.
Proof.
  split; [reflexivity|]. split; [cbn; lia|].
  destruct (validar_rut_chileno_un_digito (list_ascii_of_string "12345678") eq_refl)
    as (dv & _ & H); [cbn; lia|].
  assert (dv = "5"%char) as ->.
  { destruct (proj1 (H "5"%char ltac:(cbn; lia) ltac:(discriminate) ltac:(discriminate)))
      as [Hd|[_ Hd]]; [reflexivity|congruence|discriminate]. }
  split.
  - apply (H "5"%char); [cbn; lia|discriminate..|left; reflexivity].
  - intros Hv. apply (H "6"%char) in Hv; [|cbn; lia|discriminate..].
    destruct Hv as [Hv|[Hv _]]; discriminate.
Defined.


(** ** The age in years *)

Lemma date_lt_iff a b :
  date_lt a b = true
  <-> year a < year b
      \/ (year a = year b
          /\ (month a < month b \/ (month a = month b /\ day a < day b))).
Proof.
  unfold date_lt.
  rewrite !orb_true_iff, !andb_true_iff, !orb_true_iff, !andb_true_iff,
    !Z.ltb_lt, !Z.eqb_eq. reflexivity.
Qed.

Lemma date_le_iff a b :
  date_le a b = true
  <-> year a < year b
      \/ (year a = year b
          /\ (month a < month b \/ (month a = month b /\ day a <= day b))).
Proof.
  unfold date_le. rewrite negb_true_iff, <- not_true_iff_false, date_lt_iff. lia.
Qed.

Lemma calcular_edad_casos fn fr :
  (calcular_edad fn fr = year fr - year fn - 1
   /\ (month fr < month fn \/ (month fr = month fn /\ day fr < day fn)))
  \/ (calcular_edad fn fr = year fr - year fn
      /\ ~ (month fr < month fn \/ (month fr = month fn /\ day fr < day fn))).
Proof.
  unfold calcular_edad.
  destruct (_ || _) eqn:H; [left|right]; (split; [reflexivity|]).
  - rewrite orb_true_iff, andb_true_iff, !Z.ltb_lt, Z.eqb_eq in H. exact H.
  - apply not_true_iff_false in H.
    rewrite orb_true_iff, andb_true_iff, !Z.ltb_lt, Z.eqb_eq in H. exact H.
Qed.

(** X3. The age is not negative exactly when the birth date is not after
    the reference date; it is 0 on the birth date itself, and it does not
    decrease when the reference date moves forward. *)
Theorem calcular_edad_orden fecha_nacimiento :
  calcular_edad fecha_nacimiento fecha_nacimiento = 0
  /\ (forall fecha_referencia,
         0 <= calcular_edad fecha_nacimiento fecha_referencia
         <-> date_le fecha_nacimiento fecha_referencia = true)
  /\ (forall antes despues,
         date_le antes despues = true ->
         calcular_edad fecha_nacimiento antes <= calcular_edad fecha_nacimiento despues).
Proof.
  split; [|split].
  - destruct (calcular_edad_casos fecha_nacimiento fecha_nacimiento) as [[-> H]|[-> H]]; lia.
  - intros fr. rewrite date_le_iff.
    destruct (calcular_edad_casos fecha_nacimiento fr) as [[-> H]|[-> H]]; lia.
  - intros a d. rewrite date_le_iff. intros Hle.
    destruct (calcular_edad_casos fecha_nacimiento a) as [[-> Ha]|[-> Ha]],
        (calcular_edad_casos fecha_nacimiento d) as [[-> Hd]|[-> Hd]]; lia.
Qed.

Lemma calcular_edad_orden_witness :
  date_le (mkdate 2024 6 14) (mkdate 2024 6 15) = true
  /\ calcular_edad (mkdate 2000 6 15) (mkdate 2024 6 14)
     <= calcular_edad (mkdate 2000 6 15) (mkdate 2024 6 15)
  /\ ~ 0 <= calcular_edad (mkdate 2000 6 15) (mkdate 2000 6 14).
Proof.
  destruct (calcular_edad_orden (mkdate 2000 6 15)) as (_ & Hsigno & Hmono).
  split; [reflexivity|]. split.
  - apply Hmono. reflexivity.
  - rewrite Hsigno. discriminate.
Defined.

(** ** The guards of the endpoints *)

(** X4. A guard lets through only the stored, active user whose id is the
    subject of the token; what passes the administrator guard passes the
    guard of the data-entry endpoints, with the same user; a user whose
    active flag is off is refused by the three guards with 403. *)
Theorem guardas_usuario_activo db token :
  (forall u, require_admin db token = Ok u ->
             require_ingresador_o_admin db token = Ok u
             /\ Usuario.rol u = "administrador"%string)
  /\ (forall u, require_ingresador_o_admin db token = Ok u ->
                get_current_user db token = Ok u)
  /\ (forall u, get_current_user db token = Ok u ->
                token = Some (Usuario.id u) /\ u ∈ usuarios db /\ Usuario.activo u = true)
  /\ (forall usuario_id k u,
         token = Some usuario_id ->
         list_find (fun u => Usuario.id u = usuario_id) (usuarios db) = Some (k, u) ->
         Usuario.activo u = false ->
         get_current_user db token = Raise (HTTPException HTTP_403_FORBIDDEN UsuarioInactivo)
         /\ require_admin db token
            = Raise (HTTPException HTTP_403_FORBIDDEN UsuarioInactivo)
         /\ require_ingresador_o_admin db token
            = Raise (HTTPException HTTP_403_FORBIDDEN UsuarioInactivo)).
Proof.
  split; [|split; [|split]].
  - intros u. unfold require_admin, require_ingresador_o_admin.
    destruct (get_current_user db token) as [cu|e]; [|discriminate]. cbn [bind].
    destruct (bool_decide (Usuario.rol cu = _)) eqn:Hrol; [|discriminate].
    intros [= <-]. apply bool_decide_eq_true in Hrol. split; [|exact Hrol].
    rewrite bool_decide_eq_true_2; [reflexivity|]. rewrite Hrol. right. left.
  - intros u. unfold require_ingresador_o_admin.
    destruct (get_current_user db token) as [cu|e]; [|discriminate]. cbn [bind].
    destruct (negb _); [discriminate|]. intros [= <-]. reflexivity.
  - intros u. unfold get_current_user. destruct token as [usuario_id|]; [|discriminate].
    destruct (list_find _ _) as [[k cu]|] eqn:Hf; [|discriminate].
    destruct (Usuario.activo cu) eqn:Hact; [|discriminate]. intros [= <-].
    apply list_find_Some in Hf as (Hk & Hid & _).
    split; [congruence|]. split; [|exact Hact].
    eapply list_elem_of_lookup_2, Hk.
  - intros usuario_id k u -> Hf Hact.
    assert (get_current_user db (Some usuario_id)
            = Raise (HTTPException HTTP_403_FORBIDDEN UsuarioInactivo)) as Hg.
    { unfold get_current_user. rewrite Hf, Hact. reflexivity. }
    unfold require_admin, require_ingresador_o_admin. rewrite Hg.
    repeat split.
Qed.

Lemma guardas_usuario_activo_witness :
  require_admin Ejemplo.db (Some 1) = Ok Ejemplo.admin
  /\ require_ingresador_o_admin Ejemplo.db (Some 1) = Ok Ejemplo.admin
  /\ Ejemplo.admin ∈ usuarios Ejemplo.db.
Proof.
  destruct (guardas_usuario_activo Ejemplo.db (Some 1)) as (Hadm & Hing & Hcur & _).
  split; [reflexivity|].
  destruct (Hadm Ejemplo.admin eq_refl) as [H _].
  split; [exact H|]. apply (Hcur Ejemplo.admin (Hing _ H)).
Defined.


(** ** What the patient registry writes *)

(** The four outcomes of [obtener_o_crear_paciente]. *)
Lemma obtener_o_crear_paciente_casos db rut nombre fecha_nac now :
  (exists e,
      obtener_o_crear_paciente db rut nombre fecha_nac now = (Raise e, db)
      /\ (e = ValueError
          \/ e = HTTPException HTTP_400_BAD_REQUEST RutInvalido
          \/ e = HTTPException HTTP_400_BAD_REQUEST NombrePacienteRequerido
          \/ e = DatabaseError))
  \/ (exists i p,
         list_find (fun p => Paciente.rut p = limpiar_rut rut) (pacientes db) = Some (i, p)
         /\ (fecha_nac = None \/ Paciente.fecha_nacimiento p <> None)
         /\ obtener_o_crear_paciente db rut nombre fecha_nac now = (Ok p, db))
  \/ (exists i p f,
         list_find (fun p => Paciente.rut p = limpiar_rut rut) (pacientes db) = Some (i, p)
         /\ fecha_nac = Some f /\ Paciente.fecha_nacimiento p = None
         /\ let p' :=
              Paciente.mk (Paciente.id p) (Paciente.rut p) (Paciente.nombre_completo p)
                (Some f) (Paciente.created_at p) now in
            obtener_o_crear_paciente db rut nombre fecha_nac now
            = (Ok p', with_pacientes db (<[i:=p']> (pacientes db)) (pacientes_seq db)))
  \/ (exists n,
         list_find (fun p => Paciente.rut p = limpiar_rut rut) (pacientes db) = None
         /\ nombre = Some n /\ n <> EmptyString
         /\ let nuevo :=
              Paciente.mk (pacientes_seq db) (limpiar_rut rut) n fecha_nac now now in
            obtener_o_crear_paciente db rut nombre fecha_nac now
            = (Ok nuevo,
               with_pacientes db (pacientes db ++ [nuevo]) (pacientes_seq db + 1))).
Proof.
  unfold obtener_o_crear_paciente.
  destruct (validar_rut_chileno _) as [[]|e] eqn:Hv.
  - destruct (list_find _ _) as [[i p]|] eqn:Hf.
    + destruct fecha_nac as [f|], (Paciente.fecha_nacimiento p) as [g|] eqn:Hg.
      * right. left. exists i, p. repeat split. right. congruence.
      * right. right. left. exists i, p, f. repeat split. exact Hg.
      * right. left. exists i, p. repeat split. left. reflexivity.
      * right. left. exists i, p. repeat split. left. reflexivity.
    + destruct nombre as [[|a n]|]; cbn [PyStr.truthy negb].
      * left. eexists. split; [reflexivity|]. tauto.
      * destruct (negb (adapta_paciente _)).
        { left. eexists. split; [reflexivity|]. tauto. }
        destruct (negb (acepta_paciente _)).
        -- left. eexists. split; [reflexivity|]. tauto.
        -- right. right. right. exists (String a n). repeat split. discriminate.
      * left. eexists. split; [reflexivity|]. tauto.
  - left. eexists. split; [reflexivity|]. tauto.
  - left. exists e. split; [reflexivity|]. left.
    eapply validar_rut_chileno_raise, Hv.
Qed.

(** The registry writes the patient table and its sequence only. *)
Lemma obtener_o_crear_paciente_marco db rut nombre fecha_nac now r db' :
  obtener_o_crear_paciente db rut nombre fecha_nac now = (r, db') ->
  db' = with_pacientes db (pacientes db') (pacientes_seq db').
Proof.
  assert (forall d : DB, d = with_pacientes d (pacientes d) (pacientes_seq d)) as Hmismo
    by (intros []; reflexivity).
  intros H.
  destruct (obtener_o_crear_paciente_casos db rut nombre fecha_nac now)
    as [(e & He & _)|[(i & p & _ & _ & He)|[(i & p & f & _ & _ & _ & He)
       |(n & _ & _ & _ & He)]]];
    cbn zeta in He; rewrite He in H; injection H as <- <-;
    first [apply Hmismo|reflexivity].
Qed.

(** X5. Whatever it returns, [obtener_o_crear_paciente] touches only the
    patient table and its sequence: every other table, sequence and
    catalog of the store is as before; it removes no row and moves none;
    of an existing row it changes nothing but an absent birth date (and
    [updated_at]), so a stored birth date is never replaced; it appends at
    most one row, and only when no row has the cleaned RUT, and draws a
    key exactly then; when it raises, the store is as before. *)
Theorem obtener_o_crear_paciente_conserva db rut nombre fecha_nac now r db' :
  obtener_o_crear_paciente db rut nombre fecha_nac now = (r, db') ->
  db' = with_pacientes db (pacientes db') (pacientes_seq db')
  /\ (forall e, r = Raise e -> db' = db)
  /\ (forall i p,
         pacientes db !! i = Some p ->
         exists p',
           pacientes db' !! i = Some p'
           /\ Paciente.id p' = Paciente.id p
           /\ Paciente.rut p' = Paciente.rut p
           /\ Paciente.nombre_completo p' = Paciente.nombre_completo p
           /\ Paciente.created_at p' = Paciente.created_at p
           /\ (Paciente.fecha_nacimiento p <> None -> p' = p))
  /\ ((length (pacientes db') = length (pacientes db)
       /\ pacientes_seq db' = pacientes_seq db)
      \/ (length (pacientes db') = S (length (pacientes db))
          /\ pacientes_seq db' = pacientes_seq db + 1
          /\ list_find (fun p => Paciente.rut p = limpiar_rut rut) (pacientes db) = None)).
Proof.
  assert (forall d : DB, d = with_pacientes d (pacientes d) (pacientes_seq d)) as Hmismo
    by (intros []; reflexivity).
  intros H.
  destruct (obtener_o_crear_paciente_casos db rut nombre fecha_nac now)
    as [(e & He & _)|[(i & p & _ & _ & He)|[(i & p & f & Hf & _ & Hg & He)
       |(n & Hf & _ & _ & He)]]];
    cbn zeta in He; rewrite He in H; injection H as <- <-; cbn.
  - split; [apply Hmismo|]. split; [reflexivity|]. split.
    + intros j q Hq. exists q. repeat split; assumption.
    + left; split; reflexivity.
  - split; [apply Hmismo|]. split; [discriminate|]. split.
    + intros j q Hq. exists q. repeat split; assumption.
    + left; split; reflexivity.
  - split; [reflexivity|]. split; [discriminate|]. split.
    + intros j q Hq. apply list_find_Some in Hf as (Hi & _ & _).
      destruct (decide (i = j)) as [<-|Hne].
      * rewrite list_lookup_insert_eq by (eapply lookup_lt_Some, Hi).
        eexists. split; [reflexivity|]. assert (q = p) as -> by congruence.
        cbn. repeat split. congruence.
      * rewrite list_lookup_insert_ne by exact Hne.
        exists q. repeat split; assumption.
    + left. split; [apply length_insert|reflexivity].
  - split; [reflexivity|]. split; [discriminate|]. split.
    + intros j q Hq. exists q. split; [|repeat split].
      apply lookup_app_l_Some, Hq.
    + right. split; [|split; [reflexivity|exact Hf]]. rewrite length_app. cbn. lia.
Qed.

Lemma obtener_o_crear_paciente_conserva_witness :
  exists r db',
    obtener_o_crear_paciente Ejemplo.db "11.111.111-1" (Some "Luis Soto"%string) None 500
    = (r, db')
    /\ length (pacientes db') = 2%nat
    /\ pacientes db' !! 0%nat = Some Ejemplo.ana
    /\ examenes_base db' = examenes_base Ejemplo.db.
Proof.
  destruct (obtener_o_crear_paciente Ejemplo.db "11.111.111-1" (Some "Luis Soto"%string)
              None 500) as [r db'] eqn:Hop.
  exists r, db'. split; [reflexivity|].
  destruct (obtener_o_crear_paciente_conserva _ _ _ _ _ _ _ Hop) as (Hm & _).
  split; [|split; [|rewrite Hm; reflexivity]];
    vm_compute in Hop; injection Hop as <- <-; reflexivity.
Defined.


(** ** What a CT registration writes *)

Lemma obtener_o_crear_paciente_tablas db rut nombre fecha_nac now r db1 :
  obtener_o_crear_paciente db rut nombre fecha_nac now = (r, db1) ->
  usuarios db1 = usuarios db
  /\ examenes_base db1 = examenes_base db /\ examenes_base_seq db1 = examenes_base_seq db
  /\ examenes_tac db1 = examenes_tac db /\ examenes_tac_seq db1 = examenes_tac_seq db.
Proof.
  unfold obtener_o_crear_paciente.
  destruct (validar_rut_chileno _) as [[]|e]; [|intros [= <- <-]; repeat split..].
  destruct (list_find _ _) as [[i p]|].
  - destruct fecha_nac, (Paciente.fecha_nacimiento p); intros [= <- <-]; repeat split.
  - destruct (negb (PyStr.truthy nombre)); [intros [= <- <-]; repeat split|].
    destruct (negb (adapta_paciente _)); [intros [= <- <-]; repeat split|].
    destruct (negb (acepta_paciente _)); intros [= <- <-]; repeat split.
Qed.

Lemma obtener_o_crear_paciente_rut db rut nombre fecha_nac now p db1 :
  obtener_o_crear_paciente db rut nombre fecha_nac now = (Ok p, db1) ->
  p ∈ pacientes db1 /\ Paciente.rut p = limpiar_rut rut.
Proof.
  unfold obtener_o_crear_paciente.
  destruct (validar_rut_chileno _) as [[]|e]; [|discriminate..].
  destruct (list_find _ _) as [[i q]|] eqn:Hf.
  - apply list_find_Some in Hf as (Hi & Hrut & _).
    destruct fecha_nac, (Paciente.fecha_nacimiento q); intros [= <- <-]; cbn;
      (split; [|exact Hrut]);
      try (eapply list_elem_of_lookup_2, Hi).
    eapply list_elem_of_lookup_2. apply list_lookup_insert_eq.
    eapply lookup_lt_Some, Hi.
  - destruct (negb (PyStr.truthy nombre)); [discriminate|].
    destruct (negb (adapta_paciente _)); [discriminate|].
    destruct (negb (acepta_paciente _)); [discriminate|].
    intros [= <- <-]. cbn. split; [|reflexivity]. apply elem_of_app. right. left.
Qed.

(** The rows a successful registration appends. *)
Lemma crear_examen_tac_cuerpo_exito db current_user examen_data now resp db' :
  crear_examen_tac_cuerpo db current_user examen_data now = (Ok resp, db') ->
  exists paciente db1 examen_base examen_tac,
    obtener_o_crear_paciente db (ExamenTACCreate.paciente_rut examen_data)
      (ExamenTACCreate.paciente_nombre examen_data)
      (ExamenTACCreate.fecha_nacimiento examen_data) now = (Ok paciente, db1)
    /\ resp = respuesta_tac examen_base examen_tac
    /\ examenes_base db' = examenes_base db ++ [examen_base]
    /\ examenes_tac db' = examenes_tac db ++ [examen_tac]
    /\ examenes_base_seq db' = examenes_base_seq db + 1
    /\ examenes_tac_seq db' = examenes_tac_seq db + 1
    /\ usuarios db' = usuarios db
    /\ pacientes db' = pacientes db1
    /\ ExamenBase.id examen_base = examenes_base_seq db
    /\ ExamenBase.tipo_examen examen_base = "TAC"%string
    /\ ExamenBase.paciente_id examen_base = Paciente.id paciente
    /\ ExamenBase.created_by examen_base = Some (Usuario.id current_user)
    /\ ExamenBase.updated_by examen_base = Some (Usuario.id current_user)
    /\ ExamenBase.deleted_at examen_base = None
    /\ ExamenBase.en_revision examen_base = false
    /\ ExamenTAC.id examen_tac = examenes_tac_seq db
    /\ ExamenTAC.examen_base_id examen_tac = examenes_base_seq db.
Proof.
  unfold crear_examen_tac_cuerpo.
  destruct (obtener_o_crear_paciente _ _ _ _ _) as [[paciente|e] db1] eqn:Hp;
    [|discriminate].
  destruct (obtener_o_crear_paciente_tablas _ _ _ _ _ _ _ Hp)
    as (Hu & Hb & Hbs & Ht & Hts).
  destruct (extraer_mes_anio _) as [mes anio].
  destruct (negb (adapta_examen_base _)); [discriminate|].
  destruct (negb (acepta_examen_base _ _)); [discriminate|].
  destruct (negb (adapta_examen_tac _)); [discriminate|].
  destruct (negb (acepta_examen_tac _ _)); [discriminate|].
  intros [= <- <-]. exists paciente, db1. eexists _, _.
  split; [reflexivity|]. split; [reflexivity|]. cbn.
  rewrite Hb, Ht, Hbs, Hts, Hu. repeat split.
Qed.

Lemma crear_examen_tac_exito db token body now resp db' :
  crear_examen_tac db token body now = (Ok resp, db') ->
  exists current_user,
    require_ingresador_o_admin db token = Ok current_user
    /\ crear_examen_tac_cuerpo db current_user body now = (Ok resp, db').
Proof.
  unfold crear_examen_tac.
  destruct (require_ingresador_o_admin db token) as [u|e]; [|discriminate].
  unfold ExamenTACCreate.validate.
  destruct (validar_tac _ _ _ _) as [[]|e]; [|discriminate]. cbn [bind].
  intros H. exists u. split; [reflexivity|exact H].
Qed.

Lemma flat_map_iguales {A B} (f g : A -> list B) (l : list A) :
  (forall x, x ∈ l -> f x = g x) -> flat_map f l = flat_map g l.
Proof.
  induction l as [|x l IH]; intros H; [reflexivity|]. cbn.
  rewrite (H x) by left. rewrite IH by (intros y Hy; apply H; right; exact Hy).
  reflexivity.
Qed.

(** The join sees a pair appended when a base row with a fresh key and its
    specialization row are appended. *)
Lemma join_tac_app db db' b t :
  examenes_base db' = examenes_base db ++ [b] ->
  examenes_tac db' = examenes_tac db ++ [t] ->
  ExamenTAC.examen_base_id t = ExamenBase.id b ->
  Forall (fun x => ExamenBase.id x <> ExamenBase.id b) (examenes_base db) ->
  Forall (fun x => ExamenTAC.examen_base_id x <> ExamenBase.id b) (examenes_tac db) ->
  join_tac db' = join_tac db ++ [(b, t)].
Proof.
  intros Hb Ht Hid Hfb Hft. unfold join_tac. rewrite Hb, Ht.
  rewrite flat_map_app. cbn [flat_map]. rewrite app_nil_r. f_equal.
  - apply flat_map_iguales. intros x Hx. f_equal.
    rewrite filter_app. rewrite (filter_cons _ t), decide_False, filter_nil, app_nil_r;
      [reflexivity|].
    rewrite Hid. rewrite Forall_forall in Hfb. intros Heq.
    apply (Hfb x); [exact Hx|congruence].
  - rewrite filter_app.
    rewrite (filter_ninguno _ (examenes_tac db)).
    + rewrite filter_cons, decide_True by exact Hid. reflexivity.
    + rewrite Forall_forall in Hft. exact Hft.
Qed.

(** X6. On a store whose exam keys are below the sequence, a successful
    CT registration can be read back: the single-exam read of the returned
    id returns the response of the registration. *)
Theorem crear_examen_tac_se_lee db token body now resp db' :
  Forall (fun b => ExamenBase.id b < examenes_base_seq db) (examenes_base db) ->
  Forall (fun t => ExamenTAC.examen_base_id t < examenes_base_seq db) (examenes_tac db) ->
  crear_examen_tac db token body now = (Ok resp, db') ->
  ExamenTACResponse.id resp = examenes_base_seq db
  /\ obtener_examen_tac db' token (ExamenTACResponse.id resp) = Ok resp.
Proof.
  intros Hfb Hft H.
  destruct (crear_examen_tac_exito _ _ _ _ _ _ H) as (u & Hu & Hc).
  destruct (crear_examen_tac_cuerpo_exito _ _ _ _ _ _ Hc)
    as (p & db1 & b & t & _ & -> & Hb & Ht & _ & _ & Hus & _ & Hid & Htipo & _ & _ & _
        & Hdel & _ & _ & Hebid).
  split; [exact Hid|].
  unfold obtener_examen_tac.
  assert (require_ingresador_o_admin db' token = Ok u) as ->.
  { unfold require_ingresador_o_admin, get_current_user in *. rewrite Hus. exact Hu. }
  cbn [bind].
  rewrite (join_tac_app db db' b t Hb Ht).
  - rewrite filter_app, (filter_ninguno _ (join_tac db)).
    + rewrite filter_cons, decide_True; [reflexivity|].
      split; [reflexivity|]. split; assumption.
    + intros [x y] Hx [Hxid _]. apply join_tac_elem in Hx as (Hx & _ & _).
      rewrite Forall_forall in Hfb. apply Hfb in Hx. cbn in Hxid.
      change (ExamenTACResponse.id (respuesta_tac b t)) with (ExamenBase.id b) in Hxid.
      lia.
  - congruence.
  - eapply Forall_impl; [exact Hfb|]. cbn. intros x Hx. lia.
  - eapply Forall_impl; [exact Hft|]. cbn. intros x Hx. lia.
Qed.

Lemma crear_examen_tac_se_lee_witness :
  Forall (fun b => ExamenBase.id b < examenes_base_seq Ejemplo.db) (examenes_base Ejemplo.db)
  /\ Forall (fun t => ExamenTAC.examen_base_id t < examenes_base_seq Ejemplo.db)
       (examenes_tac Ejemplo.db)
  /\ exists resp db',
       crear_examen_tac Ejemplo.db (Some 2)
         (Ejemplo.body (mkdate 2024 6 10) (mkdate 2024 6 14) None None None) 500
       = (Ok resp, db')
       /\ ExamenTACResponse.id resp = 11
       /\ obtener_examen_tac db' (Some 2) 11 = Ok resp.
Proof.
  assert (Forall (fun b => ExamenBase.id b < examenes_base_seq Ejemplo.db)
            (examenes_base Ejemplo.db)) as Hb by (repeat constructor).
  assert (Forall (fun t => ExamenTAC.examen_base_id t < examenes_base_seq Ejemplo.db)
            (examenes_tac Ejemplo.db)) as Ht by (repeat constructor).
  split; [exact Hb|]. split; [exact Ht|].
  destruct (crear_examen_tac Ejemplo.db (Some 2)
              (Ejemplo.body (mkdate 2024 6 10) (mkdate 2024 6 14) None None None) 500)
    as [[resp|e] db'] eqn:Hc; [|vm_compute in Hc; discriminate].
  exists resp, db'. split; [reflexivity|].
  destruct (crear_examen_tac_se_lee _ _ _ _ _ _ Hb Ht Hc) as [Hid Hr].
  split; [exact Hid|]. rewrite Hid in Hr. exact Hr.
Defined.

(** X7. A successful CT registration appends one base row and one
    specialization row and changes no earlier exam row; the base row takes
    the next key of the sequence, is of type TAC, refers to the patient the
    registry resolved for the cleaned RUT, carries the caller as creator
    and as last modifier, and is neither deleted nor in review; the
    specialization row refers to that base row. *)
Theorem crear_examen_tac_filas db token body now resp db' :
  crear_examen_tac db token body now = (Ok resp, db') ->
  exists current_user paciente examen_base examen_tac,
    require_ingresador_o_admin db token = Ok current_user
    /\ paciente ∈ pacientes db'
    /\ Paciente.rut paciente = limpiar_rut (ExamenTACCreate.paciente_rut body)
    /\ examenes_base db' = examenes_base db ++ [examen_base]
    /\ examenes_tac db' = examenes_tac db ++ [examen_tac]
    /\ resp = respuesta_tac examen_base examen_tac
    /\ ExamenBase.id examen_base = examenes_base_seq db
    /\ examenes_base_seq db' = examenes_base_seq db + 1
    /\ ExamenBase.tipo_examen examen_base = "TAC"%string
    /\ ExamenBase.paciente_id examen_base = Paciente.id paciente
    /\ ExamenBase.created_by examen_base = Some (Usuario.id current_user)
    /\ ExamenBase.updated_by examen_base = Some (Usuario.id current_user)
    /\ ExamenBase.deleted_at examen_base = None
    /\ ExamenBase.en_revision examen_base = false
    /\ ExamenTAC.examen_base_id examen_tac = ExamenBase.id examen_base.
Proof.
  intros H.
  destruct (crear_examen_tac_exito _ _ _ _ _ _ H) as (u & Hu & Hc).
  destruct (crear_examen_tac_cuerpo_exito _ _ _ _ _ _ Hc)
    as (p & db1 & b & t & Hp & -> & Hb & Ht & Hbs & _ & _ & Hpac & Hid & Htipo & Hpid
        & Hcb & Hub & Hdel & Hrev & _ & Hebid).
  destruct (obtener_o_crear_paciente_rut _ _ _ _ _ _ _ Hp) as [Hin Hrut].
  exists u, p, b, t. rewrite Hpac.
  repeat (split; [assumption || reflexivity|]). congruence.
Qed.

Lemma crear_examen_tac_filas_witness :
  exists resp db',
    crear_examen_tac Ejemplo.db (Some 2)
      (Ejemplo.body (mkdate 2024 6 10) (mkdate 2024 6 14) None None None) 500
    = (Ok resp, db')
    /\ length (examenes_base db') = 2%nat
    /\ examenes_base db' !! 0%nat = Some Ejemplo.base10
    /\ ExamenTACResponse.id resp = 11.
Proof.
  destruct (crear_examen_tac Ejemplo.db (Some 2)
              (Ejemplo.body (mkdate 2024 6 10) (mkdate 2024 6 14) None None None) 500)
    as [[resp|e] db'] eqn:Hc; [|vm_compute in Hc; discriminate].
  exists resp, db'. split; [reflexivity|].
  destruct (crear_examen_tac_filas _ _ _ _ _ _ Hc)
    as (u & p & b & t & _ & _ & _ & Hb & _ & -> & Hid & _).
  rewrite Hb. split; [reflexivity|]. split; [reflexivity|]. exact Hid.
Defined.

(** X8. A CT registration that raises writes no exam row and changes no
    table but, possibly, the patient table.  A refusal by a guard, by the
    validation of the body or by the registry of patients leaves the store
    as it was.  When the failure comes later, from the driver
    ([ValueError]) or from the storage, the patient row the registry
    created or completed for the request stays written, and a key that a
    failed or rolled-back insert drew from the sequence of an exam table
    is not given back: the base sequence, or both sequences, may have
    advanced by one. *)
Theorem crear_examen_tac_fallo db token body now e db' :
  crear_examen_tac db token body now = (Raise e, db') ->
  (examenes_base db' = examenes_base db
   /\ examenes_tac db' = examenes_tac db
   /\ examenes_rx db' = examenes_rx db
   /\ examenes_eco db' = examenes_eco db
   /\ usuarios db' = usuarios db)
  /\ (db' = db
      \/ ((e = ValueError \/ e = DatabaseError)
          /\ exists paciente db1,
               obtener_o_crear_paciente db (ExamenTACCreate.paciente_rut body)
                 (ExamenTACCreate.paciente_nombre body)
                 (ExamenTACCreate.fecha_nacimiento body) now = (Ok paciente, db1)
               /\ (db' = db1
                   \/ db' = clave_base_consumida db1
                   \/ db' = clave_tac_consumida (clave_base_consumida db1))))
  /\ (forall status_code d, e = HTTPException status_code d -> db' = db)
  /\ (forall regla, e = ValidationError regla -> db' = db).
Proof.
  unfold crear_examen_tac.
  destruct (require_ingresador_o_admin db token) as [u|e0];
    [intros H|intros [= <- <-]; repeat split; left; reflexivity].
  unfold ExamenTACCreate.validate in H.
  destruct (validar_tac _ _ _ _) as [[]|e0]; cbn [bind] in H;
    [|injection H as <- <-; repeat split; left; reflexivity].
  unfold crear_examen_tac_cuerpo in H.
  destruct (obtener_o_crear_paciente _ _ _ _ _) as [[p|e0] db1] eqn:Hp.
  - pose proof (obtener_o_crear_paciente_marco _ _ _ _ _ _ _ Hp) as Hm.
    assert (forall d,
               d = db1 \/ d = clave_base_consumida db1
               \/ d = clave_tac_consumida (clave_base_consumida db1) ->
               examenes_base d = examenes_base db
               /\ examenes_tac d = examenes_tac db
               /\ examenes_rx d = examenes_rx db
               /\ examenes_eco d = examenes_eco db
               /\ usuarios d = usuarios db) as Hmarco.
    { intros d [->|[->| ->]]; rewrite Hm; repeat split. }
    assert (db' = db1 \/ db' = clave_base_consumida db1
            \/ db' = clave_tac_consumida (clave_base_consumida db1)) as Hd.
    { destruct (extraer_mes_anio _) as [mes anio].
      destruct (negb (adapta_examen_base _)); [injection H as _ <-; tauto|].
      destruct (negb (acepta_examen_base _ _)).
      { destruct (longitudes_examen_base _); injection H as _ <-; tauto. }
      destruct (negb (adapta_examen_tac _)); [injection H as _ <-; tauto|].
      destruct (negb (acepta_examen_tac _ _)); [|discriminate].
      destruct (longitudes_examen_tac _); injection H as _ <-; tauto. }
    assert (e = ValueError \/ e = DatabaseError) as He.
    { destruct (extraer_mes_anio _) as [mes anio].
      destruct (negb (adapta_examen_base _)); [injection H as <- _; tauto|].
      destruct (negb (acepta_examen_base _ _)); [injection H as <- _; tauto|].
      destruct (negb (adapta_examen_tac _)); [injection H as <- _; tauto|].
      destruct (negb (acepta_examen_tac _ _)); [injection H as <- _; tauto|discriminate]. }
    split; [apply Hmarco, Hd|]. split; [right; split; [exact He|exists p, db1; tauto]|].
    split; [intros s d ->|intros regla ->]; destruct He; discriminate.
  - injection H as <- <-.
    destruct (obtener_o_crear_paciente_casos db (ExamenTACCreate.paciente_rut body)
                (ExamenTACCreate.paciente_nombre body)
                (ExamenTACCreate.fecha_nacimiento body) now)
      as [(e1 & He & _)|[(i & q & _ & _ & He)|[(i & q & f & _ & _ & _ & He)
         |(n & _ & _ & _ & He)]]];
      cbn zeta in He; rewrite He in Hp; try discriminate.
    injection Hp as <- <-. repeat split. left. reflexivity.
Qed.

Lemma crear_examen_tac_fallo_witness :
  let body :=
    ExamenTACCreate.mk "TAC" (mkdate 2024 6 14) "Abierta" 99 1 "11.111.111-1"
      (Some "Luis Soto"%string) 1 1 "Institucional" (mkdate 2024 6 10) (mktime 9 30 0)
      None None None false false false None None None None None None None None in
  exists db',
    crear_examen_tac Ejemplo.db (Some 2) body 500 = (Raise DatabaseError, db')
    /\ examenes_base db' = examenes_base Ejemplo.db
    /\ length (pacientes db') = 2%nat
    /\ examenes_base_seq db' = 12.
Proof.
  intros body.
  destruct (crear_examen_tac Ejemplo.db (Some 2) body 500) as [[resp|e] db'] eqn:Hc;
    [vm_compute in Hc; discriminate|].
  assert (e = DatabaseError) as -> by (vm_compute in Hc; congruence).
  exists db'. split; [reflexivity|].
  destruct (crear_examen_tac_fallo _ _ _ _ _ _ Hc) as ((Hb & _) & _).
  split; [exact Hb|]. vm_compute in Hc. injection Hc as <-. split; reflexivity.
Defined.

(** ** What an update writes *)

Lemma onupdate_examen_base_campos anterior nuevo now :
  let b := onupdate_examen_base anterior nuevo now in
  ExamenBase.id b = ExamenBase.id nuevo
  /\ ExamenBase.tipo_examen b = ExamenBase.tipo_examen nuevo
  /\ ExamenBase.fecha_realizacion b = ExamenBase.fecha_realizacion nuevo
  /\ ExamenBase.paciente_id b = ExamenBase.paciente_id nuevo
  /\ ExamenBase.examen_especifico_id b = ExamenBase.examen_especifico_id nuevo
  /\ ExamenBase.mes_realizacion b = ExamenBase.mes_realizacion nuevo
  /\ ExamenBase.anio_realizacion b = ExamenBase.anio_realizacion nuevo
  /\ ExamenBase.created_by b = ExamenBase.created_by nuevo
  /\ ExamenBase.updated_by b = ExamenBase.updated_by nuevo
  /\ ExamenBase.created_at b = ExamenBase.created_at nuevo
  /\ ExamenBase.deleted_at b = ExamenBase.deleted_at nuevo
  /\ ExamenBase.en_revision b = ExamenBase.en_revision nuevo
  /\ ExamenBase.motivo_revision b = ExamenBase.motivo_revision nuevo.
Proof.
  cbn zeta. unfold onupdate_examen_base.
  destruct (decide (nuevo = anterior)) as [->|_]; cbn; repeat split; reflexivity.
Qed.

Lemma commit_base_campos db b body fecha mes anio current_user now b' :
  commit_base db b body fecha mes anio current_user now = Ok b' ->
  ExamenBase.id b' = ExamenBase.id b
  /\ ExamenBase.tipo_examen b' = ExamenBase.tipo_examen b
  /\ ExamenBase.fecha_realizacion b' = fecha
  /\ ExamenBase.paciente_id b' = ExamenBase.paciente_id b
  /\ ExamenBase.examen_especifico_id b' = ExamenBase.examen_especifico_id b
  /\ ExamenBase.mes_realizacion b' = mes
  /\ ExamenBase.anio_realizacion b' = anio
  /\ ExamenBase.created_by b' = ExamenBase.created_by b
  /\ ExamenBase.updated_by b' = Some (Usuario.id current_user)
  /\ ExamenBase.created_at b' = ExamenBase.created_at b
  /\ ExamenBase.deleted_at b' = ExamenBase.deleted_at b
  /\ ExamenBase.en_revision b' = ExamenBase.en_revision b
  /\ ExamenBase.motivo_revision b' = ExamenBase.motivo_revision b.
Proof.
  unfold commit_base.
  destruct (negb (adapta_examen_base_cambio _ _)); [discriminate|].
  destruct (not_null _) as [a|e]; cbn [bind]; [|discriminate].
  destruct (negb _); [discriminate|]. intros [= <-].
  match goal with
  | |- context [onupdate_examen_base ?x ?y ?z] =>
      pose proof (onupdate_examen_base_campos x y z) as H; cbn zeta in H; cbn in H
  end.
  exact H.
Qed.

Lemma commit_tac_campos db t body fecha t' :
  commit_tac db t body fecha = Ok t' ->
  ExamenTAC.id t' = ExamenTAC.id t
  /\ ExamenTAC.examen_base_id t' = ExamenTAC.examen_base_id t
  /\ ExamenTAC.fecha_nacimiento t'
     = campo (ExamenTACUpdate.fecha_nacimiento body) (ExamenTAC.fecha_nacimiento t)
  /\ ExamenTAC.edad t'
     = match ExamenTACUpdate.fecha_nacimiento body with
       | Some (Some fecha_nacimiento) => Some (calcular_edad fecha_nacimiento fecha)
       | _ => ExamenTAC.edad t
       end.
Proof.
  unfold commit_tac.
  destruct (negb (adapta_examen_tac_cambio _ _)); [discriminate|].
  repeat (destruct (not_null _) as [?|?]; cbn [bind]; [|discriminate]).
  destruct (negb _); [discriminate|]. intros [= <-]. cbn. repeat split; reflexivity.
Qed.

Lemma actualizar_examen_tac_exito db token examen_id body now resp db' :
  actualizar_examen_tac db token examen_id body now = (Ok resp, db') ->
  exists current_user i b j t fecha mes anio b' t',
    require_admin db token = Ok current_user
    /\ list_find (fun b => ExamenBase.id b = examen_id /\ no_eliminado_tac b)
         (examenes_base db) = Some (i, b)
    /\ list_find (fun t => ExamenTAC.examen_base_id t = examen_id) (examenes_tac db)
       = Some (j, t)
    /\ recalcular_fecha b body = Ok (fecha, (mes, anio))
    /\ commit_base db b body fecha mes anio current_user now = Ok b'
    /\ commit_tac db t body fecha = Ok t'
    /\ resp = respuesta_tac b' t'
    /\ db' = with_examenes_tac
               (with_examenes_base db (<[i:=b']> (examenes_base db)) (examenes_base_seq db))
               (<[j:=t']> (examenes_tac db)) (examenes_tac_seq db).
Proof.
  unfold actualizar_examen_tac.
  destruct (require_admin db token) as [u|e] eqn:Hu; [|discriminate].
  unfold ExamenTACUpdate.validate.
  destruct (negb (bool_decide _)); [discriminate|].
  destruct (list_find _ (examenes_base db)) as [[i b]|] eqn:Hfb; [|discriminate].
  destruct (recalcular_fecha b body) as [[fecha [mes anio]]|e] eqn:Hr; [|discriminate].
  destruct (list_find _ (examenes_tac db)) as [[j t]|] eqn:Hft.
  - destruct (commit_base _ _ _ _ _ _ _ _) as [b'|e] eqn:Hb; [|discriminate].
    destruct (commit_tac _ _ _ _) as [t'|e] eqn:Ht; [|discriminate].
    intros [= <- <-]. exists u, i, b, j, t, fecha, mes, anio, b', t'.
    repeat split; assumption || reflexivity.
  - destruct (campos_tac_presentes body); [discriminate|].
    destruct (commit_base _ _ _ _ _ _ _ _); discriminate.
Qed.

(** X9. A successful update rewrites one base row and its specialization
    row in place and nothing else: the store it leaves is the one before
    with those two rows replaced, every other row, table, sequence and
    catalog as it was; it never changes the exam's key, type, patient,
    specific exam, creator, creation time, deletion mark or review state,
    nor the keys of the specialization row; it records the caller as last
    modifier; month and year follow the realization date when the request
    sets one; and the stored age is recomputed only when the request sets a
    birth date, against the realization date as just written, so a request
    that moves the realization date alone leaves the age as it was. *)
Theorem actualizar_examen_tac_marco db token examen_id body now resp db' :
  actualizar_examen_tac db token examen_id body now = (Ok resp, db') ->
  exists current_user i b j t b' t',
    require_admin db token = Ok current_user
    /\ examenes_base db !! i = Some b /\ ExamenBase.id b = examen_id
    /\ no_eliminado_tac b
    /\ examenes_tac db !! j = Some t /\ ExamenTAC.examen_base_id t = examen_id
    /\ examenes_base db' = <[i:=b']> (examenes_base db)
    /\ examenes_tac db' = <[j:=t']> (examenes_tac db)
    /\ usuarios db' = usuarios db /\ pacientes db' = pacientes db
    /\ examenes_base_seq db' = examenes_base_seq db
    /\ examenes_tac_seq db' = examenes_tac_seq db
    /\ resp = respuesta_tac b' t'
    /\ ExamenBase.id b' = examen_id
    /\ ExamenBase.tipo_examen b' = "TAC"%string
    /\ ExamenBase.paciente_id b' = ExamenBase.paciente_id b
    /\ ExamenBase.examen_especifico_id b' = ExamenBase.examen_especifico_id b
    /\ ExamenBase.created_by b' = ExamenBase.created_by b
    /\ ExamenBase.created_at b' = ExamenBase.created_at b
    /\ ExamenBase.deleted_at b' = None
    /\ ExamenBase.en_revision b' = ExamenBase.en_revision b
    /\ ExamenBase.motivo_revision b' = ExamenBase.motivo_revision b
    /\ ExamenTAC.id t' = ExamenTAC.id t
    /\ ExamenTAC.examen_base_id t' = examen_id
    /\ ExamenBase.updated_by b' = Some (Usuario.id current_user)
    /\ (ExamenBase.mes_realizacion b', ExamenBase.anio_realizacion b')
       = match ExamenTACUpdate.fecha_realizacion body with
         | Some _ => extraer_mes_anio (ExamenBase.fecha_realizacion b')
         | None => (ExamenBase.mes_realizacion b, ExamenBase.anio_realizacion b)
         end
    /\ ExamenBase.fecha_realizacion b'
       = match ExamenTACUpdate.fecha_realizacion body with
         | Some (Some fecha) => fecha
         | _ => ExamenBase.fecha_realizacion b
         end
    /\ ExamenTAC.edad t'
       = match ExamenTACUpdate.fecha_nacimiento body with
         | Some (Some fecha_nacimiento) =>
             Some (calcular_edad fecha_nacimiento (ExamenBase.fecha_realizacion b'))
         | _ => ExamenTAC.edad t
         end
    /\ db' = with_examenes_tac
               (with_examenes_base db (<[i:=b']> (examenes_base db)) (examenes_base_seq db))
               (<[j:=t']> (examenes_tac db)) (examenes_tac_seq db).
Proof.
  intros H.
  destruct (actualizar_examen_tac_exito _ _ _ _ _ _ _ H)
    as (u & i & b & j & t & fecha & mes & anio & b' & t' & Hu & Hfb & Hft & Hr & Hb & Ht
        & -> & ->).
  apply list_find_Some in Hfb as (Hi & [Hid Hne] & _).
  apply list_find_Some in Hft as (Hj & Hbid & _).
  destruct (commit_base_campos _ _ _ _ _ _ _ _ _ Hb)
    as (B1 & B2 & B3 & B4 & B5 & B6 & B7 & B8 & B9 & B10 & B11 & B12 & B13).
  destruct (commit_tac_campos _ _ _ _ _ Ht) as (T1 & T2 & T3 & T4).
  destruct Hne as [Htipo Hdel].
  exists u, i, b, j, t, b', t'.
  repeat (split; [first [assumption | reflexivity | congruence | split; assumption]|]).
  rewrite B6, B7, B3, T4. unfold recalcular_fecha in Hr.
  destruct (ExamenTACUpdate.fecha_realizacion body) as [[f|]|]; [| discriminate |];
    injection Hr as <- <- <-; repeat split; reflexivity.
Qed.

Lemma actualizar_examen_tac_marco_witness :
  let body :=
    ExamenTACUpdate.mk (Some (Some (mkdate 2024 7 1))) None None None None None None None
      (Some (Some (mkdate 2000 7 2))) None None None None None None None None None None
      None None None in
  exists resp db',
    actualizar_examen_tac Ejemplo.db2 (Some 1) 10 body 900 = (Ok resp, db')
    /\ ExamenTACResponse.edad resp = Some 23
    /\ ExamenTACResponse.mes_realizacion resp = 7
    /\ examenes_base db' !! 1%nat = Some Ejemplo.base11.
Proof.
  intros body.
  destruct (actualizar_examen_tac Ejemplo.db2 (Some 1) 10 body 900)
    as [[resp|e] db'] eqn:Hc; [|vm_compute in Hc; discriminate].
  exists resp, db'. split; [reflexivity|].
  destruct (actualizar_examen_tac_marco _ _ _ _ _ _ _ Hc)
    as (u & i & b & j & t & b' & t' & _ & Hi & Hid & _ & _ & _ & Hbs & _ & _ & _ & _ & _
        & -> & _ & _ & _ & _ & _ & _ & _ & _ & _ & _ & _ & _ & Hma & Hf & He & _).
  cbn in Hma, Hf, He. rewrite Hf in He, Hma. injection Hma as Hm _.
  split; [exact He|]. split; [exact Hm|].
  rewrite Hbs.
  destruct i as [|[|i]]; cbn in Hi; [reflexivity| |discriminate].
  injection Hi as <-. vm_compute in Hid. discriminate.
Defined.

(** ** An exam that is deleted or of another type *)

Lemma list_find_ausente {A} (P : A -> Prop) `{forall x, Decision (P x)} (l : list A) :
  (forall x, x ∈ l -> ~ P x) -> list_find P l = None.
Proof.
  intros Hn. destruct (list_find P l) as [[i x]|] eqn:Hf; [|reflexivity].
  apply list_find_Some in Hf as (Hi & Hp & _).
  exfalso. apply (Hn x); [eapply list_elem_of_lookup_2; exact Hi|exact Hp].
Qed.

Lemma require_admin_pasa db token u :
  require_admin db token = Ok u -> require_ingresador_o_admin db token = Ok u.
Proof.
  unfold require_admin, require_ingresador_o_admin.
  destruct (get_current_user db token) as [cu|e]; [|discriminate]. cbn [bind].
  destruct (bool_decide (Usuario.rol cu = _)) eqn:Hrol; [|discriminate].
  intros [= <-]. apply bool_decide_eq_true in Hrol.
  rewrite bool_decide_eq_true_2; [reflexivity|]. rewrite Hrol. right. left.
Qed.

Lemma examen_tac_ausente db token examen_id current_user :
  require_admin db token = Ok current_user ->
  (forall b, b ∈ examenes_base db -> ExamenBase.id b = examen_id -> ~ no_eliminado_tac b) ->
  (forall body now,
     actualizar_examen_tac db token examen_id body now
     = (Raise (HTTPException HTTP_404_NOT_FOUND ExamenTACNoEncontrado), db))
  /\ (forall now,
        eliminar_examen_tac db token examen_id now
        = (Raise (HTTPException HTTP_404_NOT_FOUND ExamenTACNoEncontrado), db))
  /\ obtener_examen_tac db token examen_id
     = Raise (HTTPException HTTP_404_NOT_FOUND ExamenTACNoEncontrado).
Proof.
  intros Hu Hn.
  assert (list_find (fun b => ExamenBase.id b = examen_id /\ no_eliminado_tac b)
            (examenes_base db) = None) as Hf.
  { apply list_find_ausente. intros b Hb [Hid Hne]. exact (Hn b Hb Hid Hne). }
  split; [|split].
  - intros body now. unfold actualizar_examen_tac. rewrite Hu.
    unfold ExamenTACUpdate.validate.
    rewrite (bool_decide_eq_true_2 _ (require_admin_rol _ _ _ Hu)). cbn [negb].
    rewrite Hf. reflexivity.
  - intros now. unfold eliminar_examen_tac. rewrite Hu, Hf. reflexivity.
  - unfold obtener_examen_tac. rewrite (require_admin_pasa _ _ _ Hu). cbn [bind].
    destruct (filter _ (join_tac db)) as [|[b t] l] eqn:Hl; [reflexivity|].
    assert ((b, t) ∈ filter (fun x => ExamenBase.id x.1 = examen_id /\ no_eliminado_tac x.1)
                       (join_tac db)) as Hin by (rewrite Hl; left).
    apply list_elem_of_filter in Hin as [[Hid Hne] Hj].
    apply join_tac_elem in Hj as (Hb & _). destruct (Hn b Hb Hid Hne).
Qed.

(** X10. A caller the administrator guard rejects gets the guard's error
    from the update and from the soft delete, and nothing is written; for
    an administrator, the update, the soft delete and the read of a CT exam
    answer 404 and write nothing whenever every base row with the
    requested key is deleted or of another type, in particular when no row
    has the key; so, once a soft delete has succeeded on a store with
    unique exam keys, a further soft delete, an update and a read of that
    key all answer 404. *)
Theorem examen_tac_no_encontrado db token examen_id :
  (forall e body now,
     require_admin db token = Raise e ->
     actualizar_examen_tac db token examen_id body now = (Raise e, db)
     /\ eliminar_examen_tac db token examen_id now = (Raise e, db))
  /\ (forall current_user body now,
        require_admin db token = Ok current_user ->
        (forall b, b ∈ examenes_base db -> ExamenBase.id b = examen_id ->
                   ~ no_eliminado_tac b) ->
        actualizar_examen_tac db token examen_id body now
        = (Raise (HTTPException HTTP_404_NOT_FOUND ExamenTACNoEncontrado), db)
        /\ eliminar_examen_tac db token examen_id now
           = (Raise (HTTPException HTTP_404_NOT_FOUND ExamenTACNoEncontrado), db)
        /\ obtener_examen_tac db token examen_id
           = Raise (HTTPException HTTP_404_NOT_FOUND ExamenTACNoEncontrado))
  /\ (forall now db',
        NoDup (map ExamenBase.id (examenes_base db)) ->
        eliminar_examen_tac db token examen_id now = (Ok tt, db') ->
        forall body now',
          actualizar_examen_tac db' token examen_id body now'
          = (Raise (HTTPException HTTP_404_NOT_FOUND ExamenTACNoEncontrado), db')
          /\ eliminar_examen_tac db' token examen_id now'
             = (Raise (HTTPException HTTP_404_NOT_FOUND ExamenTACNoEncontrado), db')
          /\ obtener_examen_tac db' token examen_id
             = Raise (HTTPException HTTP_404_NOT_FOUND ExamenTACNoEncontrado)).
Proof.
  split; [|split].
  - intros e body now He. unfold actualizar_examen_tac, eliminar_examen_tac.
    rewrite He. split; reflexivity.
  - intros u body now Hu Hn.
    destruct (examen_tac_ausente _ _ _ _ Hu Hn) as (Ha & He & Ho).
    split; [apply Ha|]. split; [apply He|exact Ho].
  - intros now db' Hnd. unfold eliminar_examen_tac at 1.
    destruct (require_admin db token) as [u|e] eqn:Hu; [|discriminate].
    destruct (list_find _ (examenes_base db)) as [[i b]|] eqn:Hf; [|discriminate].
    intros [= <-] body now'.
    apply list_find_Some in Hf as (Hi & [Hid Hne] & _).
    match goal with
    | |- context [<[i:=?x]> (examenes_base db)] => set (b' := x)
    end.
    assert (ExamenBase.id b' = ExamenBase.id b /\ ExamenBase.deleted_at b' = Some now)
      as [Hid' Hdel'].
    { subst b'.
      match goal with
      | |- context [onupdate_examen_base ?x ?y ?z] =>
          pose proof (onupdate_examen_base_campos x y z) as H; cbn zeta in H; cbn in H
      end.
      destruct H as (H1 & _ & _ & _ & _ & _ & _ & _ & _ & _ & H11 & _).
      split; assumption. }
    set (db' := with_examenes_base db (<[i:=b']> (examenes_base db)) (examenes_base_seq db)).
    assert (require_admin db' token = Ok u) as Hu' by exact Hu.
    assert (forall x, x ∈ examenes_base db' -> ExamenBase.id x = examen_id ->
                      ~ no_eliminado_tac x) as Hn.
    { intros x Hx Hxid [_ Hxdel].
      assert (x = b') as ->.
      { eapply elem_of_insert_clave; [exact Hnd|exact Hi|exact Hid'|exact Hx|congruence]. }
      congruence. }
    destruct (examen_tac_ausente _ _ _ _ Hu' Hn) as (Ha & He & Ho).
    split; [apply Ha|]. split; [apply He|exact Ho].
Qed.

Lemma examen_tac_no_encontrado_witness :
  exists db',
    eliminar_examen_tac Ejemplo.db2 (Some 1) 11 700 = (Ok tt, db')
    /\ eliminar_examen_tac db' (Some 1) 11 800
       = (Raise (HTTPException HTTP_404_NOT_FOUND ExamenTACNoEncontrado), db')
    /\ obtener_examen_tac db' (Some 2) 11
       = Raise (HTTPException HTTP_404_NOT_FOUND ExamenTACNoEncontrado)
    /\ eliminar_examen_tac Ejemplo.db2 (Some 2) 11 700
       = (Raise (HTTPException HTTP_403_FORBIDDEN SoloAdministradores), Ejemplo.db2).
Proof.
  destruct (eliminar_examen_tac Ejemplo.db2 (Some 1) 11 700) as [[[]|e] db'] eqn:Hc;
    [|vm_compute in Hc; discriminate].
  exists db'. split; [reflexivity|].
  destruct (examen_tac_no_encontrado Ejemplo.db2 (Some 1) 11) as (_ & _ & H3).
  assert (NoDup (map ExamenBase.id (examenes_base Ejemplo.db2))) as Hnd.
  { cbn. apply NoDup_cons. split; [|apply NoDup_singleton].
    intros Hin. apply list_elem_of_singleton in Hin. discriminate. }
  destruct (H3 700 db' Hnd Hc Ejemplo.sin_cambios 800) as (_ & He & _).
  split; [exact He|].
  split; [vm_compute in Hc; injection Hc as <-; reflexivity|].
  destruct (examen_tac_no_encontrado Ejemplo.db2 (Some 2) 11) as (H1 & _ & _).
  apply (H1 _ Ejemplo.sin_cambios 700). reflexivity.
Defined.

(** ** The listing of CT exams *)


Lemma filtro_elem {A} activo (P : A -> Prop) `{forall x, Decision (P x)} (l : list A) x :
  x ∈ filtro activo P l <-> x ∈ l /\ (activo = true -> P x).
Proof.
  unfold filtro. destruct activo.
  - rewrite list_elem_of_filter. tauto.
  - split; [intros Hx; split; [exact Hx|discriminate]|tauto].
Qed.

Lemma listar_examenes_tac_origen db token skip limit fecha_inicio fecha_fin paciente_rut
    mes anio l :
  listar_examenes_tac db token skip limit fecha_inicio fecha_fin paciente_rut mes anio
  = Ok l ->
  exists q,
    l = (fun x => respuesta_tac x.1 x.2)
        <$> take (Z.to_nat limit) (drop (Z.to_nat skip) (merge_sort fecha_desc q))
    /\ (forall x, x ∈ q <->
                  x ∈ join_tac db
                  /\ pasa_filtros db fecha_inicio fecha_fin paciente_rut mes anio x.1)
    /\ (PyStr.truthy paciente_rut = true ->
        list_find (fun p => Paciente.rut p = limpiar_rut (default EmptyString paciente_rut))
          (pacientes db) = None ->
        l = []).
Proof.
  unfold listar_examenes_tac.
  destruct (require_ingresador_o_admin db token) as [u|e]; [|discriminate]. cbn [bind].
  set (q0 := filter (fun x => no_eliminado_tac x.1) (join_tac db)).
  set (q1 := match fecha_inicio with Some _ => _ | None => _ end).
  set (q2 := match fecha_fin with Some _ => _ | None => _ end).
  assert (forall x, x ∈ q0 <-> x ∈ join_tac db /\ no_eliminado_tac x.1) as H0.
  { intros x. subst q0. rewrite list_elem_of_filter. tauto. }
  assert (forall x, x ∈ q1 <->
            x ∈ q0 /\ (forall f, fecha_inicio = Some f ->
                                 date_ge (ExamenBase.fecha_realizacion x.1) f = true)) as H1.
  { intros x. subst q1. destruct fecha_inicio as [f|].
    - rewrite list_elem_of_filter. split.
      + intros [Hf Hx]. split; [exact Hx|]. intros ? [= <-]. exact Hf.
      + intros [Hx Hf]. split; [apply Hf; reflexivity|exact Hx].
    - split; [intros Hx; split; [exact Hx|discriminate]|tauto]. }
  assert (forall x, x ∈ q2 <->
            x ∈ q1 /\ (forall f, fecha_fin = Some f ->
                                 date_le (ExamenBase.fecha_realizacion x.1) f = true)) as H2.
  { intros x. subst q2. destruct fecha_fin as [f|].
    - rewrite list_elem_of_filter. split.
      + intros [Hf Hx]. split; [exact Hx|]. intros ? [= <-]. exact Hf.
      + intros [Hx Hf]. split; [apply Hf; reflexivity|exact Hx].
    - split; [intros Hx; split; [exact Hx|discriminate]|tauto]. }
  destruct (PyStr.truthy paciente_rut && negb _) eqn:Hnul; [discriminate|].
  destruct (PyStr.truthy paciente_rut) eqn:Hrut.
  - destruct (list_find _ (pacientes db)) as [[j p]|] eqn:Hp.
    + set (q3 := filter _ q2).
      set (q4 := match mes with Some _ => _ | None => _ end).
      set (q5 := match anio with Some _ => _ | None => _ end).
      assert (forall x, x ∈ q3 <-> x ∈ q2 /\ ExamenBase.paciente_id x.1 = Paciente.id p)
        as H3.
      { intros x. subst q3. rewrite list_elem_of_filter. tauto. }
      assert (forall x, x ∈ q4 <->
                x ∈ q3 /\ (forall m, mes = Some m -> m <> 0 ->
                                     ExamenBase.mes_realizacion x.1 = m)) as H4.
      { intros x. subst q4. destruct mes as [m|].
        - rewrite filtro_elem, negb_true_iff, Z.eqb_neq. split.
          + intros [Hx Hm]. split; [exact Hx|]. intros ? [= <-]. exact Hm.
          + intros [Hx Hm]. split; [exact Hx|]. apply Hm. reflexivity.
        - split; [intros Hx; split; [exact Hx|discriminate]|tauto]. }
      assert (forall x, x ∈ q5 <->
                x ∈ q4 /\ (forall a, anio = Some a -> a <> 0 ->
                                     ExamenBase.anio_realizacion x.1 = a)) as H5.
      { intros x. subst q5. destruct anio as [a|].
        - rewrite filtro_elem, negb_true_iff, Z.eqb_neq. split.
          + intros [Hx Hm]. split; [exact Hx|]. intros ? [= <-]. exact Hm.
          + intros [Hx Hm]. split; [exact Hx|]. apply Hm. reflexivity.
        - split; [intros Hx; split; [exact Hx|discriminate]|tauto]. }
      intros [= <-]. exists q5. split; [|split; [|try discriminate]].
      * apply map_ext. intros [b t]. reflexivity.
      * intros x. rewrite H5, H4, H3, H2, H1, H0. unfold pasa_filtros. split.
        -- intros ((((((Hj & Hne) & Hi) & Hf) & Hpid) & Hm) & Ha).
           repeat (split; [assumption|]). split; [|split; assumption].
           intros _. exists j, p. split; [exact Hp|exact Hpid].
        -- intros (Hj & Hne & Hi & Hf & Hpid & Hm & Ha).
           destruct (Hpid Hrut) as (j' & p' & Hp' & Hid). rewrite Hp in Hp'.
           injection Hp' as <- <-.
           repeat split; try assumption; apply Hne.
    + intros [= <-]. exists []. split; [|split; [|reflexivity]].
      { unfold merge_sort. cbn. rewrite drop_nil, take_nil. reflexivity. }
      intros x. split; [intros Hx; apply elem_of_nil in Hx; contradiction|].
      intros (_ & _ & _ & _ & Hpid & _). destruct (Hpid Hrut) as (j & p & Hp' & _).
      rewrite Hp in Hp'. discriminate.
  - set (q4 := match mes with Some _ => _ | None => _ end).
    set (q5 := match anio with Some _ => _ | None => _ end).
    assert (forall x, x ∈ q4 <->
              x ∈ q2 /\ (forall m, mes = Some m -> m <> 0 ->
                                   ExamenBase.mes_realizacion x.1 = m)) as H4.
    { intros x. subst q4. destruct mes as [m|].
      - rewrite filtro_elem, negb_true_iff, Z.eqb_neq. split.
        + intros [Hx Hm]. split; [exact Hx|]. intros ? [= <-]. exact Hm.
        + intros [Hx Hm]. split; [exact Hx|]. apply Hm. reflexivity.
      - split; [intros Hx; split; [exact Hx|discriminate]|tauto]. }
    assert (forall x, x ∈ q5 <->
              x ∈ q4 /\ (forall a, anio = Some a -> a <> 0 ->
                                   ExamenBase.anio_realizacion x.1 = a)) as H5.
    { intros x. subst q5. destruct anio as [a|].
      - rewrite filtro_elem, negb_true_iff, Z.eqb_neq. split.
        + intros [Hx Hm]. split; [exact Hx|]. intros ? [= <-]. exact Hm.
        + intros [Hx Hm]. split; [exact Hx|]. apply Hm. reflexivity.
      - split; [intros Hx; split; [exact Hx|discriminate]|tauto]. }
    intros [= <-]. exists q5. split; [|split; [|try discriminate]].
    + apply map_ext. intros [b t]. reflexivity.
    + intros x. rewrite H5, H4, H2, H1, H0. unfold pasa_filtros. split.
      * intros (((((Hj & Hne) & Hi) & Hf) & Hm) & Ha).
        repeat (split; [assumption|]).
        split; [intros Ht; rewrite Hrut in Ht; discriminate|split; assumption].
      * intros (Hj & Hne & Hi & Hf & Hpid & Hm & Ha).
        repeat split; try assumption; apply Hne.
Qed.

Lemma date_ge_iff a b :
  date_ge a b = true
  <-> year b < year a
      \/ (year b = year a
          /\ (month b < month a \/ (month b = month a /\ day b <= day a))).
Proof.
  unfold date_ge. rewrite negb_true_iff, <- not_true_iff_false, date_lt_iff. lia.
Qed.

Lemma fecha_desc_transitiva : Transitive fecha_desc.
Proof. intros x y z. unfold fecha_desc. rewrite !date_ge_iff. lia. Qed.

Lemma fecha_desc_total : Total fecha_desc.
Proof. intros x y. unfold fecha_desc. rewrite !date_ge_iff. lia. Qed.

Lemma StronglySorted_sublista {A} (R : relation A) (l k : list A) :
  sublist l k -> StronglySorted R k -> StronglySorted R l.
Proof.
  induction 1 as [|x l k Hs IH|x l k Hs IH]; intros Hk.
  - constructor.
  - apply StronglySorted_inv in Hk as [Hk Hx]. constructor; [apply IH, Hk|].
    rewrite Forall_forall in Hx |- *. intros y Hy. apply Hx.
    eapply elem_of_sublist; [exact Hy|exact Hs].
  - apply StronglySorted_inv in Hk as [Hk _]. apply IH, Hk.
Qed.

(** X11. A page of the CT listing holds at most [limit] entries, in
    descending order of realization date; each entry is the answer for a
    joined pair of base and specialization rows whose base row is a CT
    exam, not deleted, and passes each filter the request sets (a [mes] or
    [anio] of 0 filters nothing); when the request names a RUT no patient
    has, the page is empty; and a first page that is not full holds every
    such pair. *)
Theorem listar_examenes_tac_pagina db token skip limit fecha_inicio fecha_fin paciente_rut
    mes anio l :
  listar_examenes_tac db token skip limit fecha_inicio fecha_fin paciente_rut mes anio
  = Ok l ->
  (length l <= Z.to_nat limit)%nat
  /\ StronglySorted
       (fun r1 r2 =>
          date_ge (ExamenTACResponse.fecha_realizacion r1)
            (ExamenTACResponse.fecha_realizacion r2) = true) l
  /\ (forall r, r ∈ l ->
        exists b t,
          r = respuesta_tac b t /\ (b, t) ∈ join_tac db
          /\ pasa_filtros db fecha_inicio fecha_fin paciente_rut mes anio b)
  /\ (PyStr.truthy paciente_rut = true ->
      (forall p, p ∈ pacientes db ->
                 Paciente.rut p <> limpiar_rut (default EmptyString paciente_rut)) ->
      l = [])
  /\ (skip <= 0 -> (length l < Z.to_nat limit)%nat ->
      forall b t,
        (b, t) ∈ join_tac db ->
        pasa_filtros db fecha_inicio fecha_fin paciente_rut mes anio b ->
        respuesta_tac b t ∈ l).
Proof.
  intros H.
  destruct (listar_examenes_tac_origen _ _ _ _ _ _ _ _ _ _ H) as (q & -> & Hq & Hvacio).
  split; [|split; [|split; [|split]]].
  - rewrite length_fmap. apply firstn_le_length.
  - apply (StronglySorted_fmap _ fecha_desc); [intros x y Hxy; exact Hxy|].
    eapply StronglySorted_sublista; [apply sublist_take|].
    eapply StronglySorted_sublista; [apply sublist_drop|].
    apply StronglySorted_merge_sort; [apply fecha_desc_transitiva|apply fecha_desc_total].
  - intros r Hr. apply list_elem_of_fmap in Hr as ([b t] & -> & Hin).
    apply subseteq_take, subseteq_drop in Hin. rewrite merge_sort_Permutation in Hin.
    apply Hq in Hin as [Hj Hp]. exists b, t. split; [reflexivity|]. split; assumption.
  - intros Hrut Hn. apply Hvacio; [exact Hrut|].
    apply list_find_ausente. intros p Hp. apply Hn, Hp.
  - intros Hskip Hlen b t Hj Hp.
    replace (Z.to_nat skip) with 0%nat in * by lia. rewrite drop_0 in *.
    rewrite length_fmap, length_take in Hlen.
    rewrite take_ge by lia.
    apply (list_elem_of_fmap_2 (fun x => respuesta_tac x.1 x.2) _ (b, t)).
    rewrite merge_sort_Permutation. apply Hq. split; assumption.
Qed.

Lemma listar_examenes_tac_pagina_witness :
  exists l,
    listar_examenes_tac Ejemplo.db2 (Some 2) 0 100 None (Some (mkdate 2024 12 31)) None
      (Some 0) (Some 2024) = Ok l
    /\ (length l <= 100)%nat
    /\ respuesta_tac Ejemplo.base11 Ejemplo.tac11 ∈ l.
Proof.
  destruct (listar_examenes_tac Ejemplo.db2 (Some 2) 0 100 None (Some (mkdate 2024 12 31))
              None (Some 0) (Some 2024)) as [l|e] eqn:Hc; [|vm_compute in Hc; discriminate].
  exists l. split; [reflexivity|].
  destruct (listar_examenes_tac_pagina _ _ _ _ _ _ _ _ _ _ Hc) as (Hlen & _ & _ & _ & Htodo).
  split; [exact Hlen|]. apply Htodo.
  - lia.
  - vm_compute in Hc. injection Hc as <-. cbn. lia.
  - right. left.
  - split; [split; reflexivity|]. split; [discriminate|].
    split; [intros f [= <-]; reflexivity|]. split; [discriminate|].
    split; [intros m [= <-] Hm; destruct Hm; reflexivity|].
    intros a [= <-] _. reflexivity.
Defined.

(** ** The administration of users *)

Lemma list_find_insert_otro {A} (P : A -> Prop) `{forall x, Decision (P x)}
    (l : list A) i x y :
  l !! i = Some x -> ~ P x -> ~ P y -> list_find P (<[i:=y]> l) = list_find P l.
Proof.
  revert i. induction l as [|a l IH]; intros i Hi Hx Hy; [discriminate|].
  destruct i as [|i]; cbn in Hi |- *.
  - injection Hi as ->. rewrite !decide_False by assumption. reflexivity.
  - destruct (decide (P a)); [reflexivity|]. f_equal. apply (IH i); assumption.
Qed.

Lemma toggle_usuario_exito db token usuario_id now u' db' :
  toggle_usuario db token usuario_id now = (Ok u', db') ->
  exists admin i u,
    require_admin db token = Ok admin
    /\ list_find (fun u => Usuario.id u = usuario_id) (usuarios db) = Some (i, u)
    /\ Usuario.id u <> Usuario.id admin
    /\ u' = Usuario.mk (Usuario.id u) (Usuario.rut u) (Usuario.nombre u) (Usuario.email u)
              (Usuario.celular u) (Usuario.password_hash u) (Usuario.rol u)
              (negb (Usuario.activo u)) (Usuario.debe_cambiar_password u)
              (Usuario.created_at u) now
    /\ db' = with_usuarios db (<[i:=u']> (usuarios db)).
Proof.
  unfold toggle_usuario.
  destruct (require_admin db token) as [admin|e] eqn:Hu; [|discriminate].
  destruct (list_find _ _) as [[i u]|] eqn:Hf; [|discriminate].
  destruct (decide _) as [|Hne]; [discriminate|].
  intros [= <- <-]. exists admin, i, u. repeat split; assumption.
Qed.

Lemma get_current_user_insert db token i u u' :
  usuarios db !! i = Some u ->
  token <> Some (Usuario.id u) ->
  Usuario.id u' = Usuario.id u ->
  get_current_user (with_usuarios db (<[i:=u']> (usuarios db))) token
  = get_current_user db token.
Proof.
  intros Hi Hne Hid. unfold get_current_user.
  destruct token as [k|]; [|reflexivity]. cbn [usuarios with_usuarios].
  rewrite (list_find_insert_otro _ _ i u u'); [reflexivity|exact Hi| |]; congruence.
Qed.

(** X12. A successful toggle rewrites the row of one user other than the
    caller: the active flag is negated and no other column but
    [updated_at] changes; no other row and no other table is touched; the
    caller keeps passing the administrator guard; a user switched off is
    refused with 403 from then on and a user switched on is let through;
    and a second toggle gives the flag its first value back. *)
Theorem toggle_usuario_efecto db token usuario_id now u' db' :
  toggle_usuario db token usuario_id now = (Ok u', db') ->
  exists admin i u,
    require_admin db token = Ok admin
    /\ usuarios db !! i = Some u
    /\ Usuario.id u = usuario_id /\ usuario_id <> Usuario.id admin
    /\ db' = with_usuarios db (<[i:=u']> (usuarios db))
    /\ Usuario.activo u' = negb (Usuario.activo u)
    /\ Usuario.id u' = Usuario.id u /\ Usuario.rut u' = Usuario.rut u
    /\ Usuario.nombre u' = Usuario.nombre u /\ Usuario.email u' = Usuario.email u
    /\ Usuario.celular u' = Usuario.celular u
    /\ Usuario.password_hash u' = Usuario.password_hash u
    /\ Usuario.rol u' = Usuario.rol u
    /\ Usuario.debe_cambiar_password u' = Usuario.debe_cambiar_password u
    /\ Usuario.created_at u' = Usuario.created_at u
    /\ require_admin db' token = Ok admin
    /\ get_current_user db' (Some usuario_id)
       = (if Usuario.activo u
          then Raise (HTTPException HTTP_403_FORBIDDEN UsuarioInactivo)
          else Ok u')
    /\ forall now',
         exists u'',
           toggle_usuario db' token usuario_id now'
           = (Ok u'', with_usuarios db (<[i:=u'']> (usuarios db)))
           /\ Usuario.activo u'' = Usuario.activo u.
Proof.
  intros H.
  destruct (toggle_usuario_exito _ _ _ _ _ _ H) as (admin & i & u & Hu & Hf & Hne & Hu' & ->).
  pose proof Hf as Hf'. apply list_find_Some in Hf' as (Hi & Hid & _).
  assert (Usuario.id u' = Usuario.id u) as Hid' by (rewrite Hu'; reflexivity).
  assert (list_find (fun u => Usuario.id u = usuario_id) (<[i:=u']> (usuarios db))
          = Some (i, u')) as Hf2.
  { apply (list_find_insert_mismo _ _ _ u); [exact Hf|congruence]. }
  assert (require_admin (with_usuarios db (<[i:=u']> (usuarios db))) token = Ok admin)
    as Hadm.
  { unfold require_admin in Hu |- *.
    rewrite (get_current_user_insert db token i u u' Hi); [exact Hu| |exact Hid'].
    intros ->. destruct (get_current_user db (Some (Usuario.id u))) as [cu|e] eqn:Hg;
      [|discriminate].
    cbn [bind] in Hu. destruct (negb _); [discriminate|]. injection Hu as ->.
    unfold get_current_user in Hg. rewrite Hid, Hf in Hg.
    destruct (negb _); [discriminate|]. injection Hg as <-. congruence. }
  exists admin, i, u.
  split; [exact Hu|]. split; [exact Hi|]. split; [exact Hid|]. split; [congruence|].
  split; [reflexivity|].
  rewrite Hu' at 1 2 3 4 5 6 7 8 9 10. cbn.
  do 10 (split; [reflexivity|]). split; [exact Hadm|]. split.
  - unfold get_current_user. cbn [usuarios with_usuarios]. rewrite Hf2.
    rewrite Hu' at 1. cbn. destruct (Usuario.activo u); reflexivity.
  - intros now'. eexists. split.
    + unfold toggle_usuario. rewrite Hadm. cbn [usuarios with_usuarios]. rewrite Hf2.
      rewrite decide_False by congruence.
      rewrite list_insert_insert_eq. unfold with_usuarios. cbn. reflexivity.
    + rewrite Hu'. cbn. apply negb_involutive.
Qed.

Lemma toggle_usuario_efecto_witness :
  exists u' db',
    toggle_usuario Ejemplo.db (Some 1) 2 900 = (Ok u', db')
    /\ Usuario.activo u' = false
    /\ get_current_user db' (Some 2)
       = Raise (HTTPException HTTP_403_FORBIDDEN UsuarioInactivo).
Proof.
  destruct (toggle_usuario Ejemplo.db (Some 1) 2 900) as [[u'|e] db'] eqn:Hc;
    [|vm_compute in Hc; discriminate].
  exists u', db'. split; [reflexivity|].
  destruct (toggle_usuario_efecto _ _ _ _ _ _ Hc)
    as (a & i & u & _ & Hi & Hid & _ & _ & Hact & _ & _ & _ & _ & _ & _ & _ & _ & _ & _
        & Hg & _).
  assert (u = Ejemplo.ingresador) as ->.
  { destruct i as [|[|i]]; cbn in Hi; [| |discriminate]; injection Hi as <-;
      [vm_compute in Hid; discriminate|reflexivity]. }
  split; [exact Hact|exact Hg].
Defined.

(** ** The removal of a user *)

Lemma desvincular_campos usuario_id now b :
  let b' := desvincular usuario_id now b in
  ExamenBase.created_by b' <> Some usuario_id
  /\ ExamenBase.updated_by b' <> Some usuario_id
  /\ ExamenBase.id b' = ExamenBase.id b
  /\ ExamenBase.tipo_examen b' = ExamenBase.tipo_examen b
  /\ ExamenBase.paciente_id b' = ExamenBase.paciente_id b
  /\ ExamenBase.fecha_realizacion b' = ExamenBase.fecha_realizacion b
  /\ ExamenBase.deleted_at b' = ExamenBase.deleted_at b
  /\ (ExamenBase.created_by b <> Some usuario_id ->
      ExamenBase.created_by b' = ExamenBase.created_by b).
Proof.
  cbn zeta. unfold desvincular.
  match goal with
  | |- context [onupdate_examen_base ?x ?y ?z] =>
      pose proof (onupdate_examen_base_campos x y z) as H; cbn zeta in H; cbn in H;
      destruct H as (H1 & H2 & H3 & H4 & _ & _ & _ & H8 & H9 & _ & H11 & _)
  end.
  rewrite H1, H2, H3, H4, H8, H9, H11.
  split; [destruct (decide (ExamenBase.created_by b = _)); [discriminate|assumption]|].
  split; [destruct (decide (ExamenBase.updated_by b = _)); [discriminate|assumption]|].
  do 5 (split; [reflexivity|]).
  intros Hne. rewrite decide_False by assumption. reflexivity.
Qed.

Lemma filter_todos {A} (P : A -> Prop) `{forall x, Decision (P x)} (l : list A) :
  (forall x, x ∈ l -> P x) -> filter P l = l.
Proof.
  induction l as [|a l IH]; intros Hp; [reflexivity|].
  rewrite filter_cons, decide_True by (apply Hp; left).
  f_equal. apply IH. intros x Hx. apply Hp. right. exact Hx.
Qed.

Lemma delete_clave (l : list Usuario.t) i u :
  NoDup (map Usuario.id l) ->
  l !! i = Some u ->
  delete i l = filter (fun x => Usuario.id x <> Usuario.id u) l.
Proof.
  revert i. induction l as [|a l IH]; intros i Hnd Hi; [discriminate|].
  cbn in Hnd. apply NoDup_cons in Hnd as [Ha Hnd].
  destruct i as [|i]; cbn in Hi.
  - injection Hi as ->. change (delete 0%nat (u :: l)) with l.
    rewrite filter_cons, decide_False by (intros Hc; apply Hc; reflexivity).
    symmetry. apply filter_todos. intros x Hx Heq.
    apply Ha. rewrite <- Heq. change (map Usuario.id l) with (Usuario.id <$> l).
    apply list_elem_of_fmap_2. exact Hx.
  - change (delete (S i) (a :: l)) with (a :: delete i l).
    rewrite filter_cons, decide_True.
    + f_equal. apply IH; assumption.
    + intros Heq. apply Ha. rewrite Heq. change (map Usuario.id l) with (Usuario.id <$> l).
      apply list_elem_of_fmap_2. eapply list_elem_of_lookup_2, Hi.
Qed.

Lemma list_find_filter_snd {A} (P Q : A -> Prop) `{forall x, Decision (P x)}
    `{forall x, Decision (Q x)} (l : list A) :
  (forall x, P x -> Q x) ->
  snd <$> list_find P (filter Q l) = snd <$> list_find P l.
Proof.
  intros HPQ. induction l as [|a l IH]; [reflexivity|].
  rewrite filter_cons. destruct (decide (Q a)) as [Hq|Hq].
  - cbn. destruct (decide (P a)); [reflexivity|].
    rewrite <- !option_fmap_compose. exact IH.
  - cbn. rewrite decide_False by (intros Hp; apply Hq, HPQ, Hp).
    rewrite <- option_fmap_compose. exact IH.
Qed.

Lemma get_current_user_filter db token usuario_id :
  get_current_user
    (with_usuarios db (filter (fun u => Usuario.id u <> usuario_id) (usuarios db))) token
  = if decide (token = Some usuario_id)
    then Raise (HTTPException HTTP_401_UNAUTHORIZED CredencialesInvalidas)
    else get_current_user db token.
Proof.
  unfold get_current_user. cbn [usuarios with_usuarios].
  destruct token as [k|]; [|rewrite decide_False by discriminate; reflexivity].
  destruct (decide (Some k = Some usuario_id)) as [[= ->]|Hne].
  - rewrite list_find_ausente; [reflexivity|].
    intros x Hx. apply list_elem_of_filter in Hx as [Hx _]. exact Hx.
  - pose proof (list_find_filter_snd (fun u => Usuario.id u = k)
                  (fun u => Usuario.id u <> usuario_id) (usuarios db)) as H.
    destruct (list_find _ (filter _ _)) as [[i u]|], (list_find _ (usuarios db)) as [[j v]|];
      specialize (H ltac:(intros x ->; congruence)); cbn in H;
      [injection H as ->; reflexivity|discriminate|discriminate|reflexivity].
Qed.


Lemma get_current_user_ext db1 db2 token :
  usuarios db1 = usuarios db2 -> get_current_user db1 token = get_current_user db2 token.
Proof. intros H. unfold get_current_user. rewrite H. reflexivity. Qed.

Lemma usuario_retirado_intro db usuario_id now db' (g : ExamenBase.t -> ExamenBase.t) :
  (forall b, ExamenBase.id (g b) = ExamenBase.id b) ->
  usuarios db' = filter (fun u => Usuario.id u <> usuario_id) (usuarios db) ->
  examenes_base db' = map (desvincular usuario_id now) (map g (examenes_base db)) ->
  db' = with_usuarios
          (with_examenes_base db (examenes_base db') (examenes_base_seq db))
          (usuarios db') ->
  usuario_retirado db usuario_id db'.
Proof.
  intros Hg Hus Hbs Hm. unfold usuario_retirado.
  split; [exact Hus|]. split; [|split; [|split; [exact Hm|split]]].
  - intros b Hb. rewrite Hbs in Hb.
    apply list_elem_of_In, in_map_iff in Hb as (x & <- & _).
    destruct (desvincular_campos usuario_id now x) as (H1 & H2 & _). split; assumption.
  - rewrite Hbs, !map_map. apply map_ext. intros b.
    destruct (desvincular_campos usuario_id now (g b)) as (_ & _ & -> & _). apply Hg.
  - rewrite (get_current_user_ext db'
               (with_usuarios db (filter (fun u => Usuario.id u <> usuario_id) (usuarios db))))
      by exact Hus.
    rewrite get_current_user_filter, decide_True by reflexivity. reflexivity.
  - intros token Hne.
    rewrite (get_current_user_ext db'
               (with_usuarios db (filter (fun u => Usuario.id u <> usuario_id) (usuarios db))))
      by exact Hus.
    rewrite get_current_user_filter, decide_False by exact Hne. reflexivity.
Qed.

Lemma get_current_user_token db token current_user :
  get_current_user db token = Ok current_user -> token = Some (Usuario.id current_user).
Proof.
  unfold get_current_user. destruct token as [k|]; [|discriminate].
  destruct (list_find _ _) as [[j u]|] eqn:Hf; [|discriminate].
  destruct (negb _); [discriminate|]. intros [= <-].
  apply list_find_Some in Hf as (_ & <- & _). reflexivity.
Qed.

Lemma require_admin_usuario db token current_user :
  require_admin db token = Ok current_user -> get_current_user db token = Ok current_user.
Proof.
  unfold require_admin. destruct (get_current_user db token) as [cu|e]; [|discriminate].
  cbn [bind]. destruct (negb _); [discriminate|]. intros [= <-]. reflexivity.
Qed.

(** X13. Once a user is removed, by an administrator or by the user, the
    store holds no row of that user and no exam names the user as creator
    or as last modifier; the exam table keeps its rows and their keys;
    every other table (patients, TAC, RX and ECO rows), the sequences and
    the catalogs are untouched; the token of the removed user no longer
    authenticates (401), and every other token is answered as before.  For
    the removal by an administrator the user keys of the store are
    unique. *)
Theorem usuario_eliminado_sin_referencias :
  (forall db token usuario_id eliminar_examenes now db',
      NoDup (map Usuario.id (usuarios db)) ->
      eliminar_usuario db token usuario_id eliminar_examenes now = (Ok tt, db') ->
      usuario_retirado db usuario_id db'
      /\ require_admin db' token = require_admin db token)
  /\ (forall verify_password db token password now db',
         eliminar_mi_cuenta verify_password db token password now = (Ok tt, db') ->
         exists current_user,
           get_current_user db token = Ok current_user
           /\ token = Some (Usuario.id current_user)
           /\ usuario_retirado db (Usuario.id current_user) db').
Proof.
  split.
  - intros db token usuario_id flag now db' Hnd. unfold eliminar_usuario.
    destruct (require_admin db token) as [admin|e] eqn:Hu; [|discriminate].
    destruct (list_find _ _) as [[i u]|] eqn:Hf; [|discriminate].
    destruct (decide _) as [|Hne]; [discriminate|].
    destruct (_ && _); [discriminate|]. intros [= <-].
    apply list_find_Some in Hf as (Hi & Hid & _).
    assert (usuario_retirado db usuario_id
              (with_usuarios
                 (with_examenes_base db
                    (map (desvincular usuario_id now)
                       (if flag
                        then map (fun b =>
                                    if decide (ExamenBase.created_by b = Some usuario_id)
                                    then set_deleted_at b now else b) (examenes_base db)
                        else examenes_base db))
                    (examenes_base_seq db))
                 (delete i (usuarios db)))) as Hr.
    { destruct flag.
      - eapply (usuario_retirado_intro _ _ now _
                  (fun b => if decide (ExamenBase.created_by b = Some usuario_id)
                            then set_deleted_at b now else b)); try reflexivity.
        + intros b. destruct (decide _); reflexivity.
        + cbn. rewrite <- Hid. apply delete_clave; assumption.
      - eapply (usuario_retirado_intro _ _ now _ (fun b => b)); try reflexivity.
        + cbn. rewrite <- Hid. apply delete_clave; assumption.
        + cbn. rewrite map_id. reflexivity. }
    split; [exact Hr|].
    destruct Hr as (_ & _ & _ & _ & _ & Hotros).
    pose proof (get_current_user_token _ _ _ (require_admin_usuario _ _ _ Hu)) as Htok.
    unfold require_admin in Hu |- *. rewrite Hotros; [exact Hu|].
    rewrite Htok. intros [= Heq]. apply Hne. congruence.
  - intros verify db token password now db'. unfold eliminar_mi_cuenta.
    destruct (get_current_user db token) as [cu|e] eqn:Hg; [|discriminate].
    destruct (negb _); [discriminate|]. destruct (0 <? _); [discriminate|].
    intros [= <-]. exists cu. split; [reflexivity|].
    split; [apply (get_current_user_token _ _ _ Hg)|].
    eapply (usuario_retirado_intro _ _ now _ (fun b => b)); try reflexivity.
    cbn. rewrite map_id. reflexivity.
Qed.

Lemma usuario_eliminado_sin_referencias_witness :
  exists db',
    eliminar_usuario Ejemplo.db2 (Some 1) 2 true 900 = (Ok tt, db')
    /\ get_current_user db' (Some 2)
       = Raise (HTTPException HTTP_401_UNAUTHORIZED CredencialesInvalidas)
    /\ require_admin db' (Some 1) = Ok Ejemplo.admin
    /\ map ExamenBase.id (examenes_base db') = [10; 11].
Proof.
  destruct (eliminar_usuario Ejemplo.db2 (Some 1) 2 true 900) as [[[]|e] db'] eqn:Hc;
    [|vm_compute in Hc; discriminate].
  exists db'. split; [reflexivity|].
  destruct usuario_eliminado_sin_referencias as [H _].
  assert (NoDup (map Usuario.id (usuarios Ejemplo.db2))) as Hnd.
  { cbn. apply NoDup_cons. split; [|apply NoDup_singleton].
    intros Hin. apply list_elem_of_singleton in Hin. discriminate. }
  destruct (H _ _ _ _ _ _ Hnd Hc) as ((_ & _ & Hids & _ & Hg & _) & Hadm).
  split; [exact Hg|]. split; [rewrite Hadm; reflexivity|exact Hids].
Defined.

(** ** Integrity of the store *)


Lemma map_insert_igual {A B} (f : A -> B) (l : list A) i x y :
  l !! i = Some x -> f y = f x -> map f (<[i:=y]> l) = map f l.
Proof.
  intros Hi Hf. change (f <$> <[i:=y]> l = f <$> l).
  rewrite list_fmap_insert, Hf. apply list_insert_id.
  rewrite list_lookup_fmap, Hi. reflexivity.
Qed.

Lemma elem_of_insert_casos {A} (l : list A) i y x :
  x ∈ <[i:=y]> l -> x = y \/ x ∈ l.
Proof.
  intros Hx. apply list_elem_of_lookup_1 in Hx as [j Hj].
  destruct (decide (i = j)) as [->|Hne].
  - left. destruct (decide (j < length l)%nat) as [Hlt|Hge].
    + rewrite list_lookup_insert_eq in Hj by exact Hlt. congruence.
    + apply lookup_lt_Some in Hj. rewrite length_insert in Hj. contradiction.
  - right. rewrite list_lookup_insert_ne in Hj by exact Hne.
    eapply list_elem_of_lookup_2, Hj.
Qed.

Lemma elem_of_map {A B} (f : A -> B) (l : list A) k :
  k ∈ map f l <-> exists x, x ∈ l /\ f x = k.
Proof.
  rewrite list_elem_of_In, in_map_iff. split; intros (x & H1 & H2); exists x.
  - split; [apply list_elem_of_In, H2|exact H1].
  - split; [exact H2|apply list_elem_of_In, H1].
Qed.

Lemma NoDup_map_sublista {A B} (f : A -> B) (l k : list A) :
  sublist l k -> NoDup (map f k) -> NoDup (map f l).
Proof.
  intros Hs Hnd. eapply sublist_NoDup; [exact Hnd|].
  change (f <$> l `sublist_of` f <$> k). apply fmap_sublist, Hs.
Qed.

Lemma NoDup_map_snoc {A B} (f : A -> B) (l : list A) x :
  NoDup (map f l) -> f x ∉ map f l -> NoDup (map f (l ++ [x])).
Proof.
  intros Hnd Hx. rewrite map_app. apply NoDup_app. split; [exact Hnd|]. split.
  - intros y Hy Hin. cbn in Hin. apply list_elem_of_singleton in Hin. congruence.
  - apply NoDup_singleton.
Qed.

Lemma elem_of_map_snoc {A B} (f : A -> B) (l : list A) x k :
  k ∈ map f (l ++ [x]) <-> k ∈ map f l \/ k = f x.
Proof.
  rewrite map_app, elem_of_app. cbn. rewrite list_elem_of_singleton. reflexivity.
Qed.

(** *** The patient registry *)

Lemma obtener_o_crear_paciente_integra db rut nombre fecha_nac now r db' :
  integra db ->
  obtener_o_crear_paciente db rut nombre fecha_nac now = (r, db') ->
  integra db'.
Proof.
  intros [Iuc Ipc Ipr Ips Ibc Ibs Itc Its Itu Itb Ibp Ibu Irc Iru Irb Iec Ieu Ieb] H.
  destruct (obtener_o_crear_paciente_casos db rut nombre fecha_nac now)
    as [(e & He & _)|[(i & p & _ & _ & He)|[(i & p & f & Hf & _ & _ & He)
       |(n & Hf & _ & _ & He)]]];
    cbn zeta in He; rewrite He in H; injection H as <- <-.
  - constructor; assumption.
  - constructor; assumption.
  - apply list_find_Some in Hf as (Hi & _ & _).
    match goal with |- integra ?d => set (db' := d) end.
    assert (map Paciente.id (pacientes db') = map Paciente.id (pacientes db)) as H1
      by (apply (map_insert_igual Paciente.id _ _ p); [exact Hi|reflexivity]).
    assert (map Paciente.rut (pacientes db') = map Paciente.rut (pacientes db)) as H2
      by (apply (map_insert_igual Paciente.rut _ _ p); [exact Hi|reflexivity]).
    constructor; rewrite ?H1, ?H2; assumption.
  - assert (forall x, x ∈ pacientes db -> Paciente.rut x <> limpiar_rut rut) as Hn.
    { intros x Hx Hrut. apply list_elem_of_lookup_1 in Hx as [j Hj].
      assert (is_Some (list_find (fun p => Paciente.rut p = limpiar_rut rut) (pacientes db)))
        as [? Hs]; [|congruence].
      apply list_find_elem_of with x; [eapply list_elem_of_lookup_2, Hj|exact Hrut]. }
    constructor; cbn; try assumption.
    + apply NoDup_map_snoc; [assumption|]. cbn. intros Hin.
      apply Ips in Hin. lia.
    + apply NoDup_map_snoc; [assumption|]. cbn. intros Hin.
      apply elem_of_map in Hin as (x & Hx & Hrut). exact (Hn x Hx Hrut).
    + intros k Hk. apply elem_of_map_snoc in Hk as [Hk| ->]; cbn.
      * apply Ips in Hk. lia.
      * lia.
    + intros b Hb. apply elem_of_map_snoc. left. apply Ibp, Hb.
Qed.

(** *** The registration of a CT exam *)

Lemma crear_examen_tac_cuerpo_casos db current_user examen_data now r db' :
  crear_examen_tac_cuerpo db current_user examen_data now = (r, db') ->
  exists rp db1,
    obtener_o_crear_paciente db (ExamenTACCreate.paciente_rut examen_data)
      (ExamenTACCreate.paciente_nombre examen_data)
      (ExamenTACCreate.fecha_nacimiento examen_data) now = (rp, db1)
    /\ (db' = db1
        \/ db' = clave_base_consumida db1
        \/ db' = clave_tac_consumida (clave_base_consumida db1)
        \/ exists p b t,
             rp = Ok p
             /\ ExamenBase.id b = examenes_base_seq db1
             /\ ExamenBase.paciente_id b = Paciente.id p
             /\ ExamenBase.created_by b = Some (Usuario.id current_user)
             /\ ExamenBase.updated_by b = Some (Usuario.id current_user)
             /\ ExamenTAC.id t = examenes_tac_seq db1
             /\ ExamenTAC.examen_base_id t = examenes_base_seq db1
             /\ db' = with_examenes_tac
                        (with_examenes_base db1 (examenes_base db1 ++ [b])
                           (examenes_base_seq db1 + 1))
                        (examenes_tac db1 ++ [t]) (examenes_tac_seq db1 + 1)).
Proof.
  unfold crear_examen_tac_cuerpo.
  destruct (obtener_o_crear_paciente _ _ _ _ _) as [[p|e] db1] eqn:Hp.
  - destruct (extraer_mes_anio _) as [mes anio].
    destruct (negb (adapta_examen_base _));
      [intros [= <- <-]; eexists _, _; split; [reflexivity|left; reflexivity]|].
    destruct (negb (acepta_examen_base _ _)).
    { destruct (longitudes_examen_base _); intros [= <- <-]; eexists _, _;
        (split; [reflexivity|]); tauto. }
    destruct (negb (adapta_examen_tac _));
      [intros [= <- <-]; eexists _, _; split; [reflexivity|tauto]|].
    destruct (negb (acepta_examen_tac _ _)).
    { destruct (longitudes_examen_tac _); intros [= <- <-]; eexists _, _;
        (split; [reflexivity|]); tauto. }
    intros [= <- <-]; eexists _, _; (split; [reflexivity|]).
    right. right. right. eexists p, _, _. repeat split; reflexivity.
  - intros [= <- <-]. eexists _, _. split; [reflexivity|left; reflexivity].
Qed.

Lemma get_current_user_elem db token u :
  get_current_user db token = Ok u -> u ∈ usuarios db.
Proof.
  intros H. apply get_current_user_find in H as [k Hk].
  apply list_find_Some in Hk as (Hk & _). eapply list_elem_of_lookup_2, Hk.
Qed.

Lemma require_ingresador_o_admin_usuario db token u :
  require_ingresador_o_admin db token = Ok u -> get_current_user db token = Ok u.
Proof.
  unfold require_ingresador_o_admin.
  destruct (get_current_user db token) as [cu|e]; [|discriminate]. cbn [bind].
  destruct (negb _); [discriminate|]. intros [= <-]. reflexivity.
Qed.

(** A key drawn and not used leaves the store consistent. *)
Lemma clave_consumida_integra db :
  integra db -> integra (clave_base_consumida db) /\ integra (clave_tac_consumida db).
Proof.
  intros [Iuc Ipc Ipr Ips Ibc Ibs Itc Its Itu Itb Ibp Ibu Irc Iru Irb Iec Ieu Ieb].
  split; constructor; cbn; try assumption.
  - intros k Hk. apply Ibs in Hk. lia.
  - intros k Hk. apply Its in Hk. lia.
Qed.

Lemma crear_examen_tac_integra db token body now r db' :
  integra db -> crear_examen_tac db token body now = (r, db') -> integra db'.
Proof.
  intros Hint. unfold crear_examen_tac.
  destruct (require_ingresador_o_admin db token) as [u|e] eqn:Hu;
    [|intros [= <- <-]; exact Hint].
  unfold ExamenTACCreate.validate.
  destruct (validar_tac _ _ _ _) as [[]|e]; cbn [bind]; [|intros [= <- <-]; exact Hint].
  intros H. apply crear_examen_tac_cuerpo_casos in H as (rp & db1 & Hp & Hcasos).
  pose proof (obtener_o_crear_paciente_integra _ _ _ _ _ _ _ Hint Hp) as Hint1.
  destruct Hcasos
    as [->|[->|[->|(p & b & t & -> & Hbid & Hbp & Hcb & Hub & Htid & Htb & ->)]]];
    [exact Hint1|apply clave_consumida_integra, Hint1
    |apply clave_consumida_integra, clave_consumida_integra, Hint1|].
  destruct Hint1 as
    [Iuc Ipc Ipr Ips Ibc Ibs Itc Its Itu Itb Ibp Ibu Irc Iru Irb Iec Ieu Ieb].
  destruct (obtener_o_crear_paciente_rut _ _ _ _ _ _ _ Hp) as [Hpin _].
  destruct (obtener_o_crear_paciente_tablas _ _ _ _ _ _ _ Hp) as (Hus & _).
  apply require_ingresador_o_admin_usuario, get_current_user_elem in Hu.
  constructor; cbn [usuarios pacientes pacientes_seq examenes_base examenes_base_seq
                      examenes_tac examenes_tac_seq with_examenes_tac with_examenes_base];
    try assumption.
  - apply NoDup_map_snoc; [assumption|]. rewrite Hbid. intros Hin.
    apply Ibs in Hin. lia.
  - intros k Hk. apply elem_of_map_snoc in Hk as [Hk| ->].
    + apply Ibs in Hk. lia.
    + lia.
  - apply NoDup_map_snoc; [assumption|]. rewrite Htid. intros Hin.
    apply Its in Hin. lia.
  - intros k Hk. apply elem_of_map_snoc in Hk as [Hk| ->].
    + apply Its in Hk. lia.
    + lia.
  - apply NoDup_map_snoc; [assumption|]. rewrite Htb. intros Hin.
    apply Itb, Ibs in Hin. lia.
  - intros k Hk. apply elem_of_map_snoc. apply elem_of_map_snoc in Hk as [Hk| ->].
    + left. apply Itb, Hk.
    + right. congruence.
  - intros x Hx. apply elem_of_app in Hx as [Hx|Hx].
    + apply Ibp, Hx.
    + apply list_elem_of_singleton in Hx as ->. rewrite Hbp.
      apply elem_of_map. exists p. split; [exact Hpin|reflexivity].
  - intros x k Hx Hk. apply elem_of_app in Hx as [Hx|Hx].
    + eapply Ibu; eassumption.
    + apply list_elem_of_singleton in Hx as ->. rewrite Hcb, Hub in Hk.
      assert (k = Usuario.id u) as -> by (destruct Hk; congruence).
      apply elem_of_map. exists u. split; [rewrite Hus; exact Hu|reflexivity].
  - intros k Hk. apply elem_of_map_snoc. left. apply Irb, Hk.
  - intros k Hk. apply elem_of_map_snoc. left. apply Ieb, Hk.
Qed.

(** *** Update and soft delete of a CT exam *)

Lemma base_reescrita_integra db i b b' u :
  integra db ->
  examenes_base db !! i = Some b ->
  u ∈ usuarios db ->
  ExamenBase.id b' = ExamenBase.id b ->
  ExamenBase.paciente_id b' = ExamenBase.paciente_id b ->
  ExamenBase.created_by b' = ExamenBase.created_by b ->
  ExamenBase.updated_by b' = Some (Usuario.id u) ->
  integra (with_examenes_base db (<[i:=b']> (examenes_base db)) (examenes_base_seq db)).
Proof.
  intros [Iuc Ipc Ipr Ips Ibc Ibs Itc Its Itu Itb Ibp Ibu Irc Iru Irb Iec Ieu Ieb] Hi Hu Hid Hpid Hcb Hub.
  match goal with |- integra ?d => set (db' := d) end.
  assert (map ExamenBase.id (examenes_base db') = map ExamenBase.id (examenes_base db)) as H1
    by (apply (map_insert_igual ExamenBase.id _ _ b); [exact Hi|exact Hid]).
  assert (b ∈ examenes_base db) as Hb by (eapply list_elem_of_lookup_2, Hi).
  constructor; rewrite ?H1; try assumption.
  - intros x Hx. apply elem_of_insert_casos in Hx as [->|Hx].
    + rewrite Hpid. apply Ibp, Hb.
    + apply Ibp, Hx.
  - intros x k Hx Hk. apply elem_of_insert_casos in Hx as [->|Hx].
    + rewrite Hcb, Hub in Hk. destruct Hk as [Hk|[= <-]].
      * apply (Ibu b k Hb). left. exact Hk.
      * apply elem_of_map. exists u. split; [exact Hu|reflexivity].
    + eapply Ibu; eassumption.
Qed.

Lemma tac_reescrita_integra db j t t' :
  integra db ->
  examenes_tac db !! j = Some t ->
  ExamenTAC.id t' = ExamenTAC.id t ->
  ExamenTAC.examen_base_id t' = ExamenTAC.examen_base_id t ->
  integra (with_examenes_tac db (<[j:=t']> (examenes_tac db)) (examenes_tac_seq db)).
Proof.
  intros [Iuc Ipc Ipr Ips Ibc Ibs Itc Its Itu Itb Ibp Ibu Irc Iru Irb Iec Ieu Ieb] Hj Hid Hbid.
  match goal with |- integra ?d => set (db' := d) end.
  assert (map ExamenTAC.id (examenes_tac db') = map ExamenTAC.id (examenes_tac db)) as H1
    by (apply (map_insert_igual ExamenTAC.id _ _ t); [exact Hj|exact Hid]).
  assert (map ExamenTAC.examen_base_id (examenes_tac db')
          = map ExamenTAC.examen_base_id (examenes_tac db)) as H2
    by (apply (map_insert_igual ExamenTAC.examen_base_id _ _ t); [exact Hj|exact Hbid]).
  constructor; rewrite ?H1, ?H2; assumption.
Qed.

Lemma actualizar_examen_tac_integra db token examen_id body now r db' :
  integra db -> actualizar_examen_tac db token examen_id body now = (r, db') -> integra db'.
Proof.
  intros Hint. unfold actualizar_examen_tac.
  destruct (require_admin db token) as [u|e] eqn:Hu; [|intros [= <- <-]; exact Hint].
  unfold ExamenTACUpdate.validate.
  destruct (negb (bool_decide _)); [intros [= <- <-]; exact Hint|].
  destruct (list_find _ (examenes_base db)) as [[i b]|] eqn:Hfb;
    [|intros [= <- <-]; exact Hint].
  destruct (recalcular_fecha b body) as [[fecha [mes anio]]|e];
    [|intros [= <- <-]; exact Hint].
  apply list_find_Some in Hfb as (Hi & _ & _).
  apply require_admin_usuario, get_current_user_elem in Hu.
  assert (forall b', commit_base db b body fecha mes anio u now = Ok b' ->
            integra (with_examenes_base db (<[i:=b']> (examenes_base db))
                       (examenes_base_seq db))) as Hbase.
  { intros b' Hb.
    destruct (commit_base_campos _ _ _ _ _ _ _ _ _ Hb)
      as (B1 & _ & _ & B4 & _ & _ & _ & B8 & B9 & _).
    eapply base_reescrita_integra; eassumption. }
  destruct (list_find _ (examenes_tac db)) as [[j t]|] eqn:Hft.
  - destruct (commit_base _ _ _ _ _ _ _ _) as [b'|e] eqn:Hb; [|intros [= <- <-]; exact Hint].
    destruct (commit_tac _ _ _ _) as [t'|e] eqn:Ht; intros [= <- <-]; [|exact Hint].
    apply list_find_Some in Hft as (Hj & _ & _).
    destruct (commit_tac_campos _ _ _ _ _ Ht) as (T1 & T2 & _).
    apply (tac_reescrita_integra _ j t t' (Hbase b' eq_refl)); assumption.
  - destruct (campos_tac_presentes body); [intros [= <- <-]; exact Hint|].
    destruct (commit_base _ _ _ _ _ _ _ _) as [b'|e] eqn:Hb; intros [= <- <-];
      [apply Hbase; reflexivity|exact Hint].
Qed.

Lemma eliminar_examen_tac_integra db token examen_id now r db' :
  integra db -> eliminar_examen_tac db token examen_id now = (r, db') -> integra db'.
Proof.
  intros Hint. unfold eliminar_examen_tac.
  destruct (require_admin db token) as [u|e] eqn:Hu; [|intros [= <- <-]; exact Hint].
  destruct (list_find _ (examenes_base db)) as [[i b]|] eqn:Hfb;
    [|intros [= <- <-]; exact Hint].
  intros [= <- <-].
  apply list_find_Some in Hfb as (Hi & _ & _).
  apply require_admin_usuario, get_current_user_elem in Hu.
  match goal with
  | |- context [onupdate_examen_base ?x ?y ?z] =>
      pose proof (onupdate_examen_base_campos x y z) as H; cbn zeta in H; cbn in H;
      destruct H as (H1 & _ & _ & H4 & _ & _ & _ & H8 & H9 & _)
  end.
  eapply base_reescrita_integra; eassumption.
Qed.

(** *** The removal of a patient *)

Lemma elem_of_map_delete {A B} (f : A -> B) (l : list A) i x k :
  l !! i = Some x -> k ∈ map f l -> k <> f x -> k ∈ map f (delete i l).
Proof.
  intros Hi Hk Hne. apply elem_of_map in Hk as (y & Hy & <-).
  apply elem_of_map. exists y. split; [|reflexivity].
  apply list_elem_of_lookup_1 in Hy as [j Hj].
  assert (j <> i) as Hji by (intros ->; congruence).
  destruct (decide (j < i)%nat) as [Hlt|Hge].
  - apply (list_elem_of_lookup_2 _ j). rewrite list_lookup_delete_lt by exact Hlt. exact Hj.
  - apply (list_elem_of_lookup_2 _ (pred j)). rewrite list_lookup_delete_ge by lia.
    replace (S (pred j)) with j by lia. exact Hj.
Qed.

Lemma elem_of_map_sublista {A B} (f : A -> B) (l k : list A) x :
  sublist l k -> x ∈ map f l -> x ∈ map f k.
Proof.
  intros Hs Hx. apply elem_of_map in Hx as (y & Hy & <-).
  apply elem_of_map. exists y. split; [|reflexivity]. eapply elem_of_sublist; eassumption.
Qed.

Lemma eliminar_paciente_integra db token paciente_id r db' :
  integra db -> eliminar_paciente db token paciente_id = (r, db') -> integra db'.
Proof.
  intros Hint. unfold eliminar_paciente.
  destruct (get_current_user db token) as [u|e]; [|intros [= <- <-]; exact Hint].
  destruct (negb _); [intros [= <- <-]; exact Hint|].
  destruct (list_find _ (pacientes db)) as [[i p]|] eqn:Hf; [|intros [= <- <-]; exact Hint].
  intros [= <- <-]. apply list_find_Some in Hf as (Hi & _ & _). destruct Hint as
    [Iuc Ipc Ipr Ips Ibc Ibs Itc Its Itu Itb Ibp Ibu Irc Iru Irb Iec Ieu Ieb].
  constructor;
    cbn [usuarios pacientes pacientes_seq examenes_base examenes_base_seq examenes_tac
           examenes_tac_seq with_examenes_tac with_examenes_base with_pacientes
           with_especificos].
  - assumption.
  - eapply NoDup_map_sublista; [apply sublist_delete|assumption].
  - eapply NoDup_map_sublista; [apply sublist_delete|assumption].
  - intros k Hk. apply Ips.
    eapply elem_of_map_sublista; [|exact Hk]; apply sublist_delete.
  - eapply NoDup_map_sublista; [apply sublist_filter|assumption].
  - intros k Hk. apply Ibs.
    eapply elem_of_map_sublista; [|exact Hk]; apply sublist_filter.
  - eapply NoDup_map_sublista; [apply sublist_filter|assumption].
  - intros k Hk. apply Its.
    eapply elem_of_map_sublista; [|exact Hk]; apply sublist_filter.
  - eapply NoDup_map_sublista; [apply sublist_filter|assumption].
  - intros k Hk. apply elem_of_map in Hk as (t & Ht & <-).
    apply list_elem_of_filter in Ht as [Hno Ht].
    assert (ExamenTAC.examen_base_id t ∈ map ExamenBase.id (examenes_base db)) as Hb.
    { apply Itb. apply elem_of_map. exists t. split; [exact Ht|reflexivity]. }
    apply elem_of_map in Hb as (b & Hb & Hid).
    apply elem_of_map. exists b. split; [|exact Hid].
    apply list_elem_of_filter. split; [|exact Hb].
    intros Hp. apply Hno. rewrite <- Hid.
    apply elem_of_map. exists b. split; [|reflexivity].
    apply list_elem_of_filter. split; assumption.
  - intros b Hb. apply list_elem_of_filter in Hb as [Hne Hb].
    eapply elem_of_map_delete; [exact Hi|apply Ibp, Hb|exact Hne].
  - intros b k Hb Hk. apply list_elem_of_filter in Hb as [_ Hb].
    eapply Ibu; eassumption.
  - eapply NoDup_map_sublista; [apply sublist_filter|assumption].
  - eapply NoDup_map_sublista; [apply sublist_filter|assumption].
  - intros k Hk. apply elem_of_map in Hk as (t & Ht & <-).
    apply list_elem_of_filter in Ht as [Hno Ht].
    assert (ExamenRX.examen_base_id t ∈ map ExamenBase.id (examenes_base db)) as Hb.
    { apply Irb. apply elem_of_map. exists t. split; [exact Ht|reflexivity]. }
    apply elem_of_map in Hb as (b & Hb & Hid).
    apply elem_of_map. exists b. split; [|exact Hid].
    apply list_elem_of_filter. split; [|exact Hb].
    intros Hp. apply Hno. rewrite <- Hid.
    apply elem_of_map. exists b. split; [|reflexivity].
    apply list_elem_of_filter. split; assumption.
  - eapply NoDup_map_sublista; [apply sublist_filter|assumption].
  - eapply NoDup_map_sublista; [apply sublist_filter|assumption].
  - intros k Hk. apply elem_of_map in Hk as (t & Ht & <-).
    apply list_elem_of_filter in Ht as [Hno Ht].
    assert (ExamenECO.examen_base_id t ∈ map ExamenBase.id (examenes_base db)) as Hb.
    { apply Ieb. apply elem_of_map. exists t. split; [exact Ht|reflexivity]. }
    apply elem_of_map in Hb as (b & Hb & Hid).
    apply elem_of_map. exists b. split; [|exact Hid].
    apply list_elem_of_filter. split; [|exact Hb].
    intros Hp. apply Hno. rewrite <- Hid.
    apply elem_of_map. exists b. split; [|reflexivity].
    apply list_elem_of_filter. split; assumption.
Qed.

(** *** The administration of users *)

Lemma toggle_usuario_integra db token usuario_id now r db' :
  integra db -> toggle_usuario db token usuario_id now = (r, db') -> integra db'.
Proof.
  intros Hint. unfold toggle_usuario.
  destruct (require_admin db token) as [u|e]; [|intros [= <- <-]; exact Hint].
  destruct (list_find _ (usuarios db)) as [[i x]|] eqn:Hf; [|intros [= <- <-]; exact Hint].
  destruct (decide _); intros [= <- <-]; [exact Hint|].
  apply list_find_Some in Hf as (Hi & _ & _). destruct Hint as
    [Iuc Ipc Ipr Ips Ibc Ibs Itc Its Itu Itb Ibp Ibu Irc Iru Irb Iec Ieu Ieb].
  match goal with |- integra ?d => set (db' := d) end.
  assert (map Usuario.id (usuarios db') = map Usuario.id (usuarios db)) as H1
    by (apply (map_insert_igual Usuario.id _ _ x); [exact Hi|reflexivity]).
  constructor; rewrite ?H1; assumption.
Qed.

Lemma desvincular_referencia usuario_id now b k :
  ExamenBase.created_by (desvincular usuario_id now b) = Some k
  \/ ExamenBase.updated_by (desvincular usuario_id now b) = Some k ->
  (ExamenBase.created_by b = Some k \/ ExamenBase.updated_by b = Some k)
  /\ k <> usuario_id.
Proof.
  unfold desvincular.
  match goal with
  | |- context [onupdate_examen_base ?x ?y ?z] =>
      pose proof (onupdate_examen_base_campos x y z) as H; cbn zeta in H; cbn in H;
      destruct H as (_ & _ & _ & _ & _ & _ & _ & H8 & H9 & _)
  end.
  rewrite H8, H9.
  destruct (decide (ExamenBase.created_by b = _)) as [Hc|Hc],
    (decide (ExamenBase.updated_by b = _)) as [Hm|Hm];
    intros [H|H]; try discriminate; (split; [tauto|congruence]).
Qed.

Lemma usuario_retirado_integra db usuario_id now us (g : ExamenBase.t -> ExamenBase.t) :
  integra db ->
  sublist us (usuarios db) ->
  (forall k, k ∈ map Usuario.id (usuarios db) -> k <> usuario_id -> k ∈ map Usuario.id us) ->
  (forall b, ExamenBase.id (g b) = ExamenBase.id b
             /\ ExamenBase.paciente_id (g b) = ExamenBase.paciente_id b
             /\ ExamenBase.created_by (g b) = ExamenBase.created_by b
             /\ ExamenBase.updated_by (g b) = ExamenBase.updated_by b) ->
  integra
    (with_usuarios
       (with_examenes_base db (map (desvincular usuario_id now) (map g (examenes_base db)))
          (examenes_base_seq db))
       us).
Proof.
  intros [Iuc Ipc Ipr Ips Ibc Ibs Itc Its Itu Itb Ibp Ibu Irc Iru Irb Iec Ieu Ieb] Hs Hus Hg.
  match goal with |- integra ?d => set (db' := d) end.
  assert (map ExamenBase.id (examenes_base db') = map ExamenBase.id (examenes_base db)) as H1.
  { subst db'. cbn [examenes_base with_usuarios with_examenes_base].
    rewrite !map_map. apply map_ext. intros b.
    destruct (desvincular_campos usuario_id now (g b)) as (_ & _ & -> & _). apply Hg. }
  constructor; rewrite ?H1; try assumption.
  - eapply NoDup_map_sublista; [exact Hs|assumption].
  - intros b Hb. subst db'. cbn [examenes_base with_usuarios with_examenes_base] in Hb.
    rewrite map_map in Hb. apply elem_of_map in Hb as (x & Hx & <-).
    destruct (desvincular_campos usuario_id now (g x)) as (_ & _ & _ & _ & Hp & _).
    cbn zeta in Hp. rewrite Hp. destruct (Hg x) as (_ & -> & _). apply Ibp, Hx.
  - intros b k Hb Hk. subst db'.
    cbn [examenes_base usuarios with_usuarios with_examenes_base] in Hb |- *.
    rewrite map_map in Hb. apply elem_of_map in Hb as (x & Hx & <-).
    apply desvincular_referencia in Hk as [Hk Hne].
    destruct (Hg x) as (_ & _ & Hc & Hm). rewrite Hc, Hm in Hk.
    apply Hus; [|exact Hne]. eapply Ibu; eassumption.
Qed.

Lemma eliminar_usuario_integra db token usuario_id eliminar_examenes now r db' :
  integra db ->
  eliminar_usuario db token usuario_id eliminar_examenes now = (r, db') -> integra db'.
Proof.
  intros Hint. unfold eliminar_usuario.
  destruct (require_admin db token) as [u|e]; [|intros [= <- <-]; exact Hint].
  destruct (list_find _ (usuarios db)) as [[i x]|] eqn:Hf; [|intros [= <- <-]; exact Hint].
  destruct (decide _); [intros [= <- <-]; exact Hint|].
  destruct (_ && _); intros [= <- <-]; [exact Hint|].
  apply list_find_Some in Hf as (Hi & Hid & _).
  assert (forall k, k ∈ map Usuario.id (usuarios db) -> k <> usuario_id ->
                    k ∈ map Usuario.id (delete i (usuarios db))) as Hus.
  { intros k Hk Hne. eapply elem_of_map_delete; [exact Hi|exact Hk|congruence]. }
  destruct eliminar_examenes.
  - apply (usuario_retirado_integra db usuario_id now _
             (fun b => if decide (ExamenBase.created_by b = Some usuario_id)
                       then set_deleted_at b now else b) Hint (sublist_delete _ _) Hus).
    intros b. destruct (decide _); repeat split; reflexivity.
  - pose proof (usuario_retirado_integra db usuario_id now _ (fun b => b) Hint
                  (sublist_delete _ _) Hus) as H.
    rewrite map_id in H. apply H. intros b. repeat split; reflexivity.
Qed.

Lemma eliminar_mi_cuenta_integra verify_password db token password now r db' :
  integra db ->
  eliminar_mi_cuenta verify_password db token password now = (r, db') -> integra db'.
Proof.
  intros Hint. unfold eliminar_mi_cuenta.
  destruct (get_current_user db token) as [u|e]; [|intros [= <- <-]; exact Hint].
  destruct (negb _); [intros [= <- <-]; exact Hint|].
  destruct (0 <? _); intros [= <- <-]; [exact Hint|].
  pose proof (usuario_retirado_integra db (Usuario.id u) now
                (filter (fun x => Usuario.id x <> Usuario.id u) (usuarios db))
                (fun b => b) Hint (sublist_filter _ _)) as H.
  rewrite map_id in H. apply H.
  - intros k Hk Hne. apply elem_of_map in Hk as (x & Hx & <-).
    apply elem_of_map. exists x. split; [|reflexivity].
    apply list_elem_of_filter. split; assumption.
  - intros b. repeat split; reflexivity.
Qed.

Lemma para_todos {A} (P : A -> Prop) `{forall x, Decision (P x)} (l : list A) :
  bool_decide (Forall P l) = true -> forall x, x ∈ l -> P x.
Proof. intros Hd. apply Forall_forall. apply bool_decide_eq_true in Hd. exact Hd. Qed.

Lemma sin_repetidos {A} `{EqDecision A} (l : list A) :
  bool_decide (NoDup l) = true -> NoDup l.
Proof. apply bool_decide_eq_true. Qed.

Lemma integra_ejemplo : integra Ejemplo.db2.
Proof.
  constructor.
  - apply sin_repetidos. reflexivity.
  - apply sin_repetidos. reflexivity.
  - apply sin_repetidos. reflexivity.
  - apply (para_todos (fun k => k < _)). reflexivity.
  - apply sin_repetidos. reflexivity.
  - apply (para_todos (fun k => k < _)). reflexivity.
  - apply sin_repetidos. reflexivity.
  - apply (para_todos (fun k => k < _)). reflexivity.
  - apply sin_repetidos. reflexivity.
  - apply (para_todos (fun k => k ∈ _)). reflexivity.
  - apply (para_todos (fun b => ExamenBase.paciente_id b ∈ _)). reflexivity.
  - intros b k Hb Hk.
    assert (k = 1 \/ k = 2) as Hk'.
    { cbn in Hb. apply elem_of_cons in Hb as [->|Hb];
        [|apply list_elem_of_singleton in Hb as ->]; cbn in Hk;
        destruct Hk; [left|left|right|right]; congruence. }
    cbn. destruct Hk' as [->| ->]; [left|right; left].
  - apply NoDup_nil_2.
  - apply NoDup_nil_2.
  - intros k Hk. apply elem_of_nil in Hk. contradiction.
  - apply NoDup_nil_2.
  - apply NoDup_nil_2.
  - intros k Hk. apply elem_of_nil in Hk. contradiction.
Qed.

Lemma integra_ejemplo_tipos : integra Ejemplo.db3.
Proof.
  constructor.
  - apply sin_repetidos. reflexivity.
  - apply sin_repetidos. reflexivity.
  - apply sin_repetidos. reflexivity.
  - apply (para_todos (fun k => k < _)). reflexivity.
  - apply sin_repetidos. reflexivity.
  - apply (para_todos (fun k => k < _)). reflexivity.
  - apply sin_repetidos. reflexivity.
  - apply (para_todos (fun k => k < _)). reflexivity.
  - apply sin_repetidos. reflexivity.
  - apply (para_todos (fun k => k ∈ _)). reflexivity.
  - apply (para_todos (fun b => ExamenBase.paciente_id b ∈ _)). reflexivity.
  - intros b k Hb Hk. cbn in Hb.
    repeat (apply elem_of_cons in Hb as [->|Hb]);
      [..|apply elem_of_nil in Hb; contradiction];
      cbn in Hk; destruct Hk as [Hk|Hk]; injection Hk as <-; cbn;
      first [left | right; left].
  - apply sin_repetidos. reflexivity.
  - apply sin_repetidos. reflexivity.
  - apply (para_todos (fun k => k ∈ _)). reflexivity.
  - apply sin_repetidos. reflexivity.
  - apply sin_repetidos. reflexivity.
  - apply (para_todos (fun k => k ∈ _)). reflexivity.
Qed.

Lemma integra_vacia us sp sb st c1 c2 c3 c4 c5 c6 c7 :
  NoDup (map Usuario.id us) ->
  integra (mkDB us [] sp [] sb [] st [] [] c1 c2 c3 c4 c5 c6 c7).
Proof.
  intros Hus. constructor; cbn; try apply NoDup_nil_2; try assumption.
  - intros k Hk. apply elem_of_nil in Hk. contradiction.
  - intros k Hk. apply elem_of_nil in Hk. contradiction.
  - intros k Hk. apply elem_of_nil in Hk. contradiction.
  - intros k Hk. apply elem_of_nil in Hk. contradiction.
  - intros b Hb. apply elem_of_nil in Hb. contradiction.
  - intros b k Hb. apply elem_of_nil in Hb. contradiction.
  - intros k Hk. apply elem_of_nil in Hk. contradiction.
  - intros k Hk. apply elem_of_nil in Hk. contradiction.
Qed.

(** X14. A store without patients and exams whose user keys are unique is
    consistent, and a consistent store stays so, whatever is answered,
    under the registry of patients, the creation, update and deletion of a
    CT exam, the deletion of a patient, and the toggle and the two
    removals of a user: keys stay unique and, in the tables with a
    sequence, below it; a patient RUT and the base exam of a
    specialization row (TAC, RX or ECO) stay unique; and the patient of
    every exam, the base exam of every specialization row of the three
    tables and the creator and last modifier of every exam are stored
    rows. *)
Theorem integra_se_conserva :
  (forall us sp sb st c1 c2 c3 c4 c5 c6 c7,
      NoDup (map Usuario.id us) ->
      integra (mkDB us [] sp [] sb [] st [] [] c1 c2 c3 c4 c5 c6 c7))
  /\ forall db,
       integra db ->
       (forall rut nombre fecha_nac now r db',
           obtener_o_crear_paciente db rut nombre fecha_nac now = (r, db') -> integra db')
       /\ (forall token body now r db',
             crear_examen_tac db token body now = (r, db') -> integra db')
       /\ (forall token examen_id body now r db',
             actualizar_examen_tac db token examen_id body now = (r, db') -> integra db')
       /\ (forall token examen_id now r db',
             eliminar_examen_tac db token examen_id now = (r, db') -> integra db')
       /\ (forall token paciente_id r db',
             eliminar_paciente db token paciente_id = (r, db') -> integra db')
       /\ (forall token usuario_id now r db',
             toggle_usuario db token usuario_id now = (r, db') -> integra db')
       /\ (forall token usuario_id eliminar_examenes now r db',
             eliminar_usuario db token usuario_id eliminar_examenes now = (r, db') ->
             integra db')
       /\ (forall verify_password token password now r db',
             eliminar_mi_cuenta verify_password db token password now = (r, db') ->
             integra db').
Proof.
  split; [intros *; apply integra_vacia|].
  intros db Hint.
  split; [|split; [|split; [|split; [|split; [|split; [|split]]]]]].
  - intros *. apply obtener_o_crear_paciente_integra, Hint.
  - intros *. apply crear_examen_tac_integra, Hint.
  - intros *. apply actualizar_examen_tac_integra, Hint.
  - intros *. apply eliminar_examen_tac_integra, Hint.
  - intros *. apply eliminar_paciente_integra, Hint.
  - intros *. apply toggle_usuario_integra, Hint.
  - intros *. apply eliminar_usuario_integra, Hint.
  - intros *. apply eliminar_mi_cuenta_integra, Hint.
Qed.

Lemma integra_se_conserva_witness :
  (exists db',
      eliminar_paciente Ejemplo.db2 (Some 1) 1 = (Ok tt, db')
      /\ integra db'
      /\ examenes_base db' = [] /\ examenes_tac db' = [])
  /\ (exists db',
        eliminar_paciente Ejemplo.db3 (Some 1) 1 = (Ok tt, db')
        /\ integra db'
        /\ examenes_rx db' = [] /\ examenes_eco db' = [Ejemplo.eco13]).
Proof.
  destruct integra_se_conserva as [_ H]. split.
  - destruct (eliminar_paciente Ejemplo.db2 (Some 1) 1) as [[[]|e] db'] eqn:Hc;
      [|vm_compute in Hc; discriminate].
    exists db'. split; [reflexivity|].
    destruct (H Ejemplo.db2 integra_ejemplo) as (_ & _ & _ & _ & Hp & _).
    split; [apply (Hp _ _ _ _ Hc)|].
    vm_compute in Hc. injection Hc as <-. split; reflexivity.
  - destruct (eliminar_paciente Ejemplo.db3 (Some 1) 1) as [[[]|e] db'] eqn:Hc;
      [|vm_compute in Hc; discriminate].
    exists db'. split; [reflexivity|].
    destruct (H Ejemplo.db3 integra_ejemplo_tipos) as (_ & _ & _ & _ & Hp & _).
    split; [apply (Hp _ _ _ _ Hc)|].
    vm_compute in Hc. injection Hc as <-. split; reflexivity.
Defined.

(** ** The display form of a RUT *)

Lemma formatear_rut_casos rut :
  (limpiar_rut rut = EmptyString /\ formatear_rut rut = Rechazo IndexError)
  \/ exists cuerpo dv,
       list_ascii_of_string (limpiar_rut rut) = cuerpo ++ [dv]
       /\ formatear_rut rut = Exito (string_of_list_ascii (cuerpo ++ ["-"%char; dv])).
Proof.
  unfold formatear_rut. change (PyStr.remove_char "-" (PyStr.remove_char "." rut))
    with (limpiar_rut rut).
  destruct (last (list_ascii_of_string (limpiar_rut rut))) as [dv|] eqn:Hl.
  - right. apply last_Some in Hl as [cuerpo Hc]. exists cuerpo, dv. split; [exact Hc|].
    cbn zeta. rewrite Hc, length_app. cbn [length].
    replace (length cuerpo + 1 - 1)%nat with (length cuerpo) by lia.
    rewrite take_app_length. reflexivity.
  - left. split; [|reflexivity]. apply last_None in Hl.
    apply string_of_list_ascii_inj_lista. rewrite Hl. reflexivity.
Qed.

Lemma filter_sin_separadores (l : list ascii) :
  Forall (fun c => c <> "."%char /\ c <> "-"%char) l ->
  filter (fun c => c <> "-"%char) (filter (fun c => c <> "."%char) l) = l.
Proof.
  induction 1 as [|c l [Hp Hg] _ IH]; [reflexivity|].
  rewrite filter_cons, decide_True by exact Hp.
  rewrite filter_cons, decide_True by exact Hg. f_equal. exact IH.
Qed.

Lemma limpiar_rut_formato cuerpo dv :
  Forall (fun c => c <> "."%char /\ c <> "-"%char) (cuerpo ++ [dv]) ->
  list_ascii_of_string (limpiar_rut (string_of_list_ascii (cuerpo ++ ["-"%char; dv])))
  = cuerpo ++ [dv].
Proof.
  intros Hs. rewrite limpiar_rut_lista, list_ascii_of_string_of_list_ascii.
  apply Forall_app in Hs as [Hc Hd].
  rewrite !filter_app. rewrite (filter_sin_separadores cuerpo Hc). f_equal.
  rewrite (filter_cons_True (fun c => c <> "."%char) "-"%char) by discriminate.
  rewrite (filter_cons_False (fun c => c <> "-"%char) "-"%char)
    by (intros Hc'; apply Hc'; reflexivity).
  apply filter_sin_separadores, Hd.
Qed.


(** X15. [formatear_rut] raises (an [IndexError], and nothing else) exactly
    on a RUT that is empty once cleaned; otherwise it puts one dash before
    the last character of the cleaned RUT, and the result cleans back to
    the cleaned RUT, is validated as the RUT is, and is a fixed point of
    the formatting; every RUT the validator accepts can be formatted. *)
Theorem formatear_rut_ida_y_vuelta rut :
  (forall r, formatear_rut rut = Rechazo r -> r = IndexError /\ limpiar_rut rut = EmptyString)
  /\ (limpiar_rut rut = EmptyString -> formatear_rut rut = Rechazo IndexError)
  /\ (forall f,
        formatear_rut rut = Exito f ->
        limpiar_rut f = limpiar_rut rut
        /\ formatear_rut f = Exito f
        /\ validar_rut_chileno f = validar_rut_chileno rut
        /\ exists cuerpo dv,
             limpiar_rut rut = string_of_list_ascii (cuerpo ++ [dv])
             /\ f = string_of_list_ascii (cuerpo ++ ["-"%char; dv]))
  /\ (validar_rut_chileno rut = Ok true -> exists f, formatear_rut rut = Exito f).
Proof.
  destruct (formatear_rut_casos rut) as [[Hv Hf]|(cuerpo & dv & Hc & Hf)].
  - split; [|split; [|split]].
    + intros r Hr. rewrite Hf in Hr. injection Hr as <-. split; [reflexivity|exact Hv].
    + intros _. exact Hf.
    + intros f Hr. rewrite Hf in Hr. discriminate.
    + intros Hval. rewrite <- validar_rut_chileno_limpio, Hv in Hval.
      vm_compute in Hval. discriminate.
  - pose proof (limpiar_rut_sin_separadores rut) as Hs. rewrite Hc in Hs.
    assert (limpiar_rut (string_of_list_ascii (cuerpo ++ ["-"%char; dv])) = limpiar_rut rut)
      as Hl.
    { apply string_of_list_ascii_inj_lista. rewrite Hc. apply limpiar_rut_formato, Hs. }
    split; [|split; [|split]].
    + intros r Hr. rewrite Hf in Hr. discriminate.
    + intros Hv. rewrite Hv in Hc. destruct cuerpo; discriminate.
    + intros f Hr. rewrite Hf in Hr. injection Hr as <-.
      split; [exact Hl|]. split; [|split].
      * destruct (formatear_rut_casos (string_of_list_ascii (cuerpo ++ ["-"%char; dv])))
          as [[Hv _]|(cuerpo' & dv' & Hc' & Hf')].
        -- rewrite Hl in Hv. rewrite Hv in Hc. destruct cuerpo; discriminate.
        -- rewrite Hf'. rewrite Hl, Hc in Hc'. apply app_inj_tail in Hc' as [-> ->].
           reflexivity.
      * rewrite <- (validar_rut_chileno_limpio (string_of_list_ascii _)), Hl.
        apply validar_rut_chileno_limpio.
      * exists cuerpo, dv. split; [|reflexivity].
        apply string_of_list_ascii_inj_lista.
        rewrite list_ascii_of_string_of_list_ascii. exact Hc.
    + intros _. eexists. exact Hf.
Qed.

Lemma formatear_rut_ida_y_vuelta_witness :
  formatear_rut "12.345.678-5" = Exito "12345678-5"%string
  /\ limpiar_rut "12345678-5" = limpiar_rut "12.345.678-5"
  /\ formatear_rut "12345678-5" = Exito "12345678-5"%string.
Proof.
  destruct (formatear_rut_ida_y_vuelta "12.345.678-5") as (_ & _ & H & _).
  split; [reflexivity|]. destruct (H "12345678-5"%string eq_refl) as (H1 & H2 & _).
  split; [exact H1|exact H2].
Defined.

(** ** The patient endpoints *)

(** *** The validation of the response *)


Lemma responder_rechazo {A B} (validate : A -> option B) (devuelto : respuesta A * DB)
    r db' :
  responder validate devuelto = (Rechazo r, db') ->
  devuelto = (Rechazo r, db')
  \/ (r = ResponseValidationError
      /\ exists a, devuelto = (Exito a, db') /\ validate a = None).
Proof.
  unfold responder. destruct devuelto as [[a|r'] db1].
  - destruct (validate a) eqn:Hv; [discriminate|]. intros [= <- <-].
    right. split; [reflexivity|]. exists a. split; [reflexivity|exact Hv].
  - intros [= <- <-]. left. reflexivity.
Qed.

(** The answer of a route for a value its handler returned. *)
Lemma responder_valor {A B} (validate : A -> option B) a db :
  responder validate (Exito a, db)
  = (match validate a with
     | Some b => Exito b
     | None => Rechazo ResponseValidationError
     end, db).
Proof. unfold responder. destruct (validate a); reflexivity. Qed.


(** *** Registration *)

Lemma crear_paciente_exito db token rut nombre_completo fecha_nacimiento now p db' :
  crear_paciente_cuerpo db token rut nombre_completo fecha_nacimiento now = (Exito p, db') ->
  (exists current_user, get_current_user db token = Ok current_user)
  /\ validar_rut_chileno rut = Ok true
  /\ list_find (fun p => Paciente.rut p = limpiar_rut rut) (pacientes db) = None
  /\ p = Paciente.mk (pacientes_seq db) (limpiar_rut rut) nombre_completo fecha_nacimiento
           now now
  /\ db' = with_pacientes db (pacientes db ++ [p]) (pacientes_seq db + 1)
  /\ acepta_paciente p = true.
Proof.
  unfold crear_paciente_cuerpo.
  destruct (get_current_user db token) as [u|e]; [|discriminate].
  destruct (validar_rut_chileno (limpiar_rut rut)) as [[]|e] eqn:Hv; try discriminate.
  destruct (list_find _ _) as [[i q]|] eqn:Hf.
  - destruct (formatear_rut _); discriminate.
  - destruct (negb (adapta_paciente _)); [discriminate|].
    destruct (negb (acepta_paciente _)) eqn:Hac; [discriminate|]. intros [= <- <-].
    rewrite validar_rut_chileno_limpio in Hv. apply negb_false_iff in Hac.
    split; [exists u; reflexivity|]. repeat split; assumption.
Qed.

Lemma crear_paciente_fallo db token rut nombre_completo fecha_nacimiento now r db' :
  crear_paciente_cuerpo db token rut nombre_completo fecha_nacimiento now = (Rechazo r, db') ->
  db' = db /\ r <> ResponseValidationError.
Proof.
  unfold crear_paciente_cuerpo.
  destruct (get_current_user db token) as [u|e]; [intros H|intros [= <- <-]; split; easy].
  destruct (validar_rut_chileno (limpiar_rut rut)) as [[]|e];
    [|injection H as <- <-; split; easy..].
  destruct (list_find _ _) as [[i q]|].
  - destruct (formatear_rut_casos (limpiar_rut rut)) as [[_ Hf]|(c & dv & _ & Hf)];
      rewrite Hf in H; injection H as <- <-; split; easy.
  - destruct (negb (adapta_paciente _)); [injection H as <- <-; split; easy|].
    destruct (negb (acepta_paciente _)); [injection H as <- <-; split; easy|discriminate].
Qed.



(** *** Update *)

Lemma onupdate_paciente_campos anterior nuevo now :
  let p := onupdate_paciente anterior nuevo now in
  Paciente.id p = Paciente.id nuevo
  /\ Paciente.rut p = Paciente.rut nuevo
  /\ Paciente.nombre_completo p = Paciente.nombre_completo nuevo
  /\ Paciente.fecha_nacimiento p = Paciente.fecha_nacimiento nuevo
  /\ Paciente.created_at p = Paciente.created_at nuevo
  /\ (nuevo = anterior -> p = anterior).
Proof.
  cbn zeta. unfold onupdate_paciente.
  destruct (decide (nuevo = anterior)) as [->|Hne]; cbn; repeat split; try reflexivity.
  intros Heq. contradiction.
Qed.

Lemma actualizar_paciente_fallo db token paciente_id nombre_completo fecha_nacimiento now
    r db' :
  actualizar_paciente_cuerpo db token paciente_id nombre_completo fecha_nacimiento now
  = (Rechazo r, db') ->
  db' = db /\ r <> ResponseValidationError.
Proof.
  unfold actualizar_paciente_cuerpo.
  destruct (get_current_user db token) as [u|e]; [|intros [= <- <-]; split; easy].
  destruct (list_find _ _) as [[i p]|]; [|intros [= <- <-]; split; easy].
  destruct (negb (adapta_cambio _ _)); [intros [= <- <-]; split; easy|].
  destruct (negb (acepta_paciente _)); [intros [= <- <-]; split; easy|discriminate].
Qed.

Lemma actualizar_paciente_exito db token paciente_id nombre_completo fecha_nacimiento now
    p' db' :
  actualizar_paciente_cuerpo db token paciente_id nombre_completo fecha_nacimiento now
  = (Exito p', db') ->
  exists i p,
    pacientes db !! i = Some p /\ Paciente.id p = paciente_id
    /\ db' = with_pacientes db (<[i:=p']> (pacientes db)) (pacientes_seq db)
    /\ Paciente.id p' = paciente_id
    /\ Paciente.rut p' = Paciente.rut p
    /\ Paciente.created_at p' = Paciente.created_at p
    /\ Paciente.nombre_completo p'
       = default (Paciente.nombre_completo p) nombre_completo
    /\ Paciente.fecha_nacimiento p'
       = match fecha_nacimiento with
         | Some fecha => Some fecha
         | None => Paciente.fecha_nacimiento p
         end
    /\ (Paciente.fecha_nacimiento p <> None -> Paciente.fecha_nacimiento p' <> None)
    /\ (nombre_completo = None -> fecha_nacimiento = None -> p' = p /\ db' = db).
Proof.
  unfold actualizar_paciente_cuerpo.
  destruct (get_current_user db token) as [u|e]; [|discriminate].
  destruct (list_find _ _) as [[i p]|] eqn:Hf; [|discriminate].
  destruct (negb (adapta_cambio _ _)); [discriminate|].
  destruct (negb (acepta_paciente _)); [discriminate|]. intros [= <- <-].
  apply list_find_Some in Hf as (Hi & Hid & _).
  match goal with
  | |- context [onupdate_paciente ?x ?y ?z] =>
      pose proof (onupdate_paciente_campos x y z) as H; cbn zeta in H; cbn in H;
      destruct H as (H1 & H2 & H3 & H4 & H5 & H6)
  end.
  exists i, p. rewrite H1, H2, H3, H4, H5.
  repeat (split; [assumption || reflexivity|]). split.
  - intros Hn. destruct fecha_nacimiento; [discriminate|exact Hn].
  - intros -> ->. cbn [default from_option id] in H6 |- *.
    assert (forall q, q = p -> onupdate_paciente p q now = p) as Hq.
    { intros q ->. unfold onupdate_paciente. rewrite decide_True by reflexivity.
      reflexivity. }
    rewrite Hq by (destruct p; reflexivity).
    split; [reflexivity|]. rewrite list_insert_id by exact Hi. destruct db; reflexivity.
Qed.

(** X17. [actualizar_paciente] writes nothing when the handler refuses the
    request.  When the handler accepts it, it writes only the row with the
    requested key, in place; it never changes the key, the RUT or the
    creation time of the patient; a field the request leaves unset keeps
    its value, so a stored birth date can be replaced but never removed;
    and a request that sets nothing leaves the store, [updated_at]
    included, exactly as it was.  The route then answers with the
    validation of the row against [PacienteResponse]: the patient, or a
    [ResponseValidationError] with the row staying written. *)
Theorem actualizar_paciente_marco db token paciente_id nombre_completo fecha_nacimiento
    now :
  (forall r db',
      actualizar_paciente db token paciente_id nombre_completo fecha_nacimiento now
      = (Rechazo r, db') ->
      r <> ResponseValidationError ->
      db' = db)
  /\ (forall respuesta db',
        actualizar_paciente db token paciente_id nombre_completo fecha_nacimiento now
        = (respuesta, db') ->
        (forall r, respuesta = Rechazo r -> r = ResponseValidationError) ->
        exists i p p',
          pacientes db !! i = Some p /\ Paciente.id p = paciente_id
          /\ db' = with_pacientes db (<[i:=p']> (pacientes db)) (pacientes_seq db)
          /\ respuesta
             = match PacienteResponse.validate p' with
               | Some resp => Exito resp
               | None => Rechazo ResponseValidationError
               end
          /\ Paciente.id p' = paciente_id
          /\ Paciente.rut p' = Paciente.rut p
          /\ Paciente.created_at p' = Paciente.created_at p
          /\ Paciente.nombre_completo p'
             = default (Paciente.nombre_completo p) nombre_completo
          /\ Paciente.fecha_nacimiento p'
             = match fecha_nacimiento with
               | Some fecha => Some fecha
               | None => Paciente.fecha_nacimiento p
               end
          /\ (Paciente.fecha_nacimiento p <> None -> Paciente.fecha_nacimiento p' <> None)
          /\ (nombre_completo = None -> fecha_nacimiento = None -> p' = p /\ db' = db)).
Proof.
  unfold actualizar_paciente. split.
  - intros r db' H Hr. apply responder_rechazo in H as [H|[-> _]]; [|contradiction].
    apply actualizar_paciente_fallo in H as [-> _]. reflexivity.
  - intros ans db' H Hans.
    destruct (actualizar_paciente_cuerpo db token paciente_id nombre_completo
                fecha_nacimiento now) as [[p'|r] db1] eqn:Hc.
    + rewrite responder_valor in H. injection H as <- <-.
      destruct (actualizar_paciente_exito _ _ _ _ _ _ _ _ Hc)
        as (i & p & Hi & Hid & Hdb & Hrest).
      exists i, p, p'. split; [exact Hi|]. split; [exact Hid|]. split; [exact Hdb|].
      split; [reflexivity|exact Hrest].
    + cbn in H. injection H as <- <-.
      apply actualizar_paciente_fallo in Hc as [_ Hr].
      exfalso. apply Hr. apply Hans. reflexivity.
Qed.

Lemma actualizar_paciente_marco_witness :
  exists resp db',
    actualizar_paciente Ejemplo.db (Some 2) 1 None (Some (mkdate 1990 5 20)) 600
    = (Exito resp, db')
    /\ PacienteResponse.rut resp = "123456785"%string
    /\ PacienteResponse.fecha_nacimiento resp = Some (mkdate 1990 5 20)
    /\ exists p', pacientes db' = [p'] /\ Paciente.fecha_nacimiento p' = Some (mkdate 1990 5 20).
Proof.
  destruct (actualizar_paciente Ejemplo.db (Some 2) 1 None (Some (mkdate 1990 5 20)) 600)
    as [[resp|r] db'] eqn:Hc; [|vm_compute in Hc; discriminate].
  exists resp, db'. split; [reflexivity|].
  destruct (actualizar_paciente_marco Ejemplo.db (Some 2) 1 None (Some (mkdate 1990 5 20)) 600)
    as [_ H].
  destruct (H (Exito resp) db' Hc ltac:(discriminate))
    as (i & p & p' & Hi & Hid & Hdb & _ & _ & _ & _ & _ & Hfn & _).
  assert (i = 0%nat /\ p = Ejemplo.ana) as [-> ->].
  { destruct i as [|i]; cbn in Hi; [split; congruence|discriminate]. }
  split; [vm_compute in Hc; injection Hc as <- _; reflexivity|].
  split; [vm_compute in Hc; injection Hc as <- _; reflexivity|].
  exists p'. split; [rewrite Hdb; reflexivity|exact Hfn].
Defined.

(** ** Exams under review *)

(** The row an [UPDATE] of a base exam leaves: the values set, and
    [updated_at] refreshed exactly when a value changed. *)
Lemma onupdate_examen_base_fila anterior nuevo now :
  ExamenBase.updated_at nuevo = ExamenBase.updated_at anterior ->
  let b := onupdate_examen_base anterior nuevo now in
  b = ExamenBase.mk (ExamenBase.id nuevo) (ExamenBase.tipo_examen nuevo)
        (ExamenBase.fecha_realizacion nuevo) (ExamenBase.atencion nuevo)
        (ExamenBase.prevision_id nuevo) (ExamenBase.procedencia_id nuevo)
        (ExamenBase.paciente_id nuevo) (ExamenBase.examen_especifico_id nuevo)
        (ExamenBase.codigo_mai_id nuevo) (ExamenBase.contrato nuevo)
        (ExamenBase.mes_realizacion nuevo) (ExamenBase.anio_realizacion nuevo)
        (ExamenBase.created_by nuevo) (ExamenBase.updated_by nuevo)
        (ExamenBase.created_at nuevo) (ExamenBase.updated_at b)
        (ExamenBase.deleted_at nuevo) (ExamenBase.en_revision nuevo)
        (ExamenBase.motivo_revision nuevo)
  /\ (nuevo = anterior -> b = anterior)
  /\ (nuevo <> anterior -> ExamenBase.updated_at b = now).
Proof.
  intros Hu. cbn zeta. unfold onupdate_examen_base.
  destruct (decide (nuevo = anterior)) as [->|Hne]; cbn.
  - split; [destruct anterior; reflexivity|]. split; [reflexivity|contradiction].
  - split; [reflexivity|]. split; [contradiction|reflexivity].
Qed.

Lemma marcar_examen_revision_fallo db token examen_id en_revision motivo now r db' :
  marcar_examen_revision db token examen_id en_revision motivo now = (Rechazo r, db') ->
  db' = db.
Proof.
  unfold marcar_examen_revision.
  destruct (require_admin db token) as [u|e]; [|congruence].
  destruct (list_find _ _) as [[i b]|]; [|congruence].
  destruct (negb (adapta_cambio _ _)); [congruence|discriminate].
Qed.

Lemma marcar_examen_revision_exito db token examen_id en_revision motivo now resp db' :
  marcar_examen_revision db token examen_id en_revision motivo now = (Exito resp, db') ->
  exists current_user i b b',
    require_admin db token = Ok current_user
    /\ list_find (fun b => ExamenBase.id b = examen_id /\ ExamenBase.deleted_at b = None)
         (examenes_base db) = Some (i, b)
    /\ db' = with_examenes_base db (<[i:=b']> (examenes_base db)) (examenes_base_seq db)
    /\ resp = RevisionMarcada.mk
                (if en_revision then ExamenMarcadoParaRevision else MarcaDeRevisionEliminada)
                examen_id en_revision (if en_revision then motivo else None)
    /\ ExamenBase.en_revision b' = en_revision
    /\ ExamenBase.motivo_revision b' = (if en_revision then motivo else None)
    /\ ExamenBase.id b' = ExamenBase.id b
    /\ ExamenBase.tipo_examen b' = ExamenBase.tipo_examen b
    /\ ExamenBase.fecha_realizacion b' = ExamenBase.fecha_realizacion b
    /\ ExamenBase.paciente_id b' = ExamenBase.paciente_id b
    /\ ExamenBase.created_by b' = ExamenBase.created_by b
    /\ ExamenBase.updated_by b' = ExamenBase.updated_by b
    /\ ExamenBase.created_at b' = ExamenBase.created_at b
    /\ ExamenBase.deleted_at b' = None
    /\ b' = ExamenBase.mk (ExamenBase.id b) (ExamenBase.tipo_examen b)
             (ExamenBase.fecha_realizacion b) (ExamenBase.atencion b)
             (ExamenBase.prevision_id b) (ExamenBase.procedencia_id b)
             (ExamenBase.paciente_id b) (ExamenBase.examen_especifico_id b)
             (ExamenBase.codigo_mai_id b) (ExamenBase.contrato b)
             (ExamenBase.mes_realizacion b) (ExamenBase.anio_realizacion b)
             (ExamenBase.created_by b) (ExamenBase.updated_by b)
             (ExamenBase.created_at b) (ExamenBase.updated_at b')
             (ExamenBase.deleted_at b) en_revision
             (if en_revision then motivo else None)
    /\ (ExamenBase.en_revision b = en_revision ->
        ExamenBase.motivo_revision b = (if en_revision then motivo else None) ->
        b' = b)
    /\ (b' <> b -> ExamenBase.updated_at b' = now)
    /\ adapta_cambio (ExamenBase.motivo_revision b) (if en_revision then motivo else None)
       = true.
Proof.
  unfold marcar_examen_revision.
  destruct (require_admin db token) as [u|e] eqn:Hu; [|discriminate].
  destruct (list_find _ _) as [[i b]|] eqn:Hf; [|discriminate].
  destruct (negb (adapta_cambio _ _)) eqn:Had; [discriminate|].
  apply negb_false_iff in Had.
  match goal with
  | |- context [onupdate_examen_base ?x ?y ?z] =>
      pose proof (onupdate_examen_base_campos x y z) as H; cbn zeta in H; cbn in H;
      destruct H as (H1 & H2 & H3 & H4 & _ & _ & _ & H8 & H9 & H10 & H11 & H12 & H13);
      pose proof (onupdate_examen_base_fila x y z eq_refl) as (F1 & F2 & F3);
      cbn in F1;
      set (b' := onupdate_examen_base x y z) in *
  end.
  intros [= <- <-]. exists u, i, b, b'.
  pose proof Hf as Hf'. apply list_find_Some in Hf' as (_ & [Hid Hdel] & _).
  rewrite H1, H12, H13.
  repeat (split; [first [assumption | reflexivity | congruence]|]).
  split; [|split; [|exact Had]].
  - intros Hr Hm. apply F2. rewrite <- Hm, <- Hr. destruct b; reflexivity.
  - intros Hne. apply F3. intros Heq. apply Hne, F2, Heq.
Qed.

Lemma listar_examenes_revision_elem db token tipo_examen r :
  listar_examenes_revision db token tipo_examen = Exito r ->
  EnRevision.total r = Z.of_nat (length (EnRevision.examenes r))
  /\ forall x,
       x ∈ EnRevision.examenes r <->
       exists b,
         b ∈ examenes_base db /\ x = entrada_revision b
         /\ ExamenBase.en_revision b = true /\ ExamenBase.deleted_at b = None
         /\ (PyStr.truthy tipo_examen = true -> Some (ExamenBase.tipo_examen b) = tipo_examen).
Proof.
  unfold listar_examenes_revision.
  destruct (require_admin db token) as [u|e]; [|discriminate].
  intros [= <-]. cbn [EnRevision.total EnRevision.examenes].
  split; [rewrite length_map; reflexivity|].
  intros x. rewrite elem_of_map. split.
  - intros (b & Hb & <-). rewrite merge_sort_Permutation in Hb.
    exists b. destruct (PyStr.truthy tipo_examen).
    + apply list_elem_of_filter in Hb as [Ht Hb].
      apply list_elem_of_filter in Hb as [[Hr Hd] Hb]. repeat split; try assumption.
      intros _. exact Ht.
    + apply list_elem_of_filter in Hb as [[Hr Hd] Hb]. repeat split; try assumption.
      discriminate.
  - intros (b & Hb & -> & Hr & Hd & Ht). exists b. split; [|reflexivity].
    rewrite merge_sort_Permutation. destruct (PyStr.truthy tipo_examen).
    + apply list_elem_of_filter. split; [apply Ht; reflexivity|].
      apply list_elem_of_filter. repeat split; assumption.
    + apply list_elem_of_filter. repeat split; assumption.
Qed.

Lemma creado_desc_transitiva : Transitive creado_desc.
Proof. intros x y z. unfold creado_desc. lia. Qed.

Lemma creado_desc_total : Total creado_desc.
Proof. intros x y. unfold creado_desc. lia. Qed.

Lemma listar_examenes_revision_orden db token tipo_examen r :
  listar_examenes_revision db token tipo_examen = Exito r ->
  exists examenes,
    EnRevision.examenes r = map entrada_revision examenes
    /\ StronglySorted creado_desc examenes.
Proof.
  unfold listar_examenes_revision.
  destruct (require_admin db token) as [u|e]; [|discriminate].
  intros [= <-]. eexists. split; [reflexivity|].
  apply StronglySorted_merge_sort; [apply creado_desc_transitiva|apply creado_desc_total].
Qed.

(** X18. The listing of exams under review holds exactly the exams that
    are not deleted and carry the review mark, of the type asked when one
    is given, newest first by creation time, and its total is their
    number.  A successful [marcar_examen_revision] rewrites one exam that
    is not deleted, of any type: it sets the mark and the reason (the
    reason is dropped when the mark is taken off, whatever the request
    carries) and leaves every other column but [updated_at] as it was,
    the last modifier included: the row written is the row before with
    the mark, the reason and [updated_at], which is refreshed exactly when
    the mark or the reason changes; every other row and table is as
    before; a reason that is written holds no NUL character.  On a store
    with unique exam keys the exam is listed afterwards, with that reason,
    exactly when the mark was set.  A refused call, the [ValueError] of
    the driver on a reason holding NUL included, writes nothing. *)
Theorem examen_en_revision db token :
  (forall tipo_examen r,
      listar_examenes_revision db token tipo_examen = Exito r ->
      EnRevision.total r = Z.of_nat (length (EnRevision.examenes r))
      /\ (forall x,
            x ∈ EnRevision.examenes r <->
            exists b,
              b ∈ examenes_base db /\ x = entrada_revision b
              /\ ExamenBase.en_revision b = true /\ ExamenBase.deleted_at b = None
              /\ (PyStr.truthy tipo_examen = true ->
                  Some (ExamenBase.tipo_examen b) = tipo_examen))
      /\ exists examenes,
           EnRevision.examenes r = map entrada_revision examenes
           /\ StronglySorted creado_desc examenes)
  /\ (forall examen_id en_revision motivo now resp db',
        NoDup (map ExamenBase.id (examenes_base db)) ->
        marcar_examen_revision db token examen_id en_revision motivo now = (Exito resp, db') ->
        exists i b b',
          examenes_base db !! i = Some b
          /\ ExamenBase.id b = examen_id /\ ExamenBase.deleted_at b = None
          /\ db' = with_examenes_base db (<[i:=b']> (examenes_base db))
                     (examenes_base_seq db)
          /\ resp = RevisionMarcada.mk
                      (if en_revision then ExamenMarcadoParaRevision
                       else MarcaDeRevisionEliminada)
                      examen_id en_revision (if en_revision then motivo else None)
          /\ ExamenBase.en_revision b' = en_revision
          /\ ExamenBase.motivo_revision b' = (if en_revision then motivo else None)
          /\ ExamenBase.id b' = examen_id
          /\ ExamenBase.tipo_examen b' = ExamenBase.tipo_examen b
          /\ ExamenBase.fecha_realizacion b' = ExamenBase.fecha_realizacion b
          /\ ExamenBase.paciente_id b' = ExamenBase.paciente_id b
          /\ ExamenBase.created_by b' = ExamenBase.created_by b
          /\ ExamenBase.updated_by b' = ExamenBase.updated_by b
          /\ ExamenBase.created_at b' = ExamenBase.created_at b
          /\ ExamenBase.deleted_at b' = None
          /\ b' = ExamenBase.mk (ExamenBase.id b) (ExamenBase.tipo_examen b)
                   (ExamenBase.fecha_realizacion b) (ExamenBase.atencion b)
                   (ExamenBase.prevision_id b) (ExamenBase.procedencia_id b)
                   (ExamenBase.paciente_id b) (ExamenBase.examen_especifico_id b)
                   (ExamenBase.codigo_mai_id b) (ExamenBase.contrato b)
                   (ExamenBase.mes_realizacion b) (ExamenBase.anio_realizacion b)
                   (ExamenBase.created_by b) (ExamenBase.updated_by b)
                   (ExamenBase.created_at b) (ExamenBase.updated_at b')
                   (ExamenBase.deleted_at b) en_revision
                   (if en_revision then motivo else None)
          /\ (ExamenBase.en_revision b = en_revision ->
              ExamenBase.motivo_revision b = (if en_revision then motivo else None) ->
              b' = b)
          /\ (b' <> b -> ExamenBase.updated_at b' = now)
          /\ (ExamenBase.motivo_revision b' = ExamenBase.motivo_revision b
              \/ sin_nul (ExamenBase.motivo_revision b') = true)
          /\ exists r,
               listar_examenes_revision db' token None = Exito r
               /\ (forall x, x ∈ EnRevision.examenes r ->
                             ExamenEnRevision.id x = examen_id ->
                             en_revision = true /\ x = entrada_revision b'
                             /\ ExamenEnRevision.motivo_revision x = motivo)
               /\ (en_revision = true -> entrada_revision b' ∈ EnRevision.examenes r))
  /\ (forall examen_id en_revision motivo now r db',
        marcar_examen_revision db token examen_id en_revision motivo now = (Rechazo r, db') ->
        db' = db)
  /\ (forall examen_id motivo now current_user i b,
        require_admin db token = Ok current_user ->
        list_find (fun b => ExamenBase.id b = examen_id /\ ExamenBase.deleted_at b = None)
          (examenes_base db) = Some (i, b) ->
        sin_nul motivo = false ->
        ExamenBase.motivo_revision b <> motivo ->
        marcar_examen_revision db token examen_id true motivo now
        = (Rechazo (Excepcion ValueError), db)).
Proof.
  split; [|split; [|split]].
  4:{ intros examen_id motivo now u i b Hu Hf Hnul Hne.
      unfold marcar_examen_revision. rewrite Hu, Hf. unfold adapta_cambio.
      rewrite Hnul, bool_decide_eq_false_2 by congruence. reflexivity. }
  3:{ intros *. apply marcar_examen_revision_fallo. }
  - intros tipo r Hr.
    destruct (listar_examenes_revision_elem _ _ _ _ Hr) as [Ht Hx].
    split; [exact Ht|]. split; [exact Hx|].
    eapply listar_examenes_revision_orden, Hr.
  - intros examen_id en_revision motivo now resp db' Hnd H.
    apply marcar_examen_revision_exito in H
      as (u & i & b & b' & Hu & Hf & -> & -> & Hrev & Hmot & Hid & Htipo & Hfecha & Hpac
          & Hcb & Hub & Hca & Hdel & Hfila & Higual & Hnow & Had).
    apply list_find_Some in Hf as (Hi & [Hbid Hbdel] & _).
    exists i, b, b'.
    repeat (split; [first [assumption | reflexivity | congruence]|]).
    split.
    { rewrite Hmot. unfold adapta_cambio in Had. apply orb_prop in Had as [Had|Had].
      - left. apply bool_decide_eq_true in Had. exact Had.
      - right. exact Had. }
    set (db' := with_examenes_base db (<[i:=b']> (examenes_base db)) (examenes_base_seq db)).
    assert (require_admin db' token = Ok u) as Hu' by exact Hu.
    destruct (listar_examenes_revision db' token None) as [r|e] eqn:Hr;
      [|unfold listar_examenes_revision in Hr; rewrite Hu' in Hr; discriminate].
    exists r. split; [reflexivity|].
    destruct (listar_examenes_revision_elem _ _ _ _ Hr) as [_ Hx]. split.
    + intros x Hin Hxid. apply Hx in Hin as (b0 & Hb0 & -> & Hr0 & _).
      assert (b0 = b') as ->.
      { eapply elem_of_insert_clave; [exact Hnd|exact Hi|exact Hid|exact Hb0|].
        cbn in Hxid. congruence. }
      split; [congruence|]. split; [reflexivity|].
      cbn. rewrite Hmot. destruct en_revision; [reflexivity|congruence].
    + intros ->. apply Hx. exists b'. split.
      * apply list_elem_of_insert. eapply lookup_lt_Some, Hi.
      * repeat split; try assumption. discriminate.
Qed.

Lemma examen_en_revision_witness :
  exists resp db' r,
    marcar_examen_revision Ejemplo.db2 (Some 1) 11 true (Some "fecha dudosa"%string) 950
    = (Exito resp, db')
    /\ listar_examenes_revision db' (Some 1) None = Exito r
    /\ EnRevision.total r = 1
    /\ map ExamenEnRevision.motivo_revision (EnRevision.examenes r)
       = [Some "fecha dudosa"%string].
Proof.
  destruct (marcar_examen_revision Ejemplo.db2 (Some 1) 11 true
              (Some "fecha dudosa"%string) 950) as [[resp|e] db'] eqn:Hc;
    [|vm_compute in Hc; discriminate].
  destruct (examen_en_revision Ejemplo.db2 (Some 1)) as (_ & H & _).
  assert (NoDup (map ExamenBase.id (examenes_base Ejemplo.db2))) as Hnd.
  { cbn. apply NoDup_cons. split; [|apply NoDup_singleton].
    intros Hin. apply list_elem_of_singleton in Hin. discriminate. }
  destruct (H _ _ _ _ _ _ Hnd Hc) as (i & b & b' & _ & _ & _ & _ & _ & _ & _ & _ & _ & _
                                        & _ & _ & _ & _ & _ & _ & _ & _ & _ & r & Hr & _).
  exists resp, db', r. split; [reflexivity|]. split; [exact Hr|].
  vm_compute in Hc. injection Hc as <- <-. vm_compute in Hr. injection Hr as <-.
  split; reflexivity.
Defined.

(** ** Accounts *)

Lemma list_find_snoc_otro {A} (P : A -> Prop) `{forall x, Decision (P x)} (l : list A) x :
  ~ P x -> snd <$> list_find P (l ++ [x]) = snd <$> list_find P l.
Proof.
  intros Hx. destruct (list_find P l) as [[i y]|] eqn:Hf.
  - erewrite list_find_app_l by exact Hf. reflexivity.
  - rewrite list_find_app_r by exact Hf. cbn. rewrite decide_False by exact Hx. reflexivity.
Qed.

Lemma get_current_user_snoc db token u :
  token <> Some (Usuario.id u) ->
  get_current_user (with_usuarios db (usuarios db ++ [u])) token = get_current_user db token.
Proof.
  intros Hne. unfold get_current_user. destruct token as [k|]; [|reflexivity].
  cbn [usuarios with_usuarios].
  pose proof (list_find_snoc_otro (fun v => Usuario.id v = k) (usuarios db) u) as H.
  destruct (list_find _ (usuarios db ++ [u])) as [[i x]|],
    (list_find _ (usuarios db)) as [[j y]|];
    specialize (H ltac:(congruence)); cbn in H;
    [injection H as ->; reflexivity|discriminate|discriminate|reflexivity].
Qed.

Lemma list_find_ninguno {A} (P : A -> Prop) `{forall x, Decision (P x)} (l : list A) :
  list_find P l = None -> forall x, x ∈ l -> ~ P x.
Proof.
  intros Hn x Hx Hp.
  destruct (list_find_elem_of P l x Hx Hp) as [? Hs]. congruence.
Qed.

Lemma crear_usuario_ingresador_casos get_password_hash db token usuario_data nuevo_id now
    u db' :
  crear_usuario_ingresador_cuerpo get_password_hash db token usuario_data nuevo_id now
  = (Exito u, db') ->
  u = Usuario.mk nuevo_id (UsuarioCreate.rut usuario_data)
        (UsuarioCreate.nombre usuario_data) (UsuarioCreate.email usuario_data)
        (UsuarioCreate.celular usuario_data)
        (get_password_hash (UsuarioCreate.password usuario_data))
        "ingresador" true true now now
  /\ db' = with_usuarios db (usuarios db ++ [u]).
Proof.
  unfold crear_usuario_ingresador_cuerpo.
  destruct (require_admin db token); [|discriminate].
  destruct (validar_rut_chileno _) as [[]|]; try discriminate.
  destruct (list_find _ _); [discriminate|].
  destruct (negb (sin_nul _)); [discriminate|].
  destruct (list_find _ _); [discriminate|].
  destruct (negb (adapta_usuario _)); [discriminate|].
  destruct (negb (acepta_usuario _)); [discriminate|]. intros [= <- <-]. split; reflexivity.
Qed.

Lemma crear_usuario_ingresador_fallo get_password_hash db token usuario_data nuevo_id now
    r db' :
  crear_usuario_ingresador_cuerpo get_password_hash db token usuario_data nuevo_id now
  = (Rechazo r, db') ->
  db' = db /\ r <> ResponseValidationError.
Proof.
  unfold crear_usuario_ingresador_cuerpo.
  destruct (require_admin db token) as [a|e]; [|intros [= <- <-]; split; easy].
  destruct (validar_rut_chileno _) as [[]|e]; try (intros [= <- <-]; split; easy).
  destruct (list_find _ _) as [[i x]|]; [intros [= <- <-]; split; easy|].
  destruct (negb (sin_nul _)); [intros [= <- <-]; split; easy|].
  destruct (list_find _ _) as [[i x]|]; [intros [= <- <-]; split; easy|].
  destruct (negb (adapta_usuario _)); [intros [= <- <-]; split; easy|].
  destruct (negb (acepta_usuario _)); [intros [= <- <-]; split; easy|discriminate].
Qed.

Lemma crear_usuario_ingresador_exito get_password_hash db token usuario_data nuevo_id now
    u db' :
  crear_usuario_ingresador_cuerpo get_password_hash db token usuario_data nuevo_id now
  = (Exito u, db') ->
  (exists admin, require_admin db token = Ok admin)
  /\ validar_rut_chileno (UsuarioCreate.rut usuario_data) = Ok true
  /\ (forall v, v ∈ usuarios db ->
                Usuario.rut v <> UsuarioCreate.rut usuario_data
                /\ Usuario.email v <> UsuarioCreate.email usuario_data).
Proof.
  unfold crear_usuario_ingresador_cuerpo.
  destruct (require_admin db token) as [a|e]; [|discriminate].
  destruct (validar_rut_chileno _) as [[]|e]; try discriminate.
  destruct (list_find _ _) as [[i x]|] eqn:Hr; [discriminate|].
  destruct (negb (sin_nul _)); [discriminate|].
  destruct (list_find (fun u => Usuario.email u = _) _) as [[i x]|] eqn:He; [discriminate|].
  intros _. split; [exists a; reflexivity|]. split; [reflexivity|].
  intros v Hv. split.
  - apply (list_find_ninguno _ _ Hr v Hv).
  - apply (list_find_ninguno _ _ He v Hv).
Qed.

(** X19. [crear_usuario_ingresador] writes nothing when the handler refuses
    the request.  When the handler accepts it, the caller is an
    administrator, the RUT is valid and no stored user had the RUT or the
    e-mail, and exactly one row is appended: active, bound to change the
    password, with the hash of the requested password and with the role
    [ingresador] whatever role the request names.  The route then answers
    with the validation of that row against [UsuarioResponse]: the user,
    or a [ResponseValidationError] with the row staying written, which is
    what a RUT of fewer than 9 characters gets.  With a fresh key the new
    user is authenticated from then on and passes the guard of the
    data-entry endpoints, but is refused by the administrator guard with
    403; every other token is answered as before. *)
Theorem crear_usuario_ingresador_rol get_password_hash validate_email db token usuario_data
    nuevo_id now :
  let u :=
    Usuario.mk nuevo_id (UsuarioCreate.rut usuario_data)
      (UsuarioCreate.nombre usuario_data) (UsuarioCreate.email usuario_data)
      (UsuarioCreate.celular usuario_data)
      (get_password_hash (UsuarioCreate.password usuario_data))
      "ingresador" true true now now in
  (forall r db',
      crear_usuario_ingresador get_password_hash validate_email db token usuario_data
        nuevo_id now
      = (Rechazo r, db') ->
      r <> ResponseValidationError ->
      db' = db)
  /\ (forall respuesta db',
        nuevo_id ∉ map Usuario.id (usuarios db) ->
        crear_usuario_ingresador get_password_hash validate_email db token usuario_data
          nuevo_id now
        = (respuesta, db') ->
        (forall r, respuesta = Rechazo r -> r = ResponseValidationError) ->
        (exists admin, require_admin db token = Ok admin)
        /\ validar_rut_chileno (UsuarioCreate.rut usuario_data) = Ok true
        /\ (forall v, v ∈ usuarios db ->
                      Usuario.rut v <> UsuarioCreate.rut usuario_data
                      /\ Usuario.email v <> UsuarioCreate.email usuario_data)
        /\ db' = with_usuarios db (usuarios db ++ [u])
        /\ respuesta
           = match UsuarioResponse.validate validate_email u with
             | Some resp => Exito resp
             | None => Rechazo ResponseValidationError
             end
        /\ (forall resp,
              respuesta = Exito resp ->
              UsuarioResponse.id resp = nuevo_id
              /\ UsuarioResponse.rol resp = "ingresador"%string
              /\ UsuarioResponse.activo resp = true
              /\ (9 <= String.length (UsuarioCreate.rut usuario_data))%nat)
        /\ get_current_user db' (Some nuevo_id) = Ok u
        /\ require_ingresador_o_admin db' (Some nuevo_id) = Ok u
        /\ require_admin db' (Some nuevo_id)
           = Raise (HTTPException HTTP_403_FORBIDDEN SoloAdministradores)
        /\ (forall token', token' <> Some nuevo_id ->
                           get_current_user db' token' = get_current_user db token')).
Proof.
  intros u. unfold crear_usuario_ingresador. split.
  - intros r db' H Hr. apply responder_rechazo in H as [H|[-> _]]; [|contradiction].
    apply crear_usuario_ingresador_fallo in H as [-> _]. reflexivity.
  - intros ans db' Hfresh H Hans.
    destruct (crear_usuario_ingresador_cuerpo get_password_hash db token usuario_data
                nuevo_id now) as [[u'|r] db1] eqn:Hc.
    2:{ cbn in H. injection H as <- <-.
        apply crear_usuario_ingresador_fallo in Hc as [_ Hr].
        exfalso. apply Hr, Hans. reflexivity. }
    rewrite responder_valor in H. injection H as <- <-.
    destruct (crear_usuario_ingresador_exito _ _ _ _ _ _ _ _ Hc) as (Hadm & Hval & Hotros).
    apply crear_usuario_ingresador_casos in Hc as [Hu' ->]. fold u in Hu'. subst u'.
    assert (get_current_user (with_usuarios db (usuarios db ++ [u])) (Some nuevo_id) = Ok u)
      as Hg.
    { unfold get_current_user. cbn [usuarios with_usuarios].
      rewrite (list_find_snoc_nuevo (fun v => Usuario.id v = nuevo_id) (usuarios db) u);
        [reflexivity| |reflexivity].
      apply list_find_ausente. intros v Hv Hid. apply Hfresh.
      apply elem_of_map. exists v. split; assumption. }
    split; [exact Hadm|]. split; [exact Hval|]. split; [exact Hotros|].
    split; [reflexivity|]. split; [reflexivity|]. split.
    { intros resp Hresp. unfold UsuarioResponse.validate in Hresp.
      destruct (_ && _)%bool eqn:Hcotas in Hresp; [|discriminate].
      destruct (validate_email _) as [email|]; [|discriminate].
      injection Hresp as <-. cbn.
      split; [reflexivity|]. split; [reflexivity|]. split; [reflexivity|].
      repeat (apply andb_prop in Hcotas as [Hcotas _]).
      apply Nat.leb_le in Hcotas. exact Hcotas. }
    split; [exact Hg|].
    split; [unfold require_ingresador_o_admin; rewrite Hg; reflexivity|].
    split; [unfold require_admin; rewrite Hg; reflexivity|].
    intros token' Hne. apply get_current_user_snoc. exact Hne.
Qed.

Lemma crear_usuario_ingresador_rol_witness :
  let hash := fun p => String.append "hash:" p in
  (exists resp db',
      crear_usuario_ingresador hash Some Ejemplo.db (Some 1)
        (UsuarioCreate.mk "123456785" "Marta Ruiz" "marta@hospital.cl" None "administrador"
           "clave-temporal") 3 700
      = (Exito resp, db')
      /\ UsuarioResponse.rol resp = "ingresador"%string
      /\ require_admin db' (Some 3)
         = Raise (HTTPException HTTP_403_FORBIDDEN SoloAdministradores))
  /\ (exists db',
        crear_usuario_ingresador hash Some Ejemplo.db (Some 1)
          (UsuarioCreate.mk "12345674" "Marta Ruiz" "marta@hospital.cl" None "ingresador"
             "clave-temporal") 3 700
        = (Rechazo ResponseValidationError, db')
        /\ length (usuarios db') = 3%nat
        /\ exists u, get_current_user db' (Some 3) = Ok u).
Proof.
  intros hash.
  assert (3 ∉ map Usuario.id (usuarios Ejemplo.db)) as Hfresh.
  { cbn. intros Hin. apply elem_of_cons in Hin as [Hin|Hin]; [discriminate|].
    apply list_elem_of_singleton in Hin. discriminate. }
  split.
  - destruct (crear_usuario_ingresador hash Some Ejemplo.db (Some 1)
                (UsuarioCreate.mk "123456785" "Marta Ruiz" "marta@hospital.cl" None
                   "administrador" "clave-temporal") 3 700) as [[resp|r] db'] eqn:Hc;
      [|vm_compute in Hc; discriminate].
    exists resp, db'. split; [reflexivity|].
    destruct (crear_usuario_ingresador_rol hash Some Ejemplo.db (Some 1)
                (UsuarioCreate.mk "123456785" "Marta Ruiz" "marta@hospital.cl" None
                   "administrador" "clave-temporal") 3 700) as [_ H].
    destruct (H (Exito resp) db' Hfresh Hc ltac:(discriminate))
      as (_ & _ & _ & _ & _ & Hresp & _ & _ & Hadm & _).
    destruct (Hresp resp eq_refl) as (_ & Hrol & _).
    split; [exact Hrol|exact Hadm].
  - destruct (crear_usuario_ingresador hash Some Ejemplo.db (Some 1)
                (UsuarioCreate.mk "12345674" "Marta Ruiz" "marta@hospital.cl" None
                   "ingresador" "clave-temporal") 3 700) as [[resp|r] db'] eqn:Hc;
      [vm_compute in Hc; discriminate|].
    assert (r = ResponseValidationError) as ->
      by (vm_compute in Hc; injection Hc as <- _; reflexivity).
    exists db'. split; [reflexivity|].
    destruct (crear_usuario_ingresador_rol hash Some Ejemplo.db (Some 1)
                (UsuarioCreate.mk "12345674" "Marta Ruiz" "marta@hospital.cl" None
                   "ingresador" "clave-temporal") 3 700) as [_ H].
    destruct (H _ db' Hfresh Hc ltac:(intros r [= <-]; reflexivity))
      as (_ & _ & _ & Hdb & _ & _ & Hg & _).
    split; [rewrite Hdb; reflexivity|]. eexists. exact Hg.
Defined.

(** ** Passwords *)

Lemma onupdate_usuario_campos anterior nuevo now :
  let u := onupdate_usuario anterior nuevo now in
  Usuario.id u = Usuario.id nuevo
  /\ Usuario.rut u = Usuario.rut nuevo
  /\ Usuario.nombre u = Usuario.nombre nuevo
  /\ Usuario.email u = Usuario.email nuevo
  /\ Usuario.celular u = Usuario.celular nuevo
  /\ Usuario.password_hash u = Usuario.password_hash nuevo
  /\ Usuario.rol u = Usuario.rol nuevo
  /\ Usuario.activo u = Usuario.activo nuevo
  /\ Usuario.debe_cambiar_password u = Usuario.debe_cambiar_password nuevo
  /\ Usuario.created_at u = Usuario.created_at nuevo.
Proof.
  cbn zeta. unfold onupdate_usuario.
  destruct (decide (nuevo = anterior)) as [->|Hne]; cbn; repeat split; reflexivity.
Qed.

Lemma guardar_usuario_exito db token u password_hash debe now db' :
  get_current_user db token = Ok u ->
  guardar_usuario db u (con_password u password_hash debe) now = Ok db' ->
  exists i u',
    usuarios db !! i = Some u /\ token = Some (Usuario.id u)
    /\ db' = with_usuarios db (<[i:=u']> (usuarios db))
    /\ misma_cuenta u u'
    /\ Usuario.password_hash u' = password_hash
    /\ Usuario.debe_cambiar_password u' = debe
    /\ get_current_user db' token = Ok u'.
Proof.
  intros Hu. unfold guardar_usuario. destruct (negb (adapta_usuario_cambio _ _)); [discriminate|].
  destruct (negb _); [discriminate|].
  destruct (get_current_user_find _ _ _ Hu) as [k Hk]. rewrite Hk. intros [= <-].
  pose proof (get_current_user_token _ _ _ Hu) as ->.
  match goal with
  | |- context [onupdate_usuario ?x ?y ?z] =>
      pose proof (onupdate_usuario_campos x y z) as H; cbn zeta in H; cbn in H;
      destruct H as (H1 & H2 & H3 & H4 & H5 & H6 & H7 & H8 & H9 & H10);
      set (u' := onupdate_usuario x y z) in *
  end.
  exists k, u'. pose proof Hk as Hk'. apply list_find_Some in Hk' as (Hi & _ & _).
  split; [exact Hi|]. split; [reflexivity|]. split; [reflexivity|].
  split; [repeat split; assumption|]. split; [exact H6|]. split; [exact H9|].
  assert (Usuario.activo u = true) as Hact.
  { unfold get_current_user in Hu. rewrite Hk in Hu.
    destruct (Usuario.activo u); [reflexivity|discriminate]. }
  unfold get_current_user. cbn [usuarios with_usuarios].
  rewrite (list_find_insert_mismo _ _ _ u u' Hk) by exact H1.
  rewrite H8, Hact. reflexivity.
Qed.

(** X20. A change of password rewrites only the row of the caller and only
    its hash, its change flag and [updated_at]; a refused call writes
    nothing; the caller stays authenticated.  [primer_cambio_password]
    succeeds only while the flag is set, asks for no password, and takes
    the flag off, so that a second call is refused with 400;
    [cambiar_mi_password] succeeds only when the current password verifies
    against the stored hash and the new one differs from it, and leaves
    the flag as it was. *)
Theorem cambio_de_password get_password_hash verify_password db token :
  (forall nueva now r db',
      primer_cambio_password get_password_hash db token nueva now = (Rechazo r, db') ->
      db' = db)
  /\ (forall actual nueva now r db',
        cambiar_mi_password get_password_hash verify_password db token actual nueva now
        = (Rechazo r, db') ->
        db' = db)
  /\ (forall nueva now m db',
        primer_cambio_password get_password_hash db token nueva now = (Exito m, db') ->
        exists i u u',
          usuarios db !! i = Some u /\ token = Some (Usuario.id u)
          /\ Usuario.debe_cambiar_password u = true
          /\ db' = with_usuarios db (<[i:=u']> (usuarios db))
          /\ misma_cuenta u u'
          /\ Usuario.password_hash u' = get_password_hash nueva
          /\ Usuario.debe_cambiar_password u' = false
          /\ get_current_user db' token = Ok u'
          /\ forall nueva' now',
               primer_cambio_password get_password_hash db' token nueva' now'
               = (Rechazo (Http 400 NoNecesitasCambiarContrasena), db'))
  /\ (forall actual nueva now m db',
        cambiar_mi_password get_password_hash verify_password db token actual nueva now
        = (Exito m, db') ->
        exists i u u',
          usuarios db !! i = Some u /\ token = Some (Usuario.id u)
          /\ verify_password actual (Usuario.password_hash u) = true
          /\ actual <> nueva
          /\ db' = with_usuarios db (<[i:=u']> (usuarios db))
          /\ misma_cuenta u u'
          /\ Usuario.password_hash u' = get_password_hash nueva
          /\ Usuario.debe_cambiar_password u' = Usuario.debe_cambiar_password u
          /\ get_current_user db' token = Ok u').
Proof.
  split; [|split; [|split]].
  - intros nueva now r db'. unfold primer_cambio_password.
    destruct (get_current_user db token) as [u|e]; [|congruence].
    destruct (negb _); [congruence|].
    destruct (guardar_usuario _ _ _ _); [discriminate|congruence].
  - intros actual nueva now r db'. unfold cambiar_mi_password.
    destruct (get_current_user db token) as [u|e]; [|congruence].
    destruct (negb _); [congruence|]. destruct (bool_decide _); [congruence|].
    destruct (guardar_usuario _ _ _ _); [discriminate|congruence].
  - intros nueva now m db'. unfold primer_cambio_password.
    destruct (get_current_user db token) as [u|e] eqn:Hu; [|discriminate].
    destruct (Usuario.debe_cambiar_password u) eqn:Hd; [|discriminate]. cbn [negb].
    destruct (guardar_usuario _ _ _ _) as [db1|e] eqn:Hg; [|discriminate].
    intros [= <- <-].
    destruct (guardar_usuario_exito _ _ _ _ _ _ _ Hu Hg)
      as (i & u' & Hi & Htok & -> & Hm & Hh & Hd' & Hu').
    exists i, u, u'. repeat (split; [assumption || reflexivity|]).
    intros nueva' now'. rewrite Hu', Hd'. reflexivity.
  - intros actual nueva now m db'. unfold cambiar_mi_password.
    destruct (get_current_user db token) as [u|e] eqn:Hu; [|discriminate].
    destruct (verify_password actual _) eqn:Hv; [|discriminate]. cbn [negb].
    destruct (bool_decide _) eqn:Hb; [discriminate|].
    apply bool_decide_eq_false in Hb.
    destruct (guardar_usuario _ _ _ _) as [db1|e] eqn:Hg; [|discriminate].
    intros [= <- <-].
    destruct (guardar_usuario_exito _ _ _ _ _ _ _ Hu Hg)
      as (i & u' & Hi & Htok & -> & Hm & Hh & Hd' & Hu').
    exists i, u, u'. repeat (split; [assumption || reflexivity|]). exact Hu'.
Qed.

Lemma cambio_de_password_witness :
  let nuevo :=
    Usuario.mk 3 "123456785" "Marta Ruiz" "marta@hospital.cl" None "hash:temporal"
      "ingresador" true true 700 700 in
  let db := with_usuarios Ejemplo.db [Ejemplo.admin; nuevo] in
  exists m db',
    primer_cambio_password (fun p => String.append "hash:" p) db (Some 3) "nueva-clave" 800
    = (Exito m, db')
    /\ primer_cambio_password (fun p => String.append "hash:" p) db' (Some 3) "otra-clave" 900
       = (Rechazo (Http 400 NoNecesitasCambiarContrasena), db').
Proof.
  intros nuevo db.
  destruct (primer_cambio_password (fun p => String.append "hash:" p) db (Some 3)
              "nueva-clave" 800) as [[m|r] db'] eqn:Hc; [|vm_compute in Hc; discriminate].
  exists m, db'. split; [reflexivity|].
  destruct (cambio_de_password (fun p => String.append "hash:" p) (fun _ _ => true)
              db (Some 3)) as (_ & _ & H & _).
  destruct (H _ _ _ _ Hc) as (i & u & u' & _ & _ & _ & _ & _ & _ & _ & _ & Hotra).
  apply Hotra.
Defined.

(** ** The exams a user created *)

(** X21. The [total] that [obtener_examenes_usuario] reports is the size of
    the page it returns, not the number of exams of the user: with [n]
    exams created by the user and not deleted it is [min limit (max 0
    (n - skip))]; the page holds only such exams, newest first by
    creation time.  Deleted exams are not listed, though they still count
    for [eliminar_usuario]: a user all of whose exams are deleted is
    reported with total 0 and still cannot be removed without the
    cascade. *)
Theorem obtener_examenes_usuario_pagina db token usuario_id skip limit r :
  0 <= skip -> 0 <= limit ->
  obtener_examenes_usuario db token usuario_id skip limit = Exito r ->
  let propios :=
    filter (fun b => ExamenBase.created_by b = Some usuario_id
                     /\ ExamenBase.deleted_at b = None) (examenes_base db) in
  ExamenesUsuario.total r = Z.of_nat (length (ExamenesUsuario.examenes r))
  /\ ExamenesUsuario.total r = Z.min limit (Z.max 0 (Z.of_nat (length propios) - skip))
  /\ (exists examenes,
        ExamenesUsuario.examenes r
        = map (fun e => ExamenDeUsuario.mk (ExamenBase.id e) (ExamenBase.tipo_examen e)
                          (ExamenBase.fecha_realizacion e)) examenes
        /\ StronglySorted creado_desc examenes
        /\ forall b, b ∈ examenes -> b ∈ propios)
  /\ (forall now,
        propios = [] -> examenes_de db usuario_id <> [] ->
        ExamenesUsuario.total r = 0
        /\ exists e,
             eliminar_usuario db token usuario_id false now = (Raise e, db)
             /\ (e = HTTPException 400 NoPuedesEliminarte
                 \/ e = HTTPException 400
                          (UsuarioTieneExamenes
                             (Z.of_nat (length (examenes_de db usuario_id)))))).
Proof.
  intros Hskip Hlimit. unfold obtener_examenes_usuario.
  destruct (require_admin db token) as [admin|e] eqn:Hadm; [|discriminate].
  destruct (list_find _ (usuarios db)) as [[i u]|] eqn:Hf; [|discriminate].
  destruct ((skip <? 0) || (limit <? 0)) eqn:Hneg; [discriminate|].
  intros [= <-]. cbn zeta. cbn [ExamenesUsuario.total ExamenesUsuario.examenes].
  set (propios := filter _ (examenes_base db)).
  assert (length (merge_sort creado_desc propios) = length propios) as Hlen
    by (rewrite merge_sort_Permutation; reflexivity).
  split; [rewrite length_map; reflexivity|]. split; [|split].
  - rewrite length_take, length_drop, Hlen. lia.
  - eexists. split; [reflexivity|]. split.
    + eapply StronglySorted_sublista; [apply sublist_take|].
      eapply StronglySorted_sublista; [apply sublist_drop|].
      apply StronglySorted_merge_sort; [apply creado_desc_transitiva|apply creado_desc_total].
    + intros b Hb. apply subseteq_take, subseteq_drop in Hb.
      rewrite merge_sort_Permutation in Hb. exact Hb.
  - intros now Hvacio Hex. split.
    + rewrite length_take, length_drop, Hlen, Hvacio. cbn. lia.
    + unfold eliminar_usuario. rewrite Hadm, Hf.
      destruct (decide _); [eexists; split; [reflexivity|left; reflexivity]|].
      assert ((0 <? Z.of_nat (length (examenes_de db usuario_id))) = true) as ->.
      { apply Z.ltb_lt. destruct (examenes_de db usuario_id); [congruence|]. cbn. lia. }
      cbn [negb andb]. eexists. split; [reflexivity|right; reflexivity].
Qed.

Lemma obtener_examenes_usuario_pagina_witness :
  exists r,
    obtener_examenes_usuario Ejemplo.db2 (Some 1) 1 0 1 = Exito r
    /\ ExamenesUsuario.total r = 1.
Proof.
  destruct (obtener_examenes_usuario Ejemplo.db2 (Some 1) 1 0 1) as [r|e] eqn:Hc;
    [|vm_compute in Hc; discriminate].
  exists r. split; [reflexivity|].
  assert (0 <= 0) as H0 by lia. assert (0 <= 1) as H1 by lia.
  destruct (obtener_examenes_usuario_pagina _ _ _ _ _ _ H0 H1 Hc) as (_ & Ht & _).
  rewrite Ht. reflexivity.
Defined.

(** ** Counting by groups *)

Lemma suma_constante_cero {K} (ks : list K) :
  foldr Z.add 0 (map (fun _ => 0) ks) = 0.
Proof. induction ks as [|k ks IH]; [reflexivity|]. cbn. rewrite IH. reflexivity. Qed.

Lemma suma_de_sumas {K} (f g : K -> Z) (ks : list K) :
  foldr Z.add 0 (map (fun k => f k + g k) ks)
  = foldr Z.add 0 (map f ks) + foldr Z.add 0 (map g ks).
Proof. induction ks as [|k ks IH]; [reflexivity|]. cbn. rewrite IH. lia. Qed.

Lemma suma_indicador {K} `{EqDecision K} (a : K) (ks : list K) :
  NoDup ks ->
  foldr Z.add 0 (map (fun k => if decide (a = k) then 1 else 0) ks)
  = if decide (a ∈ ks) then 1 else 0.
Proof.
  induction 1 as [|k ks Hk Hnd IH]; [reflexivity|].
  cbn. rewrite IH. destruct (decide (a = k)) as [->|Hne].
  - rewrite decide_False by exact Hk. rewrite decide_True by left. reflexivity.
  - destruct (decide (a ∈ ks)) as [Hin|Hnin].
    + rewrite decide_True by (right; exact Hin). reflexivity.
    + rewrite decide_False; [reflexivity|].
      intros Hin. apply elem_of_cons in Hin as [?|?]; contradiction.
Qed.

(** The groups of a key partition the rows. *)
Lemma suma_por_clave {A K} `{EqDecision K} (clave : A -> K) (ks : list K) (l : list A) :
  NoDup ks ->
  (forall x, x ∈ l -> clave x ∈ ks) ->
  foldr Z.add 0 (map (fun k => Z.of_nat (length (filter (fun x => clave x = k) l))) ks)
  = Z.of_nat (length l).
Proof.
  intros Hnd. induction l as [|a l IH]; intros Hin.
  - cbn. apply suma_constante_cero.
  - rewrite (map_ext _ (fun k => (if decide (clave a = k) then 1 else 0)
                                 + Z.of_nat (length (filter (fun x => clave x = k) l)))).
    + rewrite suma_de_sumas, suma_indicador by exact Hnd.
      rewrite decide_True by (apply Hin; left).
      rewrite IH by (intros x Hx; apply Hin; right; exact Hx). cbn [length]. lia.
    + intros k. rewrite filter_cons. destruct (decide (clave a = k)); cbn [length]; lia.
Qed.

Lemma sumar_filas (filas : list (string * Z)) :
  sumar filas = foldr Z.add 0 (map snd filas).
Proof.
  unfold sumar.
  assert (forall s, foldl (fun suma (fila : string * Z) => suma + fila.2) s filas
                    = s + foldr Z.add 0 (map snd filas)) as H; [|apply H].
  induction filas as [|f filas IH]; intros s; cbn; [lia|]. rewrite IH. lia.
Qed.

Lemma sumar_agrupar {K} `{EqDecision K} (clave : ExamenBase.t -> K) query :
  foldr Z.add 0 (map snd (agrupar clave query)) = Z.of_nat (length query).
Proof.
  unfold agrupar. rewrite map_map. cbn [snd].
  apply suma_por_clave; [apply NoDup_remove_dups|].
  intros x Hx. apply elem_of_remove_dups. apply elem_of_map. exists x. split; [exact Hx|reflexivity].
Qed.

Lemma lookup_foldl_agrupar (clave : ExamenBase.t -> string) query (d : gmap string Z) k :
  foldl (fun datos (fila : string * Z) => <[fila.1:=fila.2]> datos) d (agrupar clave query) !! k
  = if decide (k ∈ map clave query)
    then Some (Z.of_nat (length (filter (fun b => clave b = k) query)))
    else d !! k.
Proof.
  unfold agrupar.
  assert (forall ks (d : gmap string Z),
            foldl (fun datos (fila : string * Z) => <[fila.1:=fila.2]> datos) d
              (map (fun k => (k, Z.of_nat (length (filter (fun b => clave b = k) query)))) ks)
            !! k
            = if decide (k ∈ ks)
              then Some (Z.of_nat (length (filter (fun b => clave b = k) query)))
              else d !! k) as H.
  { intros ks. induction ks as [|a ks IH] using rev_ind; intros d0.
    - cbn. rewrite decide_False by apply not_elem_of_nil. reflexivity.
    - rewrite map_app, foldl_app. cbn [map foldl fst snd].
      destruct (decide (k = a)) as [->|Hne].
      + rewrite lookup_insert_eq. rewrite decide_True; [reflexivity|].
        apply elem_of_app. right. left.
      + rewrite lookup_insert_ne by congruence. rewrite IH.
        destruct (decide (k ∈ ks)) as [Hin|Hnin].
        * rewrite decide_True; [reflexivity|]. apply elem_of_app. left. exact Hin.
        * rewrite decide_False; [reflexivity|].
          intros Hin. apply elem_of_app in Hin as [?|Hin]; [contradiction|].
          apply list_elem_of_singleton in Hin. contradiction. }
  rewrite H. destruct (decide (k ∈ remove_dups (map clave query))) as [Hin|Hnin].
  - rewrite decide_True by (apply elem_of_remove_dups; exact Hin). reflexivity.
  - rewrite decide_False; [reflexivity|]. intros Hin. apply Hnin, elem_of_remove_dups, Hin.
Qed.

Lemma length_filter_sin_clave {K} `{EqDecision K} (clave : ExamenBase.t -> K) query k :
  k ∉ map clave query -> length (filter (fun b => clave b = k) query) = 0%nat.
Proof.
  intros Hn. rewrite filter_ninguno; [reflexivity|].
  intros b Hb Hk. apply Hn. apply elem_of_map. exists b. split; assumption.
Qed.

(** ** The comparison of exam types *)

Lemma leer_claves_todas (datos : gmap string Z) (f : string -> Z) (claves : list string) :
  (forall k, k ∈ claves -> datos !! k = Some (f k)) ->
  leer_claves datos claves = Ok (map f claves).
Proof.
  induction claves as [|k claves IH]; intros H; [reflexivity|].
  cbn. rewrite (H k) by left. rewrite IH by (intros k' Hk'; apply H; right; exact Hk').
  reflexivity.
Qed.

Lemma examenes_por_periodo_datos db token anio tipo_examen current_user :
  get_current_user db token = Ok current_user ->
  exists r,
    examenes_por_periodo db token anio tipo_examen = Ok r
    /\ PorPeriodo.data r = map (cuenta_mes db anio tipo_examen) (seqZ 1 12).
Proof.
  intros Hu. unfold examenes_por_periodo. rewrite Hu. cbn [bind].
  set (query := if PyStr.truthy tipo_examen then _ else _).
  set (cuenta := fun mes =>
         Z.of_nat (length (filter (fun b => ExamenBase.mes_realizacion b = mes) query))).
  rewrite (leer_todos _ cuenta).
  2:{ intros k Hk. apply datos_por_mes. apply elem_of_seqZ in Hk. lia. }
  cbn [bind]. eexists. split; [reflexivity|]. cbn [PorPeriodo.data].
  apply map_ext. intros mes. unfold cuenta, cuenta_mes, query. f_equal. f_equal.
  destruct (PyStr.truthy tipo_examen).
  - rewrite !list_filter_filter. apply list_filter_iff. intros b. tauto.
  - rewrite list_filter_filter. apply list_filter_iff. intros b.
    split; [|tauto].
    intros (Hm & Ha & Hd). split; [tauto|]. split; [intros [=]|exact Hm].
Qed.

Lemma tipos_en_cero_lookup k :
  k ∈ ["TAC"; "RX"; "ECO"]%string -> tipos_en_cero !! k = Some 0.
Proof.
  intros Hk. unfold tipos_en_cero.
  apply elem_of_cons in Hk as [->|Hk]; [|apply elem_of_cons in Hk as [->|Hk]];
    [| |apply list_elem_of_singleton in Hk as ->].
  - rewrite lookup_insert_ne by discriminate. rewrite lookup_insert_ne by discriminate.
    apply lookup_insert_eq.
  - rewrite lookup_insert_ne by discriminate. apply lookup_insert_eq.
  - apply lookup_insert_eq.
Qed.

Lemma comparativa_tipos_datos db token anio mes current_user :
  get_current_user db token = Ok current_user ->
  exists r,
    comparativa_tipos db token anio mes = Ok r
    /\ Comparativa.labels r = ["TAC"; "RX"; "ECO"]%string
    /\ Comparativa.data r = map (cuenta_tipo db anio mes) ["TAC"; "RX"; "ECO"]%string.
Proof.
  intros Hu. unfold comparativa_tipos. rewrite Hu. cbn [bind].
  set (query := match mes with Some _ => _ | None => _ end).
  rewrite (leer_claves_todas _
             (fun k => Z.of_nat (length (filter (fun b => ExamenBase.tipo_examen b = k)
                                           query)))).
  2:{ intros k Hk. rewrite lookup_foldl_agrupar.
      destruct (decide _) as [_|Hn]; [reflexivity|].
      rewrite tipos_en_cero_lookup by exact Hk.
      rewrite length_filter_sin_clave by exact Hn. reflexivity. }
  cbn [bind]. eexists. split; [reflexivity|]. split; [reflexivity|].
  cbn [Comparativa.data]. apply map_ext. intros k. unfold cuenta_tipo, query. f_equal. f_equal.
  destruct mes as [m|].
  - unfold filtro. destruct (m =? 0) eqn:Hm; cbn [negb].
    + apply Z.eqb_eq in Hm as ->. rewrite list_filter_filter. apply list_filter_iff.
      intros b. split; [|tauto]. intros (H1 & H2). split; [exact H1|]. split; [exact H2|].
      right. left. reflexivity.
    + apply Z.eqb_neq in Hm. rewrite !list_filter_filter. apply list_filter_iff.
      intros b. split.
      * intros ((H1 & H2) & H3). split; [exact H1|]. split; [exact H3|].
        right. right. congruence.
      * intros (H1 & H3 & [H|[H|H]]); try congruence.
        split; [split; [exact H1|congruence]|exact H3].
  - rewrite list_filter_filter. apply list_filter_iff.
    intros b. split; [|tauto]. intros (H1 & H2). split; [exact H1|]. split; [exact H2|].
    left. reflexivity.
Qed.

(** X22. For an authenticated caller [comparativa_tipos] always answers,
    with the three counts of exams not deleted of the year (and of the
    month when one is given; a month of 0 filters nothing) for TAC, RX and
    ECO, in that order; where every exam has one of the three types the
    counts add up to the number of such exams; and the report agrees with
    [examenes_por_periodo]: the count of a type for a month is the entry
    of that month in the monthly report of the type, and, where every
    month column is between 1 and 12, the count of a type for the year is
    the sum of the twelve entries. *)
Theorem comparativa_tipos_cuenta db token anio mes current_user :
  get_current_user db token = Ok current_user ->
  exists r,
    comparativa_tipos db token anio mes = Ok r
    /\ Comparativa.labels r = ["TAC"; "RX"; "ECO"]%string
    /\ Comparativa.data r = map (cuenta_tipo db anio mes) ["TAC"; "RX"; "ECO"]%string
    /\ (Forall (fun b => check_tipo_examen (ExamenBase.tipo_examen b) = true)
          (examenes_base db) ->
        foldr Z.add 0 (Comparativa.data r)
        = Z.of_nat
            (length
               (filter
                  (fun b =>
                     (ExamenBase.anio_realizacion b = anio /\ ExamenBase.deleted_at b = None)
                     /\ (mes = None \/ mes = Some 0
                         \/ mes = Some (ExamenBase.mes_realizacion b)))
                  (examenes_base db))))
    /\ (forall m tipo,
          mes = Some m -> 1 <= m <= 12 -> tipo ∈ ["TAC"; "RX"; "ECO"]%string ->
          exists p,
            examenes_por_periodo db token anio (Some tipo) = Ok p
            /\ PorPeriodo.data p !! Z.to_nat (m - 1) = Some (cuenta_tipo db anio mes tipo))
    /\ (mes = None ->
        Forall (fun b => check_mes (ExamenBase.mes_realizacion b) = true)
          (examenes_base db) ->
        forall tipo,
          tipo ∈ ["TAC"; "RX"; "ECO"]%string ->
          exists p,
            examenes_por_periodo db token anio (Some tipo) = Ok p
            /\ foldr Z.add 0 (PorPeriodo.data p) = cuenta_tipo db anio None tipo).
Proof.
  intros Hu. destruct (comparativa_tipos_datos db token anio mes _ Hu) as (r & Hr & Hl & Hd).
  exists r. split; [exact Hr|]. split; [exact Hl|]. split; [exact Hd|].
  assert (forall tipo, tipo ∈ ["TAC"; "RX"; "ECO"]%string ->
                       PyStr.truthy (Some tipo) = true) as Htruthy.
  { intros tipo Ht. apply elem_of_cons in Ht as [->|Ht];
      [|apply elem_of_cons in Ht as [->|Ht]]; [| |apply list_elem_of_singleton in Ht as ->];
      reflexivity. }
  split; [|split].
  - intros Htipos. rewrite Hd.
    rewrite (map_ext _ (fun k =>
               Z.of_nat
                 (length
                    (filter (fun b => ExamenBase.tipo_examen b = k)
                       (filter
                          (fun b =>
                             (ExamenBase.anio_realizacion b = anio
                              /\ ExamenBase.deleted_at b = None)
                             /\ (mes = None \/ mes = Some 0
                                 \/ mes = Some (ExamenBase.mes_realizacion b)))
                          (examenes_base db)))))).
    + apply suma_por_clave.
      * apply sin_repetidos. reflexivity.
      * intros b Hb. apply list_elem_of_filter in Hb as [_ Hb].
        rewrite Forall_forall in Htipos. specialize (Htipos b Hb).
        apply bool_decide_eq_true in Htipos. exact Htipos.
    + intros k. unfold cuenta_tipo. rewrite list_filter_filter. reflexivity.
  - intros m tipo -> Hm Ht.
    destruct (examenes_por_periodo_datos db token anio (Some tipo) _ Hu) as (p & Hp & Hdp).
    exists p. split; [exact Hp|]. rewrite Hdp.
    change (map ?f ?l) with (f <$> l). rewrite list_lookup_fmap, lookup_seqZ_lt by lia.
    cbn. f_equal. replace (1 + Z.of_nat (Z.to_nat (m - 1))) with m by lia.
    unfold cuenta_mes, cuenta_tipo. f_equal. f_equal. apply list_filter_iff. intros b.
    rewrite (Htruthy tipo Ht). split.
    + intros (H1 & H2 & H3). split; [specialize (H2 eq_refl); congruence|].
      split; [exact H1|]. right. right. congruence.
    + intros (H1 & H2 & H).
      assert (ExamenBase.mes_realizacion b = m) as H3
        by (destruct H as [H|[H|H]]; [discriminate|injection H; lia|congruence]).
      split; [exact H2|]. split; [intros _; congruence|exact H3].
  - intros -> Hmes tipo Ht.
    destruct (examenes_por_periodo_datos db token anio (Some tipo) _ Hu) as (p & Hp & Hdp).
    exists p. split; [exact Hp|]. rewrite Hdp.
    rewrite (map_ext _ (fun k =>
               Z.of_nat
                 (length
                    (filter (fun b => ExamenBase.mes_realizacion b = k)
                       (filter
                          (fun b =>
                             ExamenBase.tipo_examen b = tipo
                             /\ (ExamenBase.anio_realizacion b = anio
                                 /\ ExamenBase.deleted_at b = None)
                             /\ (@None Z = None \/ @None Z = Some 0
                                 \/ None = Some (ExamenBase.mes_realizacion b)))
                          (examenes_base db)))))).
    + unfold cuenta_tipo. apply suma_por_clave; [apply NoDup_seqZ|].
      intros b Hb. apply list_elem_of_filter in Hb as [_ Hb].
      rewrite Forall_forall in Hmes. specialize (Hmes b Hb). unfold check_mes in Hmes.
      apply andb_true_iff in Hmes as [H1 H2]. apply Z.leb_le in H1, H2.
      apply elem_of_seqZ. lia.
    + intros k. unfold cuenta_mes. rewrite list_filter_filter. f_equal. f_equal.
      apply list_filter_iff. intros b. rewrite (Htruthy tipo Ht). split.
      * intros (H1 & H2 & H3). split; [exact H3|]. split; [specialize (H2 eq_refl); congruence|].
        split; [exact H1|left; reflexivity].
      * intros (H1 & H2 & H3 & _). split; [exact H3|]. split; [intros _; congruence|exact H1].
Qed.

Lemma comparativa_tipos_cuenta_witness :
  exists r p,
    comparativa_tipos Ejemplo.db2 (Some 2) 2024 (Some 3) = Ok r
    /\ Comparativa.data r = [1; 0; 0]
    /\ examenes_por_periodo Ejemplo.db2 (Some 2) 2024 (Some "TAC"%string) = Ok p
    /\ PorPeriodo.data p !! 2%nat = Some 1.
Proof.
  destruct (comparativa_tipos_cuenta Ejemplo.db2 (Some 2) 2024 (Some 3) Ejemplo.ingresador
              eq_refl) as (r & Hr & _ & Hd & _ & Hp & _).
  destruct (Hp 3 "TAC"%string eq_refl ltac:(lia) ltac:(left)) as (p & Hpp & Hdp).
  exists r, p. split; [exact Hr|]. split; [rewrite Hd; reflexivity|].
  split; [exact Hpp|]. change (Z.to_nat (3 - 1)) with 2%nat in Hdp.
  rewrite Hdp. reflexivity.
Defined.

(** ** The history of a patient *)







(** ** The general statistics *)

Lemma filtrar_fechas_en_rango fecha_inicio fecha_fin (l : list ExamenBase.t) :
  filtrar_fechas fecha_inicio fecha_fin (filter (fun b => ExamenBase.deleted_at b = None) l)
  = filter (en_rango fecha_inicio fecha_fin) l.
Proof.
  unfold filtrar_fechas, en_rango. destruct fecha_inicio as [fi|], fecha_fin as [ff|];
    cbn [from_option]; rewrite ?list_filter_filter; apply list_filter_iff; intros b; tauto.
Qed.

Lemma diccionario_agrupar (clave : ExamenBase.t -> string) query k :
  diccionario (agrupar clave query) !! k
  = if decide (k ∈ map clave query)
    then Some (Z.of_nat (length (filter (fun b => clave b = k) query)))
    else None.
Proof.
  unfold diccionario. rewrite lookup_foldl_agrupar. destruct (decide _); [reflexivity|].
  apply lookup_empty.
Qed.

(** X24. For an authenticated caller [estadisticas_generales] always
    answers.  [total_examenes] is the number of exams not deleted whose
    realization date lies in the range asked; each dictionary holds, for
    every type (every kind of attention) that occurs among those exams,
    the number of them, and no key for one that does not occur;
    [pacientes_unicos] is the number of distinct patients of those exams,
    at most the total, and 0 exactly when the total is 0. *)
Theorem estadisticas_generales_consistente db token fecha_inicio fecha_fin current_user :
  get_current_user db token = Ok current_user ->
  let contados := filter (en_rango fecha_inicio fecha_fin) (examenes_base db) in
  exists r,
    estadisticas_generales db token fecha_inicio fecha_fin = Ok r
    /\ Estadisticas.total_examenes r = Z.of_nat (length contados)
    /\ (forall k,
          Estadisticas.examenes_por_tipo r !! k
          = if decide (k ∈ map ExamenBase.tipo_examen contados)
            then Some (Z.of_nat (length (filter (fun b => ExamenBase.tipo_examen b = k)
                                           contados)))
            else None)
    /\ (forall k,
          Estadisticas.por_atencion r !! k
          = if decide (k ∈ map ExamenBase.atencion contados)
            then Some (Z.of_nat (length (filter (fun b => ExamenBase.atencion b = k)
                                           contados)))
            else None)
    /\ Estadisticas.pacientes_unicos r
       = Z.of_nat (length (remove_dups (map ExamenBase.paciente_id contados)))
    /\ Estadisticas.pacientes_unicos r <= Estadisticas.total_examenes r
    /\ (Estadisticas.pacientes_unicos r = 0 <-> Estadisticas.total_examenes r = 0).
Proof.
  intros Hu contados. unfold estadisticas_generales. rewrite Hu. cbn [bind].
  rewrite !filtrar_fechas_en_rango. fold contados. eexists. split; [reflexivity|].
  cbn [Estadisticas.total_examenes Estadisticas.examenes_por_tipo Estadisticas.por_atencion
         Estadisticas.pacientes_unicos].
  split; [rewrite sumar_filas; apply sumar_agrupar|].
  split; [intros k; apply diccionario_agrupar|].
  split; [intros k; apply diccionario_agrupar|].
  split; [reflexivity|].
  rewrite sumar_filas, sumar_agrupar.
  assert (length (remove_dups (map ExamenBase.paciente_id contados))
          <= length (map ExamenBase.paciente_id contados))%nat as Hle.
  { apply submseteq_length, NoDup_submseteq; [apply NoDup_remove_dups|].
    intros x Hx. apply elem_of_remove_dups, Hx. }
  rewrite length_map in Hle. split; [lia|].
  destruct contados as [|b l]; [cbn; tauto|].
  split; [|cbn [length]; lia].
  intros H0. exfalso.
  assert (ExamenBase.paciente_id b ∈ remove_dups (map ExamenBase.paciente_id (b :: l))) as Hin
    by (apply elem_of_remove_dups; left).
  destruct (remove_dups _); [apply elem_of_nil in Hin; exact Hin|cbn [length] in H0; lia].
Qed.

Lemma estadisticas_generales_consistente_witness :
  exists r,
    estadisticas_generales Ejemplo.db2 (Some 2) (Some (mkdate 2024 1 1)) None = Ok r
    /\ Estadisticas.total_examenes r = 2
    /\ Estadisticas.pacientes_unicos r = 1
    /\ Estadisticas.examenes_por_tipo r !! "RX"%string = None.
Proof.
  destruct (estadisticas_generales_consistente Ejemplo.db2 (Some 2) (Some (mkdate 2024 1 1))
              None Ejemplo.ingresador eq_refl) as (r & Hr & Ht & Hk & _ & Hp & _).
  exists r. split; [exact Hr|]. split; [rewrite Ht; reflexivity|].
  split; [rewrite Hp; reflexivity|]. rewrite Hk. reflexivity.
Defined.

(** ** Integrity of the store under the other writing endpoints *)

Lemma crear_paciente_integra db token rut nombre_completo fecha_nacimiento now r db' :
  integra db ->
  crear_paciente_cuerpo db token rut nombre_completo fecha_nacimiento now = (r, db') ->
  integra db'.
Proof.
  intros Hint H. destruct r as [p|r]; [|apply crear_paciente_fallo in H as [-> _]; exact Hint].
  apply crear_paciente_exito in H as (_ & _ & Hf & -> & -> & _).
  destruct Hint as [Huc Hpc Hpr Hps Hbc Hbs Htc Hts Htu Htb Hbp Hbu Hrc Hru Hrb Hec Heu Heb].
  constructor; cbn; try assumption.
  - apply NoDup_map_snoc; [assumption|]. cbn. intros Hin.
    apply Hps in Hin. lia.
  - apply NoDup_map_snoc; [assumption|]. cbn. intros Hin.
    apply elem_of_map in Hin as (x & Hx & Hrut).
    exact (list_find_ninguno _ _ Hf x Hx Hrut).
  - intros k Hk. apply elem_of_map_snoc in Hk as [Hk| ->]; cbn.
    + apply Hps in Hk. lia.
    + lia.
  - intros b Hb. apply elem_of_map_snoc. left. apply Hbp, Hb.
Qed.

Lemma actualizar_paciente_integra db token paciente_id nombre_completo fecha_nacimiento
    now r db' :
  integra db ->
  actualizar_paciente_cuerpo db token paciente_id nombre_completo fecha_nacimiento now = (r, db') ->
  integra db'.
Proof.
  intros Hint. unfold actualizar_paciente_cuerpo.
  destruct (get_current_user db token) as [u|e]; [|intros [= <- <-]; exact Hint].
  destruct (list_find _ _) as [[i p]|] eqn:Hf; [|intros [= <- <-]; exact Hint].
  destruct (negb (adapta_cambio _ _)); [intros [= <- <-]; exact Hint|].
  destruct (negb _); intros [= <- <-]; [exact Hint|].
  apply list_find_Some in Hf as (Hi & _ & _).
  destruct Hint as [Huc Hpc Hpr Hps Hbc Hbs Htc Hts Htu Htb Hbp Hbu Hrc Hru Hrb Hec Heu Heb].
  match goal with
  | |- context [onupdate_paciente ?x ?y ?z] =>
      pose proof (onupdate_paciente_campos x y z) as H; cbn zeta in H; cbn in H;
      destruct H as (H1 & H2 & _); set (p' := onupdate_paciente x y z) in *
  end.
  match goal with |- integra ?d => set (db' := d) end.
  assert (map Paciente.id (pacientes db') = map Paciente.id (pacientes db)) as E1
    by (apply (map_insert_igual Paciente.id _ _ p); [exact Hi|exact H1]).
  assert (map Paciente.rut (pacientes db') = map Paciente.rut (pacientes db)) as E2
    by (apply (map_insert_igual Paciente.rut _ _ p); [exact Hi|exact H2]).
  constructor; rewrite ?E1, ?E2; assumption.
Qed.

Lemma marcar_examen_revision_integra db token examen_id en_revision motivo now r db' :
  integra db ->
  marcar_examen_revision db token examen_id en_revision motivo now = (r, db') ->
  integra db'.
Proof.
  intros Hint H. destruct r as [resp|r].
  - apply marcar_examen_revision_exito in H
      as (u & i & b & b' & _ & Hf & -> & _ & _ & _ & Hid & _ & _ & Hpac & Hcb & Hub & _).
    apply list_find_Some in Hf as (Hi & _ & _).
  destruct Hint as [Huc Hpc Hpr Hps Hbc Hbs Htc Hts Htu Htb Hbp Hbu Hrc Hru Hrb Hec Heu Heb].
    match goal with |- integra ?d => set (db' := d) end.
    assert (map ExamenBase.id (examenes_base db') = map ExamenBase.id (examenes_base db))
      as E1 by (apply (map_insert_igual ExamenBase.id _ _ b); [exact Hi|exact Hid]).
    assert (b ∈ examenes_base db) as Hb by (eapply list_elem_of_lookup_2, Hi).
    constructor; rewrite ?E1; try assumption.
    + intros x Hx. apply elem_of_insert_casos in Hx as [->|Hx].
      * rewrite Hpac. apply Hbp, Hb.
      * apply Hbp, Hx.
    + intros x k Hx Hk. apply elem_of_insert_casos in Hx as [->|Hx].
      * rewrite Hcb, Hub in Hk. eapply Hbu; eassumption.
      * eapply Hbu; eassumption.
  - apply marcar_examen_revision_fallo in H as ->. exact Hint.
Qed.

Lemma usuarios_reescritos_integra db i u u' :
  integra db ->
  usuarios db !! i = Some u ->
  Usuario.id u' = Usuario.id u ->
  integra (with_usuarios db (<[i:=u']> (usuarios db))).
Proof.
  intros [Huc Hpc Hpr Hps Hbc Hbs Htc Hts Htu Htb Hbp Hbu Hrc Hru Hrb Hec Heu Heb] Hi Hid.
  match goal with |- integra ?d => set (db' := d) end.
  assert (map Usuario.id (usuarios db') = map Usuario.id (usuarios db)) as E1
    by (apply (map_insert_igual Usuario.id _ _ u); [exact Hi|exact Hid]).
  constructor; rewrite ?E1; assumption.
Qed.

(** A route leaves the store as its handler left it, whatever the response
    model makes of the value returned. *)
Lemma responder_estado {A B} (validate : A -> option B) (devuelto : respuesta A * DB) r db' :
  responder validate devuelto = (r, db') ->
  exists r0, devuelto = (r0, db').
Proof.
  unfold responder. destruct devuelto as [[a|r0] db1].
  - destruct (validate a); intros [= <- <-]; eexists; reflexivity.
  - intros [= <- <-]. eexists. reflexivity.
Qed.

(** X25. The other writing routes keep the store consistent as well,
    whatever they answer, a [ResponseValidationError] after the commit
    included: [crear_paciente], [actualizar_paciente],
    [marcar_examen_revision], the two changes of password, and
    [crear_usuario_ingresador] when the storage gives the new user a key
    that no user has.  Consistency is that of [integra]: keys and RUTs
    without repetition, keys below their sequences, at most one TAC, one
    RX and one ECO row per exam, each referring to a stored exam, and
    every exam referring to a stored patient and to stored users. *)
Theorem integra_se_conserva_otras get_password_hash verify_password validate_email db :
  integra db ->
  (forall token rut nombre_completo fecha_nacimiento now r db',
      crear_paciente db token rut nombre_completo fecha_nacimiento now = (r, db') ->
      integra db')
  /\ (forall token paciente_id nombre_completo fecha_nacimiento now r db',
        actualizar_paciente db token paciente_id nombre_completo fecha_nacimiento now
        = (r, db') ->
        integra db')
  /\ (forall token examen_id en_revision motivo now r db',
        marcar_examen_revision db token examen_id en_revision motivo now = (r, db') ->
        integra db')
  /\ (forall token usuario_data nuevo_id now r db',
        nuevo_id ∉ map Usuario.id (usuarios db) ->
        crear_usuario_ingresador get_password_hash validate_email db token usuario_data
          nuevo_id now
        = (r, db') ->
        integra db')
  /\ (forall token nueva now r db',
        primer_cambio_password get_password_hash db token nueva now = (r, db') ->
        integra db')
  /\ (forall token actual nueva now r db',
        cambiar_mi_password get_password_hash verify_password db token actual nueva now
        = (r, db') ->
        integra db').
Proof.
  intros Hint. split; [|split; [|split; [|split; [|split]]]].
  - intros token rut nombre fecha now r db' H.
    apply responder_estado in H as [r0 H]. eapply crear_paciente_integra; eassumption.
  - intros token paciente_id nombre fecha now r db' H.
    apply responder_estado in H as [r0 H]. eapply actualizar_paciente_integra; eassumption.
  - intros *. apply marcar_examen_revision_integra, Hint.
  - intros token datos nuevo_id now r' db' Hfresh H.
    apply responder_estado in H as [r H]. destruct r as [u|r].
    + destruct (crear_usuario_ingresador_casos _ _ _ _ _ _ _ _ H) as [-> ->].
      destruct Hint as [Huc Hpc Hpr Hps Hbc Hbs Htc Hts Htu Htb Hbp Hbu Hrc Hru Hrb Hec Heu Heb].
      constructor; cbn; try assumption.
      * apply NoDup_map_snoc; [assumption|exact Hfresh].
      * intros b k Hb Hk. apply elem_of_map_snoc. left. eapply Hbu; eassumption.
    + apply crear_usuario_ingresador_fallo in H as [-> _]. exact Hint.
  - intros token nueva now r db'. unfold primer_cambio_password.
    destruct (get_current_user db token) as [u|e] eqn:Hu; [|intros [= <- <-]; exact Hint].
    destruct (negb _); [intros [= <- <-]; exact Hint|].
    destruct (guardar_usuario _ _ _ _) as [db1|e] eqn:Hg; intros [= <- <-]; [|exact Hint].
    destruct (guardar_usuario_exito _ _ _ _ _ _ _ Hu Hg)
      as (i & u' & Hi & _ & -> & (Hid & _) & _).
    eapply usuarios_reescritos_integra; eassumption.
  - intros token actual nueva now r db'. unfold cambiar_mi_password.
    destruct (get_current_user db token) as [u|e] eqn:Hu; [|intros [= <- <-]; exact Hint].
    destruct (negb _); [intros [= <- <-]; exact Hint|].
    destruct (bool_decide _); [intros [= <- <-]; exact Hint|].
    destruct (guardar_usuario _ _ _ _) as [db1|e] eqn:Hg; intros [= <- <-]; [|exact Hint].
    destruct (guardar_usuario_exito _ _ _ _ _ _ _ Hu Hg)
      as (i & u' & Hi & _ & -> & (Hid & _) & _).
    eapply usuarios_reescritos_integra; eassumption.
Qed.

Lemma integra_se_conserva_otras_witness :
  (exists p db',
      crear_paciente Ejemplo.db2 (Some 2) "11.111.111-1" "Luis Soto" None 400 = (Exito p, db')
      /\ integra db'
      /\ length (pacientes db') = 2%nat)
  /\ (exists db',
        crear_paciente Ejemplo.db2 (Some 2) "1.234.567-4" "Luis Soto" None 400
        = (Rechazo ResponseValidationError, db')
        /\ integra db'
        /\ length (pacientes db') = 2%nat).
Proof.
  destruct (integra_se_conserva_otras (fun p => p) (fun _ _ => true) Some Ejemplo.db2
              integra_ejemplo) as (H & _).
  split.
  - destruct (crear_paciente Ejemplo.db2 (Some 2) "11.111.111-1" "Luis Soto" None 400)
      as [[p|r] db'] eqn:Hc; [|vm_compute in Hc; discriminate].
    exists p, db'. split; [reflexivity|].
    split; [apply (H _ _ _ _ _ _ _ Hc)|].
    vm_compute in Hc. injection Hc as <- <-. reflexivity.
  - destruct (crear_paciente Ejemplo.db2 (Some 2) "1.234.567-4" "Luis Soto" None 400)
      as [r db'] eqn:Hc.
    assert (r = Rechazo ResponseValidationError) as ->
      by (vm_compute in Hc; injection Hc as <- _; reflexivity).
    exists db'. split; [reflexivity|].
    split; [apply (H _ _ _ _ _ _ _ Hc)|].
    vm_compute in Hc. injection Hc as <-. reflexivity.
Defined.

(** ** The profile of the caller *)

Lemma guardar_usuario_forma db token u nuevo now db' :
  get_current_user db token = Ok u ->
  Usuario.id nuevo = Usuario.id u ->
  Usuario.activo nuevo = Usuario.activo u ->
  guardar_usuario db u nuevo now = Ok db' ->
  exists i,
    usuarios db !! i = Some u /\ token = Some (Usuario.id u)
    /\ db' = with_usuarios db (<[i:=onupdate_usuario u nuevo now]> (usuarios db))
    /\ get_current_user db' token = Ok (onupdate_usuario u nuevo now).
Proof.
  intros Hu Hid Hact. unfold guardar_usuario.
  destruct (negb (adapta_usuario_cambio _ _)); [discriminate|].
  destruct (negb _); [discriminate|].
  destruct (get_current_user_find _ _ _ Hu) as [k Hk]. rewrite Hk. intros [= <-].
  pose proof (get_current_user_token _ _ _ Hu) as ->.
  destruct (onupdate_usuario_campos u nuevo now) as (H1 & _ & _ & _ & _ & _ & _ & H8 & _).
  cbn zeta in H1, H8.
  exists k. pose proof Hk as Hk'. apply list_find_Some in Hk' as (Hi & _ & _).
  split; [exact Hi|]. split; [reflexivity|]. split; [reflexivity|].
  assert (Usuario.activo u = true) as Hac.
  { unfold get_current_user in Hu. rewrite Hk in Hu.
    destruct (Usuario.activo u); [reflexivity|discriminate]. }
  unfold get_current_user. cbn [usuarios with_usuarios].
  rewrite (list_find_insert_mismo _ _ _ u _ Hk) by congruence.
  rewrite H8, Hact, Hac. reflexivity.
Qed.

Lemma NoDup_map_insert {A B} (f : A -> B) (l : list A) i y :
  NoDup (map f l) ->
  (forall j v, j <> i -> l !! j = Some v -> f v <> f y) ->
  NoDup (map f (<[i:=y]> l)).
Proof.
  intros Hnd Hy. change (NoDup (f <$> <[i:=y]> l)). change (NoDup (f <$> l)) in Hnd.
  rewrite NoDup_alt in Hnd |- *. intros a b x Ha Hb.
  rewrite list_lookup_fmap in Ha, Hb.
  destruct (decide (a = i)) as [->|Hai], (decide (b = i)) as [->|Hbi]; [reflexivity| | |].
  - rewrite list_lookup_insert_ne in Hb by congruence.
    destruct (l !! b) as [v|] eqn:Hv; [|discriminate]. cbn in Hb.
    destruct (decide (i < length l)%nat) as [Hlt|Hge].
    + rewrite list_lookup_insert_eq in Ha by exact Hlt. cbn in Ha.
      exfalso. apply (Hy b v Hbi Hv). congruence.
    + rewrite list_insert_ge in Ha by lia.
      rewrite lookup_ge_None_2 in Ha by lia. discriminate.
  - rewrite list_lookup_insert_ne in Ha by congruence.
    destruct (l !! a) as [v|] eqn:Hv; [|discriminate]. cbn in Ha.
    destruct (decide (i < length l)%nat) as [Hlt|Hge].
    + rewrite list_lookup_insert_eq in Hb by exact Hlt. cbn in Hb.
      exfalso. apply (Hy a v Hai Hv). congruence.
    + rewrite list_insert_ge in Hb by lia.
      rewrite lookup_ge_None_2 in Hb by lia. discriminate.
  - rewrite list_lookup_insert_ne in Ha, Hb by congruence.
    apply (Hnd a b x); rewrite list_lookup_fmap; assumption.
Qed.

Lemma actualizar_mi_perfil_exito db token datos now u' db' :
  actualizar_mi_perfil_cuerpo db token datos now = (Exito u', db') ->
  exists i u,
    usuarios db !! i = Some u /\ token = Some (Usuario.id u)
    /\ db' = with_usuarios db (<[i:=u']> (usuarios db))
    /\ Usuario.id u' = Usuario.id u /\ Usuario.rut u' = Usuario.rut u
    /\ Usuario.password_hash u' = Usuario.password_hash u
    /\ Usuario.rol u' = Usuario.rol u /\ Usuario.activo u' = Usuario.activo u
    /\ Usuario.debe_cambiar_password u' = Usuario.debe_cambiar_password u
    /\ Usuario.created_at u' = Usuario.created_at u
    /\ Usuario.nombre u'
       = (if PyStr.truthy (UsuarioUpdate.nombre datos)
          then default (Usuario.nombre u) (UsuarioUpdate.nombre datos)
          else Usuario.nombre u)
    /\ Usuario.email u'
       = (if PyStr.truthy (UsuarioUpdate.email datos)
          then default (Usuario.email u) (UsuarioUpdate.email datos)
          else Usuario.email u)
    /\ Usuario.celular u'
       = match UsuarioUpdate.celular datos with
         | Some celular => Some celular
         | None => Usuario.celular u
         end
    /\ get_current_user db' token = Ok u'
    /\ (NoDup (map Usuario.id (usuarios db)) ->
        NoDup (map Usuario.email (usuarios db)) ->
        NoDup (map Usuario.email (usuarios db'))).
Proof.
  unfold actualizar_mi_perfil_cuerpo.
  destruct (get_current_user db token) as [u|e] eqn:Hu; [|discriminate].
  cbn zeta.
  set (nuevo := Usuario.mk _ _ _ _ _ _ _ _ _ _ _).
  destruct (guardar_usuario db u nuevo now) as [db1|e] eqn:Hg.
  2:{ destruct (_ && _); [destruct (negb _); [|destruct (list_find _ _)]|]; discriminate. }
  destruct (guardar_usuario_forma db token u nuevo now db1 Hu eq_refl eq_refl Hg)
    as (i & Hi & Htok & -> & Hu').
  destruct (onupdate_usuario_campos u nuevo now)
    as (H1 & H2 & H3 & H4 & H5 & H6 & H7 & H8 & H9 & H10).
  cbn zeta in H1, H2, H3, H4, H5, H6, H7, H8, H9, H10.
  assert (forall j v, j <> i -> usuarios db !! j = Some v ->
            NoDup (map Usuario.id (usuarios db)) ->
            Usuario.id v <> Usuario.id u) as Hotro.
  { intros j v Hji Hv Hnd Heq. apply Hji.
    change (NoDup (Usuario.id <$> usuarios db)) in Hnd. rewrite NoDup_alt in Hnd.
    apply (Hnd j i (Usuario.id u)); rewrite list_lookup_fmap.
    - rewrite Hv. cbn. congruence.
    - rewrite Hi. reflexivity. }
  assert (forall u1 db1,
            (Exito (onupdate_usuario u nuevo now),
             with_usuarios db (<[i:=onupdate_usuario u nuevo now]> (usuarios db)))
            = (Exito u1, db1) ->
            (PyStr.truthy (UsuarioUpdate.email datos) = true ->
             UsuarioUpdate.email datos <> Some (Usuario.email u) ->
             list_find (fun v => Some (Usuario.email v) = UsuarioUpdate.email datos
                                 /\ Usuario.id v <> Usuario.id u) (usuarios db) = None) ->
            exists i0 u0,
              usuarios db !! i0 = Some u0 /\ token = Some (Usuario.id u0)
              /\ db1 = with_usuarios db (<[i0:=u1]> (usuarios db))
              /\ Usuario.id u1 = Usuario.id u0 /\ Usuario.rut u1 = Usuario.rut u0
              /\ Usuario.password_hash u1 = Usuario.password_hash u0
              /\ Usuario.rol u1 = Usuario.rol u0 /\ Usuario.activo u1 = Usuario.activo u0
              /\ Usuario.debe_cambiar_password u1 = Usuario.debe_cambiar_password u0
              /\ Usuario.created_at u1 = Usuario.created_at u0
              /\ Usuario.nombre u1
                 = (if PyStr.truthy (UsuarioUpdate.nombre datos)
                    then default (Usuario.nombre u0) (UsuarioUpdate.nombre datos)
                    else Usuario.nombre u0)
              /\ Usuario.email u1
                 = (if PyStr.truthy (UsuarioUpdate.email datos)
                    then default (Usuario.email u0) (UsuarioUpdate.email datos)
                    else Usuario.email u0)
              /\ Usuario.celular u1
                 = match UsuarioUpdate.celular datos with
                   | Some celular => Some celular
                   | None => Usuario.celular u0
                   end
              /\ get_current_user db1 token = Ok u1
              /\ (NoDup (map Usuario.id (usuarios db)) ->
                  NoDup (map Usuario.email (usuarios db)) ->
                  NoDup (map Usuario.email (usuarios db1)))) as Hfin.
  { intros u1 db1 [= <- <-] Hlibre. exists i, u.
    rewrite H1, H2, H3, H4, H5, H6, H7, H8, H9, H10. subst nuevo. cbn.
    repeat (split; [assumption || reflexivity|]).
    intros Hids Hemails. apply NoDup_map_insert; [exact Hemails|].
    intros j v Hji Hv. rewrite H4. cbn.
    assert (Usuario.email v <> Usuario.email u) as Hvu.
    { intros Heq. apply Hji. change (NoDup (Usuario.email <$> usuarios db)) in Hemails.
      rewrite NoDup_alt in Hemails.
      apply (Hemails j i (Usuario.email u)); rewrite list_lookup_fmap.
      - rewrite Hv. cbn. congruence.
      - rewrite Hi. reflexivity. }
    destruct (PyStr.truthy (UsuarioUpdate.email datos)) eqn:Ht; [|exact Hvu].
    destruct (UsuarioUpdate.email datos) as [e|] eqn:He; [|discriminate].
    cbn [default from_option id].
    destruct (decide (e = Usuario.email u)) as [->|Hne]; [exact Hvu|].
    intros Heq.
    assert (Some e <> Some (Usuario.email u)) as Hdist by congruence.
    pose proof (Hlibre eq_refl Hdist) as Hn.
    apply (list_find_ninguno _ _ Hn v (list_elem_of_lookup_2 _ _ _ Hv)).
    split; [congruence|]. apply (Hotro j v Hji Hv Hids). }
  destruct (PyStr.truthy (UsuarioUpdate.email datos)) eqn:Ht; cbn [andb].
  + destruct (bool_decide _) eqn:Hb; cbn [negb].
    * intros H. apply (Hfin _ _ H). intros _ Hne.
      apply bool_decide_eq_true in Hb. contradiction.
    * destruct (negb (sin_nul _)); [discriminate|].
      destruct (list_find _ _) eqn:Hf; [discriminate|].
      intros H. apply (Hfin _ _ H). intros _ _. reflexivity.
  + intros H. apply (Hfin _ _ H). intros [=].
Qed.

Lemma actualizar_mi_perfil_fallo db token datos now r db' :
  actualizar_mi_perfil_cuerpo db token datos now = (Rechazo r, db') ->
  db' = db /\ r <> ResponseValidationError.
Proof.
  unfold actualizar_mi_perfil_cuerpo.
  destruct (get_current_user db token) as [u|e]; [|intros [= <- <-]; split; easy].
  cbn zeta. destruct (guardar_usuario _ _ _ _) as [db1|e];
    (destruct (_ && _); [destruct (negb _); [|destruct (list_find _ _)]|]);
    intros [= <- <-]; split; easy.
Qed.

(** X26. [actualizar_mi_perfil] writes nothing when the handler refuses
    the request, and otherwise only the row of the caller; the answer and
    the store do not depend on the [password] and [activo] fields of the
    request, which the handler ignores: key, RUT, password hash, role,
    active flag, change flag and creation time stay as they were.  An
    empty or absent name or e-mail leaves the column as it is, while any
    [celular] that is given, the empty one too, is written.  The route
    answers with the validation of the written row against
    [UsuarioResponse]: the profile, or a [ResponseValidationError] with
    the row staying written.  The caller stays authenticated, and on a
    store whose user keys and e-mails are unique the e-mails stay unique.
    A new e-mail holding a NUL character cannot be sent as a parameter of
    the lookup: the call raises [ValueError] and writes nothing. *)
Theorem actualizar_mi_perfil_campos validate_email db token datos now :
  (forall password activo,
      actualizar_mi_perfil validate_email db token
        (UsuarioUpdate.mk (UsuarioUpdate.nombre datos) (UsuarioUpdate.email datos)
           (UsuarioUpdate.celular datos) password activo) now
      = actualizar_mi_perfil validate_email db token datos now)
  /\ (forall r db',
        actualizar_mi_perfil validate_email db token datos now = (Rechazo r, db') ->
        r <> ResponseValidationError ->
        db' = db)
  /\ (forall respuesta db',
        actualizar_mi_perfil validate_email db token datos now = (respuesta, db') ->
        (forall r, respuesta = Rechazo r -> r = ResponseValidationError) ->
        exists i u u',
          usuarios db !! i = Some u /\ token = Some (Usuario.id u)
          /\ db' = with_usuarios db (<[i:=u']> (usuarios db))
          /\ respuesta
             = match UsuarioResponse.validate validate_email u' with
               | Some resp => Exito resp
               | None => Rechazo ResponseValidationError
               end
          /\ Usuario.id u' = Usuario.id u /\ Usuario.rut u' = Usuario.rut u
          /\ Usuario.password_hash u' = Usuario.password_hash u
          /\ Usuario.rol u' = Usuario.rol u /\ Usuario.activo u' = Usuario.activo u
          /\ Usuario.debe_cambiar_password u' = Usuario.debe_cambiar_password u
          /\ Usuario.created_at u' = Usuario.created_at u
          /\ Usuario.nombre u'
             = (if PyStr.truthy (UsuarioUpdate.nombre datos)
                then default (Usuario.nombre u) (UsuarioUpdate.nombre datos)
                else Usuario.nombre u)
          /\ Usuario.email u'
             = (if PyStr.truthy (UsuarioUpdate.email datos)
                then default (Usuario.email u) (UsuarioUpdate.email datos)
                else Usuario.email u)
          /\ Usuario.celular u'
             = match UsuarioUpdate.celular datos with
               | Some celular => Some celular
               | None => Usuario.celular u
               end
          /\ get_current_user db' token = Ok u'
          /\ (NoDup (map Usuario.id (usuarios db)) ->
              NoDup (map Usuario.email (usuarios db)) ->
              NoDup (map Usuario.email (usuarios db'))))
  /\ (forall u email,
        get_current_user db token = Ok u ->
        UsuarioUpdate.email datos = Some email ->
        email <> Usuario.email u ->
        sin_nul (Some email) = false ->
        actualizar_mi_perfil validate_email db token datos now
        = (Rechazo (Excepcion ValueError), db)).
Proof.
  split; [intros password activo; reflexivity|]. unfold actualizar_mi_perfil.
  split; [|split].
  - intros r db' H Hr. apply responder_rechazo in H as [H|[-> _]]; [|contradiction].
    apply actualizar_mi_perfil_fallo in H as [-> _]. reflexivity.
  - intros ans db' H Hans.
    destruct (actualizar_mi_perfil_cuerpo db token datos now) as [[u'|r] db1] eqn:Hc.
    2:{ cbn in H. injection H as <- <-.
        apply actualizar_mi_perfil_fallo in Hc as [_ Hr].
        exfalso. apply Hr, Hans. reflexivity. }
    rewrite responder_valor in H. injection H as <- <-.
    destruct (actualizar_mi_perfil_exito _ _ _ _ _ _ Hc) as (i & u & Hi & Htok & Hdb & Hresto).
    exists i, u, u'. split; [exact Hi|]. split; [exact Htok|]. split; [exact Hdb|].
    split; [reflexivity|exact Hresto].
  - intros u email Hu He Hne Hnul. unfold actualizar_mi_perfil_cuerpo. rewrite Hu, He.
    cbn zeta.
    assert (PyStr.truthy (Some email) = true) as ->.
    { destruct email as [|c email]; [discriminate|reflexivity]. }
    rewrite bool_decide_eq_false_2 by congruence. cbn [andb negb].
    rewrite Hnul. reflexivity.
Qed.

Lemma actualizar_mi_perfil_campos_witness :
  let datos :=
    UsuarioUpdate.mk (Some "Ingresadora"%string) None (Some ""%string)
      (Some "otra-clave"%string) (Some false) in
  exists resp db',
    actualizar_mi_perfil Some Ejemplo.db (Some 2) datos 900 = (Exito resp, db')
    /\ UsuarioResponse.activo resp = true
    /\ UsuarioResponse.celular resp = Some ""%string
    /\ exists u', get_current_user db' (Some 2) = Ok u'
                  /\ Usuario.password_hash u' = "secreto"%string.
Proof.
  intros datos.
  destruct (actualizar_mi_perfil Some Ejemplo.db (Some 2) datos 900) as [[resp|r] db'] eqn:Hc;
    [|vm_compute in Hc; discriminate].
  exists resp, db'. split; [reflexivity|].
  destruct (actualizar_mi_perfil_campos Some Ejemplo.db (Some 2) datos 900) as (_ & _ & H & _).
  destruct (H _ db' Hc ltac:(discriminate))
    as (i & u & u' & Hi & Htok & _ & Hresp & _ & _ & Hh & _ & Ha & _ & _ & _ & _ & Hcel & Hg
        & _).
  assert (u = Ejemplo.ingresador) as ->.
  { injection Htok as Hid. destruct i as [|[|i]]; cbn in Hi; [| |discriminate];
      injection Hi as <-; [vm_compute in Hid; discriminate|reflexivity]. }
  unfold UsuarioResponse.validate in Hresp.
  destruct (_ && _)%bool in Hresp; [|discriminate]. injection Hresp as ->. cbn.
  split; [exact Ha|]. split; [exact Hcel|].
  exists u'. split; [exact Hg|exact Hh].
Defined.

(** ** The two logins *)

Lemma list_find_unico {A B} `{EqDecision B} (f : A -> B) (l : list A) i x :
  NoDup (map f l) -> l !! i = Some x ->
  list_find (fun y => f y = f x) l = Some (i, x).
Proof.
  intros Hnd Hi. apply list_find_Some. split; [exact Hi|]. split; [reflexivity|].
  intros j y Hj Hlt Heq. change (NoDup (f <$> l)) in Hnd. rewrite NoDup_alt in Hnd.
  assert (j = i); [|lia].
  apply (Hnd j i (f x)); rewrite list_lookup_fmap.
  - rewrite Hj. cbn. congruence.
  - rewrite Hi. reflexivity.
Qed.

(** X27. [login] and [login_for_access_token] read the store and answer
    alike.  An e-mail holding a NUL character cannot be sent as a
    parameter of the lookup, and both raise [ValueError].  For any other
    e-mail both succeed exactly when the first user with the e-mail
    exists, the password verifies against the stored hash and the user is
    active, and then carry the same token, made from the key and the role
    of that user; an unknown e-mail and a wrong password get the same 401,
    also for an inactive user, who is told so (403) only with the right
    password.  On a store with unique e-mails, a user an administrator has
    switched off can no longer log in. *)
Theorem login_respuesta verify_password create_access_token db email password :
  (sin_nul (Some email) = false ->
   login verify_password create_access_token db email password
   = Rechazo (Excepcion ValueError)
   /\ login_for_access_token verify_password create_access_token db email password
      = Rechazo (Excepcion ValueError))
  /\ (sin_nul (Some email) = true ->
      list_find (fun u => Usuario.email u = email) (usuarios db) = None ->
      login verify_password create_access_token db email password
      = Rechazo (Http HTTP_401_UNAUTHORIZED EmailOContrasenaIncorrectos)
      /\ login_for_access_token verify_password create_access_token db email password
         = Rechazo (Http HTTP_401_UNAUTHORIZED EmailOContrasenaIncorrectos))
  /\ (forall i u,
        sin_nul (Some email) = true ->
        list_find (fun u => Usuario.email u = email) (usuarios db) = Some (i, u) ->
        (verify_password password (Usuario.password_hash u) = false ->
         login verify_password create_access_token db email password
         = Rechazo (Http HTTP_401_UNAUTHORIZED EmailOContrasenaIncorrectos)
         /\ login_for_access_token verify_password create_access_token db email password
            = Rechazo (Http HTTP_401_UNAUTHORIZED EmailOContrasenaIncorrectos))
        /\ (verify_password password (Usuario.password_hash u) = true ->
            Usuario.activo u = false ->
            login verify_password create_access_token db email password
            = Rechazo (Excepcion (HTTPException HTTP_403_FORBIDDEN UsuarioInactivo))
            /\ login_for_access_token verify_password create_access_token db email password
               = Rechazo (Http HTTP_403_FORBIDDEN UsuarioInactivoSinContacto))
        /\ (verify_password password (Usuario.password_hash u) = true ->
            Usuario.activo u = true ->
            login verify_password create_access_token db email password
            = Exito (LoginResponse.mk
                       (create_access_token (Usuario.id u) (Usuario.rol u)) "bearer"
                       (UsuarioLogin.mk (Usuario.id u) (Usuario.nombre u) email
                          (Usuario.rol u) (Usuario.debe_cambiar_password u)))
            /\ login_for_access_token verify_password create_access_token db email password
               = Exito (Token.mk (create_access_token (Usuario.id u) (Usuario.rol u))
                          "bearer")))
  /\ ((exists r, login verify_password create_access_token db email password = Exito r)
      <-> exists t,
            login_for_access_token verify_password create_access_token db email password
            = Exito t)
  /\ (forall token usuario_id now u' db',
        NoDup (map Usuario.email (usuarios db)) ->
        toggle_usuario db token usuario_id now = (Ok u', db') ->
        Usuario.email u' = email ->
        Usuario.activo u' = false ->
        (forall r, login verify_password create_access_token db' email password <> Exito r)
        /\ (forall t,
              login_for_access_token verify_password create_access_token db' email password
              <> Exito t)
        /\ (sin_nul (Some email) = true ->
            verify_password password (Usuario.password_hash u') = true ->
            login verify_password create_access_token db' email password
            = Rechazo (Excepcion (HTTPException HTTP_403_FORBIDDEN UsuarioInactivo)))).
Proof.
  split; [|split; [|split; [|split]]].
  - intros Hnul. unfold login, login_for_access_token. rewrite Hnul. split; reflexivity.
  - intros Hnul Hf. unfold login, login_for_access_token. rewrite Hnul, Hf.
    split; reflexivity.
  - intros i u Hnul Hf. pose proof Hf as Hf'. apply list_find_Some in Hf' as (_ & Hem & _).
    unfold login, login_for_access_token. rewrite Hnul, Hf. cbn [negb]. split; [|split].
    + intros ->. split; reflexivity.
    + intros -> ->. split; reflexivity.
    + intros -> ->. rewrite Hem. split; reflexivity.
  - unfold login, login_for_access_token.
    destruct (negb (sin_nul _)); [split; intros [? [=]]|].
    destruct (list_find _ _) as [[i u]|]; [|split; intros [? [=]]].
    destruct (negb (verify_password _ _)); [split; intros [? [=]]|].
    destruct (negb (Usuario.activo u)); [split; intros [? [=]]|].
    split; intros _; eexists; reflexivity.
  - intros token usuario_id now u' db' Hnd Ht Hem Hact.
    apply toggle_usuario_exito in Ht as (admin & i & u & _ & Hf & _ & Hu' & ->).
    apply list_find_Some in Hf as (Hi & _ & _).
    assert (Usuario.email u' = Usuario.email u) as Hmail by (rewrite Hu'; reflexivity).
    assert (list_find (fun v => Usuario.email v = email) (<[i:=u']> (usuarios db))
            = Some (i, u')) as Hf'.
    { rewrite <- Hem.
      apply (list_find_unico Usuario.email).
      - rewrite (map_insert_igual Usuario.email _ _ u u' Hi Hmail). exact Hnd.
      - apply list_lookup_insert_eq. eapply lookup_lt_Some, Hi. }
    unfold login, login_for_access_token. cbn [usuarios with_usuarios]. rewrite Hf', Hact.
    split; [|split].
    + intros r. destruct (negb (sin_nul _)); [discriminate|].
      destruct (negb (verify_password _ _)); discriminate.
    + intros t. destruct (negb (sin_nul _)); [discriminate|].
      destruct (negb (verify_password _ _)); discriminate.
    + intros -> ->. reflexivity.
Qed.

Lemma login_respuesta_witness :
  exists u' db',
    toggle_usuario Ejemplo.db (Some 1) 2 900 = (Ok u', db')
    /\ (exists r,
          login (fun p h => bool_decide (p = h)) (fun _ rol => rol) Ejemplo.db
            "ingreso@hospital.cl" "secreto" = Exito r)
    /\ login (fun p h => bool_decide (p = h)) (fun _ rol => rol) db'
         "ingreso@hospital.cl" "secreto"
       = Rechazo (Excepcion (HTTPException HTTP_403_FORBIDDEN UsuarioInactivo)).
Proof.
  destruct (toggle_usuario Ejemplo.db (Some 1) 2 900) as [[u'|e] db'] eqn:Hc;
    [|vm_compute in Hc; discriminate].
  exists u', db'. split; [reflexivity|]. split; [eexists; reflexivity|].
  destruct (login_respuesta (fun p h => bool_decide (p = h)) (fun _ rol => rol) Ejemplo.db
              "ingreso@hospital.cl" "secreto") as (_ & _ & _ & _ & H).
  assert (NoDup (map Usuario.email (usuarios Ejemplo.db))) as Hnd
    by (apply sin_repetidos; reflexivity).
  assert (u' = Usuario.mk 2 "222222222" "Ingresador" "ingreso@hospital.cl" None "secreto"
                 "ingresador" false false 20 900) as Hu'
    by (vm_compute in Hc; injection Hc as <- _; reflexivity).
  destruct (H (Some 1) 2 900 u' db' Hnd Hc) as (_ & _ & He);
    [rewrite Hu'; reflexivity|rewrite Hu'; reflexivity|].
  apply He; [reflexivity|]. rewrite Hu'. reflexivity.
Defined.

(** ** The monthly report after a write *)

Lemma length_filter_insert {A} (P : A -> Prop) `{forall x, Decision (P x)} (l : list A)
    i x y :
  l !! i = Some x ->
  (length (filter P (<[i:=y]> l)) + (if decide (P x) then 1 else 0)
   = length (filter P l) + (if decide (P y) then 1 else 0))%nat.
Proof.
  revert i. induction l as [|a l IH]; intros i Hi; [discriminate|].
  destruct i as [|i]; cbn in Hi.
  - injection Hi as ->. change (<[0%nat:=y]> (x :: l)) with (y :: l).
    rewrite !filter_cons. destruct (decide (P x)), (decide (P y)); cbn [length]; lia.
  - change (<[S i:=y]> (a :: l)) with (a :: <[i:=y]> l).
    rewrite !filter_cons. specialize (IH i Hi).
    destruct (decide (P a)); cbn [length]; lia.
Qed.

Lemma cuenta_mes_snoc db db' anio tipo_examen mes b :
  examenes_base db' = examenes_base db ++ [b] ->
  cuenta_mes db' anio tipo_examen mes
  = cuenta_mes db anio tipo_examen mes
    + (if decide ((ExamenBase.anio_realizacion b = anio /\ ExamenBase.deleted_at b = None)
                  /\ (PyStr.truthy tipo_examen = true ->
                      Some (ExamenBase.tipo_examen b) = tipo_examen)
                  /\ ExamenBase.mes_realizacion b = mes)
       then 1 else 0).
Proof.
  intros Hb. unfold cuenta_mes. rewrite Hb, filter_app, length_app, filter_cons.
  destruct (decide _); cbn [length filter list_filter]; lia.
Qed.

Lemma cuenta_mes_insert db db' anio tipo_examen mes i b b' :
  examenes_base db !! i = Some b ->
  examenes_base db' = <[i:=b']> (examenes_base db) ->
  ExamenBase.deleted_at b' <> None ->
  cuenta_mes db' anio tipo_examen mes
  = cuenta_mes db anio tipo_examen mes
    - (if decide ((ExamenBase.anio_realizacion b = anio /\ ExamenBase.deleted_at b = None)
                  /\ (PyStr.truthy tipo_examen = true ->
                      Some (ExamenBase.tipo_examen b) = tipo_examen)
                  /\ ExamenBase.mes_realizacion b = mes)
       then 1 else 0).
Proof.
  intros Hi Hb Hdel. unfold cuenta_mes. rewrite Hb.
  pose proof (length_filter_insert
                (fun b =>
                   (ExamenBase.anio_realizacion b = anio /\ ExamenBase.deleted_at b = None)
                   /\ (PyStr.truthy tipo_examen = true ->
                       Some (ExamenBase.tipo_examen b) = tipo_examen)
                   /\ ExamenBase.mes_realizacion b = mes)
                (examenes_base db) i b b' Hi) as H.
  cbn beta in H. rewrite (decide_False (P := _ /\ _ /\ ExamenBase.mes_realizacion b' = mes)) in H
    by tauto.
  destruct (decide _); lia.
Qed.

Lemma por_periodo_mes db token anio tipo_examen current_user mes :
  get_current_user db token = Ok current_user ->
  1 <= mes <= 12 ->
  exists r,
    examenes_por_periodo db token anio tipo_examen = Ok r
    /\ PorPeriodo.data r !! Z.to_nat (mes - 1) = Some (cuenta_mes db anio tipo_examen mes).
Proof.
  intros Hu Hmes.
  destruct (examenes_por_periodo_datos db token anio tipo_examen current_user Hu)
    as (r & Hr & Hdata).
  exists r. split; [exact Hr|]. rewrite Hdata.
  change (map (cuenta_mes db anio tipo_examen) (seqZ 1 12))
    with (cuenta_mes db anio tipo_examen <$> seqZ 1 12).
  rewrite list_lookup_fmap, lookup_seqZ_lt by lia. cbn [fmap option_fmap option_map].
  do 2 f_equal. lia.
Qed.

(** X28. The monthly report follows the writes.  For a caller the report
    accepts, any year [anio], optional type [tipo_examen] and month [mes]
    of 1..12: after a successful registration of a TAC exam the entry of
    the report for [mes] is the entry before plus 1 when [anio] and [mes]
    are the year and month of the exam's realization date and the type
    filter is absent, empty or "TAC", and is the entry before otherwise;
    after a successful soft delete of a TAC exam the entry is the entry
    before minus 1 when [anio] and [mes] are the stored year and month of
    the deleted exam and the type filter lets "TAC" through, and is the
    entry before otherwise. *)
Theorem informe_sigue_escrituras db lector anio tipo_examen mes current_user :
  get_current_user db lector = Ok current_user ->
  1 <= mes <= 12 ->
  exists antes n,
    examenes_por_periodo db lector anio tipo_examen = Ok antes
    /\ PorPeriodo.data antes !! Z.to_nat (mes - 1) = Some n
    /\ (forall token body now resp db',
          crear_examen_tac db token body now = (Ok resp, db') ->
          exists despues,
            examenes_por_periodo db' lector anio tipo_examen = Ok despues
            /\ PorPeriodo.data despues !! Z.to_nat (mes - 1)
               = Some (n + (if decide (year (ExamenTACResponse.fecha_realizacion resp) = anio
                                       /\ month (ExamenTACResponse.fecha_realizacion resp) = mes
                                       /\ (PyStr.truthy tipo_examen = true ->
                                           tipo_examen = Some "TAC"%string))
                            then 1 else 0)))
    /\ (forall token examen_id now db',
          eliminar_examen_tac db token examen_id now = (Ok tt, db') ->
          exists b despues,
            b ∈ examenes_base db /\ ExamenBase.id b = examen_id /\ no_eliminado_tac b
            /\ examenes_por_periodo db' lector anio tipo_examen = Ok despues
            /\ PorPeriodo.data despues !! Z.to_nat (mes - 1)
               = Some (n - (if decide (ExamenBase.anio_realizacion b = anio
                                       /\ ExamenBase.mes_realizacion b = mes
                                       /\ (PyStr.truthy tipo_examen = true ->
                                           tipo_examen = Some "TAC"%string))
                            then 1 else 0))).
Proof.
  intros Hu Hmes.
  destruct (por_periodo_mes db lector anio tipo_examen current_user mes Hu Hmes)
    as (antes & Hantes & Hn).
  exists antes, (cuenta_mes db anio tipo_examen mes).
  split; [exact Hantes|]. split; [exact Hn|]. split.
  - intros token body now resp db' Hc. unfold crear_examen_tac in Hc.
    destruct (require_ingresador_o_admin db token) as [autor|e]; [|discriminate].
    destruct (ExamenTACCreate.validate body) as [examen_data|e]; [|discriminate].
    destruct (crear_examen_tac_cuerpo_exito _ _ _ _ _ _ Hc)
      as (paciente & db1 & b & t & _ & Hresp & Hbase & _ & _ & _ & Hus & _ & _ & Htipo
          & _ & _ & _ & Hdel & _).
    destruct (crear_examen_tac_cuerpo_derivados _ _ _ _ _ _ Hc) as (b0 & Hlast & Hm & Ha).
    rewrite Hbase, last_snoc in Hlast. injection Hlast as <-.
    assert (Hu' : get_current_user db' lector = Ok current_user)
      by (rewrite (get_current_user_ext db' db) by exact Hus; exact Hu).
    destruct (por_periodo_mes db' lector anio tipo_examen current_user mes Hu' Hmes)
      as (despues & Hdespues & Hn').
    exists despues. split; [exact Hdespues|]. rewrite Hn'. f_equal.
    rewrite (cuenta_mes_snoc db db' anio tipo_examen mes b Hbase). f_equal.
    assert (Hf : ExamenTACResponse.fecha_realizacion resp = ExamenBase.fecha_realizacion b)
      by (rewrite Hresp; reflexivity).
    rewrite Hf, <- Hm, <- Ha, Htipo.
    destruct (decide _) as [Hd|Hd], (decide _) as [Hd'|Hd']; try reflexivity; exfalso.
    + apply Hd'. destruct Hd as ((? & _) & Ht & ?). repeat split; try assumption.
      intros Htr. symmetry. exact (Ht Htr).
    + apply Hd. destruct Hd' as (? & ? & Ht). repeat split; try assumption.
      intros Htr. symmetry. exact (Ht Htr).
  - intros token examen_id now db' He. unfold eliminar_examen_tac in He.
    destruct (require_admin db token) as [autor|e]; [|discriminate].
    destruct (list_find _ (examenes_base db)) as [[i b]|] eqn:Hfind; [|discriminate].
    apply list_find_Some in Hfind. destruct Hfind as (Hi & (Hid & Hne) & _).
    injection He as <-.
    set (b' := onupdate_examen_base b _ now).
    pose proof (onupdate_examen_base_campos b
                  (ExamenBase.mk (ExamenBase.id b) (ExamenBase.tipo_examen b)
                     (ExamenBase.fecha_realizacion b) (ExamenBase.atencion b)
                     (ExamenBase.prevision_id b) (ExamenBase.procedencia_id b)
                     (ExamenBase.paciente_id b) (ExamenBase.examen_especifico_id b)
                     (ExamenBase.codigo_mai_id b) (ExamenBase.contrato b)
                     (ExamenBase.mes_realizacion b) (ExamenBase.anio_realizacion b)
                     (ExamenBase.created_by b) (Some (Usuario.id autor))
                     (ExamenBase.created_at b) (ExamenBase.updated_at b) (Some now)
                     (ExamenBase.en_revision b) (ExamenBase.motivo_revision b)) now) as Hc.
    cbn zeta in Hc. fold b' in Hc.
    destruct Hc as (_ & _ & _ & _ & _ & _ & _ & _ & _ & _ & Hdel' & _).
    cbn [ExamenBase.deleted_at] in Hdel'.
    set (db' := with_examenes_base db _ _).
    assert (Hu' : get_current_user db' lector = Ok current_user) by exact Hu.
    destruct (por_periodo_mes db' lector anio tipo_examen current_user mes Hu' Hmes)
      as (despues & Hdespues & Hn').
    exists b, despues. split; [eapply list_elem_of_lookup_2; exact Hi|].
    split; [exact Hid|]. split; [exact Hne|]. split; [exact Hdespues|].
    rewrite Hn'. f_equal.
    rewrite (cuenta_mes_insert db db' anio tipo_examen mes i b b' Hi eq_refl)
      by (rewrite Hdel'; discriminate).
    f_equal. destruct Hne as [Htipo Hdel]. rewrite Htipo.
    destruct (decide _) as [Hd|Hd], (decide _) as [Hd'|Hd']; try reflexivity; exfalso.
    + apply Hd'. destruct Hd as ((? & _) & Ht & ?). repeat split; try assumption.
      intros Htr. symmetry. exact (Ht Htr).
    + apply Hd. destruct Hd' as (? & ? & Ht). repeat split; try assumption.
      intros Htr. symmetry. exact (Ht Htr).
Qed.

Lemma informe_sigue_escrituras_witness :
  exists antes n db' despues,
    examenes_por_periodo Ejemplo.db2 (Some 2) 2024 (Some "TAC"%string) = Ok antes
    /\ PorPeriodo.data antes !! 2%nat = Some n
    /\ eliminar_examen_tac Ejemplo.db2 (Some 1) 11 700 = (Ok tt, db')
    /\ examenes_por_periodo db' (Some 2) 2024 (Some "TAC"%string) = Ok despues
    /\ PorPeriodo.data despues !! 2%nat = Some (n - 1).
Proof.
  destruct (informe_sigue_escrituras Ejemplo.db2 (Some 2) 2024 (Some "TAC"%string) 3
              Ejemplo.ingresador eq_refl ltac:(lia)) as (antes & n & Ha & Hn & _ & He).
  destruct (eliminar_examen_tac Ejemplo.db2 (Some 1) 11 700) as [[[]|e] db'] eqn:Hc;
    [|vm_compute in Hc; discriminate].
  destruct (He _ _ _ _ Hc) as (b & despues & Hin & Hid & _ & Hd & Hdata).
  exists antes, n, db', despues.
  split; [exact Ha|]. split; [exact Hn|]. split; [reflexivity|]. split; [exact Hd|].
  change (Z.to_nat (3 - 1)) with 2%nat in Hdata. rewrite Hdata.
  apply elem_of_cons in Hin. destruct Hin as [->|Hin]; [discriminate Hid|].
  apply list_elem_of_singleton in Hin. subst b.
  rewrite decide_True; [reflexivity|].
  split; [reflexivity|]. split; [reflexivity|]. intros _. reflexivity.
Defined.
